(** * Clixon configuration transaction core: a shallow embedding

    The development follows four source files:
    - the XML object model used by all of them ([Xml]; clixon_xml.c itself
      is not among the sources, its operations are modelled from the
      specification, section 4.B);
    - [XmlIo]: the printers of lib/src/clixon_xml_io.c;
    - [Changelog]: the datastore upgrader of lib/src/clixon_xml_changelog.c;
    - [Backend]: the transaction engine of apps/backend/backend_commit.c.

    The rest of these files is embedded in modules of its own: [XmlIoExt]
    (the debugging dump, the parse entry points and the attribute copy of
    clixon_xml_io.c, and [clixon_debug_fn] of lib/src/clixon_debug.c, which
    calls the printer), [ChangelogExt] (the changelog loader and the
    namespace vector) and [BackendExt] (the rpc callbacks).

    The definitions come first, the theorems follow in modules of their own. *)

From Stdlib Require Import ZArith List String Ascii Bool Lia.
From stdpp Require Import gmap strings.
Import ListNotations.

Set Default Proof Using "Type*".
Local Open Scope Z_scope.

(** ** The XML object model (specification 3 and 4.B) *)

Module Xml.

(** [enum cxobj_type]. The printers have a [default:] arm, so the model keeps
    a fourth kind standing for every other value. *)
Inductive cxobj_type : Type := CX_ERROR | CX_ELMNT | CX_ATTR | CX_BODY.

Definition cxobj_type_eqb (a b : cxobj_type) : bool :=
  match a, b with
  | CX_ERROR, CX_ERROR | CX_ELMNT, CX_ELMNT
  | CX_ATTR, CX_ATTR | CX_BODY, CX_BODY => true
  | _, _ => false
  end.

(** Modelled from the spec: the schema node a data node links to. Only what
    the sources read through it is kept: the extension statements attached to
    the node (hide-show for the printers) and, on the schema root, the
    enabled features ([if_feature] in the commit engine). *)
Record yang_stmt : Type := mk_yang {
  ys_extensions : list (string * string);   (* (namespace, name) *)
  ys_features   : list (string * string)    (* (module, feature) *)
}.

(** One node without its children. [x_addr] is the address of the C object:
    a [cxobj *] held in a vector is modelled by it wherever the tree is
    restructured under the pointer (the changelog). *)
Record xml_head : Type := mk_head {
  x_addr   : nat;
  x_type   : cxobj_type;
  x_name   : string;
  x_prefix : option string;
  x_value  : option string;
  x_flags  : Z;
  x_spec   : option yang_stmt
}.

Unset Elimination Schemes.
Inductive cxobj : Type := XML (hd : xml_head) (x_childvec : list cxobj).
Set Elimination Schemes.

Definition xml_hd (x : cxobj) : xml_head := let 'XML hd _ := x in hd.
Definition xml_childvec (x : cxobj) : list cxobj := let 'XML _ cs := x in cs.

Definition xml_addr (x : cxobj) : nat := x_addr (xml_hd x).
Definition xml_type (x : cxobj) : cxobj_type := x_type (xml_hd x).
Definition xml_name (x : cxobj) : string := x_name (xml_hd x).
Definition xml_prefix (x : cxobj) : option string := x_prefix (xml_hd x).
Definition xml_value (x : cxobj) : option string := x_value (xml_hd x).
Definition xml_spec (x : cxobj) : option yang_stmt := x_spec (xml_hd x).

Definition xml_child_nr (x : cxobj) : Z := Z.of_nat (length (xml_childvec x)).
Definition xml_child_i (x : cxobj) (i : nat) : option cxobj := nth_error (xml_childvec x) i.

(** [xml_child_each (x, prev, type)] walks the children of one kind in order;
    the model hands out the whole walk. [None] stands for the C argument -1. *)
Definition xml_child_each (x : cxobj) (type : option cxobj_type) : list cxobj :=
  match type with
  | None => xml_childvec x
  | Some ty => List.filter (fun c => cxobj_type_eqb (xml_type c) ty) (xml_childvec x)
  end.

(** *** Flags: [x_flags] is a bit set, [flag_set / flag_reset / flag_test] are
    bitwise (4.B). *)

Definition set_flags (fl : Z) (hd : xml_head) : xml_head :=
  mk_head (x_addr hd) (x_type hd) (x_name hd) (x_prefix hd) (x_value hd) fl (x_spec hd).

Definition xml_flag (x : cxobj) (flag : Z) : Z := Z.land (x_flags (xml_hd x)) flag.

Definition head_flag_set (flag : Z) (hd : xml_head) : xml_head :=
  set_flags (Z.lor (x_flags hd) flag) hd.

Definition head_flag_reset (flag : Z) (hd : xml_head) : xml_head :=
  set_flags (Z.ldiff (x_flags hd) flag) hd.

Definition on_head (fn : xml_head -> xml_head) (x : cxobj) : cxobj :=
  let 'XML hd cs := x in XML (fn hd) cs.

Definition xml_flag_set (flag : Z) (x : cxobj) : cxobj := on_head (head_flag_set flag) x.
Definition xml_flag_reset (flag : Z) (x : cxobj) : cxobj := on_head (head_flag_reset flag) x.

(** Modelled from the spec: [apply(kind_filter, fn)], pre-order. [xml_apply]
    visits the children of kind [type] and recurses into them; the node it is
    called on is not visited. The functions applied here ([xml_flag_set],
    [xml_flag_reset]) touch the head of a node only and never stop the walk. *)
Fixpoint xml_apply (type : cxobj_type) (fn : xml_head -> xml_head) (xn : cxobj) : cxobj :=
  let 'XML hd cs := xn in
  XML hd (map (fun x => if cxobj_type_eqb (xml_type x) type
                        then on_head fn (xml_apply type fn x)
                        else x) cs).

(** [xml_apply0] is [xml_apply] with the node itself visited first. *)
Definition xml_apply0 (type : cxobj_type) (fn : xml_head -> xml_head) (xn : cxobj) : cxobj :=
  xml_apply type fn (on_head fn xn).

(** *** Positions. Where a tree is only re-flagged (a transaction), a node
    pointer is modelled by the position of the node: the child indexes on the
    way down from the root. *)

Definition xpos : Type := list nat.

Fixpoint xml_at (p : xpos) (x : cxobj) : option cxobj :=
  match p with
  | [] => Some x
  | i :: p' =>
      match nth_error (xml_childvec x) i with
      | Some c => xml_at p' c
      | None => None
      end
  end.

Fixpoint list_update {A : Type} (i : nat) (f : A -> A) (l : list A) : list A :=
  match l, i with
  | [], _ => []
  | a :: l', O => f a :: l'
  | a :: l', S i' => a :: list_update i' f l'
  end.

(** Run [f] on the node at position [p] (nothing happens off the tree). *)
Fixpoint xml_update_at (p : xpos) (f : cxobj -> cxobj) (x : cxobj) : cxobj :=
  match p with
  | [] => f x
  | i :: p' =>
      let 'XML hd cs := x in
      XML hd (list_update i (xml_update_at p' f) cs)
  end.

(** Modelled from the spec: [apply_ancestor(fn)], toward the root: [fn] runs
    on the parent of the node at [p], on its parent, and so on, never on the
    node itself. *)
Fixpoint xml_apply_ancestor (fn : xml_head -> xml_head) (p : xpos) (x : cxobj) : cxobj :=
  match p with
  | [] => x
  | i :: p' =>
      let 'XML hd cs := x in
      XML (fn hd) (list_update i (xml_apply_ancestor fn p') cs)
  end.

(** Element descendants: the positions [xml_apply] reaches from a node. *)
Fixpoint elmnt_path (q : xpos) (x : cxobj) : bool :=
  match q with
  | [] => true
  | i :: q' =>
      match nth_error (xml_childvec x) i with
      | Some c => cxobj_type_eqb (xml_type c) CX_ELMNT && elmnt_path q' c
      | None => false
      end
  end.

(** The positions of the element children of the root, in order. *)
Fixpoint elmnt_children_from (i : nat) (cs : list cxobj) : list xpos :=
  match cs with
  | [] => []
  | c :: cs' =>
      if cxobj_type_eqb (xml_type c) CX_ELMNT
      then [i] :: elmnt_children_from (S i) cs'
      else elmnt_children_from (S i) cs'
  end.

Definition elmnt_children (x : cxobj) : list xpos := elmnt_children_from 0 (xml_childvec x).

(** *** Lookup by name (clixon_xml.c, modelled from its use in the sources):
    [xml_find] is the first child called [name], [xml_body] the value of the
    first body child, [xml_find_body] their composition. *)

Definition xml_find (x : cxobj) (name : string) : option cxobj :=
  find (fun c => String.eqb (xml_name c) name) (xml_childvec x).

Definition xml_body (x : cxobj) : option string :=
  match find (fun c => cxobj_type_eqb (xml_type c) CX_BODY) (xml_childvec x) with
  | Some b => xml_value b
  | None => None
  end.

Definition xml_find_body (x : cxobj) (name : string) : option string :=
  match xml_find x name with
  | Some c => xml_body c
  | None => None
  end.

(** A plain element, attribute and body, for building trees. *)
Definition elmnt (a : nat) (name : string) (cs : list cxobj) : cxobj :=
  XML (mk_head a CX_ELMNT name None None 0 None) cs.
Definition body (a : nat) (v : string) : cxobj :=
  XML (mk_head a CX_BODY "body" None (Some v) 0 None) [].
Definition attr (a : nat) (name v : string) : cxobj :=
  XML (mk_head a CX_ATTR name None (Some v) 0 None) [].

End Xml.

(** ** The printers of lib/src/clixon_xml_io.c *)

Module XmlIo.
Import Xml.

(** A double quote, and the text printf writes for a NULL string. *)
Definition dquote : string := String "034"%char EmptyString.
Definition null_str : string := "(null)".
Definition newline : string := String "010"%char EmptyString.

(** printf of the empty string in a field of [w] characters: blanks; a
    negative width asks for the same field, left-justified. *)
Fixpoint blanks (n : nat) : string :=
  match n with
  | O => EmptyString
  | S n' => String " " (blanks n')
  end.

Definition pad (w : Z) : string := blanks (Z.abs_nat w).

Definition strlen (s : string) : Z := Z.of_nat (String.length s).

(** Modelled from the spec: a [yang_extension_value] that never fails, the
    lookup of an extension statement on a schema node (clixon_yang.c is not
    in src): its return value and whether the extension exists. *)
Definition yang_extension_found (y : yang_stmt) (name ns : string) : Z * bool :=
  (0, existsb (fun e => String.eqb (fst e) ns && String.eqb (snd e) name) (ys_extensions y)).

Section Printers.

(** Taken from headers that are not among the sources. *)
Variable PRETTYPRINT_INDENT : Z.
Variable CLIXON_AUTOCLI_NS : string.

(** [yang_extension_value (y, name, ns, &exist, NULL)] (clixon_yang.c, not
    among the sources): its return value and [exist]. *)
Variable yang_extension_value : yang_stmt -> string -> string -> Z * bool.

(** [xml_chardata_encode (&encstr, "%s", val)] and
    [xml_chardata_cbuf_append (cb, val)] (clixon_string.c, not among the
    sources): the encoding of one body value, for the stream and for the
    buffer; [None] is a return value below zero. What a failed
    [xml_chardata_cbuf_append] leaves in the buffer is not told by the
    sources: the buffer is kept as it was, and no theorem reads it. *)
Variable chardata_encode : string -> option string.
Variable chardata_cbuf_append : string -> option string.

Definition print_prefix (f : string) (x : xml_head) : string :=
  match x_prefix x with
  | Some ns => f +:+ ns +:+ ":"
  | None => f
  end.

Definition print_attr (f : string) (x : xml_head) : string :=
  let f := f +:+ " " in
  let f := print_prefix f x in
  f +:+ x_name x +:+ "=" +:+ dquote
    +:+ match x_value x with Some v => v | None => null_str end +:+ dquote.

(** The first loop over the children of an element: attributes are printed,
    bodies and elements only noted. [rec] is the printer itself. *)
Definition attrs_loop (rec : string -> cxobj -> Z * string) :
  list cxobj -> string -> bool -> bool -> Z * string * bool * bool :=
  fix go (l : list cxobj) (f : string) (hasbody haselement : bool) :=
    match l with
    | [] => (0, f, hasbody, haselement)
    | xc :: l' =>
        match xml_type xc with
        | CX_ATTR =>
            let '(r, f') := rec f xc in
            if r <? 0 then (-1, f', hasbody, haselement)
            else go l' f' hasbody haselement
        | CX_BODY => go l' f true haselement
        | CX_ELMNT => go l' f hasbody true
        | CX_ERROR => go l' f hasbody haselement
        end
    end.

(** The second loop: every child that is not an attribute is printed. *)
Definition children_loop (rec : string -> cxobj -> Z * string) :
  list cxobj -> string -> Z * string :=
  fix go (l : list cxobj) (f : string) :=
    match l with
    | [] => (0, f)
    | xc :: l' =>
        if cxobj_type_eqb (xml_type xc) CX_ATTR then go l' f
        else
          let '(r, f') := rec f xc in
          if r <? 0 then (-1, f') else go l' f'
    end.

(** The look-up at the head of [xml2file_recurse]: the return value of
    [yang_extension_value] and [exist], here [exist'], which is 0 when nothing is looked
    up. *)
Definition hide_show (autocliext : bool) (x : xml_head) : Z * bool :=
  if autocliext then
    match x_spec x with
    | Some y => yang_extension_value y "hide-show" CLIXON_AUTOCLI_NS
    | None => (0, false)
    end
  else (0, false).

(** What the look-up comes to for the printer: [None] when it fails,
    otherwise whether the node is hidden. *)
Definition hide_of (autocliext : bool) (x : xml_head) : option bool :=
  let '(r, exist') := hide_show autocliext x in
  if r <? 0 then None else Some exist'.

(** [xml2file_recurse]. The stream [f] is the text written so far; [fn] is
    taken to write its formatted text at the end of the stream, as fprintf. *)
Fixpoint xml2file_recurse (f : string) (x : cxobj) (level : Z) (pretty : bool)
  (prefix : option string) (autocliext : bool) {struct x} : Z * string :=
  let 'XML hd cs := x in
  let level1 := level * PRETTYPRINT_INDENT
                - match prefix with Some p => strlen p | None => 0 end in
  let '(r, exist') := hide_show autocliext hd in
  if r <? 0 then (-1, f)
  else if exist' then (0, f)
  else
    match x_type hd with
    | CX_BODY =>
        match x_value hd with
        | None => (0, f)
        | Some val =>
            match chardata_encode val with
            | None => (-1, f)
            | Some encstr => (0, f +:+ encstr)
            end
        end
    | CX_ATTR => (0, print_attr f hd)
    | CX_ELMNT =>
        let f := match pretty, prefix with
                 | true, Some p => f +:+ p
                 | _, _ => f
                 end in
        let f := f +:+ pad (if pretty then level1 else 0) +:+ "<" in
        let f := print_prefix f hd in
        let f := f +:+ x_name hd in
        let '(r, f, hasbody, haselement) :=
          attrs_loop
            (fun f xc => xml2file_recurse f xc (level + 1) pretty prefix autocliext)
            cs f false false in
        if r <? 0 then (-1, f)
        else
          let '(r, f) :=
            if negb hasbody && negb haselement then (0, f +:+ "/>")
            else
              let f := f +:+ ">" in
              let f := if pretty && negb hasbody then f +:+ newline else f in
              let '(r, f) :=
                children_loop
                  (fun f xc => xml2file_recurse f xc (level + 1) pretty prefix autocliext)
                  cs f in
              if r <? 0 then (-1, f)
              else
                let f := if pretty && negb hasbody
                         then (match prefix with Some p => f +:+ p | None => f end)
                              +:+ pad level1
                         else f in
                let f := f +:+ "</" in
                let f := print_prefix f hd in
                (0, f +:+ x_name hd +:+ ">") in
          if r <? 0 then (-1, f)
          else (0, if pretty then f +:+ newline else f)
    | CX_ERROR => (0, f)
    end.

Definition top_loop (rec : string -> cxobj -> Z * string) :
  list cxobj -> string -> Z * string :=
  fix go (l : list cxobj) (f : string) :=
    match l with
    | [] => (0, f)
    | xc :: l' =>
        let '(r, f') := rec f xc in
        if r <? 0 then (-1, f') else go l' f'
    end.

(** [clixon_xml2file]: the top object, or with [skiptop] its element
    children. The return value starts as 1 and is what is answered when
    [xml2file_recurse] fails. *)
Definition clixon_xml2file (f : string) (xn : cxobj) (level : Z) (pretty : bool)
  (prefix : option string) (skiptop autocliext : bool) : Z * string :=
  let '(r, f') :=
    if skiptop then
      top_loop (fun f xc => xml2file_recurse f xc level pretty prefix autocliext)
        (xml_child_each xn (Some CX_ELMNT)) f
    else xml2file_recurse f xn level pretty prefix autocliext in
  if r <? 0 then (1, f') else (0, f').

(** [xml_print]: pretty, no prefix, fprintf, no autocli. A NULL tree prints
    nothing. *)
Definition xml_print (f : string) (x : option cxobj) : Z * string :=
  match x with
  | None => (0, f)
  | Some x => xml2file_recurse f x 0 true None false
  end.

(** [clixon_xml2cbuf1]. [depth] limits the levels printed: -1 all, 0 none.
    The recursion is on the tree; [depth] only cuts it short. *)
Fixpoint clixon_xml2cbuf1 (cb : string) (x : cxobj) (level : Z) (pretty : bool)
  (prefix : option string) (depth : Z) {struct x} : Z * string :=
  let 'XML hd cs := x in
  if depth =? 0 then (0, cb)
  else
    let level1 := level * PRETTYPRINT_INDENT
                  - match prefix with Some p => strlen p | None => 0 end in
    match x_type hd with
    | CX_BODY =>
        match x_value hd with
        | None => (0, cb)
        | Some val =>
            match chardata_cbuf_append val with
            | None => (-1, cb)
            | Some encstr => (0, cb +:+ encstr)
            end
        end
    | CX_ATTR => (0, print_attr cb hd)
    | CX_ELMNT =>
        let cb := if pretty
                  then (match prefix with Some p => cb +:+ p | None => cb end)
                       +:+ pad level1 +:+ "<"
                  else cb +:+ "<" in
        let cb := print_prefix cb hd in
        let cb := cb +:+ x_name hd in
        let '(r, cb, hasbody, haselement) :=
          attrs_loop
            (fun cb xc => clixon_xml2cbuf1 cb xc (level + 1) pretty prefix (-1))
            cs cb false false in
        if r <? 0 then (-1, cb)
        else
          let '(r, cb) :=
            if negb hasbody && negb haselement then (0, cb +:+ "/>")
            else
              let cb := cb +:+ ">" in
              let cb := if pretty && negb hasbody then cb +:+ newline else cb in
              let '(r, cb) :=
                children_loop
                  (fun cb xc => clixon_xml2cbuf1 cb xc (level + 1) pretty prefix (depth - 1))
                  cs cb in
              if r <? 0 then (-1, cb)
              else
                let cb := if pretty && negb hasbody
                          then (match prefix with Some p => cb +:+ p | None => cb end)
                               +:+ pad level1
                          else cb in
                let cb := cb +:+ "</" in
                let cb := print_prefix cb hd in
                (0, cb +:+ x_name hd +:+ ">") in
          if r <? 0 then (-1, cb)
          else (0, if pretty then cb +:+ newline else cb)
    | CX_ERROR => (0, cb)
    end.

(** [clixon_xml2cbuf]. *)
Definition clixon_xml2cbuf (cb : string) (xn : cxobj) (level : Z) (pretty : bool)
  (prefix : option string) (depth : Z) (skiptop : bool) : Z * string :=
  if skiptop then
    top_loop (fun cb xc => clixon_xml2cbuf1 cb xc level pretty prefix depth)
      (xml_child_each xn (Some CX_ELMNT)) cb
  else
    let '(r, cb') := clixon_xml2cbuf1 cb xn level pretty prefix depth in
    if r <? 0 then (-1, cb') else (0, cb').

End Printers.

(** *** The text of a tree *)

(** The name of a node as it is written: the prefix and a colon, if there is
    a prefix, then the name. *)
Definition qname (hd : xml_head) : string := print_prefix EmptyString hd +:+ x_name hd.

Definition is_attr (c : cxobj) : bool := cxobj_type_eqb (xml_type c) CX_ATTR.

Definition is_elmnt (c : cxobj) : bool := cxobj_type_eqb (xml_type c) CX_ELMNT.

(** Whether a child vector holds a body; a body or an element. *)
Definition has_body (cs : list cxobj) : bool :=
  existsb (fun c => cxobj_type_eqb (xml_type c) CX_BODY) cs.

Definition has_content (cs : list cxobj) : bool :=
  existsb (fun c => match xml_type c with
                    | CX_BODY | CX_ELMNT => true
                    | _ => false
                    end) cs.

(** The texts of the selected nodes of a vector, one after the other; there
    is no text when one of them has none. *)
Definition texts (sel : cxobj -> bool) (text : cxobj -> option string)
  : list cxobj -> option string :=
  fix go (l : list cxobj) :=
    match l with
    | [] => Some EmptyString
    | c :: l' =>
        if sel c then
          match text c, go l' with
          | Some a, Some b => Some (a +:+ b)
          | _, _ => None
          end
        else go l'
    end.

Section Text.

Variable INDENT : Z.
(** The encoding of a body value, and whether a node is hidden; [None] where
    the encoding or the look-up of the extension fails. *)
Variable enc : string -> option string.
Variable hide : xml_head -> option bool.

(** The text of a tree as XML writes it, told without the stream and the
    loops of the printers, to compare them with: a body is its value
    encoded; an attribute is a blank, its name, an equals sign and its value
    between double quotes; an element is a start-tag with its attributes,
    the texts of its other children and an end-tag, or an empty-element tag
    when it holds no body and no element. A hidden node has the empty text
    and so has a node below the [depth] levels asked for; attributes do not
    count as a level. With [pretty] a tag is on a line of its own, after
    [prefix] and blanks, unless the element holds a body. There is no text
    when a body does not encode or a look-up fails. *)
Fixpoint xml_text (pretty : bool) (prefix : option string) (level depth : Z) (x : cxobj)
  {struct x} : option string :=
  let 'XML hd cs := x in
  if depth =? 0 then Some EmptyString
  else
    match hide hd with
    | None => None
    | Some true => Some EmptyString
    | Some false =>
        match x_type hd with
        | CX_BODY =>
            match x_value hd with
            | Some v => enc v
            | None => Some EmptyString
            end
        | CX_ATTR => Some (print_attr EmptyString hd)
        | CX_ELMNT =>
            let indent :=
              if pretty
              then match prefix with
                   | Some p => p +:+ pad (level * INDENT - strlen p)
                   | None => pad (level * INDENT)
                   end
              else EmptyString in
            let eol := if pretty then newline else EmptyString in
            let lines := pretty && negb (has_body cs) in
            match texts is_attr (xml_text pretty prefix (level + 1) (-1)) cs with
            | None => None
            | Some attrs =>
                if has_content cs then
                  match texts (fun c => negb (is_attr c))
                          (xml_text pretty prefix (level + 1) (depth - 1)) cs with
                  | None => None
                  | Some content =>
                      Some (indent +:+ "<" +:+ qname hd +:+ attrs +:+ ">"
                            +:+ (if lines then newline else EmptyString)
                            +:+ content
                            +:+ (if lines then indent else EmptyString)
                            +:+ "</" +:+ qname hd +:+ ">" +:+ eol)
                  end
                else Some (indent +:+ "<" +:+ qname hd +:+ attrs +:+ "/>" +:+ eol)
            end
        | CX_ERROR => Some EmptyString
        end
    end.

(** The text of the top object, or with [skiptop] of its element children. *)
Definition xml_top_text (pretty : bool) (prefix : option string) (level depth : Z)
  (skiptop : bool) (xn : cxobj) : option string :=
  if skiptop then texts is_elmnt (xml_text pretty prefix level depth) (xml_childvec xn)
  else xml_text pretty prefix level depth xn.

End Text.

(** The cligen buffer printer follows no extension: no node is hidden. *)
Definition none_hidden (hd : xml_head) : option bool := Some false.

(** A printer [F] writes the text [t]: it answers 0 and appends [t] to what
    was written; where there is no text it answers [err]. *)
Definition writes (F : string -> Z * string) (t : option string) (err : Z) : Prop :=
  match t with
  | Some T => forall f, F f = (0, f +:+ T)
  | None => forall f, fst (F f) = err
  end.

(** Modelled from the spec: [xml_chardata_encode] and
    [xml_chardata_cbuf_append] of clixon_string.c, which is not among the
    sources. 4.B: character data on output must encode the five characters
    less-than, greater-than, ampersand, apostrophe and double quote; each is
    written as its XML entity reference. *)
Definition chardata_encode_char (c : ascii) : string :=
  if Ascii.eqb c "&" then "&amp;"
  else if Ascii.eqb c "<" then "&lt;"
  else if Ascii.eqb c ">" then "&gt;"
  else if Ascii.eqb c "'" then "&apos;"
  else if Ascii.eqb c "034"%char then "&quot;"
  else String c EmptyString.

Fixpoint xml_chardata_encode (s : string) : string :=
  match s with
  | EmptyString => EmptyString
  | String c s' => chardata_encode_char c +:+ xml_chardata_encode s'
  end.

(** The encoding as the printers take it: it never fails. *)
Definition chardata_total (s : string) : option string := Some (xml_chardata_encode s).

(** A text is escaped when none of the four characters less-than,
    greater-than, apostrophe, double quote is left in it and every ampersand
    opens one of the five entity references. *)
Fixpoint starts_with (p s : string) : bool :=
  match p, s with
  | EmptyString, _ => true
  | String a p', String b s' => Ascii.eqb a b && starts_with p' s'
  | String _ _, EmptyString => false
  end.

Definition entity_tail (s : string) : bool :=
  starts_with "amp;" s || starts_with "lt;" s || starts_with "gt;" s
  || starts_with "apos;" s || starts_with "quot;" s.

Fixpoint chardata_escaped (s : string) : bool :=
  match s with
  | EmptyString => true
  | String c s' =>
      if Ascii.eqb c "<" || Ascii.eqb c ">" || Ascii.eqb c "'"
         || Ascii.eqb c "034"%char
      then false
      else if Ascii.eqb c "&" then entity_tail s' && chardata_escaped s'
      else chardata_escaped s'
  end.

End XmlIo.

(** ** The changelog upgrader (lib/src/clixon_xml_changelog.c, specification 4.H) *)

Module Changelog.
Import Xml.

(** The XPath evaluator, the namespace contexts and the date parser are not
    among the sources: the upgrader takes them as a library. A node set is a
    vector of node pointers, here addresses; an evaluation is handed the tree
    and the address of its context node. [None] stands for a return value
    below zero ([xpath_first]: for a null pointer). *)
Record xpath_lib : Type := mk_xpath {
  cvec : Type;
  xp_ctx : Type;
  xml_nsctx_node : cxobj -> nat -> option cvec;
  xpath_vec : cxobj -> nat -> option cvec -> string -> option (list nat);
  xpath_first : cxobj -> nat -> option cvec -> string -> option nat;
  xpath_vec_ctx : cxobj -> nat -> option cvec -> string -> option xp_ctx;
  ctx2boolean : xp_ctx -> Z;
  ctx2string : xp_ctx -> option string;
  ys_parse_date_arg : string -> option Z
}.

(** *** Nodes by address *)

Definition find_first {A B : Type} (f : A -> option B) : list A -> option B :=
  fix each (l : list A) : option B :=
    match l with
    | [] => None
    | a :: l' => match f a with
                 | Some b => Some b
                 | None => each l'
                 end
    end.

(** The node a pointer leads to: the first node, in document order, that has
    the address. *)
Fixpoint xml_find_addr (a : nat) (x : cxobj) : option cxobj :=
  let 'XML hd cs := x in
  if Nat.eqb (x_addr hd) a then Some x else find_first (xml_find_addr a) cs.

(** Run [f] on the node a pointer leads to. *)
Fixpoint xml_update_addr (a : nat) (f : cxobj -> cxobj) (x : cxobj) : cxobj :=
  let 'XML hd cs := x in
  if Nat.eqb (x_addr hd) a then f x else XML hd (map (xml_update_addr a f) cs).

(** Take the node a pointer leads to out of the child vector of its parent.
    The root has no parent and stays. *)
Fixpoint xml_rm_addr (a : nat) (x : cxobj) : cxobj :=
  let 'XML hd cs := x in
  XML hd (List.filter (fun c => negb (Nat.eqb (xml_addr c) a)) (map (xml_rm_addr a) cs)).

(** *** The world of one upgrade: the tree to upgrade, the changelog tree,
    the next free address and the errors reported by [clixon_err].

    A pointer whose node has been purged is dangling in C; in the model a
    look-up through it finds nothing and an update through it changes
    nothing. *)
Record world : Type := mk_world {
  w_xt    : cxobj;
  w_chlog : cxobj;
  w_next  : nat;
  w_err   : list string
}.

Definition clixon_err (w : world) (reason : string) : world :=
  mk_world (w_xt w) (w_chlog w) (w_next w) (w_err w ++ [reason]).

Definition w_find (w : world) (a : nat) : option cxobj :=
  match xml_find_addr a (w_xt w) with
  | Some n => Some n
  | None => xml_find_addr a (w_chlog w)
  end.

Definition w_update (a : nat) (f : cxobj -> cxobj) (w : world) : world :=
  mk_world (xml_update_addr a f (w_xt w)) (xml_update_addr a f (w_chlog w))
    (w_next w) (w_err w).

Definition w_rm (a : nat) (w : world) : world :=
  mk_world (xml_rm_addr a (w_xt w)) (xml_rm_addr a (w_chlog w)) (w_next w) (w_err w).

Definition node_children (w : world) (a : nat) : list cxobj :=
  match w_find w a with
  | Some n => xml_childvec n
  | None => []
  end.

Definition node_child_nr (w : world) (a : nat) : Z := Z.of_nat (length (node_children w a)).

Definition node_find (w : world) (a : nat) (name : string) : option nat :=
  match w_find w a with
  | Some n => option_map xml_addr (xml_find n name)
  | None => None
  end.

Definition node_find_body (w : world) (a : nat) (name : string) : option string :=
  match w_find w a with
  | Some n => xml_find_body n name
  | None => None
  end.

(** *** Modelled from the spec: the structural edits of the object model
    (4.B: append_child, purge_subtree, copy_subtree) *)

Definition set_name (name : string) (hd : xml_head) : xml_head :=
  mk_head (x_addr hd) (x_type hd) name (x_prefix hd) (x_value hd) (x_flags hd) (x_spec hd).

Definition set_addr (a : nat) (hd : xml_head) : xml_head :=
  mk_head a (x_type hd) (x_name hd) (x_prefix hd) (x_value hd) (x_flags hd) (x_spec hd).

Definition xml_name_set (x : nat) (name : string) (w : world) : world :=
  w_update x (on_head (set_name name)) w.

(** [xml_purge]: the node leaves its parent and is freed with its subtree. *)
Definition xml_purge (x : nat) (w : world) : world := w_rm x w.

(** [xml_addsub (xp, xc)]: [xc] becomes the last child of [xp]; it is moved,
    not copied: it leaves the child vector of the parent it had. *)
Definition xml_addsub (xp xc : nat) (w : world) : world :=
  match w_find w xc with
  | None => w
  | Some sub =>
      w_update xp (fun p => XML (xml_hd p) (xml_childvec p ++ [sub])) (w_rm xc w)
  end.

Definition map_acc {S A B : Type} (f : S -> A -> S * B) : S -> list A -> S * list B :=
  fix each (s : S) (l : list A) : S * list B :=
    match l with
    | [] => (s, [])
    | a :: l' =>
        let '(s1, b) := f s a in
        let '(s2, bs) := each s1 l' in
        (s2, b :: bs)
    end.

(** A copy of a subtree in newly allocated nodes; [n] is the next free
    address. *)
Fixpoint copy_fresh (n : nat) (x : cxobj) : nat * cxobj :=
  let 'XML hd cs := x in
  let '(n', cs') := map_acc copy_fresh (S n) cs in
  (n', XML (set_addr n hd) cs').

(** What a node takes over from the node it is a copy of: everything but
    its own address and flags. *)
Definition copy_head (src dst : xml_head) : xml_head :=
  mk_head (x_addr dst) (x_type src) (x_name src) (x_prefix src) (x_value src)
    (x_flags dst) (x_spec src).

(** [xml_copy (x0, x1)]: deep, from [x0] into the existing node [x1]: [x1]
    takes over name, prefix, value and schema link, and gets a copy of every
    child of [x0]. *)
Definition xml_copy (x0 : cxobj) (x1 : nat) (w : world) : world :=
  let '(n', cs') := map_acc copy_fresh (w_next w) (xml_childvec x0) in
  w_update x1 (fun n => XML (copy_head (xml_hd x0) (xml_hd n)) (xml_childvec n ++ cs'))
    (mk_world (w_xt w) (w_chlog w) n' (w_err w)).

(** A tree with its addresses wiped: what a tree and its copy share. *)
Fixpoint strip_addr (x : cxobj) : cxobj :=
  let 'XML hd cs := x in XML (set_addr 0 hd) (map strip_addr cs).

(** The handle, as far as the upgrader reads it. *)
Record clixon_handle : Type := mk_clixon_handle {
  ch_options   : string -> bool;
  ch_changelog : option cxobj;
  ch_next      : nat;
  ch_err       : list string
}.

Definition clicon_option_bool (h : clixon_handle) (name : string) : bool := ch_options h name.
Definition clicon_xml_changelog_get (h : clixon_handle) : option cxobj := ch_changelog h.

Section Upgrader.

Variable X : xpath_lib.

(** *** The five operations *)

Definition changelog_rename (w : world) (xw : nat) (nsc : cvec X) (tag : option string)
  : Z * world :=
  match tag with
  | None => (-1, clixon_err w "tag required")
  | Some tag =>
      match xpath_vec_ctx X (w_xt w) xw (Some nsc) tag with
      | None => (-1, w)
      | Some xctx =>
          match ctx2string X xctx with
          | None => (-1, w)
          | Some str =>
              if XmlIo.strlen str =? 0
              then (-1, clixon_err w ("invalid rename tag: " +:+ XmlIo.dquote +:+ str
                                        +:+ XmlIo.dquote))
              else (1, xml_name_set xw str w)
          end
      end
  end.

(** The loop [while ((x = xml_child_i(xw, 0)) != NULL) xml_purge(x)]: each
    turn takes the first child away. *)
Fixpoint purge_each (cs : list cxobj) : list cxobj :=
  match cs with
  | [] => []
  | x :: cs' => purge_each cs'
  end.

Definition purge_children (xw : nat) (w : world) : world :=
  w_update xw (fun n => XML (xml_hd n) (purge_each (xml_childvec n))) w.

Definition changelog_replace (w : world) (xw : nat) (xnew : option nat) : Z * world :=
  match xnew with
  | None => (-1, clixon_err w "new required")
  | Some xnew =>
      (* replace: remove all children of target *)
      let w := purge_children xw w in
      (* replace: first single node under <new> *)
      if negb (node_child_nr w xnew =? 1)
      then (-1, clixon_err w "Single child to <new> required")
      else
        match nth_error (node_children w xnew) 0 with
        | Some x => (1, xml_copy x xw w)    (* copy to the (now) empty target *)
        | None => (-1, w)
        end
  end.

(** The loop of [changelog_insert] moves the first child of [new] under the
    target until [new] has none left: one turn per child. *)
Definition changelog_insert (w : world) (xw : nat) (xnew : option nat) : Z * world :=
  match xnew with
  | None => (-1, clixon_err w "new required")
  | Some xnew =>
      (1, fold_left (fun w x => xml_addsub xw (xml_addr x) w) (node_children w xnew) w)
  end.

Definition changelog_delete (w : world) (xw : nat) : Z * world := (1, xml_purge xw w).

(** A step without [dst] hands a null pointer to the format of the path; the
    model evaluates the empty path then. *)
Definition changelog_move (w : world) (xw : nat) (nsc : cvec X) (dst : option string)
  : Z * world :=
  match xpath_first X (w_xt w) (xml_addr (w_xt w)) (Some nsc)
          (match dst with Some d => d | None => EmptyString end) with
  | None => (-1, clixon_err w "path required")
  | Some xp => (1, xml_addsub xp xw w)
  end.

(** *** [changelog_op]: one step *)

(** The [when] test of one target: [None] for an error, [Some false] when
    the target is to be skipped. *)
Definition when_test (w : world) (nsc : cvec X) (whenxpath : option string) (xw : nat)
  : option bool :=
  match whenxpath with
  | None => Some true
  | Some wx =>
      match xpath_vec_ctx X (w_xt w) xw (Some nsc) wx with
      | None => None
      | Some xctx =>
          let ret := ctx2boolean X xctx in
          if ret <? 0 then None else Some (negb (ret =? 0))
      end
  end.

(** The switch on the operation. *)
Definition changelog_switch (w : world) (nsc : cvec X) (op : string)
  (tag dst : option string) (xnew : option nat) (xw : nat) : Z * world :=
  if String.eqb op "rename" then changelog_rename w xw nsc tag
  else if String.eqb op "replace" then changelog_replace w xw xnew
  else if String.eqb op "insert" then changelog_insert w xw xnew
  else if String.eqb op "delete" then changelog_delete w xw
  else if String.eqb op "move" then changelog_move w xw nsc dst
  else (-1, clixon_err w ("Unknown operation: " +:+ op)).

(** The loop over the vector of targets. *)
Fixpoint op_each (nsc : cvec X) (op : string) (tag dst : option string)
  (xnew : option nat) (whenxpath : option string) (wvec : list nat) (w : world)
  : Z * world :=
  match wvec with
  | [] => (1, w)
  | xw :: rest =>
      match when_test w nsc whenxpath xw with
      | None => (-1, w)
      | Some false => op_each nsc op tag dst xnew whenxpath rest w
      | Some true =>
          let '(ret, w) := changelog_switch w nsc op tag dst xnew xw in
          if ret <? 0 then (-1, w)
          else if ret =? 0 then (0, w)
          else op_each nsc op tag dst xnew whenxpath rest w
      end
  end.

Definition changelog_op (w : world) (xi : nat) : Z * world :=
  (* namespace context of the changelog item *)
  match xml_nsctx_node X (w_chlog w) xi with
  | None => (-1, w)
  | Some nsc =>
      match node_find_body w xi "op" with
      | None => (1, w)
      | Some op =>
          let tag := node_find_body w xi "tag" in
          let dst := node_find_body w xi "dst" in
          let xnew := node_find w xi "new" in
          let whenxpath := node_find_body w xi "when" in
          match node_find_body w xi "where" with
          | None => (1, w)
          | Some wxpath =>
              (* vector of target nodes meeting the where requirement *)
              match xpath_vec X (w_xt w) (xml_addr (w_xt w)) (Some nsc) wxpath with
              | None => (-1, w)
              | Some wvec => op_each nsc op tag dst xnew whenxpath wvec w
              end
          end
      end
  end.

(** *** [changelog_iterate]: the steps of one changelog entry *)

Fixpoint iterate_each (vec : list nat) (w : world) : Z * world :=
  match vec with
  | [] => (1, w)
  | xi :: rest =>
      let '(ret, w) := changelog_op w xi in
      if ret <? 0 then (-1, w)
      else if ret =? 0 then (0, w)
      else iterate_each rest w
  end.

Definition changelog_iterate (w : world) (xch : nat) : Z * world :=
  match xpath_vec X (w_chlog w) xch None "step" with
  | None => (-1, w)
  | Some vec => iterate_each vec w
  end.

(** *** [xml_changelog_upgrade] *)

(** One optional date of an entry: [dflt] when the entry has none, [None]
    when it does not parse. *)
Definition parse_date (w : world) (xch : nat) (name : string) (dflt : Z) : option Z :=
  match node_find_body w xch name with
  | Some b => ys_parse_date_arg X b
  | None => Some dflt
  end.

(** The loop over the changelog entries of the namespace. *)
Fixpoint upgrade_each (from to : Z) (vec : list nat) (w : world) : Z * world :=
  match vec with
  | [] => (1, w)
  | xch :: rest =>
      let f := 0 in
      let t := 0 in
      match parse_date w xch "revfrom" f with
      | None => (-1, w)
      | Some f =>
          match parse_date w xch "revision" t with
          | None => (-1, w)
          | Some t =>
              if (negb (f =? 0) && (from >? f)) || (to <? t)
              then upgrade_each from to rest w
              else
                let '(ret, w) := changelog_iterate w xch in
                if ret <? 0 then (-1, w)
                else if ret =? 0 then (0, w)
                else upgrade_each from to rest w
          end
      end
  end.

Definition namespace_xpath (ns : string) : string :=
  "changelog[namespace=" +:+ XmlIo.dquote +:+ ns +:+ XmlIo.dquote +:+ "]".

Definition world_of (h : clixon_handle) (xt xchlog : cxobj) : world :=
  mk_world xt xchlog (ch_next h) (ch_err h).

Definition handle_of (h : clixon_handle) (w : world) : clixon_handle :=
  mk_clixon_handle (ch_options h) (Some (w_chlog w)) (w_next w) (w_err w).

(** [xml_changelog_upgrade (h, xt, ns, op, from, to, arg, cbret)]; [op],
    [arg] and [cbret] are not used by the function. *)
Definition xml_changelog_upgrade (h : clixon_handle) (xt : cxobj) (ns : string)
  (from to : Z) : Z * clixon_handle * cxobj :=
  (* check if changelog enabled *)
  if negb (clicon_option_bool h "CLICON_XML_CHANGELOG") then (1, h, xt)
  else
    match clicon_xml_changelog_get h with
    | None => (1, h, xt)
    | Some xchlog =>
        match xpath_vec X xchlog (xml_addr xchlog) None (namespace_xpath ns) with
        | None => (-1, h, xt)
        | Some vec =>
            let '(ret, w) := upgrade_each from to vec (world_of h xt xchlog) in
            (ret, handle_of h w, w_xt w)
        end
    end.

(** *** The upgrade as the specification words it: the entries of the
    namespace are gone through in order, an entry that the revisions select
    is applied, another one is passed over. [selects f t] is the selection,
    from the two dates of an entry. *)

Definition entry_revisions (w : world) (xch : nat) : option (Z * Z) :=
  match parse_date w xch "revfrom" 0, parse_date w xch "revision" 0 with
  | Some f, Some t => Some (f, t)
  | _, _ => None
  end.

Fixpoint apply_selected (selects : Z -> Z -> bool) (vec : list nat) (w : world)
  : Z * world :=
  match vec with
  | [] => (1, w)
  | xch :: rest =>
      match entry_revisions w xch with
      | None => (-1, w)
      | Some (f, t) =>
          if selects f t then
            let '(ret, w') := changelog_iterate w xch in
            if ret <? 0 then (-1, w')
            else if ret =? 0 then (0, w')
            else apply_selected selects rest w'
          else apply_selected selects rest w
      end
  end.

Definition upgrade_selected (selects : Z -> Z -> bool) (h : clixon_handle) (xt : cxobj)
  (ns : string) : Z * clixon_handle * cxobj :=
  if clicon_option_bool h "CLICON_XML_CHANGELOG" then
    match clicon_xml_changelog_get h with
    | Some xchlog =>
        match xpath_vec X xchlog (xml_addr xchlog) None (namespace_xpath ns) with
        | Some vec =>
            let '(ret, w) := apply_selected selects vec (world_of h xt xchlog) in
            (ret, handle_of h w, w_xt w)
        | None => (-1, h, xt)
        end
    | None => (1, h, xt)
    end
  else (1, h, xt).

(** The selection the specification names: the revision of the entry lies
    in the interval (from, to]. *)
Definition in_interval (from to : Z) (f t : Z) : bool := (from <? t) && (t <=? to).

(** The selection the code makes: the revision of the entry is not after
    [to], and the entry names no revision to start from or one that is not
    before [from]. *)
Definition in_window (from to : Z) (f t : Z) : bool :=
  (t <=? to) && ((f =? 0) || (from <=? f)).

(** *** What a replace leaves of a target node [n], [x] being the child of
    [new]: the node itself, named as [x], with copies of the children of
    [x] for children. *)
Definition replaced_by (x n n' : cxobj) : Prop :=
  xml_addr n' = xml_addr n
  /\ xml_name n' = xml_name x
  /\ map strip_addr (xml_childvec n') = map strip_addr (xml_childvec x).

(** The targets a step passes over. *)
Definition all_skipped (w : world) (nsc : cvec X) (whenxpath : option string)
  (wvec : list nat) : bool :=
  forallb (fun xw => match when_test w nsc whenxpath xw with
                     | Some false => true
                     | _ => false
                     end) wvec.

End Upgrader.

End Changelog.

(** ** The transaction engine of apps/backend/backend_commit.c *)

Module Backend.
Import Xml.

(** *** Data *)

Inductive yang_bind : Type := YB_NONE | YB_MODULE | YB_PARENT | YB_RPC.

Inductive operation_type : Type :=
  OP_MERGE | OP_REPLACE | OP_CREATE | OP_DELETE | OP_REMOVE | OP_NONE.

(** [modstate_diff_t]: [md_status] is 0 when the datastore carried no
    module-state. *)
Record modstate_diff_t : Type := mk_msdiff {
  md_status : Z;
  md_diff   : option cxobj
}.

Inductive trans_cb_type : Type :=
  | TRANS_CB_BEGIN | TRANS_CB_VALIDATE | TRANS_CB_COMPLETE | TRANS_CB_COMMIT
  | TRANS_CB_COMMIT_DONE | TRANS_CB_END | TRANS_CB_ABORT.

(** What a caller of the engine can observe, in the order it happens. *)
Inductive event : Type :=
  | EvCallback (ty : trans_cb_type) (plugin : string) (ret : Z)
  | EvGenericValidate (ret : Z)
  | EvGet0 (db : string)
  | EvCopy (from to : string)
  | EvReset (db : string)
  | EvDelete (db : string)
  | EvCreate (db : string)
  | EvPut (db : string) (ret : Z)
  | EvModified (db : string) (value : bool)
  | EvDatastoreUpgrade (db : string) (ret : Z)
  | EvModuleUpgrade (ret : Z)
  | EvTimerArm (deadline : Z)
  | EvTimerCancel
  | EvErr (reason : string)
  | EvLog (msg : string).

(** The transaction. Within it the two trees are only re-flagged, so the
    nodes held in the vectors are positions: [td_dvec] and [td_scvec] in
    [td_src], [td_avec] and [td_tcvec] in [td_target]. [td_dlen] and
    [td_alen] are the lengths of their vectors; [td_clen] is kept, since
    [candidate_commit] frees [td_scvec] without resetting it. [td_observers] are the plugins, by
    their place in the plugin list, that observed BEGIN in this transaction. *)
Record transaction_data_t : Type := mk_td {
  td_src       : option cxobj;
  td_target    : option cxobj;
  td_dvec      : list xpos;
  td_avec      : list xpos;
  td_scvec     : list xpos;
  td_tcvec     : list xpos;
  td_clen      : nat;
  td_observers : list nat
}.

(** A plugin: its name and its callback table; any entry may be null. A
    callback sees the transaction and answers with its return value. *)
Record clixon_plugin_t : Type := mk_plugin {
  cp_name              : string;
  ca_datastore_upgrade : option (string -> cxobj -> Z * cxobj);
  ca_trans_begin       : option (transaction_data_t -> Z);
  ca_trans_validate    : option (transaction_data_t -> Z);
  ca_trans_complete    : option (transaction_data_t -> Z);
  ca_trans_commit      : option (transaction_data_t -> Z);
  ca_trans_commit_done : option (transaction_data_t -> Z);
  ca_trans_end         : option (transaction_data_t -> Z);
  ca_trans_abort       : option (transaction_data_t -> Z)
}.

(** Modelled from the spec: the confirmed-commit state (section 3) and the
    parameters of an inbound commit (4.G). *)
Inductive confirmed_commit_state : Type :=
  | IDLE
  | PENDING (persist : option string) (deadline : Z) (session : Z)
  | ROLLBACK.

Record commit_request : Type := mk_req {
  xe_confirmed       : bool;
  xe_confirm_timeout : option Z;
  xe_persist         : option string;
  xe_persist_id      : option string
}.

(** The handle: options, schema, datastores, plugin list, confirmed-commit
    state, and the events so far. A datastore is its tree; [xmldb_get0]
    hands a snapshot of it to the transaction. *)
Record clicon_handle : Type := mk_handle {
  h_options      : string -> bool;
  h_dbspec       : option yang_stmt;
  h_xmldb        : gmap string cxobj;
  h_plugins      : list clixon_plugin_t;
  h_cc_state     : confirmed_commit_state;
  h_now          : Z;
  h_quit_upgrade : Z;
  h_username     : option string;
  h_events       : list event
}.

Definition set_xmldb (m : gmap string cxobj) (h : clicon_handle) : clicon_handle :=
  mk_handle (h_options h) (h_dbspec h) m (h_plugins h) (h_cc_state h) (h_now h)
    (h_quit_upgrade h) (h_username h) (h_events h).

Definition set_cc_state (s : confirmed_commit_state) (h : clicon_handle) : clicon_handle :=
  mk_handle (h_options h) (h_dbspec h) (h_xmldb h) (h_plugins h) s (h_now h)
    (h_quit_upgrade h) (h_username h) (h_events h).

Definition emit (e : event) (h : clicon_handle) : clicon_handle :=
  mk_handle (h_options h) (h_dbspec h) (h_xmldb h) (h_plugins h) (h_cc_state h) (h_now h)
    (h_quit_upgrade h) (h_username h) (h_events h ++ [e]).

Definition clicon_err (h : clicon_handle) (reason : string) : clicon_handle :=
  emit (EvErr reason) h.

Definition clicon_log (h : clicon_handle) (msg : string) : clicon_handle :=
  emit (EvLog msg) h.

Definition clicon_option_bool (h : clicon_handle) (name : string) : bool := h_options h name.
Definition clicon_dbspec_yang (h : clicon_handle) : option yang_stmt := h_dbspec h.
Definition clicon_quit_upgrade_get (h : clicon_handle) : Z := h_quit_upgrade h.
Definition confirmed_commit_state_get (h : clicon_handle) : confirmed_commit_state := h_cc_state h.

(** Modelled from the spec: [if_feature], whether a feature of a module is
    enabled in the schema. *)
Definition if_feature (yspec : yang_stmt) (module feature : string) : bool :=
  existsb (fun e => String.eqb (fst e) module && String.eqb (snd e) feature)
    (ys_features yspec).

(** Transaction data setters. *)
Definition set_src (x : option cxobj) (td : transaction_data_t) : transaction_data_t :=
  mk_td x (td_target td) (td_dvec td) (td_avec td) (td_scvec td) (td_tcvec td)
    (td_clen td) (td_observers td).

Definition set_target (x : option cxobj) (td : transaction_data_t) : transaction_data_t :=
  mk_td (td_src td) x (td_dvec td) (td_avec td) (td_scvec td) (td_tcvec td)
    (td_clen td) (td_observers td).

Definition on_src (f : cxobj -> cxobj) (td : transaction_data_t) : transaction_data_t :=
  set_src (option_map f (td_src td)) td.

Definition on_target (f : cxobj -> cxobj) (td : transaction_data_t) : transaction_data_t :=
  set_target (option_map f (td_target td)) td.

Definition set_observers (l : list nat) (td : transaction_data_t) : transaction_data_t :=
  mk_td (td_src td) (td_target td) (td_dvec td) (td_avec td) (td_scvec td) (td_tcvec td)
    (td_clen td) l.

(** Modelled from the spec: [transaction_new], an empty transaction. *)
Definition transaction_new : transaction_data_t := mk_td None None [] [] [] [] 0 [].

(** The library behind the engine that is not among the sources, taken as
    parameters: flag constants of clixon_xml.h, the diff engine (4.E), the
    validator (4.D), schema binding, sorting and defaults, the module upgrade
    dispatcher, the datastore populate, clear and edit steps (4.C), the dump
    of a tree to stdout, and the encoding of character data into a buffer
    ([None]: a return value below zero). A return value follows the C
    convention: 1 OK, 0 invalid, negative error. *)
Record clixon_lib : Type := mk_lib {
  XML_FLAG_MARK   : Z;
  XML_FLAG_ADD    : Z;
  XML_FLAG_DEL    : Z;
  XML_FLAG_CHANGE : Z;
  PRETTYPRINT_INDENT : Z;
  NETCONF_INPUT_CONFIG : string;
  xml_diff : cxobj -> cxobj -> option (list xpos * list xpos * list (xpos * xpos));
  xml_yang_validate_all_top : cxobj -> Z * option cxobj;
  xml_yang_validate_add : cxobj -> xpos -> Z * option cxobj;
  xml_bind_yang : cxobj -> yang_bind -> yang_stmt -> Z * cxobj * option cxobj;
  xml_non_config_data : cxobj -> Z * option cxobj;
  xml_sort_recurse : cxobj -> Z * cxobj;
  xml_global_defaults : cxobj -> yang_stmt -> Z * cxobj;
  xml_default_recurse : cxobj -> Z * cxobj;
  clixon_module_upgrade : cxobj -> modstate_diff_t -> Z * cxobj * string;
  xmldb_populate : yang_bind -> cxobj -> Z * cxobj * option cxobj;
  xmldb_modstate : cxobj -> modstate_diff_t;
  xmldb_clear : cxobj -> Z * cxobj;
  xmldb_edit : operation_type -> cxobj -> cxobj -> Z * cxobj * string;
  xmldb_empty : cxobj;
  netconf_operation_failed : string -> string -> string -> Z * string;
  xmldb_dump : cxobj -> Z;
  xml_chardata_cbuf_append : string -> option string
}.

Section Engine.
Variable L : clixon_lib.

(** *** Modelled from the spec: the datastore manager (4.C) *)

(** Modelled from the spec: [exists(db)]. *)
Definition xmldb_exists (h : clicon_handle) (db : string) : Z :=
  match h_xmldb h !! db with
  | Some _ => 1
  | None => 0
  end.

(** Modelled from the spec: [copy(src_db, dst_db)]; it fails when the source
    store is missing. *)
Definition xmldb_copy (h : clicon_handle) (from to : string) : Z * clicon_handle :=
  match h_xmldb h !! from with
  | Some x => (0, emit (EvCopy from to) (set_xmldb (<[to := x]> (h_xmldb h)) h))
  | None => (-1, clicon_err h "xmldb_copy: no such datastore")
  end.

(** Modelled from the spec: [delete(db)], [create(db)], [db_reset(db)]. *)
Definition xmldb_delete (h : clicon_handle) (db : string) : Z * clicon_handle :=
  (0, emit (EvDelete db) (set_xmldb (delete db (h_xmldb h)) h)).

Definition xmldb_create (h : clicon_handle) (db : string) : Z * clicon_handle :=
  (0, emit (EvCreate db) (set_xmldb (<[db := xmldb_empty L]> (h_xmldb h)) h)).

Definition xmldb_db_reset (h : clicon_handle) (db : string) : Z * clicon_handle :=
  (0, emit (EvReset db) (set_xmldb (<[db := xmldb_empty L]> (h_xmldb h)) h)).

(** Modelled from the spec: [modified_set(db, bit)], the dirty bit. *)
Definition xmldb_modified_set (h : clicon_handle) (db : string) (value : bool) : clicon_handle :=
  emit (EvModified db value) h.

(** Modelled from the spec: [get0]: the populated tree of a store, with the
    module-state diff of the store and, when the tree does not bind to the
    schema (return value 0), the error tree. *)
Definition xmldb_get0 (h : clicon_handle) (db : string) (yb : yang_bind)
  : Z * clicon_handle * option cxobj * modstate_diff_t * option cxobj :=
  match h_xmldb h !! db with
  | None => (-1, clicon_err h "xmldb_get0: no such datastore", None, mk_msdiff 0 None, None)
  | Some x =>
      let '(ret, xt, xerr) := xmldb_populate L yb x in
      (ret, emit (EvGet0 db) h, if ret <? 0 then None else Some xt, xmldb_modstate L x, xerr)
  end.

(** Modelled from the spec: [get0_clear(tree)] drops cached defaults and
    flags, [get0_free(tree)] releases the tree. *)
Definition xmldb_get0_clear (x : option cxobj) : Z * option cxobj :=
  match x with
  | None => (0, None)
  | Some xt => let '(ret, xt') := xmldb_clear L xt in (ret, Some xt')
  end.

Definition xmldb_get0_free (x : option cxobj) : option cxobj := None.

(** Modelled from the spec: [put(db, edit_op, xml, user)], atomic per call:
    the store advances to the edited tree or is left untouched. *)
Definition xmldb_put (h : clicon_handle) (db : string) (op : operation_type)
  (x : option cxobj) (cbret : string) : Z * clicon_handle * string :=
  match h_xmldb h !! db, x with
  | Some old, Some xt =>
      let '(ret, new, msg) := xmldb_edit L op old xt in
      if 0 <? ret
      then (ret, emit (EvPut db ret) (set_xmldb (<[db := new]> (h_xmldb h)) h), cbret)
      else (ret, emit (EvPut db ret) h, cbret +:+ msg)
  | _, _ => (-1, clicon_err h "xmldb_put", cbret)
  end.

(** *** Modelled from the spec: the plugin bus (4.F, 4.I) *)

Definition trans_cb (ty : trans_cb_type) (cp : clixon_plugin_t)
  : option (transaction_data_t -> Z) :=
  match ty with
  | TRANS_CB_BEGIN => ca_trans_begin cp
  | TRANS_CB_VALIDATE => ca_trans_validate cp
  | TRANS_CB_COMPLETE => ca_trans_complete cp
  | TRANS_CB_COMMIT => ca_trans_commit cp
  | TRANS_CB_COMMIT_DONE => ca_trans_commit_done cp
  | TRANS_CB_END => ca_trans_end cp
  | TRANS_CB_ABORT => ca_trans_abort cp
  end.

(** Modelled from the spec: one phase callback of one plugin; a null entry
    is tolerated; a negative answer fails the call. *)
Definition plugin_transaction_one (ty : trans_cb_type) (cp : clixon_plugin_t)
  (h : clicon_handle) (td : transaction_data_t) : Z * clicon_handle :=
  match trans_cb ty cp with
  | None => (0, h)
  | Some fn =>
      let r := fn td in
      (if r <? 0 then -1 else 0, emit (EvCallback ty (cp_name cp) r) h)
  end.

(** Modelled from the spec: a phase fans out to all registered plugins in
    registration order and stops at the first failure. *)
Fixpoint plugin_transaction_each (ty : trans_cb_type) (cps : list clixon_plugin_t)
  (h : clicon_handle) (td : transaction_data_t) : Z * clicon_handle :=
  match cps with
  | [] => (0, h)
  | cp :: rest =>
      let '(r, h) := plugin_transaction_one ty cp h td in
      if r <? 0 then (-1, h) else plugin_transaction_each ty rest h td
  end.

(** Modelled from the spec: BEGIN; each plugin BEGIN is delivered to is
    recorded as an observer of the transaction. *)
Fixpoint plugin_transaction_begin_each (i : nat) (cps : list clixon_plugin_t)
  (h : clicon_handle) (td : transaction_data_t)
  : Z * clicon_handle * transaction_data_t :=
  match cps with
  | [] => (0, h, td)
  | cp :: rest =>
      let td := set_observers (td_observers td ++ [i]) td in
      let '(r, h) := plugin_transaction_one TRANS_CB_BEGIN cp h td in
      if r <? 0 then (-1, h, td) else plugin_transaction_begin_each (S i) rest h td
  end.

Definition plugin_transaction_begin_all (h : clicon_handle) (td : transaction_data_t)
  : Z * clicon_handle * transaction_data_t :=
  plugin_transaction_begin_each 0 (h_plugins h) h td.

Definition plugin_transaction_validate_all (h : clicon_handle) (td : transaction_data_t) :=
  plugin_transaction_each TRANS_CB_VALIDATE (h_plugins h) h td.
Definition plugin_transaction_complete_all (h : clicon_handle) (td : transaction_data_t) :=
  plugin_transaction_each TRANS_CB_COMPLETE (h_plugins h) h td.
Definition plugin_transaction_commit_all (h : clicon_handle) (td : transaction_data_t) :=
  plugin_transaction_each TRANS_CB_COMMIT (h_plugins h) h td.
Definition plugin_transaction_commit_done_all (h : clicon_handle) (td : transaction_data_t) :=
  plugin_transaction_each TRANS_CB_COMMIT_DONE (h_plugins h) h td.
Definition plugin_transaction_end_all (h : clicon_handle) (td : transaction_data_t) :=
  plugin_transaction_each TRANS_CB_END (h_plugins h) h td.

(** Modelled from the spec: ABORT is reverse-invoked on every plugin that has
    observed BEGIN; a failing abort callback never fails the transaction. *)
Fixpoint plugin_transaction_abort_each (obs : list nat) (h : clicon_handle)
  (td : transaction_data_t) : clicon_handle :=
  match obs with
  | [] => h
  | i :: rest =>
      match nth_error (h_plugins h) i with
      | Some cp =>
          plugin_transaction_abort_each rest
            (snd (plugin_transaction_one TRANS_CB_ABORT cp h td)) td
      | None => plugin_transaction_abort_each rest h td
      end
  end.

Definition plugin_transaction_abort_all (h : clicon_handle) (td : transaction_data_t)
  : Z * clicon_handle :=
  (0, plugin_transaction_abort_each (rev (td_observers td)) h td).

(** Modelled from the spec: the datastore upgrade callbacks of the plugins,
    in registration order, each rewriting the tree. *)
Fixpoint datastore_upgrade_each (cps : list clixon_plugin_t) (db : string) (xt : cxobj)
  : Z * cxobj :=
  match cps with
  | [] => (0, xt)
  | cp :: rest =>
      match ca_datastore_upgrade cp with
      | None => datastore_upgrade_each rest db xt
      | Some fn =>
          let '(r, xt') := fn db xt in
          if r <? 0 then (-1, xt') else datastore_upgrade_each rest db xt'
      end
  end.

Definition clixon_plugin_datastore_upgrade_all (h : clicon_handle) (db : string) (xt : cxobj)
  : Z * clicon_handle * cxobj :=
  let '(r, xt') := datastore_upgrade_each (h_plugins h) db xt in
  (r, emit (EvDatastoreUpgrade db r) h, xt').

(** *** Modelled from the spec: confirmed-commit, phase two (4.G) *)

Definition persist_matches (pending : option string) (xe : commit_request) : bool :=
  match pending, xe_persist_id xe with
  | Some p, Some q => String.eqb p q
  | _, _ => false
  end.

Definition confirm_timeout (xe : commit_request) : Z :=
  match xe_confirm_timeout xe with
  | Some t => t
  | None => 600
  end.

(** Modelled from the spec: [handle_confirmed_commit]. A new confirmed commit
    snapshots running into the rollback store and arms the timer; an extending
    one re-arms it; a confirming one cancels the timer and deletes the
    rollback store; a commit that matches neither the originating session nor
    the persist token fails. *)
Definition handle_confirmed_commit (h : clicon_handle) (xe : commit_request) (myid : Z)
  : Z * clicon_handle :=
  match h_cc_state h with
  | IDLE =>
      if xe_confirmed xe then
        let '(r, h) := xmldb_copy h "running" "rollback" in
        if r <? 0 then (-1, h)
        else
          let deadline := h_now h + confirm_timeout xe in
          (0, set_cc_state (PENDING (xe_persist xe) deadline myid) (emit (EvTimerArm deadline) h))
      else if xmldb_exists h "rollback" =? 1 then xmldb_delete h "rollback"
      else (0, h)
  | PENDING persist deadline session =>
      if (myid =? session) || persist_matches persist xe then
        if xe_confirmed xe then
          let deadline := h_now h + confirm_timeout xe in
          let persist := match xe_persist xe with Some p => Some p | None => persist end in
          (0, set_cc_state (PENDING persist deadline session)
                (emit (EvTimerArm deadline) (emit EvTimerCancel h)))
        else
          let '(r, h) := xmldb_delete (emit EvTimerCancel h) "rollback" in
          (r, set_cc_state IDLE h)
      else
        match xe_persist_id xe with
        | Some _ => (-1, clicon_err h "invalid-value: persist-id does not match")
        | None => (-1, clicon_err h "operation-failed: confirmed commit of another session")
        end
  | ROLLBACK => (0, h)
  end.


(** *** backend_commit.c *)

(** [clixon_xml2cbuf (cbret, xret, 0, 0, NULL, -1, 0)]: the error tree written
    to the reply buffer. A NULL tree is outside the contract of the callers
    (a return value 0 comes with its error tree); it is taken as an error. *)
Definition xml2cbuf_error (cbret : string) (xret : option cxobj) : Z * string :=
  match xret with
  | Some x =>
      XmlIo.clixon_xml2cbuf (PRETTYPRINT_INDENT L) (xml_chardata_cbuf_append L)
        cbret x 0 false None (-1) false
  | None => (-1, cbret)
  end.

(** The last error reason ([clicon_err_reason]). *)
Fixpoint last_err (evs : list event) (acc : string) : string :=
  match evs with
  | [] => acc
  | EvErr r :: evs' => last_err evs' r
  | _ :: evs' => last_err evs' acc
  end.

Definition clicon_err_reason (h : clicon_handle) : string := last_err (h_events h) "".

(** The loops of [generic_validate] over the changed and the added entries. *)
Fixpoint validate_add_each (xt : cxobj) (vec : list xpos) : Z * option cxobj :=
  match vec with
  | [] => (1, None)
  | x2 :: rest =>
      let '(ret, xret) := xml_yang_validate_add L xt x2 in
      if ret <? 0 then (-1, xret)
      else if ret =? 0 then (0, xret)
      else validate_add_each xt rest
  end.

(** [generic_validate]: everything, then the changed target entries, then
    the added ones. The event records the call and its return value. *)
Definition generic_validate (h : clicon_handle) (yspec : yang_stmt) (td : transaction_data_t)
  : Z * clicon_handle * option cxobj :=
  let '(retval, xret) :=
    match td_target td with
    | None => (-1, None)
    | Some xt =>
        let '(ret, xret) := xml_yang_validate_all_top L xt in
        if ret <? 0 then (-1, xret)
        else if ret =? 0 then (0, xret)
        else
          let '(ret, xret) := validate_add_each xt (firstn (td_clen td) (td_tcvec td)) in
          if ret <? 0 then (-1, xret)
          else if ret =? 0 then (0, xret)
          else
            let '(ret, xret) := validate_add_each xt (td_avec td) in
            if ret <? 0 then (-1, xret)
            else if ret =? 0 then (0, xret)
            else (1, None)
    end in
  (retval, emit (EvGenericValidate retval) h, xret).

(** What [startup_common] comes to: it returns, or the process exits
    (the -q switch). *)
Inductive startup_result : Type :=
  | SReturn (retval : Z) (h : clicon_handle) (td : transaction_data_t) (cbret : string)
  | SExit (status : Z) (h : clicon_handle).

(** The loop of [startup_common] over the element children of the target:
    each is flagged ADD, also down, and appended to the added vector. *)
Definition startup_add (td : transaction_data_t) (x : xpos) : transaction_data_t :=
  let td := on_target (xml_update_at x (xml_flag_set (XML_FLAG_ADD L))) td in
  let td := on_target (xml_update_at x
                         (xml_apply CX_ELMNT (head_flag_set (XML_FLAG_ADD L)))) td in
  mk_td (td_src td) (td_target td) (td_dvec td) (td_avec td ++ [x]) (td_scvec td)
    (td_tcvec td) (td_clen td) (td_observers td).

Definition startup_add_all (td : transaction_data_t) : transaction_data_t :=
  match td_target td with
  | None => td
  | Some xt => fold_left startup_add (elmnt_children xt) td
  end.

(** [startup_common], from the binding of the upgraded tree on. *)
Definition startup_common_validate (h : clicon_handle) (db : string)
  (td : transaction_data_t) (cbret : string) (yspec : yang_stmt) (xt : cxobj)
  : startup_result :=
  let '(ret, xt, xret) := xml_bind_yang L xt YB_MODULE yspec in
  if ret <? 0 then SReturn (-1) h td cbret
  else if ret =? 0 then
    let '(r, cbret) := xml2cbuf_error cbret xret in
    if r <? 0 then SReturn (-1) h td cbret else SReturn 0 h td cbret
  else
  let '(ret, xret) := xml_non_config_data L xt in
  if ret <? 0 then SReturn (-1) h td cbret
  else if ret =? 0 then
    let '(r, cbret) := xml2cbuf_error cbret xret in
    if r <? 0 then SReturn (-1) h td cbret else SReturn 0 h td cbret
  else
  let '(r, xt) := xml_sort_recurse L xt in
  if r <? 0 then SReturn (-1) h td cbret else
  let '(r, xt) := xml_global_defaults L xt yspec in
  if r <? 0 then SReturn (-1) h td cbret else
  let '(r, xt) := xml_default_recurse L xt in
  if r <? 0 then SReturn (-1) h td cbret else
  (* handcraft transition with only add tree *)
  let td := set_target (Some xt) td in
  let td := startup_add_all td in
  let '(r, h, td) := plugin_transaction_begin_all h td in
  if r <? 0 then SReturn (-1) h td cbret else
  let '(ret, h, xret) := generic_validate h yspec td in
  if ret <? 0 then SReturn (-1) h td cbret
  else if ret =? 0 then
    let '(r, cbret) := xml2cbuf_error cbret xret in
    if r <? 0 then SReturn (-1) h td cbret else SReturn 0 h td cbret
  else
  let '(r, h) := plugin_transaction_validate_all h td in
  if r <? 0 then SReturn (-1) h td cbret else
  let '(r, h) := plugin_transaction_complete_all h td in
  if r <? 0 then SReturn (-1) h td cbret else
  SReturn 1 h td cbret.

(** The warning of [startup_common] for a startup store without module
    state: one message of three lines. *)
Definition modstate_warning : string :=
  "Modstate expected in startup datastore but not found" +:+ XmlIo.newline
  +:+ "This may indicate that the datastore is not initialized corrrectly, such as copy/pasted."
  +:+ XmlIo.newline
  +:+ "It may also be normal bootstrapping since module state will be written on next datastore save".

(** [startup_common]: get the store, upgrade it, then bind, sort, default,
    mark and validate it. With the -q switch the upgraded tree is dumped to
    stdout and the process exits, unless the dump fails; stdout and stderr
    are not kept. *)
Definition startup_common (h : clicon_handle) (db : string) (td : transaction_data_t)
  (cbret : string) : startup_result :=
  let modstate := clicon_option_bool h "CLICON_XMLDB_MODSTATE" in
  let checkold := clicon_option_bool h "CLICON_XMLDB_UPGRADE_CHECKOLD" in
  let '(ret, h, xt, md, xerr) := xmldb_get0 h db (if checkold then YB_MODULE else YB_NONE) in
  let msdiff := if modstate then Some md else None in
  if ret <? 0 then SReturn (-1) h td cbret
  else if checkold && (ret =? 0) then
    if clicon_quit_upgrade_get h =? 1
    then SExit 0 (clicon_err h "invalid configuration before upgrade")
    else
      let '(r, cbret) := xml2cbuf_error cbret xerr in
      if r <? 0 then SReturn (-1) h td cbret else SReturn 0 h td cbret
  else
  match xt with
  | None => SReturn (-1) h td cbret
  | Some xt =>
  let h := match msdiff with
           | Some m => if md_status m =? 0
                       then clicon_log h modstate_warning
                       else h
           | None => h
           end in
  match clicon_dbspec_yang h with
  | None => SReturn (-1) (clicon_err h "Yang spec not set") td cbret
  | Some yspec =>
  (* clear flags xpath for get *)
  let xt := xml_apply0 CX_ELMNT
              (head_flag_reset (Z.lor (XML_FLAG_MARK L) (XML_FLAG_CHANGE L))) xt in
  (* general purpose datastore upgrade *)
  let '(r, h, xt) := clixon_plugin_datastore_upgrade_all h db xt in
  if r <? 0 then SReturn (-1) h td cbret else
  (* module-specific upgrade callbacks *)
  let '(ret, h, xt, cbret) :=
    match msdiff with
    | Some m =>
        let '(ret, xt, msg) := clixon_module_upgrade L xt m in
        (ret, emit (EvModuleUpgrade ret) h, xt, cbret +:+ msg)
    | None => (1, h, xt, cbret)
    end in
  if ret <? 0 then SReturn (-1) h td cbret
  else if ret =? 0 then
    SReturn 0 h td
      (if XmlIo.strlen cbret =? 0
       then cbret +:+ "Module-set upgrade function returned failure but lacks reason (cbret is not set)"
       else cbret)
  else
  if clicon_quit_upgrade_get h =? 1 then
    (* print the upgraded db and leave *)
    let '(ret, xt, _) := xml_bind_yang L xt YB_MODULE yspec in
    let '(h, xt) :=
      if ret <? 1 then
        (if ret =? 0 then clicon_err h "invalid configuration"
         else clicon_err h "startup_common: YANG binding error", xt)
      else
        (* sort yang *)
        let '(r, xt) := xml_sort_recurse L xt in
        (if r <? 0 then clicon_err h "Yang sort error" else h, xt) in
    if xmldb_dump L xt <? 0 then SReturn (-1) h td cbret
    else SExit 0 h
  else
  (* if empty skip *)
  if xml_child_nr xt =? 0 then SReturn 1 h (set_target (Some xt) td) cbret
  else startup_common_validate h db td cbret yspec xt
  end end.


(** What [startup_validate] and [startup_commit] come to. *)
Inductive startup_outcome : Type :=
  | Returned (retval : Z) (h : clicon_handle) (xtr : option cxobj) (cbret : string)
  | ProcessExit (status : Z) (h : clicon_handle).

(** [startup_validate]. [transaction_new] fails only when out of memory,
    which the model leaves out. *)
Definition startup_validate (h : clicon_handle) (db : string) (cbret : string)
  : startup_outcome :=
  let td := transaction_new in
  match startup_common h db td cbret with
  | SExit status h => ProcessExit status h
  | SReturn ret h td cbret =>
      if ret <? 0 then
        Returned (-1) (snd (plugin_transaction_abort_all h td)) None cbret
      else if ret =? 0 then
        Returned 0 (snd (plugin_transaction_abort_all h td)) None cbret
      else
        let '(_, h) := plugin_transaction_end_all h td in
        (* clear cached trees from default values and marking *)
        let '(r, xt) := xmldb_get0_clear (td_target td) in
        if r <? 0 then Returned (-1) h None cbret
        else Returned 1 h xt cbret
  end.

(** The [done:] block of [startup_commit], [candidate_validate] and
    [candidate_commit]: on failure or error the abort callbacks are called;
    the trees and the transaction are then released. *)
Definition transaction_done (retval : Z) (h : clicon_handle) (td : transaction_data_t)
  : clicon_handle :=
  if retval <? 1 then snd (plugin_transaction_abort_all h td) else h.

(** [startup_commit]. *)
Definition startup_commit (h : clicon_handle) (db : string) (cbret : string)
  : startup_outcome :=
  if String.eqb db "running" then
    (* td is still NULL: nothing to abort, nothing to free *)
    Returned (-1) (clicon_err h ("Invalid startup db: " +:+ db)) None cbret
  else
  let td := transaction_new in
  match startup_common h db td cbret with
  | SExit status h => ProcessExit status h
  | SReturn ret h td cbret =>
      let done (retval : Z) (h : clicon_handle) (td : transaction_data_t) (cbret : string) :=
        Returned retval (transaction_done retval h td) None cbret in
      if ret <? 0 then done (-1) h td cbret
      else if ret =? 0 then done 0 h td cbret
      else
      (* 8. plugin transaction commit callbacks *)
      let '(r, h) := plugin_transaction_commit_all h td in
      if r <? 0 then done (-1) h td cbret else
      let '(r, h) := plugin_transaction_commit_done_all h td in
      if r <? 0 then done (-1) h td cbret else
      let '(r, xt) := xmldb_get0_clear (td_target td) in
      let td := set_target xt td in
      if r <? 0 then done (-1) h td cbret else
      (* [delete and] create running db *)
      let '(r, h) := if xmldb_exists h "running" =? 1
                     then xmldb_delete h "running" else (0, h) in
      if negb (r =? 0) then done (-1) h td cbret else
      let '(r, h) := xmldb_create h "running" in
      if r <? 0 then done (-1) h td cbret else
      (* 9. write the tree to running, as an incoming edit-config *)
      let td := on_target (on_head (fun hd =>
                  mk_head (x_addr hd) (x_type hd) (NETCONF_INPUT_CONFIG L) (x_prefix hd)
                    (x_value hd) (x_flags hd) (x_spec hd))) td in
      let '(ret, h, cbret) := xmldb_put h "running" OP_REPLACE (td_target td) cbret in
      if ret <? 0 then done (-1) h td cbret
      else if ret =? 0 then done 0 h td cbret
      else
      (* 10. plugin transaction end callbacks *)
      let '(_, h) := plugin_transaction_end_all h td in
      done 1 h td cbret
  end.

(** The three loops of [validate_common] that mark the diff in the trees. *)
Definition mark_deleted (td : transaction_data_t) (xn : xpos) : transaction_data_t :=
  let td := on_src (xml_update_at xn (xml_flag_set (XML_FLAG_DEL L))) td in
  let td := on_src (xml_update_at xn
                      (xml_apply CX_ELMNT (head_flag_set (XML_FLAG_DEL L)))) td in
  on_src (xml_apply_ancestor (head_flag_set (XML_FLAG_CHANGE L)) xn) td.

Definition mark_added (td : transaction_data_t) (xn : xpos) : transaction_data_t :=
  let td := on_target (xml_update_at xn (xml_flag_set (XML_FLAG_ADD L))) td in
  let td := on_target (xml_update_at xn
                         (xml_apply CX_ELMNT (head_flag_set (XML_FLAG_ADD L)))) td in
  on_target (xml_apply_ancestor (head_flag_set (XML_FLAG_CHANGE L)) xn) td.

Definition mark_changed (td : transaction_data_t) (xn : xpos * xpos) : transaction_data_t :=
  let td := on_src (xml_update_at (fst xn) (xml_flag_set (XML_FLAG_CHANGE L))) td in
  let td := on_src (xml_apply_ancestor (head_flag_set (XML_FLAG_CHANGE L)) (fst xn)) td in
  let td := on_target (xml_update_at (snd xn) (xml_flag_set (XML_FLAG_CHANGE L))) td in
  on_target (xml_apply_ancestor (head_flag_set (XML_FLAG_CHANGE L)) (snd xn)) td.

Definition changed_pairs (td : transaction_data_t) : list (xpos * xpos) :=
  firstn (td_clen td) (combine (td_scvec td) (td_tcvec td)).

Definition mark_diff (td : transaction_data_t) : transaction_data_t :=
  let td := fold_left mark_deleted (td_dvec td) td in
  let td := fold_left mark_added (td_avec td) td in
  fold_left mark_changed (changed_pairs td) td.

Definition clear_flags_for_get (x : cxobj) : cxobj :=
  xml_apply0 CX_ELMNT (head_flag_reset (Z.lor (XML_FLAG_MARK L) (XML_FLAG_CHANGE L))) x.

(** [validate_common]: both trees, their diff, its marks, then BEGIN,
    the generic validation, VALIDATE and COMPLETE. *)
Definition validate_common (h : clicon_handle) (db : string) (td : transaction_data_t)
  (xret : option cxobj) : Z * clicon_handle * transaction_data_t * option cxobj :=
  match clicon_dbspec_yang h with
  | None => (-1, clicon_err h "No DB_SPEC", td, xret)
  | Some yspec =>
  (* this is the state we are going to *)
  let '(ret, h, xt, _, xerr) := xmldb_get0 h db YB_MODULE in
  let td := set_target xt td in
  let xret := match xerr with Some e => Some e | None => xret end in
  if ret <? 0 then (-1, h, td, xret)
  else if ret =? 0 then (0, h, td, xret)
  else
  let td := on_target clear_flags_for_get td in
  (* this is the state we are going from *)
  let '(ret, h, xs, _, xerr) := xmldb_get0 h "running" YB_MODULE in
  let td := set_src xs td in
  let xret := match xerr with Some e => Some e | None => xret end in
  if ret <? 0 then (-1, h, td, xret)
  else if ret =? 0 then (0, h, td, xret)
  else
  let td := on_src clear_flags_for_get td in
  (* 3. compute differences *)
  match td_src td, td_target td with
  | Some src, Some target =>
  match xml_diff L src target with
  | None => (-1, h, td, xret)
  | Some (dvec, avec, cvec) =>
  let td := mk_td (td_src td) (td_target td) dvec avec (map fst cvec) (map snd cvec)
              (length cvec) (td_observers td) in
  (* mark as changed in tree *)
  let td := mark_diff td in
  (* 4. plugin transaction start callbacks *)
  let '(r, h, td) := plugin_transaction_begin_all h td in
  if r <? 0 then (-1, h, td, xret) else
  (* 5. generic validation on all new or changed data *)
  let '(ret, h, xerr) := generic_validate h yspec td in
  let xret := match xerr with Some e => Some e | None => xret end in
  if ret <? 0 then (-1, h, td, xret)
  else if ret =? 0 then (0, h, td, xret)
  else
  (* 6. plugin transaction validate callbacks *)
  let '(r, h) := plugin_transaction_validate_all h td in
  if r <? 0 then (-1, h, td, xret) else
  (* 7. plugin transaction complete callbacks *)
  let '(r, h) := plugin_transaction_complete_all h td in
  if r <? 0 then (-1, h, td, xret) else
  (1, h, td, xret)
  end
  | _, _ => (-1, h, td, xret)
  end
  end.


(** [candidate_validate]. The arguments [db] and [cbret] are not NULL in the
    model. *)
Definition candidate_validate (h : clicon_handle) (db : string) (cbret : string)
  : Z * clicon_handle * string :=
  (* 1. start transaction *)
  let td := transaction_new in
  let done (retval : Z) (h : clicon_handle) (td : transaction_data_t) (cbret : string) :=
    (retval, transaction_done retval h td, cbret) in
  (* common steps (with commit) *)
  let '(ret, h, td, xret) := validate_common h db td None in
  if ret <? 0 then
    if XmlIo.strlen cbret =? 0 then
      let '(r, cbret) := netconf_operation_failed L cbret "application" (clicon_err_reason h) in
      if r <? 0 then done (-1) h td cbret else done 0 h td cbret
    else done 0 h td cbret
  else if ret =? 0 then
    match xret with
    | None => done (-1) (clicon_err h "xret is NULL") td cbret
    | Some _ =>
        let '(r, cbret) := xml2cbuf_error cbret xret in
        if r <? 0 then done (-1) h td cbret
        else if XmlIo.strlen cbret =? 0 then
          let '(r, cbret) :=
            netconf_operation_failed L cbret "application" (clicon_err_reason h) in
          if r <? 0 then done (-1) h td cbret else done 0 h td cbret
        else done 0 h td cbret
    end
  else
  let '(r1, xs) := xmldb_get0_clear (td_src td) in
  let td := set_src xs td in
  if r1 <? 0 then done (-1) h td cbret else
  let '(r2, xt) := xmldb_get0_clear (td_target td) in
  let td := set_target xt td in
  if r2 <? 0 then done (-1) h td cbret else
  let '(_, h) := plugin_transaction_end_all h td in
  done 1 h td cbret.

Definition is_rollback (s : confirmed_commit_state) : bool :=
  match s with
  | ROLLBACK => true
  | _ => false
  end.

(** [candidate_commit]. [xe] is the request, or NULL; [vlev] is obsolete and
    left out. *)
Definition candidate_commit (h : clicon_handle) (xe : option commit_request) (db : string)
  (myid : Z) (cbret : string) : Z * clicon_handle * string :=
  (* 1. start transaction *)
  let td := transaction_new in
  let done (retval : Z) (h : clicon_handle) (td : transaction_data_t) (cbret : string) :=
    (retval, transaction_done retval h td, cbret) in
  (* common steps (with validate): load candidate and running, compute diffs *)
  let '(ret, h, td, xret) := validate_common h db td None in
  if ret <? 0 then done (-1) h td cbret else
  match clicon_dbspec_yang h with
  | None => done (-1) (clicon_err h "No yang spec") td cbret
  | Some yspec =>
  (* confirmed-commit, phase two *)
  let '(r, h) :=
    match xe with
    | Some req =>
        if if_feature yspec "ietf-netconf" "confirmed-commit"
           && negb (is_rollback (confirmed_commit_state_get h))
        then handle_confirmed_commit h req myid
        else (0, h)
    | None => (0, h)
    end in
  if r <? 0 then done (-1) h td cbret else
  if ret =? 0 then
    let '(r, cbret) := xml2cbuf_error cbret xret in
    if r <? 0 then done (-1) h td cbret else done 0 h td cbret
  else
  (* 7. plugin transaction commit callbacks *)
  let '(r, h) := plugin_transaction_commit_all h td in
  if r <? 0 then done (-1) h td cbret else
  (* after commit, a post-commit call (sure that all plugins have committed) *)
  let '(r, h) := plugin_transaction_commit_done_all h td in
  if r <? 0 then done (-1) h td cbret else
  (* clear cached trees from default values and marking *)
  let '(r, xt) := xmldb_get0_clear (td_target td) in
  let td := set_target xt td in
  if r <? 0 then done (-1) h td cbret else
  let '(r, xs) := xmldb_get0_clear (td_src td) in
  let td := set_src xs td in
  if r <? 0 then done (-1) h td cbret else
  (* 8. success: copy candidate to running *)
  let '(r, h) := xmldb_copy h db "running" in
  if r <? 0 then done (-1) h td cbret else
  let h := xmldb_modified_set h db false in
  (* here pointers to the old (source) tree are obsolete *)
  let td := mk_td (td_src td) (td_target td) [] (td_avec td) [] (td_tcvec td)
              (td_clen td) (td_observers td) in
  (* 9. plugin transaction end callbacks *)
  let '(_, h) := plugin_transaction_end_all h td in
  done 1 h td cbret
  end.

(** [load_failsafe]: reset running and start in failsafe mode. *)
Definition load_failsafe (h : clicon_handle) (phase : option string) : Z * clicon_handle :=
  let db := "failsafe" in
  let phase := match phase with Some p => p | None => "(unknown)" end in
  let ret := xmldb_exists h db in
  if ret <? 0 then (-1, h)
  else if ret =? 0 then
    (-1, clicon_err h (phase +:+ " failed and no Failsafe database found, exiting"))
  else
  (* copy original running to tmp as backup (restore if error) *)
  let '(r, h) := xmldb_copy h "running" "tmp" in
  if r <? 0 then (-1, h) else
  let '(r, h) := xmldb_db_reset h "running" in
  if r <? 0 then (-1, h) else
  let '(ret, h, cbret) := candidate_commit h None db 0 "" in
  let '(r, h) := if negb (ret =? 1) then xmldb_copy h "tmp" "running" else (0, h) in
  if r <? 0 then (-1, h)
  else if ret <? 0 then (-1, h)
  else if ret =? 0 then
    (-1, clicon_err h (phase +:+ " failed, Failsafe database validation failed " +:+ cbret))
  else
  (0, clicon_log h (phase +:+ " failed, Failsafe database loaded ")).


(** *** What the engine leaves in the event list

    The event list only grows. The definitions below name the events a phase
    of the plugin bus adds, so that the theorems can speak of them. *)

Definition add_events (tr : list event) (h : clicon_handle) : clicon_handle :=
  mk_handle (h_options h) (h_dbspec h) (h_xmldb h) (h_plugins h) (h_cc_state h) (h_now h)
    (h_quit_upgrade h) (h_username h) (h_events h ++ tr).

Definition cb_events (ty : trans_cb_type) (cp : clixon_plugin_t) (td : transaction_data_t)
  : list event :=
  match trans_cb ty cp with
  | None => []
  | Some fn => [EvCallback ty (cp_name cp) (fn td)]
  end.

Definition cb_fails (ty : trans_cb_type) (cp : clixon_plugin_t) (td : transaction_data_t)
  : bool :=
  match trans_cb ty cp with
  | None => false
  | Some fn => fn td <? 0
  end.

(** The events and the return value of one phase over a plugin list. *)
Fixpoint phase_events (ty : trans_cb_type) (cps : list clixon_plugin_t)
  (td : transaction_data_t) : list event :=
  match cps with
  | [] => []
  | cp :: rest =>
      cb_events ty cp td ++ (if cb_fails ty cp td then [] else phase_events ty rest td)
  end.

Fixpoint phase_ret (ty : trans_cb_type) (cps : list clixon_plugin_t)
  (td : transaction_data_t) : Z :=
  match cps with
  | [] => 0
  | cp :: rest => if cb_fails ty cp td then -1 else phase_ret ty rest td
  end.

(** BEGIN: return value, events, and the transaction with its observers. *)
Fixpoint begin_run (i : nat) (cps : list clixon_plugin_t) (td : transaction_data_t)
  : Z * list event * transaction_data_t :=
  match cps with
  | [] => (0, [], td)
  | cp :: rest =>
      let td := set_observers (td_observers td ++ [i]) td in
      if cb_fails TRANS_CB_BEGIN cp td then (-1, cb_events TRANS_CB_BEGIN cp td, td)
      else
        let '(r, tr, td') := begin_run (S i) rest td in
        (r, cb_events TRANS_CB_BEGIN cp td ++ tr, td')
  end.

(** ABORT over a list of observers (already reversed). *)
Fixpoint abort_events (plugins : list clixon_plugin_t) (obs : list nat)
  (td : transaction_data_t) : list event :=
  match obs with
  | [] => []
  | i :: rest =>
      match nth_error plugins i with
      | Some cp => cb_events TRANS_CB_ABORT cp td ++ abort_events plugins rest td
      | None => abort_events plugins rest td
      end
  end.

(** The events of the [done:] block of a failed transaction. *)
Definition aborts (h : clicon_handle) (td : transaction_data_t) : list event :=
  abort_events (h_plugins h) (rev (td_observers td)) td.

(** The swap: a copy of a store into running. *)
Definition is_swap (e : event) : bool :=
  match e with
  | EvCopy _ to => String.eqb to "running"
  | _ => false
  end.

Definition is_callback (ty : trans_cb_type) (e : event) : bool :=
  match e, ty with
  | EvCallback TRANS_CB_BEGIN _ _, TRANS_CB_BEGIN
  | EvCallback TRANS_CB_VALIDATE _ _, TRANS_CB_VALIDATE
  | EvCallback TRANS_CB_COMPLETE _ _, TRANS_CB_COMPLETE
  | EvCallback TRANS_CB_COMMIT _ _, TRANS_CB_COMMIT
  | EvCallback TRANS_CB_COMMIT_DONE _ _, TRANS_CB_COMMIT_DONE
  | EvCallback TRANS_CB_END _ _, TRANS_CB_END
  | EvCallback TRANS_CB_ABORT _ _, TRANS_CB_ABORT => true
  | _, _ => false
  end.

Definition is_failed_callback (ty : trans_cb_type) (e : event) : bool :=
  match e with
  | EvCallback _ _ r => is_callback ty e && (r <? 0)
  | _ => false
  end.

(** Events of the validation part of a transaction. *)
Definition is_validation_event (e : event) : bool :=
  match e with
  | EvGet0 _ | EvErr _ | EvGenericValidate _ => true
  | EvCallback TRANS_CB_BEGIN _ _ | EvCallback TRANS_CB_VALIDATE _ _
  | EvCallback TRANS_CB_COMPLETE _ _ => true
  | _ => false
  end.

(** A failure of validation: the generic validation did not answer 1, or a
    BEGIN, VALIDATE or COMPLETE callback answered a negative value. *)
Definition is_validation_failure (e : event) : bool :=
  match e with
  | EvGenericValidate r => r <? 1
  | EvCallback TRANS_CB_BEGIN _ r | EvCallback TRANS_CB_VALIDATE _ r
  | EvCallback TRANS_CB_COMPLETE _ r => r <? 0
  | _ => false
  end.

(** Events before the generic validation: the reads and BEGIN. *)
Definition is_preamble (e : event) : bool :=
  match e with
  | EvGet0 _ | EvErr _ | EvCallback TRANS_CB_BEGIN _ _ => true
  | _ => false
  end.

Definition is_generic_validate (e : event) : bool :=
  match e with
  | EvGenericValidate _ => true
  | _ => false
  end.

Definition is_module_upgrade (e : event) : bool :=
  match e with
  | EvModuleUpgrade _ => true
  | _ => false
  end.

Definition is_log (e : event) : bool :=
  match e with
  | EvLog _ => true
  | _ => false
  end.


(** Events of confirmed-commit, phase two. *)
Definition is_confirm_event (e : event) : bool :=
  match e with
  | EvCopy _ to => String.eqb to "rollback"
  | EvDelete db => String.eqb db "rollback"
  | EvTimerArm _ | EvTimerCancel | EvErr _ => true
  | _ => false
  end.

(** The order of the observable effects of a commit. Each kind of effect has
    a rank; a trace is in order when the ranks of its effects never go down.
    [code_rank] is the order of the steps in [candidate_commit];
    [spec_rank] is the order of section 5 of the specification. *)
Definition code_rank (e : event) : option nat :=
  match e with
  | EvGenericValidate _ => Some 0%nat
  | EvCallback TRANS_CB_VALIDATE _ _ => Some 1%nat
  | EvCallback TRANS_CB_COMMIT _ _ => Some 2%nat
  | EvCallback TRANS_CB_COMMIT_DONE _ _ => Some 3%nat
  | EvCopy _ to => if String.eqb to "running" then Some 4%nat else None
  | EvCallback TRANS_CB_END _ _ => Some 5%nat
  | _ => None
  end.

Definition spec_rank (e : event) : option nat :=
  match e with
  | EvGenericValidate _ => Some 0%nat
  | EvCallback TRANS_CB_VALIDATE _ _ => Some 1%nat
  | EvCopy _ to => if String.eqb to "running" then Some 2%nat else None
  | EvCallback TRANS_CB_COMMIT _ _ => Some 3%nat
  | EvCallback TRANS_CB_COMMIT_DONE _ _ => Some 4%nat
  | EvCallback TRANS_CB_END _ _ => Some 5%nat
  | _ => None
  end.

Fixpoint ranks (rank : event -> option nat) (tr : list event) : list nat :=
  match tr with
  | [] => []
  | e :: tr' =>
      match rank e with
      | Some k => k :: ranks rank tr'
      | None => ranks rank tr'
      end
  end.

Fixpoint nondecreasing (l : list nat) : bool :=
  match l with
  | [] => true
  | a :: l' => forallb (Nat.leb a) l' && nondecreasing l'
  end.

Definition in_order (rank : event -> option nat) (tr : list event) : bool :=
  nondecreasing (ranks rank tr).

(** Sorted, and with no rank below [k]. *)
Definition sorted_from (k : nat) (l : list nat) : bool :=
  forallb (Nat.leb k) l && nondecreasing l.

(** The events since [h]. *)
Definition events_since (h h' : clicon_handle) : list event :=
  skipn (length (h_events h)) (h_events h').


(** What [validate_common] leaves behind: its return value is -1, 0 or 1,
    its events are validation events, and when it answers 1 they are the
    reads and BEGIN, the generic validation, VALIDATE and COMPLETE. *)
Definition vc_post (h : clicon_handle) (ret : Z) (h1 : clicon_handle)
  (td1 : transaction_data_t) : Prop :=
  (ret = -1 \/ ret = 0 \/ ret = 1) /\
  exists tr, h1 = add_events tr h /\
    forallb is_validation_event tr = true /\
    (ret = 1 -> exists pre,
       tr = pre ++ [EvGenericValidate 1]
               ++ phase_events TRANS_CB_VALIDATE (h_plugins h) td1
               ++ phase_events TRANS_CB_COMPLETE (h_plugins h) td1
       /\ forallb is_preamble pre = true
       /\ forallb (fun e => negb (is_validation_failure e)) tr = true
       /\ phase_ret TRANS_CB_VALIDATE (h_plugins h) td1 = 0
       /\ phase_ret TRANS_CB_COMPLETE (h_plugins h) td1 = 0).

(** Confirmed-commit, phase two, leaves every store but rollback alone. *)

Definition cc_frame (h h2 : clicon_handle) : Prop :=
  h_plugins h2 = h_plugins h /\ h_dbspec h2 = h_dbspec h /\
  (forall db, db <> "rollback" -> h_xmldb h2 !! db = h_xmldb h !! db) /\
  exists trc, h_events h2 = h_events h ++ trc /\ forallb is_confirm_event trc = true.

(** [candidate_commit]: the ways through it, by the events they leave. *)

Section Runs.
Variables (h : clicon_handle) (db : string) (td1 : transaction_data_t).

Let P := h_plugins h.
Let COMMIT := phase_events TRANS_CB_COMMIT P td1.
Let COMMIT_DONE := phase_events TRANS_CB_COMMIT_DONE P td1.

(** Stopped before the COMMIT phase: validation failed, or there is no
    schema, or confirmed-commit failed, or the error tree could not be
    written. *)
Definition run_not_committed (trv : list event) (r : Z) (h' : clicon_handle) : Prop :=
  (r = -1 \/ r = 0) /\ exists trc, forallb is_confirm_event trc = true /\
  h_events h' = h_events h ++ trv ++ trc ++ aborts h td1.

(** A COMMIT callback failed. *)
Definition run_commit_failed (trv : list event) (r : Z) (h' : clicon_handle) : Prop :=
  r = -1 /\ phase_ret TRANS_CB_COMMIT P td1 = -1 /\
  exists trc, forallb is_confirm_event trc = true /\
  h_events h' = h_events h ++ trv ++ trc ++ COMMIT ++ aborts h td1.

(** A COMMIT_DONE callback failed. *)
Definition run_commit_done_failed (trv : list event) (r : Z) (h' : clicon_handle) : Prop :=
  r = -1 /\ phase_ret TRANS_CB_COMMIT P td1 = 0 /\
  phase_ret TRANS_CB_COMMIT_DONE P td1 = -1 /\
  exists trc, forallb is_confirm_event trc = true /\
  h_events h' = h_events h ++ trv ++ trc ++ COMMIT ++ COMMIT_DONE ++ aborts h td1.

(** Clearing a tree or the copy into running failed. *)
Definition run_copy_failed (trv : list event) (r : Z) (h' : clicon_handle) : Prop :=
  r = -1 /\ phase_ret TRANS_CB_COMMIT P td1 = 0 /\
  phase_ret TRANS_CB_COMMIT_DONE P td1 = 0 /\
  exists trc errs td2, forallb is_confirm_event trc = true /\
  forallb is_confirm_event errs = true /\ td_observers td2 = td_observers td1 /\
  h_events h' = h_events h ++ trv ++ trc ++ COMMIT ++ COMMIT_DONE ++ errs ++ aborts h td2.

(** The commit went through. *)
Definition run_committed (trv : list event) (r : Z) (h2 h' : clicon_handle) : Prop :=
  r = 1 /\ phase_ret TRANS_CB_COMMIT P td1 = 0 /\
  phase_ret TRANS_CB_COMMIT_DONE P td1 = 0 /\
  exists trc td2 x, forallb is_confirm_event trc = true /\
  h_xmldb h2 !! db = Some x /\
  h_xmldb h' = <["running" := x]> (h_xmldb h2) /\
  h_events h'
  = h_events h ++ trv ++ trc ++ COMMIT ++ COMMIT_DONE
        ++ [EvCopy db "running"; EvModified db false]
        ++ phase_events TRANS_CB_END P td2.

End Runs.

(** *** What the marks of a transaction mean

    A node carries a flag when all the bits of the flag are set in its flag
    word. The node at a position is marked down with a flag when it and all
    its element descendants carry it, marked up when all its ancestors do. *)

Definition has_flag (F : Z) (x : cxobj) : Prop := Z.land (x_flags (xml_hd x)) F = F.

Definition marked_here (F : Z) (xn : xpos) (t : cxobj) : Prop :=
  forall x, xml_at xn t = Some x -> has_flag F x.

Definition marked_down (F : Z) (xn : xpos) (t : cxobj) : Prop :=
  forall x, xml_at xn t = Some x ->
  forall q n, elmnt_path q x = true -> xml_at q x = Some n -> has_flag F n.

Definition marked_up (F : Z) (xn : xpos) (t : cxobj) : Prop :=
  forall p q a, xn = p ++ q -> q <> [] -> xml_at p t = Some a -> has_flag F a.

Definition in_tree (P : cxobj -> Prop) (o : option cxobj) : Prop :=
  forall t, o = Some t -> P t.

(** The marks of one deleted, added or changed entry. *)
Definition P_del (xn : xpos) (td : transaction_data_t) : Prop :=
  in_tree (fun s => marked_down (XML_FLAG_DEL L) xn s
                    /\ marked_up (XML_FLAG_CHANGE L) xn s) (td_src td).

Definition P_add (xn : xpos) (td : transaction_data_t) : Prop :=
  in_tree (fun t => marked_down (XML_FLAG_ADD L) xn t
                    /\ marked_up (XML_FLAG_CHANGE L) xn t) (td_target td).

Definition P_chg (c : xpos * xpos) (td : transaction_data_t) : Prop :=
  in_tree (fun s => marked_here (XML_FLAG_CHANGE L) (fst c) s
                    /\ marked_up (XML_FLAG_CHANGE L) (fst c) s) (td_src td)
  /\ in_tree (fun t => marked_here (XML_FLAG_CHANGE L) (snd c) t
                       /\ marked_up (XML_FLAG_CHANGE L) (snd c) t) (td_target td).

(** The marks [validate_common] leaves in a transaction: every deleted
    entry, every added entry and every changed pair is marked. *)
Definition marks_ok (td : transaction_data_t) : Prop :=
  (forall xn, In xn (td_dvec td) -> P_del xn td)
  /\ (forall xn, In xn (td_avec td) -> P_add xn td)
  /\ (forall c, In c (changed_pairs td) -> P_chg c td).

(** One tree grew into another: same shape, same kinds, and every flag
    carried before is still carried. *)
Definition head_grew (hd hd' : xml_head) : Prop :=
  x_type hd' = x_type hd /\
  forall F, Z.land (x_flags hd) F = F -> Z.land (x_flags hd') F = F.

Fixpoint grew (t t' : cxobj) : Prop :=
  let 'XML hd cs := t in
  let 'XML hd' cs' := t' in
  head_grew hd hd' /\
  (fix all2 (l l' : list cxobj) : Prop :=
     match l, l' with
     | [], [] => True
     | a :: l, b :: l' => grew a b /\ all2 l l'
     | _, _ => False
     end) cs cs'.

Fixpoint all_grew (l l' : list cxobj) : Prop :=
  match l, l' with
  | [], [] => True
  | a :: l, b :: l' => grew a b /\ all_grew l l'
  | _, _ => False
  end.

Definition opt_grew (o o' : option cxobj) : Prop :=
  match o, o' with
  | Some t, Some t' => grew t t'
  | None, None => True
  | _, _ => False
  end.

(** A step of marking keeps the vectors and lets both trees grow. *)
Definition td_grew (td td' : transaction_data_t) : Prop :=
  td_dvec td' = td_dvec td /\ td_avec td' = td_avec td /\
  td_scvec td' = td_scvec td /\ td_tcvec td' = td_tcvec td /\
  td_clen td' = td_clen td /\
  opt_grew (td_src td) (td_src td') /\ opt_grew (td_target td) (td_target td').

(** What [startup_common] hands to validation: no source side, nothing
    deleted, nothing changed, and the added vector is the element children of
    the target, each flagged ADD together with its element descendants. *)
Definition all_adds (td : transaction_data_t) : Prop :=
  td_src td = None /\ td_dvec td = [] /\ td_scvec td = [] /\ td_tcvec td = []
  /\ td_clen td = 0%nat
  /\ exists xt, td_target td = Some xt
     /\ td_avec td = elmnt_children xt
     /\ forall xn, In xn (td_avec td) -> marked_down (XML_FLAG_ADD L) xn xt.

(** The events of [startup_common] up to generic validation: the store is
    read, the plugins upgrade the tree, the module upgrade runs when the
    module state of the store is tracked, the begin callbacks are called,
    and then the tree is validated. *)
Definition upgrade_then_validate (h : clicon_handle) (db : string) (tr : list event) : Prop :=
  exists warn r0 up trb rg post,
    tr = [EvGet0 db] ++ warn ++ [EvDatastoreUpgrade db r0] ++ up ++ trb
         ++ [EvGenericValidate rg] ++ post
    /\ forallb is_log warn = true
    /\ (if clicon_option_bool h "CLICON_XMLDB_MODSTATE"
        then exists r1, up = [EvModuleUpgrade r1]
        else up = [])
    /\ forallb (is_callback TRANS_CB_BEGIN) trb = true.

End Engine.

End Backend.

(** ** More of lib/src/clixon_xml_io.c, and its caller in clixon_debug.c *)

Module XmlIoExt.
Import Xml XmlIo.

(** *** What an element printed without its content looks like *)

(** The attributes of a child vector, as they are written. *)
Definition attrs_text (cs : list cxobj) : string :=
  fold_right (fun c t => if is_attr c then print_attr EmptyString (xml_hd c) +:+ t else t)
    EmptyString cs.

(** The look-up of hide-show on a node succeeds and answers that the
    extension is absent ([shown]), or present ([hidden]). *)
Definition shown (NS : string) (ext : yang_stmt -> string -> string -> Z * bool)
  (hd : xml_head) : bool :=
  let '(r, exist') := hide_show NS ext true hd in (0 <=? r) && negb exist'.

Definition hidden (NS : string) (ext : yang_stmt -> string -> string -> Z * bool)
  (hd : xml_head) : bool :=
  let '(r, exist') := hide_show NS ext true hd in (0 <=? r) && exist'.

(** No node of the tree carries the hide-show extension of the autocli. *)
Fixpoint no_hide_show (NS : string) (ext : yang_stmt -> string -> string -> Z * bool)
  (x : cxobj) : bool :=
  let 'XML hd cs := x in
  shown NS ext hd && forallb (no_hide_show NS ext) cs.

(** *** [xml_dump1], [xml_dump]: the debugging dump *)

Section Dump.

(** [xml_type2str] (clixon_xml.c) and the flag bits (clixon_xml.h) are not
    among the sources. *)
Variable xml_type2str : cxobj_type -> string.
Variables XML_FLAG_ADD XML_FLAG_DEL XML_FLAG_CHANGE XML_FLAG_MARK : Z.

Definition dump_flag (x : cxobj) (flag : Z) (text : string) (stderr : string) : string :=
  if negb (xml_flag x flag =? 0) then stderr +:+ text else stderr.

(** [xml_dump1 (f, x, indent)]. The function is handed the stream [f] and
    prints on stderr; both streams are kept by the model. *)
Fixpoint xml_dump1 (f stderr : string) (x : cxobj) (indent : Z) {struct x}
  : Z * string * string :=
  let 'XML hd cs := x in
  if negb (cxobj_type_eqb (x_type hd) CX_ELMNT) then (0, f, stderr)
  else
    let stderr := stderr +:+ pad (indent * 3) +:+ " " +:+ x_name hd
                    +:+ "(" +:+ xml_type2str (x_type hd) +:+ ")" in
    let stderr := dump_flag x XML_FLAG_ADD " add" stderr in
    let stderr := dump_flag x XML_FLAG_DEL " delete" stderr in
    let stderr := dump_flag x XML_FLAG_CHANGE " change" stderr in
    let stderr := dump_flag x XML_FLAG_MARK " mark" stderr in
    let stderr := stderr +:+ newline in
    let '(f, stderr) :=
      fold_left (fun (s : string * string) xc =>
                   let '(_, f', e') := xml_dump1 (fst s) (snd s) xc (indent + 1) in (f', e'))
        cs (f, stderr) in
    (0, f, stderr).

Definition xml_dump (f stderr : string) (x : cxobj) : Z * string * string :=
  xml_dump1 f stderr x 0.

End Dump.

(** *** [clixon_xml_attr_copy] *)

(** Modelled from the spec: (4.B) [xml_find_value], the value of the first
    child of the name; [xml_new] with a parent, a new node at the end of the
    child vector of the parent; [xml_value_set]. [a] is the address of the
    new node. *)
Definition xml_find_value (x : cxobj) (name : string) : option string :=
  match xml_find x name with
  | Some c => xml_value c
  | None => None
  end.

(** Modelled from the spec: [xml_new (name, parent, CX_ATTR)] followed by
    [xml_value_set]: a new attribute, last among the children of [parent]. *)
Definition xml_new_attr (a : nat) (name : string) (value : option string) (parent : cxobj)
  : cxobj :=
  XML (xml_hd parent)
    (xml_childvec parent ++ [XML (mk_head a CX_ATTR name None value 0 None) []]).

(** [clixon_xml_attr_copy (xin, xout, name)]: the return value, [xout]
    afterwards and the error reported, if any. *)
Definition clixon_xml_attr_copy (a : nat) (xin xout : option cxobj) (name : string)
  : Z * option cxobj * option string :=
  match xin, xout with
  | Some xi, Some xo =>
      match xml_find_value xi name with
      | Some msgid => (0, Some (xml_new_attr a name (Some msgid) xo), None)
      | None => (0, Some xo, None)
      end
  | _, _ => (-1, xout, Some "xin or xout NULL")
  end.

(** *** [clixon_xml_parse_file]: reading the file *)

Definition BUFLEN : Z := 1024.
Definition nul : ascii := "000"%char.

(** [len] and [xmlbuflen] are of type [int], taken to be of 32 bits: the
    value that a computation leaves in an [int]. *)
Definition int_wrap (z : Z) : Z := (z + 2147483648) mod 4294967296 - 2147483648.

(** [xmlbuf[len] = ch], in an allocation of [length xmlbuf] characters:
    [None] for a write outside of it. *)
Definition buf_write (xmlbuf : list ascii) (len : Z) (ch : ascii) : option (list ascii) :=
  if (0 <=? len) && (len <? Z.of_nat (length xmlbuf))
  then Some (<[Z.to_nat len := ch]> xmlbuf) else None.

(** [realloc (xmlbuf, xmlbuflen)] with the [memset] of the new part that
    follows it. The size is converted to [size_t], taken to be of 64 bits:
    a negative [int] asks for more than 2^63 characters, which realloc
    refuses with NULL. Any other failure of the allocator is left out. *)
Definition realloc_zeroed (xmlbuf : list ascii) (oldxmlbuflen xmlbuflen : Z)
  : option (list ascii) :=
  if xmlbuflen <? 0 then None
  else Some (firstn (Z.to_nat xmlbuflen) xmlbuf
             ++ repeat nul (Z.to_nat (xmlbuflen - oldxmlbuflen))).

(** How the loop ends: at the end of the file, with the buffer, its size and
    the number of characters read; with realloc failing; or in a write
    outside of the buffer. *)
Inductive read_result : Type :=
  | ReadDone (xmlbuf : list ascii) (xmlbuflen len : Z)
  | ReadRealloc
  | ReadOutside.

(** The loop [while (1)] up to the call of the parser: one turn per
    character that fread delivers; the size of the buffer doubles, and the
    new part is set to zero, when only the place of the null character is
    left. *)
Fixpoint read_file (file : list ascii) (xmlbuf : list ascii) (xmlbuflen len : Z)
  : read_result :=
  match file with
  | [] => ReadDone xmlbuf xmlbuflen len
  | ch :: file' =>
      match buf_write xmlbuf len ch with
      | None => ReadOutside
      | Some xmlbuf =>
          let len := int_wrap (len + 1) in
          if int_wrap (xmlbuflen - 1) <=? len then
            let oldxmlbuflen := xmlbuflen in
            let xmlbuflen := int_wrap (xmlbuflen * 2) in
            match realloc_zeroed xmlbuf oldxmlbuflen xmlbuflen with
            | None => ReadRealloc
            | Some xmlbuf => read_file file' xmlbuf xmlbuflen len
            end
          else read_file file' xmlbuf xmlbuflen len
      end
  end.

(** The string a [char *] points to: the characters before the first null
    character. *)
Fixpoint cstring (buf : list ascii) : string :=
  match buf with
  | [] => EmptyString
  | c :: buf' => if Ascii.eqb c nul then EmptyString else String c (cstring buf')
  end.

(** *** [_xml_parse], [clixon_xml_parse_string], [clixon_xml_parse_file] *)

Inductive yang_bind : Type := YB_NONE | YB_MODULE | YB_MODULE_NEXT | YB_PARENT | YB_RPC.

Definition yang_bind_eqb (a b : yang_bind) : bool :=
  match a, b with
  | YB_NONE, YB_NONE | YB_MODULE, YB_MODULE | YB_MODULE_NEXT, YB_MODULE_NEXT
  | YB_PARENT, YB_PARENT | YB_RPC, YB_RPC => true
  | _, _ => false
  end.

(** The parser generated by yacc, the namespace check, the binding to the
    schema and the sorting are not among the sources: [_xml_parse] takes them
    as a library. The parser is handed the top of the tree and answers the
    tree with the new objects added under the top, and the vector of the new
    objects (their addresses); [None] stands for a parse error. The binding
    functions answer their return value, the tree and the error tree, if
    they set one. *)
Record parse_lib : Type := mk_parse_lib {
  XML_TOP_SYMBOL : string;
  clixon_xml_parseparse : string -> cxobj -> option yang_stmt -> option (cxobj * list nat);
  xml2ns_recurse : cxobj -> nat -> Z;
  xml_bind_yang0 : cxobj -> nat -> yang_bind -> option yang_stmt -> Z * cxobj * option cxobj;
  xml_bind_yang : cxobj -> nat -> yang_bind -> option yang_stmt -> Z * cxobj * option cxobj;
  xml_bind_yang_rpc : cxobj -> nat -> option yang_stmt -> Z * cxobj * option cxobj;
  xml_sort_recurse : cxobj -> Z * cxobj
}.

Section Parse.

Variable P : parse_lib.

(** The loop that purges the top-level body objects: the children of the
    top that are bodies called body. *)
Definition purge_top_bodies (xt : cxobj) : cxobj :=
  XML (xml_hd xt)
    (List.filter (fun c => negb (cxobj_type_eqb (xml_type c) CX_BODY
                                 && String.eqb (xml_name c) "body"))
       (xml_childvec xt)).

Definition or_else (new old : option cxobj) : option cxobj :=
  match new with
  | Some _ => new
  | None => old
  end.

(** The [switch] on the binding of one new object [x]: the return value of
    the binding, the tree and the error tree. For an rpc that does not bind,
    the message-id of the rpc is copied to the error tree; [a] is the address
    of the attribute made for it. *)
Definition bind_one (a : nat) (yb : yang_bind) (yspec : option yang_stmt) (xt : cxobj)
  (x : nat) (xerr : option cxobj) : Z * cxobj * option cxobj :=
  match yb with
  | YB_NONE => (1, xt, xerr)
  | YB_PARENT =>
      let '(ret, xt, e) := xml_bind_yang0 P xt x YB_PARENT None in (ret, xt, or_else e xerr)
  | YB_MODULE_NEXT =>
      let '(ret, xt, e) := xml_bind_yang P xt x YB_MODULE yspec in (ret, xt, or_else e xerr)
  | YB_MODULE =>
      let '(ret, xt, e) := xml_bind_yang0 P xt x YB_MODULE yspec in (ret, xt, or_else e xerr)
  | YB_RPC =>
      let '(ret, xt, e) := xml_bind_yang_rpc P xt x yspec in
      let xerr := or_else e xerr in
      if ret =? 0 then
        match xerr with
        | Some xe =>
            let '(r, xe', _) :=
              clixon_xml_attr_copy a (Changelog.xml_find_addr x xt) (Some xe) "message-id" in
            if r <? 0 then (-1, xt, xe') else (0, xt, xe')
        | None => (0, xt, None)
        end
      else (ret, xt, xerr)
  end.

(** The loop over the new objects; [failed] counts the objects that did not
    bind. *)
Fixpoint traverse_new (a : nat) (yb : yang_bind) (yspec : option yang_stmt)
  (xvec : list nat) (xt : cxobj) (xerr : option cxobj) (failed : nat)
  : Z * cxobj * option cxobj * nat :=
  match xvec with
  | [] => (0, xt, xerr, failed)
  | x :: rest =>
      (* verify namespaces after parsing *)
      if xml2ns_recurse P xt x <? 0 then (-1, xt, xerr, failed)
      else
        let '(ret, xt, xerr) := bind_one a yb yspec xt x xerr in
        if ret <? 0 then (-1, xt, xerr, failed)
        else traverse_new a yb yspec rest xt xerr (if ret =? 0 then S failed else failed)
  end.

(** [_xml_parse (str, yb, yspec, xt, xerr)]: the return value, the tree, the
    error tree and the error reported, if any. *)
Definition _xml_parse (a : nat) (str : string) (yb : yang_bind) (yspec : option yang_stmt)
  (xt : option cxobj) (xerr : option cxobj)
  : Z * option cxobj * option cxobj * option string :=
  if strlen str =? 0 then (1, xt, xerr, None)
  else
    match xt with
    | None => (-1, None, xerr, Some "Unexpected NULL XML")
    | Some xtop =>
        match clixon_xml_parseparse P str xtop yspec with
        | None => (-1, xt, xerr, Some "parse")
        | Some (xtop, xvec) =>
            (* purge all top-level body objects *)
            let xtop := purge_top_bodies xtop in
            (* traverse new objects *)
            let '(r, xtop, xerr, failed) := traverse_new a yb yspec xvec xtop xerr 0 in
            if r <? 0 then (-1, Some xtop, xerr, None)
            else if negb (Nat.eqb failed 0) then (0, Some xtop, xerr, None)
            else if negb (yang_bind_eqb yb YB_NONE) then
              (* sort the complete tree after parsing *)
              let '(r, xtop) := xml_sort_recurse P xtop in
              if r <? 0 then (-1, Some xtop, xerr, None) else (1, Some xtop, xerr, None)
            else (1, Some xtop, xerr, None)
        end
    end.

(** Modelled from the spec: [xml_new (name, NULL, CX_ELMNT)], at address [a]. *)
Definition xml_new_top (a : nat) : cxobj :=
  XML (mk_head a CX_ELMNT (XML_TOP_SYMBOL P) None None 0 None) [].

(** The top that the parser is handed: the tree of the caller, or a new top. *)
Definition top_of (a : nat) (xt : option cxobj) : cxobj :=
  match xt with
  | Some t => t
  | None => xml_new_top a
  end.

(** [clixon_xml_parse_string (str, yb, yspec, xt, xerr)]. [xt] is the tree
    the caller points to, or NULL; a NULL pointer to it is [xtp = false].
    [a] and [a'] are the addresses handed out for the top and for a copied
    attribute. *)
Definition clixon_xml_parse_string (a a' : nat) (str : string) (yb : yang_bind)
  (yspec : option yang_stmt) (xtp : bool) (xt : option cxobj) (xerr : option cxobj)
  : Z * option cxobj * option cxobj * option string :=
  if negb xtp then (-1, xt, xerr, Some "xt is NULL")
  else if yang_bind_eqb yb YB_MODULE && (match yspec with None => true | Some _ => false end)
  then (-1, xt, xerr, Some "yspec is required if yb == YB_MODULE")
  else
    let xt := match xt with
              | None => Some (xml_new_top a)
              | Some _ => xt
              end in
    _xml_parse a' str yb yspec xt xerr.

(** [clixon_xml_parse_file (fp, yb, yspec, xt, xerr)]; [file] is what is
    left to read of the stream, [None] a NULL stream. When the result is
    below zero the tree is freed; it is when realloc fails. A write outside
    of the buffer has no result. *)
Definition clixon_xml_parse_file (a a' : nat) (fp : option (list ascii)) (yb : yang_bind)
  (yspec : option yang_stmt) (xtp : bool) (xt : option cxobj) (xerr : option cxobj)
  : option (Z * option cxobj * option cxobj * option string) :=
  match xtp, fp with
  | true, Some file =>
      if yang_bind_eqb yb YB_MODULE && (match yspec with None => true | Some _ => false end)
      then Some (-1, xt, xerr, Some "yspec is required if yb == YB_MODULE")
      else
        match read_file file (repeat nul (Z.to_nat BUFLEN)) BUFLEN 0 with
        | ReadOutside => None
        | ReadRealloc => Some (-1, None, xerr, Some "realloc")
        | ReadDone xmlbuf _ _ =>
            let xt := match xt with
                      | None => Some (xml_new_top a)
                      | Some _ => xt
                      end in
            let '(ret, xt, xerr, err) := _xml_parse a' (cstring xmlbuf) yb yspec xt xerr in
            if ret <? 0 then Some (-1, None, xerr, err)
            else Some (if ret =? 0 then 0 else 1, xt, xerr, err)
        end
  | _, _ => Some (-1, xt, xerr, Some "arg is NULL")
  end.

End Parse.

(** *** [clixon_debug_init], [clixon_debug_get], [clixon_debug_fn]
    (clixon_debug.c) *)

(** The global debug level and what [clixon_log_str] was handed. *)
Record debug_state : Type := mk_debug {
  _debug_level : Z;
  dbg_log : list string
}.

Definition clixon_debug_init (st : debug_state) (dbglevel : Z) : Z * debug_state :=
  (0, mk_debug dbglevel (dbg_log st)).

Definition clixon_debug_get (st : debug_state) : Z := _debug_level st.

Definition clixon_log_str (st : debug_state) (msg : string) : debug_state :=
  mk_debug (_debug_level st) (dbg_log st ++ [msg]).

(** Modelled from its use: [cbuf_trunc] of cligen cuts a buffer to its
    first characters. *)
Definition cbuf_trunc (cb : string) (n : nat) : string := substring 0 n cb.

(** The cut of a long debug string: [trunc] is the log string limit, 0 for
    none. *)
Definition log_string_limit (trunc : nat) (cb : string) : string :=
  if negb (Nat.eqb trunc 0) && (trunc <? String.length cb)%nat
  then cbuf_trunc cb trunc else cb.

Section Debug.

Variable PRETTYPRINT_INDENT : Z.
(** [xml_chardata_cbuf_append], as for the printers. *)
Variable chardata : string -> option string.
(** [clixon_plugin_errmsg_all]: the customised message of a plugin, if one
    makes it; [clixon_log_string_limit_get]. Neither is among the sources. *)
Variable clixon_plugin_errmsg_all : option cxobj -> string -> Z * option string.
Variable clixon_log_string_limit_get : nat.

(** [clixon_debug_fn (h, dbglevel, x, format, ...)]; [msg] is the text the
    format and its arguments make. *)
Definition clixon_debug_fn (st : debug_state) (dbglevel : Z) (x : option cxobj)
  (msg : string) : Z * debug_state :=
  (* mask debug level with global dbg variable *)
  if Z.land dbglevel (clixon_debug_get st) =? 0 then (0, st)
  else
    let '(r, custom) := clixon_plugin_errmsg_all x msg in
    if r <? 0 then (-1, st)
    else
      match custom with
      | Some cb => (0, clixon_log_str st cb)
      | None =>
          let cb := msg in
          let '(r, cb) :=
            match x with
            | Some x =>
                clixon_xml2cbuf PRETTYPRINT_INDENT chardata (cb +:+ ": ") x 0 false None
                  (-1) false
            | None => (0, cb)
            end in
          if r <? 0 then (-1, st)
          else
            (* truncate long debug strings *)
            let cb := log_string_limit clixon_log_string_limit_get cb in
            (0, clixon_log_str st cb)
      end.

End Debug.

End XmlIoExt.

(** ** More of lib/src/clixon_xml_changelog.c *)

Module ChangelogExt.
Import Xml Changelog XmlIoExt.

(** The operations that the switch of [changelog_op] knows. *)
Definition known_op (op : string) : bool :=
  String.eqb op "rename" || String.eqb op "replace" || String.eqb op "insert"
  || String.eqb op "delete" || String.eqb op "move".

(** *** [xml_namespace_vec] *)

(** What the function comes to: it returns, with the vector it allocated
    and the length it reports; or it hands a null string to strcmp, or
    writes outside of the vector, which C gives no meaning. *)
Inductive vec_result : Type :=
  | VecReturn (retval : Z) (vec : list (option nat)) (veclen : nat)
  | VecNullString
  | VecOverrun.

Section NamespaceVec.

(** [xml2ns (x, NULL, &ns)] (clixon_xml_nsctx.c, not among the sources): the
    return value and the namespace of a node of the tree, NULL when it has
    none. *)
Variable xml2ns : cxobj -> cxobj -> Z * option string.

(** The loop over the element children: [xvec[i++] = xc] for each child of
    the namespace. *)
Fixpoint namespace_each (xt : cxobj) (ns : string) (cs : list cxobj)
  (xvec : list (option nat)) (i : nat) : vec_result :=
  match cs with
  | [] => VecReturn 0 xvec i
  | xc :: rest =>
      let '(r, ns0) := xml2ns xt xc in
      if r <? 0 then VecReturn (-1) [] 0
      else
        match ns0 with
        | None => VecNullString
        | Some ns0 =>
            if negb (String.eqb ns ns0) then namespace_each xt ns rest xvec i
            else if (i <? length xvec)%nat
                 then namespace_each xt ns rest (<[i := Some (xml_addr xc)]> xvec) (S i)
                 else VecOverrun
        end
  end.

(** [xml_namespace_vec (h, xt, ns, vecp, veclenp)]: the vector is allocated
    for the number of element children and one more, all NULL. *)
Definition xml_namespace_vec (xt : cxobj) (ns : string) : vec_result :=
  let xlen := S (length (xml_child_each xt (Some CX_ELMNT))) in
  namespace_each xt ns (xml_child_each xt (Some CX_ELMNT)) (repeat None xlen) 0.

(** The element children of the namespace. *)
Definition in_namespace (xt : cxobj) (ns : string) (xc : cxobj) : bool :=
  match snd (xml2ns xt xc) with
  | Some ns0 => String.eqb ns ns0
  | None => false
  end.

(** Every element child has a namespace, and [xml2ns] finds it. *)
Definition all_have_namespace (xt : cxobj) : bool :=
  forallb (fun xc => negb (fst (xml2ns xt xc) <? 0)
                     && match snd (xml2ns xt xc) with Some _ => true | None => false end)
    (xml_child_each xt (Some CX_ELMNT)).

End NamespaceVec.

(** *** [clixon_xml_changelog_init] *)

Section Init.

Variable P : parse_lib.
(** Not among the sources: the string options of the handle, the files that
    fopen finds, the schema of the handle, [xml_rootchild] and the two
    validations, each with its return value. *)
Variable clicon_option_str : string -> option string.
Variable fopen : string -> option (list ascii).
Variable clicon_dbspec_yang : option yang_stmt.
Variable xml_rootchild : cxobj -> nat -> option cxobj.
Variable xml_yang_validate_all : cxobj -> Z * option cxobj.
Variable xml_yang_validate_add : cxobj -> Z * option cxobj.

Definition clixon_err (h : clixon_handle) (reason : string) : clixon_handle :=
  mk_clixon_handle (ch_options h) (ch_changelog h) (ch_next h) (ch_err h ++ [reason]).

Definition clicon_xml_changelog_set (h : clixon_handle) (xt : cxobj) : clixon_handle :=
  mk_clixon_handle (ch_options h) (Some xt) (ch_next h) (ch_err h).

Definition take_addrs (n : nat) (h : clixon_handle) : clixon_handle :=
  mk_clixon_handle (ch_options h) (ch_changelog h) (ch_next h + n) (ch_err h).

(** [clixon_xml_changelog_init (h)]. A write outside of the read buffer
    would be [None]. *)
Definition clixon_xml_changelog_init (h : clixon_handle) : option (Z * clixon_handle) :=
  let yspec := clicon_dbspec_yang in
  match clicon_option_str "CLICON_XML_CHANGELOG_FILE" with
  | None => Some (0, h)
  | Some filename =>
      match fopen filename with
      | None => Some (-1, clixon_err h ("fopen(" +:+ filename +:+ ")"))
      | Some file =>
          match clixon_xml_parse_file P (ch_next h) (S (ch_next h)) (Some file) YB_MODULE
                  yspec true None None with
          | None => None
          | Some (ret, xt, _, err) =>
              let h := take_addrs 2 h in
              let h := match err with Some e => clixon_err h e | None => h end in
              if ret <? 0 then Some (-1, h)
              else
                match xt with
                | None => Some (-1, h)
                | Some xt =>
                    match xml_rootchild xt 0 with
                    | None => Some (-1, h)
                    | Some xt =>
                        let '(ret, xret) := xml_yang_validate_all xt in
                        if ret <? 0 then Some (-1, h)
                        else
                          let '(r, ret) :=
                            if ret =? 1
                            then let ret := fst (xml_yang_validate_add xt) in
                                 (if ret <? 0 then -1 else 0, ret)
                            else (0, ret) in
                          if r <? 0 then Some (-1, h)
                          else
                            let h := if ret =? 0 then clixon_err h "validation failed"
                                     else h in
                            Some (0, clicon_xml_changelog_set h xt)
                    end
                end
          end
      end
  end.

End Init.

End ChangelogExt.

(** ** The rest of apps/backend/backend_commit.c: the rpc callbacks *)

From Stdlib Require DecimalString.

Module BackendExt.
Import Xml Backend.



(** A callback that answered a negative value. *)
Definition is_failed_event (e : event) : bool :=
  match e with
  | EvCallback _ _ ret => ret <? 0
  | _ => false
  end.

(** An event that is not a callback, or is a callback of the plugin [cp]
    other than ABORT. *)
Definition of_plugin (cp : clixon_plugin_t) (e : event) : bool :=
  match e with
  | EvCallback ty name _ =>
      String.eqb name (cp_name cp) && negb (is_callback TRANS_CB_ABORT e)
  | _ => true
  end.

(** printf of an unsigned int with [%u]. *)
Definition print_u (n : Z) : string :=
  DecimalString.NilZero.string_of_uint (N.to_uint (Z.to_N n)).

Section Client.

Variable L : clixon_lib.

(** Not among the sources: the namespace constant of clixon_netconf_lib.h,
    the lock table of the datastores, phase one of confirmed-commit
    (backend_confirm.c), the replies of clixon_netconf_lib.c, the look-up of
    a datastore name in a request, and the context check around a plugin
    callback. *)
Variable NETCONF_BASE_NAMESPACE : string.
Variable xmldb_islocked : clicon_handle -> string -> Z.
Variable from_client_confirmed_commit :
  clicon_handle -> commit_request -> Z -> string -> Z * clicon_handle * string.
Variable netconf_in_use : string -> string -> string -> Z * string.
Variable netconf_lock_denied : string -> string -> string -> Z * string.
Variable netconf_missing_element : string -> string -> string -> Z * string.
Variable netconf_db_find : cxobj -> string -> option string.
Variable plugin_context_check : clicon_handle -> string -> Z.

(** The ok reply that [cprintf] appends to the reply buffer, with the base
    namespace in double quotes. *)
Definition ok_reply (cbret : string) : string :=
  cbret +:+ "<rpc-reply xmlns=" +:+ XmlIo.dquote +:+ NETCONF_BASE_NAMESPACE +:+ XmlIo.dquote
    +:+ "><ok/></rpc-reply>".

(** [from_client_commit (h, xe, cbret, arg, regarg)]; [myid] is the session
    id of the client entry [arg]. *)
Definition from_client_commit (h : clicon_handle) (xe : commit_request) (cbret : string)
  (myid : Z) : Z * clicon_handle * string :=
  match clicon_dbspec_yang h with
  | None => (-1, clicon_err h "No yang spec", cbret)
  | Some yspec =>
      let feature := if_feature yspec "ietf-netconf" "confirmed-commit" in
      let '(ret, h, cbret) :=
        if feature then from_client_confirmed_commit h xe myid cbret else (1, h, cbret) in
      if feature && (ret <? 0) then (-1, h, cbret)
      else if feature && (ret =? 0) then (0, h, cbret)
      else
        (* check if target locked by other client *)
        let iddb := xmldb_islocked h "running" in
        if negb (iddb =? 0) && negb (myid =? iddb) then
          let '(r, cbret) :=
            netconf_in_use cbret "protocol" "Operation failed, lock is already held" in
          if r <? 0 then (-1, h, cbret) else (0, h, cbret)
        else
          let '(ret, h, cbret) := candidate_commit L h (Some xe) "candidate" myid cbret in
          if ret <? 0 then
            (* assume validation fail, nofatal *)
            let '(r, cbret) :=
              netconf_operation_failed L cbret "application" (clicon_err_reason h) in
            if r <? 0 then (-1, h, cbret) else (0, h, cbret)
          else (0, h, if ret =? 1 then ok_reply cbret else cbret)
  end.

(** [from_client_discard_changes (h, xe, cbret, arg, regarg)]. *)
Definition from_client_discard_changes (h : clicon_handle) (cbret : string) (myid : Z)
  : Z * clicon_handle * string :=
  (* check if target locked by other client *)
  let iddb := xmldb_islocked h "candidate" in
  if negb (iddb =? 0) && negb (myid =? iddb) then
    let cbx := "<session-id>" +:+ print_u iddb +:+ "</session-id>" in
    let '(r, cbret) :=
      netconf_lock_denied cbret cbx "Operation failed, lock is already held" in
    if r <? 0 then (-1, h, cbret) else (0, h, cbret)
  else
    let '(r, h) := xmldb_copy h "running" "candidate" in
    if r <? 0 then
      let '(r, cbret) :=
        netconf_operation_failed L cbret "application" (clicon_err_reason h) in
      if r <? 0 then (-1, h, cbret) else (0, h, cbret)
    else
      (* reset dirty bit *)
      let h := xmldb_modified_set h "candidate" false in
      (0, h, ok_reply cbret).

(** [from_client_validate (h, xe, cbret, arg, regarg)]. *)
Definition from_client_validate (h : clicon_handle) (xe : cxobj) (cbret : string)
  : Z * clicon_handle * string :=
  match netconf_db_find xe "source" with
  | None =>
      let '(r, cbret) := netconf_missing_element cbret "protocol" "source" in
      if r <? 0 then (-1, h, cbret) else (0, h, cbret)
  | Some db =>
      let '(ret, h, cbret) := candidate_validate L h db cbret in
      if ret <? 0 then (-1, h, cbret)
      else (0, h, if ret =? 1 then ok_reply cbret else cbret)
  end.

(** The reset callback of a plugin ([ca_reset]): its return value and what
    it leaves of the handle. *)
Definition plgreset_t : Type := clicon_handle -> string -> Z * clicon_handle.

(** The five calls [plugin_transaction_validate_one] to
    [plugin_transaction_end_one] of [from_client_restart_one]: the first
    that fails stops them. *)
Fixpoint phases_one (tys : list trans_cb_type) (cp : clixon_plugin_t) (h : clicon_handle)
  (td : transaction_data_t) : Z * clicon_handle :=
  match tys with
  | [] => (0, h)
  | ty :: rest =>
      let '(r, h) := plugin_transaction_one ty cp h td in
      if r <? 0 then (-1, h) else phases_one rest cp h td
  end.

(** [from_client_restart_one (h, cp, cbret)]; [resetfn] is the reset
    callback of the plugin [cp], or NULL. [generic_validate] does not read
    its schema argument, which may be NULL here; it is handed an empty one
    then. *)
Definition from_client_restart_one (h : clicon_handle) (cp : clixon_plugin_t)
  (resetfn : option plgreset_t) (cbret : string) : Z * clicon_handle * string :=
  let retval := -1 in
  let db := "tmp" in
  let yspec := match clicon_dbspec_yang h with
               | Some y => y
               | None => mk_yang [] []
               end in
  let '(r, h) := xmldb_db_reset L h db in
  if r <? 0 then (retval, h, cbret) else
  (* application may define extra xml in its reset function *)
  let '(stop, retval, h) :=
    match resetfn with
    | None => (false, retval, h)
    | Some fn =>
        if plugin_context_check h (cp_name cp) <? 0 then (true, retval, h)
        else
          let '(retval, h) := fn h db in
          if retval <? 0 then (true, retval, h)
          else if plugin_context_check h (cp_name cp) <? 0 then (true, retval, h)
          else (false, retval, h)
    end in
  if stop then (retval, h, cbret) else
  (* 1. start transaction *)
  let td := transaction_new in
  (* this is the state we are going to *)
  let '(ret, h, xt, _, _) := xmldb_get0 L h "running" YB_MODULE in
  let td := set_target xt td in
  if ret <? 0 then (retval, h, cbret) else
  match td_target td with
  | None => (retval, h, cbret)
  | Some target =>
  let '(ret, xerr) := xml_yang_validate_all_top L target in
  if ret <? 0 then (retval, h, cbret)
  else if ret =? 0 then
    let '(r, cbret) := xml2cbuf_error L cbret xerr in
    if r <? 0 then (retval, h, cbret) else (0, h, cbret)
  else
  (* this is the state we are going from *)
  let '(ret, h, xs, _, _) := xmldb_get0 L h db YB_MODULE in
  let td := set_src xs td in
  if ret <? 0 then (retval, h, cbret) else
  match td_src td with
  | None => (retval, h, cbret)
  | Some src =>
  (* 3. compute differences *)
  match xml_diff L src target with
  | None => (retval, h, cbret)
  | Some (dvec, avec, cvec) =>
  let td := mk_td (td_src td) (td_target td) dvec avec (map fst cvec) (map snd cvec)
              (length cvec) (td_observers td) in
  (* mark as changed in tree *)
  let td := mark_diff L td in
  (* call plugin transaction start callbacks *)
  let '(r, h) := plugin_transaction_one TRANS_CB_BEGIN cp h td in
  if r <? 0 then (0, h, cbret) else
  (* make generic validation on all new or changed data *)
  let '(ret, h, xerr) := generic_validate L h yspec td in
  if ret <? 0 then (retval, h, cbret)
  else if ret =? 0 then
    let '(r, cbret) := xml2cbuf_error L cbret xerr in
    if r <? 0 then (retval, h, cbret) else (0, h, cbret)
  else
  (* validate, complete, commit, commit done and end callbacks in this plugin *)
  let '(r, h) :=
    phases_one [TRANS_CB_VALIDATE; TRANS_CB_COMPLETE; TRANS_CB_COMMIT;
                TRANS_CB_COMMIT_DONE; TRANS_CB_END] cp h td in
  if r <? 0 then (0, h, cbret) else (1, h, cbret)
  end end end.

End Client.

End BackendExt.

(** ** Concrete instances, used to run the model *)

Module Examples.
Import Xml Backend.

(** A small library: flags as in a bit set, a diff of the top-level elements
    by name and body, a validator that refuses an element called invalid. *)
Definition names_of (x : cxobj) : list string := map xml_name (xml_childvec x).

Fixpoint positions_where_from (i : nat) (ok : cxobj -> bool) (cs : list cxobj) : list xpos :=
  match cs with
  | [] => []
  | c :: cs' =>
      if ok c then [i] :: positions_where_from (S i) ok cs'
      else positions_where_from (S i) ok cs'
  end.

Fixpoint index_of_from (i : nat) (name : string) (cs : list cxobj) : option nat :=
  match cs with
  | [] => None
  | c :: cs' => if String.eqb (xml_name c) name then Some i else index_of_from (S i) name cs'
  end.

Definition body_eqb (a b : cxobj) : bool :=
  match xml_body a, xml_body b with
  | Some u, Some v => String.eqb u v
  | None, None => true
  | _, _ => false
  end.

Fixpoint changed_from (i : nat) (cs : list cxobj) (t : cxobj) : list (xpos * xpos) :=
  match cs with
  | [] => []
  | c :: cs' =>
      match index_of_from 0 (xml_name c) (xml_childvec t) with
      | Some j =>
          match nth_error (xml_childvec t) j with
          | Some c' => if body_eqb c c' then changed_from (S i) cs' t
                       else ([i], [j]) :: changed_from (S i) cs' t
          | None => changed_from (S i) cs' t
          end
      | None => changed_from (S i) cs' t
      end
  end.

Definition has_name (l : list string) (c : cxobj) : bool :=
  existsb (String.eqb (xml_name c)) l.

Definition ex_diff (s t : cxobj) : option (list xpos * list xpos * list (xpos * xpos)) :=
  Some (positions_where_from 0 (fun c => negb (has_name (names_of t) c)) (xml_childvec s),
        positions_where_from 0 (fun c => negb (has_name (names_of s) c)) (xml_childvec t),
        changed_from 0 (xml_childvec s) t).

Definition ex_error : cxobj := elmnt 0 "rpc-error" [elmnt 0 "error-tag" [body 0 "invalid-value"]].

Definition ex_validate_all_top (x : cxobj) : Z * option cxobj :=
  if has_name ["invalid"] x || existsb (has_name ["invalid"]) (xml_childvec x)
  then (0, Some ex_error) else (1, None).

Definition ex_lib : clixon_lib :=
  mk_lib 1 2 4 8 3 "config"
    ex_diff
    ex_validate_all_top
    (fun _ _ => (1, None))
    (fun x _ _ => (1, x, None))
    (fun _ => (1, None))
    (fun x => (0, x))
    (fun x _ => (0, x))
    (fun x => (0, x))
    (fun x _ => (1, x, EmptyString))
    (fun _ x => (1, x, None))
    (fun _ => mk_msdiff 1 None)
    (fun x => (0, x))
    (fun _ _ x => (1, x, EmptyString))
    (elmnt 0 "config" [])
    (fun cb _ msg => (0, cb +:+ msg))
    (fun _ => 0)
    (fun s => Some (XmlIo.xml_chardata_encode s)).

(** Plugins: one whose callbacks all succeed, one whose commit fails. *)
Definition ok_cb : option (transaction_data_t -> Z) := Some (fun _ => 0).

Definition ex_plugin (name : string) : clixon_plugin_t :=
  mk_plugin name None ok_cb ok_cb ok_cb ok_cb ok_cb ok_cb ok_cb.


Definition ex_running : cxobj :=
  elmnt 1 "config" [elmnt 2 "a" [body 3 "1"]; elmnt 4 "b" [elmnt 5 "b1" []]].

Definition ex_candidate : cxobj :=
  elmnt 1 "config" [elmnt 2 "a" [body 3 "2"]; elmnt 6 "c" [elmnt 7 "d" [body 8 "x"]]].


Definition ex_failsafe : cxobj := elmnt 1 "config" [elmnt 2 "safe" []].

Definition ex_yspec : yang_stmt := mk_yang [] [].

Definition ex_stores (cand : cxobj) : gmap string cxobj :=
  <["candidate" := cand]> (<["running" := ex_running]> (<["failsafe" := ex_failsafe]> ∅)).

Definition ex_handle (plugins : list clixon_plugin_t) (cand : cxobj) : clicon_handle :=
  mk_handle (fun _ => false) (Some ex_yspec) (ex_stores cand) plugins IDLE 0 0 None [].

(** A handle whose startup store holds [start]; [modstate] is the value of
    CLICON_XMLDB_MODSTATE, every other option is off. *)
Definition ex_startup_handle (modstate : bool) (plugins : list clixon_plugin_t)
  (start : cxobj) : clicon_handle :=
  mk_handle (fun name => modstate && String.eqb name "CLICON_XMLDB_MODSTATE")
    (Some ex_yspec) (<["startup" := start]> (ex_stores ex_candidate)) plugins IDLE 0 0 None [].


Definition ex_h_ok : clicon_handle := ex_handle [ex_plugin "p1"; ex_plugin "p2"] ex_candidate.
Definition ex_run_ok : Z * clicon_handle * string :=
  candidate_commit ex_lib ex_h_ok None "candidate" 0 "".


Definition ex_run_validate : Z * clicon_handle * transaction_data_t * option cxobj :=
  validate_common ex_lib ex_h_ok "candidate" transaction_new None.

Definition ex_run_failsafe : Z * clicon_handle := load_failsafe ex_lib ex_h_ok (Some "Startup").

Definition sr_retval (s : startup_result) : Z :=
  match s with SReturn r _ _ _ => r | SExit r _ => r end.
Definition sr_handle (s : startup_result) : clicon_handle :=
  match s with SReturn _ h _ _ => h | SExit _ h => h end.
Definition sr_td (s : startup_result) : transaction_data_t :=
  match s with SReturn _ _ td _ => td | SExit _ _ => transaction_new end.
Definition sr_cbret (s : startup_result) : string :=
  match s with SReturn _ _ _ cb => cb | SExit _ _ => EmptyString end.

Definition ex_h_startup (modstate : bool) : clicon_handle :=
  ex_startup_handle modstate [ex_plugin "p1"] ex_candidate.
Definition ex_run_startup (modstate : bool) : startup_result :=
  startup_common ex_lib (ex_h_startup modstate) "startup" transaction_new "".

Definition so_retval (s : startup_outcome) : Z :=
  match s with Returned r _ _ _ => r | ProcessExit r _ => r end.
Definition so_handle (s : startup_outcome) : clicon_handle :=
  match s with Returned _ h _ _ => h | ProcessExit _ h => h end.

Definition ex_run_startup_commit : startup_outcome :=
  startup_commit ex_lib (ex_h_startup false) "startup" "".
Definition ex_run_startup_validate : startup_outcome :=
  startup_validate ex_lib (ex_h_startup false) "startup" "".

End Examples.

(** ** A small XPath library and changelogs, used to run the upgrader *)

Module ChangelogExamples.
Import Xml Changelog.

Definition children_named (name : string) (n : cxobj) : list cxobj :=
  List.filter (fun c => String.eqb (xml_name c) name) (xml_childvec n).

(** The namespace in the path [changelog[namespace=...]]. *)
Definition namespace_arg (s : string) : string :=
  substring 21 (String.length s - 23) s.

Definition has_namespace (ns : string) (c : cxobj) : bool :=
  match xml_find_body c "namespace" with
  | Some b => String.eqb b ns
  | None => false
  end.

(** Three kinds of path: the changelogs of a namespace, an absolute path of
    one name, and a relative path of one name. *)
Definition ex_xpath_vec (t : cxobj) (ctx : nat) (nsc : option unit) (s : string)
  : option (list nat) :=
  match xml_find_addr ctx t with
  | None => Some []
  | Some n =>
      if XmlIo.starts_with "changelog[namespace=" s
      then Some (map xml_addr
                   (List.filter (has_namespace (namespace_arg s)) (children_named "changelog" n)))
      else if XmlIo.starts_with "/" s
      then Some (map xml_addr (children_named (substring 1 (String.length s - 1) s) t))
      else Some (map xml_addr (children_named s n))
  end.

Definition ex_xpath_first (t : cxobj) (ctx : nat) (nsc : option unit) (s : string)
  : option nat :=
  match ex_xpath_vec t ctx nsc s with
  | Some (a :: _) => Some a
  | _ => None
  end.

(** The value of a path: true when it selects a node; as a string, the path
    itself. *)
Definition ex_xpath_vec_ctx (t : cxobj) (ctx : nat) (nsc : option unit) (s : string)
  : option (Z * string) :=
  match ex_xpath_vec t ctx nsc s with
  | Some [] => Some (0, s)
  | Some (_ :: _) => Some (1, s)
  | None => None
  end.

(** A date YYYY-MM-DD as the number YYYYMMDD. *)
Fixpoint ex_parse_date (s : string) (acc : Z) : option Z :=
  match s with
  | EmptyString => Some acc
  | String c s' =>
      if Ascii.eqb c "-" then ex_parse_date s' acc
      else
        let d := Z.of_nat (nat_of_ascii c) - 48 in
        if (0 <=? d) && (d <=? 9) then ex_parse_date s' (acc * 10 + d) else None
  end.

Definition ex_xpath : xpath_lib :=
  mk_xpath unit (Z * string)
    (fun _ _ => Some tt)
    ex_xpath_vec ex_xpath_first ex_xpath_vec_ctx
    fst (fun c => Some (snd c))
    (fun s => ex_parse_date s 0).

Definition leaf (a : nat) (name v : string) : cxobj := elmnt a name [body (S a) v].

(** The tree to upgrade. *)
Definition ex_config : cxobj :=
  elmnt 1 "config" [leaf 2 "old" "v"; elmnt 4 "a" [leaf 5 "x" "1"; leaf 7 "y" "2"]].

(** An entry that names no revision to start from, dated before [from]. *)
Definition ex_rename_entry (revfrom : list cxobj) (revision : string) : cxobj :=
  elmnt 101 "changelog"
    ([leaf 102 "namespace" "urn:m"] ++ revfrom ++
     [leaf 104 "revision" revision;
      elmnt 106 "step" [leaf 107 "op" "rename"; leaf 109 "where" "/old"; leaf 111 "tag" "new"]]).

Definition ex_changelog (entries : list cxobj) : cxobj := elmnt 100 "changelogs" entries.

Definition ex_clixon_handle (entries : list cxobj) : clixon_handle :=
  mk_clixon_handle (fun name => String.eqb name "CLICON_XML_CHANGELOG")
    (Some (ex_changelog entries)) 1000 [].

Definition ex_from : Z := 20200101.
Definition ex_to : Z := 20230101.

Definition ex_h_early : clixon_handle := ex_clixon_handle [ex_rename_entry [] "2019-01-01"].
Definition ex_h_revfrom : clixon_handle :=
  ex_clixon_handle [ex_rename_entry [leaf 120 "revfrom" "2019-01-01"] "2021-01-01"].

Definition top_names (r : Z * clixon_handle * cxobj) : list string :=
  map xml_name (xml_childvec (snd r)).

(** Replace steps: one with a [new] of a single child, one without [new]
    whose path selects nothing. *)
Definition ex_replace_step (where_ : string) (new : list cxobj) : cxobj :=
  elmnt 106 "step" ([leaf 107 "op" "replace"; leaf 109 "where" where_] ++ new).

Definition ex_new : cxobj :=
  elmnt 113 "new" [elmnt 114 "b" [leaf 115 "c" "1"; leaf 117 "d" "2"]].

Definition ex_replace_world (where_ : string) (new : list cxobj) : world :=
  mk_world ex_config
    (ex_changelog [elmnt 101 "changelog" [leaf 102 "namespace" "urn:m";
                                            ex_replace_step where_ new]])
    1000 [].

Definition ex_b : cxobj := elmnt 114 "b" [leaf 115 "c" "1"; leaf 117 "d" "2"].
Definition ex_a : cxobj := elmnt 4 "a" [leaf 5 "x" "1"; leaf 7 "y" "2"].

End ChangelogExamples.

(** ** More concrete instances *)

Module MoreExamples.
Import Xml XmlIoExt Changelog ChangelogExt Backend BackendExt Examples ChangelogExamples.

(** An element with an attribute and a body that both hold the five
    characters the encoding is about. *)
Definition ex_five : string := "< > & ' " +:+ XmlIo.dquote.

Definition ex_chardata : cxobj := elmnt 1 "a" [attr 2 "b" ex_five; body 3 ex_five].

(** A step whose operation the upgrader does not know, on a path that
    selects the node at address 2. *)
Definition ex_unknown_world : world :=
  mk_world ex_config
    (ex_changelog [elmnt 101 "changelog"
                     [leaf 102 "namespace" "urn:m";
                      elmnt 106 "step" [leaf 107 "op" "frobnicate"; leaf 109 "where" "/old"]]])
    1000 [].

Definition ex_rename_world : world :=
  mk_world ex_config (ex_changelog [ex_rename_entry [] "2021-01-01"]) 1000 [].

(** A parser that reads every text as one empty changelog list, and binds
    and sorts nothing. *)
Definition ex_changelogs : cxobj := elmnt 1 "changelogs" [].

Definition ex_parse_lib : parse_lib :=
  mk_parse_lib "top"
    (fun _ top _ => Some (XML (xml_hd top) (xml_childvec top ++ [ex_changelogs]), [1%nat]))
    (fun _ _ => 0)
    (fun xt _ _ _ => (1, xt, None))
    (fun xt _ _ _ => (1, xt, None))
    (fun xt _ _ => (1, xt, None))
    (fun x => (0, x)).

Definition ex_changelog_file : list ascii := list_ascii_of_string "<changelogs/>".

Definition ex_option_str (name : string) : option string :=
  if String.eqb name "CLICON_XML_CHANGELOG_FILE" then Some "changelog.xml" else None.

Definition ex_fopen (name : string) : option (list ascii) :=
  if String.eqb name "changelog.xml" then Some ex_changelog_file else None.

Definition ex_rootchild (x : cxobj) (i : nat) : option cxobj := xml_child_i x i.

(** A validator that refuses everything, and one that accepts everything. *)
Definition ex_refuse (x : cxobj) : Z * option cxobj := (0, Some ex_error).
Definition ex_accept (x : cxobj) : Z * option cxobj := (1, None).

Definition ex_init_handle : clixon_handle :=
  mk_clixon_handle (fun _ => true) None 500 [].

(** A transaction on the candidate tree: the second top-level element was
    added, the first one changed. *)
Definition ex_td : transaction_data_t :=
  mk_td (Some ex_running) (Some ex_candidate) [[1%nat]] [[1%nat]] [[0%nat]] [[0%nat]] 1 [].

(** The rpc callbacks: no lock is held, and phase one of confirmed-commit
    has nothing to do. *)
Definition ex_islocked (h : clicon_handle) (db : string) : Z := 0.
Definition ex_confirmed_commit (h : clicon_handle) (xe : commit_request) (myid : Z)
  (cbret : string) : Z * clicon_handle * string := (1, h, cbret).
Definition ex_reply (cbret tag msg : string) : Z * string := (0, cbret +:+ msg).
Definition ex_request : commit_request := mk_req false None None None.
Definition ex_context_check (h : clicon_handle) (name : string) : Z := 0.

(** A handle without a running store, and a reset callback that answers 1. *)
Definition ex_h_no_running : clicon_handle :=
  mk_handle (fun _ => false) (Some ex_yspec) ∅ [ex_plugin "p1"] IDLE 0 0 None [].
Definition ex_resetfn : plgreset_t := fun h db => (1, h).

End MoreExamples.

(** * Theorems *)

(** ** The XML object model *)

Module XmlFacts.
Import Xml.

(** Induction over a tree with the hypothesis on every child. *)
Lemma cxobj_ind (P : cxobj -> Prop) :
  (forall hd cs, Forall P cs -> P (XML hd cs)) -> forall x, P x.
Proof.
  intros H. fix IH 1. intros [hd cs]. apply H.
  induction cs as [|c cs IHcs]; constructor; [apply IH | exact IHcs].
Qed.

End XmlFacts.

(** ** The printers *)

Module XmlIoFacts.
Import Xml XmlIo XmlFacts.

Lemma append_cons c s t : String c s +:+ t = String c (s +:+ t).
Proof. reflexivity. Qed.

Lemma append_nil t : EmptyString +:+ t = t.
Proof. reflexivity. Qed.

Lemma str_app_assoc (a b c : string) : (a +:+ b) +:+ c = a +:+ (b +:+ c).
Proof.
  induction a as [|x a IH]; [reflexivity|]. rewrite !append_cons. now rewrite IH.
Qed.

Lemma str_app_nil_r (a : string) : a +:+ EmptyString = a.
Proof. induction a as [|x a IH]; [reflexivity|]. rewrite append_cons. now rewrite IH. Qed.

Ltac norm := rewrite ?append_nil, ?str_app_assoc, ?str_app_nil_r.

Lemma print_prefix_app f hd : print_prefix f hd = f +:+ print_prefix EmptyString hd.
Proof. unfold print_prefix. destruct (x_prefix hd); norm; reflexivity. Qed.

Lemma print_attr_app f hd : print_attr f hd = f +:+ print_attr EmptyString hd.
Proof.
  unfold print_attr.
  rewrite (print_prefix_app (f +:+ " ")), (print_prefix_app (EmptyString +:+ " ")).
  now norm.
Qed.

(** Every prefix written after some text is taken out of it. *)
Ltac prefixes :=
  repeat match goal with
         | |- context [print_prefix (?a +:+ ?b) ?hd] => rewrite (print_prefix_app (a +:+ b) hd)
         end.

Lemma pad_0 : pad 0 = EmptyString.
Proof. reflexivity. Qed.

Lemma has_content_split cs : has_content cs = has_body cs || existsb is_elmnt cs.
Proof.
  induction cs as [|c cs IH]; [reflexivity|].
  unfold has_content, has_body, is_elmnt in *. cbn [existsb].
  rewrite IH. destruct (xml_type c); cbn [cxobj_type_eqb orb]; rewrite ?orb_true_r; reflexivity.
Qed.

(** *** The loops write the texts of the nodes they visit *)

Lemma attrs_loop_writes (rec : string -> cxobj -> Z * string) (text : cxobj -> option string)
  cs :
  Forall (fun c => writes (fun f => rec f c) (text c) (-1)) cs ->
  forall hb he,
    match texts is_attr text cs with
    | Some T => forall f, attrs_loop rec cs f hb he
                          = (0, f +:+ T, hb || has_body cs, he || existsb is_elmnt cs)
    | None => forall f, fst (fst (fst (attrs_loop rec cs f hb he))) = -1
    end.
Proof.
  induction 1 as [|c cs Hc _ IH]; intros hb he; cbn [texts attrs_loop has_body existsb].
  - intros f. now rewrite str_app_nil_r, !orb_false_r.
  - unfold is_attr at 1, is_elmnt at 1.
    destruct (xml_type c) eqn:Et; cbn [cxobj_type_eqb orb].
    + apply IH.
    + specialize (IH hb true). fold (has_body cs).
      destruct (texts is_attr text cs); intros f; rewrite ?IH, ?orb_true_r; auto.
    + unfold writes in Hc. fold (has_body cs). destruct (text c) as [a|].
      * specialize (IH hb he). destruct (texts is_attr text cs) as [b|]; intros f;
          rewrite Hc; cbn [Z.ltb Z.compare]; rewrite IH; [now norm | reflexivity].
      * intros f. specialize (Hc f). destruct (rec f c) as [r f'] eqn:E.
        cbn [fst] in Hc. subst r. reflexivity.
    + specialize (IH true he). fold (has_body cs).
      destruct (texts is_attr text cs); intros f; rewrite ?IH, ?orb_true_r; auto.
Qed.

Lemma children_loop_writes (rec : string -> cxobj -> Z * string)
  (text : cxobj -> option string) cs :
  Forall (fun c => writes (fun f => rec f c) (text c) (-1)) cs ->
  writes (children_loop rec cs) (texts (fun c => negb (is_attr c)) text cs) (-1).
Proof.
  induction 1 as [|c cs Hc _ IH]; cbn [texts children_loop].
  - intros f. now norm.
  - unfold is_attr at 1. destruct (cxobj_type_eqb (xml_type c) CX_ATTR); cbn [negb];
      [exact IH|].
    unfold writes in *. destruct (text c) as [a|].
    + destruct (texts _ text cs) as [b|]; intros f; rewrite Hc; cbn [Z.ltb Z.compare];
        rewrite IH; [now norm | reflexivity].
    + intros f. specialize (Hc f). destruct (rec f c) as [r f'].
      cbn [fst] in Hc. subst r. reflexivity.
Qed.

Lemma top_loop_writes (rec : string -> cxobj -> Z * string) (text : cxobj -> option string)
  cs :
  Forall (fun c => writes (fun f => rec f c) (text c) (-1)) cs ->
  writes (top_loop rec (List.filter is_elmnt cs)) (texts is_elmnt text cs) (-1).
Proof.
  induction 1 as [|c cs Hc _ IH]; cbn [texts top_loop List.filter].
  - intros f. now norm.
  - destruct (is_elmnt c); [|exact IH]. cbn [top_loop].
    unfold writes in *. destruct (text c) as [a|].
    + destruct (texts _ text cs) as [b|]; intros f; rewrite Hc; cbn [Z.ltb Z.compare];
        rewrite IH; [now norm | reflexivity].
    + intros f. specialize (Hc f). destruct (rec f c) as [r f'].
      cbn [fst] in Hc. subst r. reflexivity.
Qed.

(** *** The printers write the text of the tree *)

Section Refinement.
Variable INDENT : Z.
Variable NS : string.
Variable ext : yang_stmt -> string -> string -> Z * bool.
Variable enc : string -> option string.

(** The body of both printers for an element: [opn] writes what comes
    before the name, [cls] what comes before the end-tag on a line of its
    own. *)
Lemma element_writes (rec_a rec_c : string -> cxobj -> Z * string)
  (text_a text_c : cxobj -> option string) hd cs (pretty : bool)
  (opn cls : string -> string) (p1 p2 : string) :
  (forall f, opn f = f +:+ p1 +:+ "<") ->
  (pretty = true -> forall f, cls f = f +:+ p2) ->
  Forall (fun c => writes (fun f => rec_a f c) (text_a c) (-1)) cs ->
  Forall (fun c => writes (fun f => rec_c f c) (text_c c) (-1)) cs ->
  writes
    (fun f0 =>
       let f := opn f0 in
       let f := print_prefix f hd in
       let f := f +:+ x_name hd in
       let '(r, f, hasbody, haselement) := attrs_loop rec_a cs f false false in
       if r <? 0 then (-1, f)
       else
         let '(r, f) :=
           if negb hasbody && negb haselement then (0, f +:+ "/>")
           else
             let f := f +:+ ">" in
             let f := if pretty && negb hasbody then f +:+ newline else f in
             let '(r, f) := children_loop rec_c cs f in
             if r <? 0 then (-1, f)
             else
               let f := if pretty && negb hasbody then cls f else f in
               let f := f +:+ "</" in
               let f := print_prefix f hd in
               (0, f +:+ x_name hd +:+ ">") in
         if r <? 0 then (-1, f)
         else (0, if pretty then f +:+ newline else f))
    (match texts is_attr text_a cs with
     | None => None
     | Some attrs =>
         if has_content cs then
           match texts (fun c => negb (is_attr c)) text_c cs with
           | None => None
           | Some content =>
               Some (p1 +:+ "<" +:+ qname hd +:+ attrs +:+ ">"
                     +:+ (if pretty && negb (has_body cs) then newline else EmptyString)
                     +:+ content
                     +:+ (if pretty && negb (has_body cs) then p2 else EmptyString)
                     +:+ "</" +:+ qname hd +:+ ">"
                     +:+ (if pretty then newline else EmptyString))
           end
         else Some (p1 +:+ "<" +:+ qname hd +:+ attrs +:+ "/>"
                    +:+ (if pretty then newline else EmptyString))
     end)
    (-1).
Proof.
  intros Ho Hcl Ha Hc.
  pose proof (attrs_loop_writes rec_a text_a cs Ha false false) as HA.
  pose proof (children_loop_writes rec_c text_c cs Hc) as HC.
  destruct (texts is_attr text_a cs) as [attrs|].
  - rewrite has_content_split. cbn [orb] in HA.
    destruct (has_body cs) eqn:Eb, (existsb is_elmnt cs) eqn:Ee; cbn [orb negb andb];
      try (unfold writes in HC;
           destruct (texts (fun c => negb (is_attr c)) text_c cs) as [content|];
           [ intros f0; cbn zeta; rewrite HA; cbn [Z.ltb Z.compare negb andb];
             rewrite ?andb_false_r, ?andb_true_r; destruct pretty; rewrite HC;
             cbn [Z.ltb Z.compare]; rewrite ?Hcl by reflexivity; rewrite Ho;
             unfold qname; prefixes; norm; reflexivity
           | intros f0; cbn zeta; rewrite HA; cbn [Z.ltb Z.compare negb andb];
             match goal with
             | |- context [children_loop rec_c cs ?X] =>
                 specialize (HC X);
                 destruct (children_loop rec_c cs X) as [r f']; cbn [fst] in HC; subst r
             end; reflexivity ]).
    intros f0. cbn zeta. rewrite HA. cbn [Z.ltb Z.compare negb andb]. rewrite Ho.
    unfold qname. prefixes. destruct pretty; norm; reflexivity.
  - intros f0. cbn zeta.
    match goal with
    | |- context [attrs_loop rec_a cs ?X false false] =>
        specialize (HA X);
        destruct (attrs_loop rec_a cs X false false) as [[[r f'] hb] he];
        cbn [fst] in HA; subst r
    end. reflexivity.
Qed.

(** The blanks before a tag on a line of its own. *)
Lemma indent_text (pretty : bool) (prefix : option string) (level1 : Z) :
  level1 = match prefix with Some p => strlen p | None => 0 end ->
  forall (n : Z) f,
    (match prefix with Some p => f +:+ p | None => f end) +:+ pad (n - level1)
    = f +:+ match prefix with
            | Some p => p +:+ pad (n - strlen p)
            | None => pad n
            end.
Proof.
  intros -> n f. destruct prefix as [p|]; [now norm | now rewrite Z.sub_0_r].
Qed.

Lemma clixon_xml2cbuf1_writes x : forall level pretty prefix depth,
  writes (fun cb => clixon_xml2cbuf1 INDENT enc cb x level pretty prefix depth)
    (xml_text INDENT enc none_hidden pretty prefix level depth x) (-1).
Proof.
  induction x as [hd cs IH] using cxobj_ind; intros level pretty prefix depth.
  cbn [clixon_xml2cbuf1 xml_text].
  destruct (depth =? 0); [intros f; now norm|].
  unfold none_hidden at 1. cbv iota.
  destruct (x_type hd).
  - intros f; now norm.
  - assert (Ha : Forall (fun c => writes
              (fun f => clixon_xml2cbuf1 INDENT enc f c (level + 1) pretty prefix (-1))
              (xml_text INDENT enc none_hidden pretty prefix (level + 1) (-1) c) (-1)) cs)
      by (eapply Forall_impl; [exact IH|]; intros c Hx; apply Hx).
    assert (Hc : Forall (fun c => writes
              (fun f => clixon_xml2cbuf1 INDENT enc f c (level + 1) pretty prefix (depth - 1))
              (xml_text INDENT enc none_hidden pretty prefix (level + 1) (depth - 1) c) (-1))
              cs)
      by (eapply Forall_impl; [exact IH|]; intros c Hx; apply Hx).
    refine (element_writes _ _ _ _ hd cs pretty
              (fun cb => if pretty
                         then (match prefix with Some p => cb +:+ p | None => cb end)
                              +:+ pad (level * INDENT
                                       - match prefix with Some p => strlen p | None => 0 end)
                              +:+ "<"
                         else cb +:+ "<")
              (fun cb => (match prefix with Some p => cb +:+ p | None => cb end)
                         +:+ pad (level * INDENT
                                  - match prefix with Some p => strlen p | None => 0 end))
              _ _ _ _ Ha Hc).
    + intros f. destruct pretty; [|cbv iota; now norm].
      rewrite <- (str_app_assoc _ (pad _) "<").
      rewrite (indent_text true prefix _ eq_refl). now norm.
    + intros -> f. now rewrite (indent_text true prefix _ eq_refl).
  - intros f. now rewrite print_attr_app.
  - destruct (x_value hd) as [v|]; [|intros f; now norm].
    destruct (enc v); intros f; reflexivity.
Qed.

Lemma xml2file_recurse_writes x : forall level pretty prefix autocliext depth,
  depth < 0 ->
  writes (fun f => xml2file_recurse INDENT NS ext enc f x level pretty prefix autocliext)
    (xml_text INDENT enc (hide_of NS ext autocliext) pretty prefix level depth x) (-1).
Proof.
  induction x as [hd cs IH] using cxobj_ind; intros level pretty prefix autocliext depth Hd.
  cbn [xml2file_recurse xml_text].
  destruct (Z.eqb_spec depth 0) as [->|_]; [lia|].
  unfold hide_of at 1.
  destruct (hide_show NS ext autocliext hd) as [r e].
  destruct (r <? 0); [intros f; reflexivity|].
  destruct e; [intros f; now norm|].
  destruct (x_type hd).
  - intros f; now norm.
  - assert (Ha : Forall (fun c => writes
              (fun f => xml2file_recurse INDENT NS ext enc f c (level + 1) pretty prefix
                          autocliext)
              (xml_text INDENT enc (hide_of NS ext autocliext) pretty prefix (level + 1) (-1) c)
              (-1)) cs)
      by (eapply Forall_impl; [exact IH|]; intros c Hx; apply Hx; lia).
    assert (Hc : Forall (fun c => writes
              (fun f => xml2file_recurse INDENT NS ext enc f c (level + 1) pretty prefix
                          autocliext)
              (xml_text INDENT enc (hide_of NS ext autocliext) pretty prefix (level + 1)
                 (depth - 1) c)
              (-1)) cs)
      by (eapply Forall_impl; [exact IH|]; intros c Hx; apply Hx; lia).
    refine (element_writes _ _ _ _ hd cs pretty
              (fun f => (match pretty, prefix with
                         | true, Some p => f +:+ p
                         | _, _ => f
                         end)
                        +:+ pad (if pretty
                                 then level * INDENT
                                      - match prefix with Some p => strlen p | None => 0 end
                                 else 0)
                        +:+ "<")
              (fun f => (match prefix with Some p => f +:+ p | None => f end)
                        +:+ pad (level * INDENT
                                 - match prefix with Some p => strlen p | None => 0 end))
              _ _ _ _ Ha Hc).
    + intros f. destruct pretty; [|rewrite pad_0; cbv iota; now norm].
      rewrite <- (str_app_assoc _ (pad _) "<").
      destruct prefix as [p|];
        [rewrite (indent_text true (Some p) _ eq_refl)
        |rewrite (indent_text true None _ eq_refl)]; now norm.
    + intros -> f. now rewrite (indent_text true prefix _ eq_refl).
  - intros f. now rewrite print_attr_app.
  - destruct (x_value hd) as [v|]; [|intros f; now norm].
    destruct (enc v); intros f; reflexivity.
Qed.

Lemma clixon_xml2cbuf_writes xn level pretty prefix depth skiptop :
  writes (fun cb => clixon_xml2cbuf INDENT enc cb xn level pretty prefix depth skiptop)
    (xml_top_text INDENT enc none_hidden pretty prefix level depth skiptop xn) (-1).
Proof.
  unfold clixon_xml2cbuf, xml_top_text. destruct skiptop.
  - apply (top_loop_writes
             (fun cb xc => clixon_xml2cbuf1 INDENT enc cb xc level pretty prefix depth)).
    apply List.Forall_forall. intros c _. apply clixon_xml2cbuf1_writes.
  - pose proof (clixon_xml2cbuf1_writes xn level pretty prefix depth) as W.
    unfold writes in *. destruct (xml_text _ _ _ _ _ _ _ xn) as [T|]; intros cb.
    + now rewrite W.
    + specialize (W cb). destruct (clixon_xml2cbuf1 _ _ cb xn _ _ _ _) as [r cb'].
      cbn [fst] in W. now subst r.
Qed.

Lemma clixon_xml2file_writes xn level pretty prefix skiptop autocliext depth :
  depth < 0 ->
  writes (fun f => clixon_xml2file INDENT NS ext enc f xn level pretty prefix skiptop
                     autocliext)
    (xml_top_text INDENT enc (hide_of NS ext autocliext) pretty prefix level depth skiptop xn)
    1.
Proof.
  intros Hd.
  assert (W : writes
            (fun f => if skiptop
                      then top_loop (fun f xc => xml2file_recurse INDENT NS ext enc f xc level
                                                   pretty prefix autocliext)
                             (xml_child_each xn (Some CX_ELMNT)) f
                      else xml2file_recurse INDENT NS ext enc f xn level pretty prefix
                             autocliext)
            (xml_top_text INDENT enc (hide_of NS ext autocliext) pretty prefix level depth
               skiptop xn) (-1)).
  { unfold xml_top_text. destruct skiptop.
    - apply (top_loop_writes
               (fun f xc => xml2file_recurse INDENT NS ext enc f xc level pretty prefix
                              autocliext)).
      apply List.Forall_forall. intros c _. now apply xml2file_recurse_writes.
    - now apply xml2file_recurse_writes. }
  unfold clixon_xml2file, writes in *. destruct (xml_top_text _ _ _ _ _ _ _ _ xn) as [T|];
    intros f; specialize (W f); cbv beta in W.
  - now rewrite W.
  - destruct (if skiptop then _ else _) as [r f']. cbn [fst] in W. now subst r.
Qed.

End Refinement.

(** The texts of a vector, when every node has one. *)
Lemma texts_total sel (text : cxobj -> option string) cs :
  Forall (fun c => exists T, text c = Some T) cs -> exists T, texts sel text cs = Some T.
Proof.
  induction 1 as [|c cs [a Ha] _ [b Hb]]; cbn [texts]; [now eexists|].
  destruct (sel c); [|now exists b]. rewrite Ha, Hb. now eexists.
Qed.

(** With an encoding that never fails, and no look-up, a tree has a text. *)
Lemma xml_text_total INDENT (enc : string -> option string) x :
  (forall v, exists e, enc v = Some e) ->
  forall pretty prefix level depth,
  exists T, xml_text INDENT enc none_hidden pretty prefix level depth x = Some T.
Proof.
  intros He. induction x as [hd cs IH] using cxobj_ind; intros pretty prefix level depth.
  cbn [xml_text]. destruct (depth =? 0); [now eexists|].
  unfold none_hidden at 1. cbv iota.
  destruct (x_type hd); try (now eexists).
  - destruct (texts_total is_attr
                (xml_text INDENT enc none_hidden pretty prefix (level + 1) (-1)) cs) as [a Ha].
    { eapply Forall_impl; [exact IH|]. intros c Hx. apply Hx. }
    destruct (texts_total (fun c => negb (is_attr c))
                (xml_text INDENT enc none_hidden pretty prefix (level + 1) (depth - 1)) cs)
      as [b Hb].
    { eapply Forall_impl; [exact IH|]. intros c Hx. apply Hx. }
    rewrite Ha, Hb. destruct (has_content cs); now eexists.
  - destruct (x_value hd) as [v|]; [apply He | now eexists].
Qed.

(** The encoding leaves none of the five characters as it was. *)
Lemma xml_chardata_encode_escaped v : chardata_escaped (xml_chardata_encode v) = true.
Proof.
  induction v as [|c v IH]; [reflexivity|].
  cbn [xml_chardata_encode]. unfold chardata_encode_char.
  destruct (Ascii.eqb c "&") eqn:E1;
    [rewrite ?append_cons, ?append_nil; unfold entity_tail; cbn;
     rewrite ?append_cons, ?append_nil; exact IH|].
  destruct (Ascii.eqb c "<") eqn:E2;
    [rewrite ?append_cons, ?append_nil; unfold entity_tail; cbn;
     rewrite ?append_cons, ?append_nil; exact IH|].
  destruct (Ascii.eqb c ">") eqn:E3;
    [rewrite ?append_cons, ?append_nil; unfold entity_tail; cbn;
     rewrite ?append_cons, ?append_nil; exact IH|].
  destruct (Ascii.eqb c "'") eqn:E4;
    [rewrite ?append_cons, ?append_nil; unfold entity_tail; cbn;
     rewrite ?append_cons, ?append_nil; exact IH|].
  destruct (Ascii.eqb c "034"%char) eqn:E5;
    [rewrite ?append_cons, ?append_nil; unfold entity_tail; cbn;
     rewrite ?append_cons, ?append_nil; exact IH|].
  rewrite append_cons, append_nil. cbn [chardata_escaped].
  rewrite E1, E2, E3, E4, E5. exact IH.
Qed.

(** An attribute value is not character data: both printers write it between
    double quotes as it is. *)
Lemma attribute_value_verbatim INDENT NS ext enc enc' f hd cs level pretty prefix :
  x_type hd = CX_ATTR ->
  xml2file_recurse INDENT NS ext enc f (XML hd cs) level pretty prefix false
  = (0, print_attr f hd)
  /\ clixon_xml2cbuf1 INDENT enc' f (XML hd cs) level pretty prefix (-1) = (0, print_attr f hd).
Proof.
  intros E. cbn. rewrite E. split; reflexivity.
Qed.

(** C8. Every body value of a tree printed by [clixon_xml2file] or
    [clixon_xml2cbuf] reaches the output through the character-data encoding
    and in no other way. Whatever the encoding and the look-up of the
    autocli extension are, the printers append to the stream or buffer the
    text of the tree ([xml_top_text]), in which a body is the encoding of its
    value and nothing else comes from a body, and answer 0; when a body on
    the way does not encode or a look-up fails, [clixon_xml2file] answers 1
    and [clixon_xml2cbuf] -1. The encoding itself is not among the sources:
    as the specification describes it, it never fails and leaves no
    less-than, greater-than, apostrophe or double quote in a value, and no
    ampersand but the one opening an entity reference; with it
    [clixon_xml2cbuf], and [clixon_xml2file] when it follows no extension,
    always answer 0 and append the text. *)
Theorem chardata_encoded_on_output :
  (forall INDENT NS ext enc xn level pretty prefix skiptop autocliext,
      match xml_top_text INDENT enc (hide_of NS ext autocliext) pretty prefix level (-1)
              skiptop xn with
      | Some T =>
          forall f, clixon_xml2file INDENT NS ext enc f xn level pretty prefix skiptop
                      autocliext = (0, f +:+ T)
      | None =>
          forall f, fst (clixon_xml2file INDENT NS ext enc f xn level pretty prefix skiptop
                           autocliext) = 1
      end)
  /\ (forall INDENT enc xn level pretty prefix depth skiptop,
      match xml_top_text INDENT enc none_hidden pretty prefix level depth skiptop xn with
      | Some T =>
          forall cb, clixon_xml2cbuf INDENT enc cb xn level pretty prefix depth skiptop
                     = (0, cb +:+ T)
      | None =>
          forall cb, fst (clixon_xml2cbuf INDENT enc cb xn level pretty prefix depth skiptop)
                     = -1
      end)
  /\ (forall INDENT enc hide pretty prefix level depth hd cs v,
        x_type hd = CX_BODY -> x_value hd = Some v -> depth <> 0 -> hide hd = Some false ->
        xml_text INDENT enc hide pretty prefix level depth (XML hd cs) = enc v)
  /\ (forall v, chardata_total v = Some (xml_chardata_encode v)
                /\ chardata_escaped (xml_chardata_encode v) = true)
  /\ (forall INDENT xn level pretty prefix depth skiptop,
        exists T,
          xml_top_text INDENT chardata_total none_hidden pretty prefix level depth skiptop xn
          = Some T
          /\ forall cb, clixon_xml2cbuf INDENT chardata_total cb xn level pretty prefix depth
                          skiptop = (0, cb +:+ T))
  /\ (forall INDENT NS ext xn level pretty prefix skiptop,
        exists T,
          xml_top_text INDENT chardata_total none_hidden pretty prefix level (-1) skiptop xn
          = Some T
          /\ forall f, clixon_xml2file INDENT NS ext chardata_total f xn level pretty prefix
                         skiptop false = (0, f +:+ T)).
Proof.
  assert (E : forall INDENT xn level pretty prefix depth skiptop,
            exists T,
              xml_top_text INDENT chardata_total none_hidden pretty prefix level depth
                skiptop xn = Some T).
  { intros. unfold xml_top_text. destruct skiptop.
    - apply texts_total. apply List.Forall_forall. intros c _.
      apply xml_text_total. intros v. now eexists.
    - apply xml_text_total. intros v. now eexists. }
  split; [|split; [|split; [|split; [|split]]]].
  6:{ intros INDENT NS ext xn level pretty prefix skiptop.
      destruct (E INDENT xn level pretty prefix (-1) skiptop) as [T ET].
      exists T. split; [exact ET|].
      pose proof (clixon_xml2file_writes INDENT NS ext chardata_total xn level pretty prefix
                    skiptop false (-1) ltac:(lia)) as W.
      change (hide_of NS ext false) with none_hidden in W.
      rewrite ET in W. exact W. }
  - intros. apply (clixon_xml2file_writes INDENT NS ext enc). lia.
  - intros. apply (clixon_xml2cbuf_writes INDENT enc).
  - intros INDENT enc hide pretty prefix level depth hd cs v Et Ev Hd Hh.
    cbn [xml_text]. destruct (Z.eqb_spec depth 0); [contradiction|].
    now rewrite Hh, Et, Ev.
  - intros v. split; [reflexivity | apply xml_chardata_encode_escaped].
  - intros INDENT xn level pretty prefix depth skiptop.
    destruct (E INDENT xn level pretty prefix depth skiptop) as [T ET].
    exists T. split; [exact ET|].
    pose proof (clixon_xml2cbuf_writes INDENT chardata_total xn level pretty prefix depth
                  skiptop) as W.
    rewrite ET in W. exact W.
Qed.

End XmlIoFacts.

(** ** The changelog upgrader *)

Module ChangelogFacts.
Import Xml Changelog XmlFacts.

(** *** Nodes by address *)

Lemma xml_find_addr_unfold a hd cs :
  xml_find_addr a (XML hd cs)
  = if Nat.eqb (x_addr hd) a then Some (XML hd cs) else find_first (xml_find_addr a) cs.
Proof. reflexivity. Qed.

Lemma xml_find_addr_root a x : xml_addr x = a -> xml_find_addr a x = Some x.
Proof.
  destruct x as [hd cs]. unfold xml_addr; cbn [xml_hd]. intros <-.
  rewrite xml_find_addr_unfold, Nat.eqb_refl. reflexivity.
Qed.

(** A node that was updated through a pointer is found through the pointer,
    as long as the update leaves the address alone. *)
Lemma xml_find_update_addr a f :
  (forall n, xml_addr n = a -> xml_addr (f n) = a) ->
  forall t, xml_find_addr a (xml_update_addr a f t) = option_map f (xml_find_addr a t).
Proof.
  intros Hf t. induction t as [hd cs IH] using cxobj_ind.
  cbn [xml_update_addr]. rewrite xml_find_addr_unfold.
  destruct (Nat.eqb (x_addr hd) a) eqn:E.
  - apply Nat.eqb_eq in E. cbn [option_map]. apply xml_find_addr_root. now apply Hf.
  - rewrite xml_find_addr_unfold, E.
    induction IH as [|c cs Hc _ IHcs]; cbn [map find_first]; [reflexivity|].
    rewrite Hc. destruct (xml_find_addr a c); cbn [option_map]; [reflexivity|exact IHcs].
Qed.

Lemma w_find_update a f w :
  (forall n, xml_addr n = a -> xml_addr (f n) = a) ->
  w_find (w_update a f w) a = option_map f (w_find w a).
Proof.
  intros Hf. unfold w_find, w_update. cbn [w_xt w_chlog].
  rewrite !xml_find_update_addr by exact Hf.
  destruct (xml_find_addr a (w_xt w)); reflexivity.
Qed.

Lemma purge_each_nil cs : purge_each cs = [].
Proof. induction cs; auto. Qed.

(** *** Copies *)

Lemma strip_copy_fresh x : forall n, strip_addr (snd (copy_fresh n x)) = strip_addr x.
Proof.
  induction x as [hd cs IH] using cxobj_ind. intros n. cbn [copy_fresh].
  assert (Hcs : forall m, map strip_addr (snd (map_acc copy_fresh m cs)) = map strip_addr cs).
  { induction IH as [|c cs Hc _ IHcs]; intros m; cbn [map_acc]; [reflexivity|].
    specialize (Hc m). destruct (copy_fresh m c) as [m1 c'].
    specialize (IHcs m1). destruct (map_acc copy_fresh m1 cs) as [m2 cs2].
    cbn [snd map] in *. now rewrite Hc, IHcs. }
  specialize (Hcs (S n)). destruct (map_acc copy_fresh (S n) cs) as [n' cs'].
  cbn [snd strip_addr] in *. now rewrite Hcs.
Qed.

Lemma strip_map_acc cs : forall n,
  map strip_addr (snd (map_acc copy_fresh n cs)) = map strip_addr cs.
Proof.
  induction cs as [|c cs IH]; intros n; cbn [map_acc]; [reflexivity|].
  destruct (copy_fresh n c) as [n1 c'] eqn:Ec.
  specialize (IH n1). destruct (map_acc copy_fresh n1 cs) as [n2 cs2].
  cbn [snd map] in *. rewrite IH. f_equal.
  pose proof (strip_copy_fresh c n) as H. now rewrite Ec in H.
Qed.

Section Facts.

Variable X : xpath_lib.

(** *** [changelog_replace] *)

Lemma purge_children_find xw w n :
  w_find w xw = Some n -> w_find (purge_children xw w) xw = Some (XML (xml_hd n) []).
Proof.
  intros H. unfold purge_children. rewrite w_find_update.
  - rewrite H. cbn [option_map]. now rewrite purge_each_nil.
  - intros m Hm. exact Hm.
Qed.

Lemma xml_copy_find x xw w n :
  w_find w xw = Some (XML (xml_hd n) []) ->
  exists n', w_find (xml_copy x xw w) xw = Some n' /\ replaced_by x n n'.
Proof.
  intros H. unfold xml_copy.
  pose proof (strip_map_acc (xml_childvec x) (w_next w)) as Hs.
  destruct (map_acc copy_fresh (w_next w) (xml_childvec x)) as [n1 cs1]. cbn [snd] in Hs.
  rewrite w_find_update by (intros m Hm; exact Hm).
  assert (E : w_find (mk_world (w_xt w) (w_chlog w) n1 (w_err w)) xw = w_find w xw)
    by reflexivity.
  rewrite E, H. cbn [option_map xml_hd xml_childvec app].
  eexists. split; [reflexivity|]. repeat split; auto.
Qed.

(** *** The loop over the targets, for a replace step *)

Lemma op_each_skipped nsc op tag dst xnew whenxpath w skipped : forall rest,
  all_skipped X w nsc whenxpath skipped = true ->
  op_each X nsc op tag dst xnew whenxpath (skipped ++ rest) w
  = op_each X nsc op tag dst xnew whenxpath rest w.
Proof.
  induction skipped as [|xw skipped IH]; intros rest H; [reflexivity|].
  cbn [all_skipped forallb] in H. apply andb_prop in H as [H1 H2].
  cbn [app op_each]. destruct (when_test X w nsc whenxpath xw) as [[|]|]; try discriminate.
  now apply IH.
Qed.

Lemma op_each_replace nsc tag dst xnew whenxpath w xw rest :
  when_test X w nsc whenxpath xw = Some true ->
  op_each X nsc "replace" tag dst xnew whenxpath (xw :: rest) w
  = let '(ret, w') := changelog_replace w xw xnew in
    if ret <? 0 then (-1, w')
    else if ret =? 0 then (0, w')
    else op_each X nsc "replace" tag dst xnew whenxpath rest w'.
Proof. intros H. cbn [op_each]. rewrite H. reflexivity. Qed.

Lemma changelog_switch_replace w nsc tag dst xnew xw :
  changelog_switch X w nsc "replace" tag dst xnew xw = changelog_replace w xw xnew.
Proof. reflexivity. Qed.

(** C7 (amended). In a replace step the targets are taken in the order of
    the vector; a target that the when filter refuses is passed over. If no
    target passes, the step succeeds and nothing changes, whatever [new] is.
    At the first target that passes: without [new] the step fails with the
    error "new required" and nothing has changed; with [new], the children
    of the target are deleted first; then, if [new] does not have exactly one
    child, the step fails with an error (the children stay deleted);
    otherwise the target becomes a deep copy of that child (its name, and
    copies of its children) and the step goes on with the targets left. *)
Theorem changelog_replace_targets nsc tag dst xnew whenxpath w :
  (forall wvec, all_skipped X w nsc whenxpath wvec = true ->
     op_each X nsc "replace" tag dst xnew whenxpath wvec w = (1, w))
  /\ (forall skipped xw rest,
        all_skipped X w nsc whenxpath skipped = true ->
        when_test X w nsc whenxpath xw = Some true ->
        let run := op_each X nsc "replace" tag dst xnew whenxpath (skipped ++ xw :: rest) w in
        let w1 := purge_children xw w in
        (xnew = None -> run = (-1, clixon_err w "new required"))
        /\ (forall xn, xnew = Some xn ->
              (forall n, w_find w xw = Some n -> w_find w1 xw = Some (XML (xml_hd n) []))
              /\ (node_child_nr w1 xn <> 1 ->
                    run = (-1, clixon_err w1 "Single child to <new> required"))
              /\ (forall x, node_children w1 xn = [x] ->
                    run = op_each X nsc "replace" tag dst xnew whenxpath rest
                            (xml_copy x xw w1)
                    /\ forall n, w_find w xw = Some n ->
                         exists n', w_find (xml_copy x xw w1) xw = Some n'
                                    /\ replaced_by x n n')))
  /\ (forall xi wx wvec,
        xml_nsctx_node X (w_chlog w) xi = Some nsc ->
        node_find_body w xi "op" = Some "replace" ->
        node_find_body w xi "where" = Some wx ->
        xpath_vec X (w_xt w) (xml_addr (w_xt w)) (Some nsc) wx = Some wvec ->
        changelog_op X w xi
        = op_each X nsc "replace" (node_find_body w xi "tag") (node_find_body w xi "dst")
            (node_find w xi "new") (node_find_body w xi "when") wvec w).
Proof.
  split; [|split].
  - intros wvec H. rewrite <- (app_nil_r wvec). now rewrite op_each_skipped.
  - intros skipped xw rest Hs Hw. cbn zeta.
    rewrite (op_each_skipped _ _ _ _ _ _ _ _ _ Hs), (op_each_replace _ _ _ _ _ _ _ _ Hw).
    split.
    + intros ->. reflexivity.
    + intros xn ->. split; [intros n; apply purge_children_find|].
      unfold changelog_replace. split.
      * intros Hn. apply Z.eqb_neq in Hn. rewrite Hn. reflexivity.
      * intros x Hx. unfold node_child_nr. rewrite Hx. cbn [length Z.of_nat Pos.of_succ_nat
          Z.eqb negb nth_error Z.ltb Z.compare Pos.compare Pos.compare_cont].
        split; [reflexivity|]. intros n Hn. apply xml_copy_find.
        now apply purge_children_find.
  - intros xi wx wvec H1 H2 H3 H4. unfold changelog_op. now rewrite H1, H2, H3, H4.
Qed.

(** *** [xml_changelog_upgrade] *)

Lemma window_skip from to f t :
  (negb (f =? 0) && (from >? f)) || (to <? t) = negb (in_window from to f t).
Proof.
  unfold in_window. rewrite Z.gtb_ltb.
  destruct (Z.eqb_spec f 0), (Z.ltb_spec f from), (Z.ltb_spec to t),
    (Z.leb_spec t to), (Z.leb_spec from f); cbn; auto; lia.
Qed.

Lemma upgrade_each_selected from to vec : forall w,
  upgrade_each X from to vec w = apply_selected X (in_window from to) vec w.
Proof.
  induction vec as [|xch rest IH]; intros w; cbn [upgrade_each apply_selected]; [reflexivity|].
  unfold entry_revisions.
  destruct (parse_date X w xch "revfrom" 0) as [f|];
    [|destruct (parse_date X w xch "revision" 0); reflexivity].
  destruct (parse_date X w xch "revision" 0) as [t|]; [|reflexivity].
  rewrite window_skip. destruct (in_window from to f t); cbn [negb]; [|apply IH].
  destruct (changelog_iterate X w xch) as [ret w'].
  destruct (ret <? 0); [reflexivity|]. destruct (ret =? 0); [reflexivity|]. apply IH.
Qed.

Lemma apply_selected_none selects vec : forall w,
  forallb (fun xch => match entry_revisions X w xch with
                      | Some (f, t) => negb (selects f t)
                      | None => false
                      end) vec = true ->
  apply_selected X selects vec w = (1, w).
Proof.
  induction vec as [|xch rest IH]; intros w H; [reflexivity|].
  cbn [forallb] in H. apply andb_prop in H as [H1 H2]. cbn [apply_selected].
  destruct (entry_revisions X w xch) as [[f t]|]; [|discriminate].
  destruct (selects f t); [discriminate|]. now apply IH.
Qed.

(** C6 (amended). [xml_changelog_upgrade] does what the specification says
    with another selection: it goes through the changelog entries of the
    namespace in the order of the vector, and applies an entry exactly when
    its revision is not after [to] and it either names no revision to start
    from or names one that is not before [from]; it stops at the first entry
    that does not parse or whose application does not succeed. Entries that
    are not selected are passed over: a run over such entries only returns 1
    and leaves the trees as they were. *)
Theorem xml_changelog_upgrade_window h xt ns from to :
  xml_changelog_upgrade X h xt ns from to = upgrade_selected X (in_window from to) h xt ns
  /\ (forall vec w,
        forallb (fun xch => match entry_revisions X w xch with
                            | Some (f, t) => negb (in_window from to f t)
                            | None => false
                            end) vec = true ->
        upgrade_each X from to vec w = (1, w)).
Proof.
  split.
  - unfold xml_changelog_upgrade, upgrade_selected.
    destruct (clicon_option_bool h "CLICON_XML_CHANGELOG"); cbn [negb]; [|reflexivity].
    destruct (clicon_xml_changelog_get h) as [xchlog|]; [|reflexivity].
    destruct (xpath_vec X xchlog _ None _) as [vec|]; [|reflexivity].
    now rewrite upgrade_each_selected.
  - intros vec w H. rewrite upgrade_each_selected. now apply apply_selected_none.
Qed.

End Facts.

End ChangelogFacts.

(** ** The transaction engine *)

Module BackendFacts.
Import Xml Backend.

(** *** The event list *)

Lemma emit_add e h : emit e h = add_events [e] h.
Proof. reflexivity. Qed.

Lemma add_events_app t1 t2 h : add_events t2 (add_events t1 h) = add_events (t1 ++ t2) h.
Proof. unfold add_events; cbn. now rewrite <- app_assoc. Qed.

Lemma add_events_nil h : add_events [] h = h.
Proof. destruct h; unfold add_events; cbn. now rewrite app_nil_r. Qed.

Lemma events_since_add tr h : events_since h (add_events tr h) = tr.
Proof.
  unfold events_since; cbn. rewrite skipn_app, skipn_all, Nat.sub_diag. reflexivity.
Qed.

(** *** The plugin bus *)

Lemma plugin_transaction_one_eq ty cp h td :
  plugin_transaction_one ty cp h td
  = (if cb_fails ty cp td then -1 else 0, add_events (cb_events ty cp td) h).
Proof.
  unfold plugin_transaction_one, cb_fails, cb_events.
  destruct (trans_cb ty cp); [reflexivity | now rewrite add_events_nil].
Qed.

Lemma plugin_transaction_each_eq ty cps : forall h td,
  plugin_transaction_each ty cps h td
  = (phase_ret ty cps td, add_events (phase_events ty cps td) h).
Proof.
  induction cps as [|cp cps IH]; intros h td; cbn [plugin_transaction_each phase_ret phase_events].
  - now rewrite add_events_nil.
  - rewrite plugin_transaction_one_eq. destruct (cb_fails ty cp td); cbn.
    + now rewrite app_nil_r.
    + now rewrite IH, add_events_app.
Qed.

Lemma plugin_transaction_begin_each_eq cps : forall i h td,
  plugin_transaction_begin_each i cps h td
  = let '(r, tr, td') := begin_run i cps td in (r, add_events tr h, td').
Proof.
  induction cps as [|cp cps IH]; intros i h td;
    cbn [plugin_transaction_begin_each begin_run].
  - now rewrite add_events_nil.
  - rewrite plugin_transaction_one_eq.
    destruct (cb_fails TRANS_CB_BEGIN cp _); cbn; [reflexivity|].
    rewrite IH. destruct (begin_run (S i) cps _) as [[r tr] td'].
    now rewrite add_events_app.
Qed.

Lemma plugin_transaction_abort_each_eq obs : forall h td,
  plugin_transaction_abort_each obs h td
  = add_events (abort_events (h_plugins h) obs td) h.
Proof.
  induction obs as [|i obs IH]; intros h td;
    cbn [plugin_transaction_abort_each abort_events].
  - now rewrite add_events_nil.
  - destruct (nth_error (h_plugins h) i) as [cp|]; [|apply IH].
    rewrite plugin_transaction_one_eq. cbn [snd]. rewrite IH. cbn [h_plugins add_events].
    now rewrite add_events_app.
Qed.

(** A phase answers 0 or -1; it answers -1 exactly when a callback of it
    failed, and its events are callbacks of the phase. *)
Lemma phase_ret_cases ty cps td : phase_ret ty cps td = 0 \/ phase_ret ty cps td = -1.
Proof. induction cps as [|cp cps IH]; cbn; [|destruct (cb_fails ty cp td)]; auto. Qed.

Lemma is_callback_refl ty n r : is_callback ty (EvCallback ty n r) = true.
Proof. destruct ty; reflexivity. Qed.

Lemma is_failed_callback_eq ty n r : is_failed_callback ty (EvCallback ty n r) = (r <? 0).
Proof. unfold is_failed_callback. now rewrite is_callback_refl. Qed.

Lemma cb_events_callback ty cp td : forallb (is_callback ty) (cb_events ty cp td) = true.
Proof.
  unfold cb_events. destruct (trans_cb ty cp); cbn [forallb]; [|reflexivity].
  now rewrite is_callback_refl.
Qed.

Lemma phase_events_callback ty cps td : forallb (is_callback ty) (phase_events ty cps td) = true.
Proof.
  induction cps as [|cp cps IH]; cbn [phase_events]; [reflexivity|].
  rewrite forallb_app, cb_events_callback. destruct (cb_fails ty cp td); auto.
Qed.

Lemma cb_events_failure ty cp td :
  existsb (is_failed_callback ty) (cb_events ty cp td) = cb_fails ty cp td.
Proof.
  unfold cb_events, cb_fails. destruct (trans_cb ty cp); cbn [existsb]; [|reflexivity].
  rewrite is_failed_callback_eq. apply orb_false_r.
Qed.

Lemma phase_failure_event ty cps td :
  existsb (is_failed_callback ty) (phase_events ty cps td)
  = (phase_ret ty cps td =? -1).
Proof.
  induction cps as [|cp cps IH]; cbn [phase_events phase_ret]; [reflexivity|].
  rewrite existsb_app, cb_events_failure.
  destruct (cb_fails ty cp td); [reflexivity | exact IH].
Qed.

Lemma failed_callback_validation_failure tr ty :
  existsb (is_failed_callback ty) tr = false ->
  forallb (is_callback ty) tr = true ->
  forallb (fun e => negb (is_validation_failure e)) tr = true.
Proof.
  induction tr as [|e tr IH]; cbn [forallb existsb]; [auto|].
  intros [E1 E2]%orb_false_elim [C1 C2]%andb_prop. rewrite (IH E2 C2), andb_true_r.
  destruct e as [t n r| | | | | | | | | | | | | |]; try reflexivity;
    try (destruct ty; discriminate).
  unfold is_failed_callback in E1. rewrite C1 in E1. cbn in E1.
  destruct t; cbn; now rewrite ?E1.
Qed.

Lemma cb_events_ok ty cp td :
  cb_fails ty cp td = false -> existsb (is_failed_callback ty) (cb_events ty cp td) = false.
Proof. intros E. now rewrite cb_events_failure. Qed.

Lemma begin_run_events cps : forall i td r tr td',
  begin_run i cps td = (r, tr, td') ->
  forallb (is_callback TRANS_CB_BEGIN) tr = true /\ (r = 0 \/ r = -1)
  /\ (r = 0 -> existsb (is_failed_callback TRANS_CB_BEGIN) tr = false).
Proof.
  induction cps as [|cp cps IH]; intros i td r tr td' H; cbn [begin_run] in H.
  - inversion H; subst. auto.
  - destruct (cb_fails TRANS_CB_BEGIN cp _) eqn:F.
    + inversion H; subst. split; [apply cb_events_callback | split; [auto | discriminate]].
    + destruct (begin_run (S i) cps _) as [[r0 tr0] td0] eqn:E.
      inversion H; subst. apply IH in E as (E1 & E2 & E3).
      split; [|split; [exact E2|]].
      * now rewrite forallb_app, cb_events_callback, E1.
      * intros Hr. rewrite existsb_app, cb_events_ok by exact F. now apply E3.
Qed.

Section Facts.
Variable L : clixon_lib.

(** *** Datastore reads and the generic validation *)

Lemma xmldb_get0_events h db yb ret h' xt md xerr :
  xmldb_get0 L h db yb = (ret, h', xt, md, xerr) ->
  exists e, h' = add_events [e] h /\ is_preamble e = true
            /\ is_validation_failure e = false.
Proof.
  unfold xmldb_get0. destruct (h_xmldb h !! db) as [x|].
  - destruct (xmldb_populate L yb x) as [[r xt0] xe]. intros H; inversion H; subst.
    exists (EvGet0 db). auto.
  - intros H; inversion H; subst. eexists. split; [reflexivity|]. auto.
Qed.

Lemma generic_validate_events h yspec td r h' xret :
  generic_validate L h yspec td = (r, h', xret) ->
  h' = add_events [EvGenericValidate r] h /\ (r = -1 \/ r = 0 \/ r = 1).
Proof.
  unfold generic_validate.
  destruct (match td_target td with Some _ => _ | None => _ end) as [rv xr] eqn:E.
  intros H; inversion H; subst. split; [reflexivity|].
  destruct (td_target td) as [xt|]; [|inversion E; auto].
  repeat match type of E with
         | context [let '(_, _) := ?x in _] => destruct x as [? ?]
         | context [if ?c then _ else _] => destruct c
         end; inversion E; auto.
Qed.

(** *** [validate_common] *)

Lemma is_preamble_validation tr :
  forallb is_preamble tr = true -> forallb is_validation_event tr = true.
Proof.
  induction tr as [|e tr IH]; cbn; [auto|]. intros [He Ht]%andb_prop.
  rewrite (IH Ht), andb_true_r. destruct e as [[]| | | | | | | | | | | | | |]; auto.
Qed.

Lemma is_callback_validation ty tr :
  ty = TRANS_CB_BEGIN \/ ty = TRANS_CB_VALIDATE \/ ty = TRANS_CB_COMPLETE ->
  forallb (is_callback ty) tr = true -> forallb is_validation_event tr = true.
Proof.
  intros Hty. induction tr as [|e tr IH]; cbn; [auto|]. intros [He Ht]%andb_prop.
  rewrite (IH Ht), andb_true_r.
  destruct Hty as [->|[->| ->]]; destruct e as [[]| | | | | | | | | | | | | |]; auto.
Qed.

Lemma vc_post_exit h ret tr td1 :
  forallb is_validation_event tr = true -> ret = -1 \/ ret = 0 ->
  vc_post h ret (add_events tr h) td1.
Proof.
  intros Hv Hr. split; [tauto|]. exists tr. repeat split; auto.
  intros ->. destruct Hr; discriminate.
Qed.

Ltac vc_exit :=
  let H := fresh in
  intros H; inversion H; subst; rewrite ?add_events_app;
  apply vc_post_exit; [|auto];
  repeat (rewrite ?forallb_app; cbn [forallb]);
  repeat match goal with
         | E : _ = true |- _ => rewrite E
         end; reflexivity.

Lemma validate_common_trace h db td xr ret h1 td1 xret :
  validate_common L h db td xr = (ret, h1, td1, xret) -> vc_post h ret h1 td1.
Proof.
  unfold validate_common, clicon_dbspec_yang.
  destruct (h_dbspec h) as [yspec|].
  2:{ intros H; inversion H; subst. apply (vc_post_exit h (-1) [EvErr "No DB_SPEC"]); auto. }
  destruct (xmldb_get0 L h db YB_MODULE) as [[[[r1 ha] xt] md1] xe1] eqn:G1.
  apply xmldb_get0_events in G1 as (e1 & -> & P1 & F1).
  assert (V1 : is_validation_event e1 = true)
    by (pose proof (is_preamble_validation [e1]) as X; cbn in X;
        rewrite P1 in X; specialize (X eq_refl); now rewrite andb_true_r in X).
  destruct (r1 <? 0); [vc_exit|]. destruct (r1 =? 0); [vc_exit|].
  destruct (xmldb_get0 L _ "running" YB_MODULE) as [[[[r2 hb] xs] md2] xe2] eqn:G2.
  apply xmldb_get0_events in G2 as (e2 & -> & P2 & F2).
  assert (V2 : is_validation_event e2 = true)
    by (pose proof (is_preamble_validation [e2]) as X; cbn in X;
        rewrite P2 in X; specialize (X eq_refl); now rewrite andb_true_r in X).
  destruct (r2 <? 0); [vc_exit|]. destruct (r2 =? 0); [vc_exit|].
  match goal with |- context [td_src ?t] => set (tda := t) end.
  destruct (td_src tda) as [src|]; [|vc_exit].
  destruct (td_target tda) as [target|]; [|vc_exit].
  destruct (xml_diff L src target) as [[[dvec avec] cvec]|]; [|vc_exit].
  match goal with |- context [mark_diff L ?t] => set (tdb := mark_diff L t) end.
  unfold plugin_transaction_begin_all. rewrite plugin_transaction_begin_each_eq.
  cbn [h_plugins add_events].
  destruct (begin_run 0 (h_plugins h) tdb) as [[rb trb] tdc] eqn:B.
  apply begin_run_events in B as (PB & Hrb & FB).
  assert (VB : forallb is_validation_event trb = true)
    by (apply (is_callback_validation TRANS_CB_BEGIN); auto).
  destruct (rb <? 0) eqn:Erb; [vc_exit|].
  assert (rb = 0) as -> by lia. specialize (FB eq_refl). clear Hrb Erb.
  destruct (generic_validate L _ yspec tdc) as [[rg hg] xg] eqn:G.
  apply generic_validate_events in G as [-> Hrg].
  destruct (rg <? 0) eqn:Eg1; [vc_exit|]. destruct (rg =? 0) eqn:Eg2; [vc_exit|].
  assert (rg = 1) as -> by lia. clear Hrg Eg1 Eg2.
  unfold plugin_transaction_validate_all, plugin_transaction_complete_all.
  rewrite plugin_transaction_each_eq. cbn [h_plugins add_events].
  pose proof (phase_events_callback TRANS_CB_VALIDATE (h_plugins h) tdc) as PV.
  assert (VV : forallb is_validation_event (phase_events TRANS_CB_VALIDATE (h_plugins h) tdc) = true)
    by (apply (is_callback_validation TRANS_CB_VALIDATE); auto).
  destruct (phase_ret_cases TRANS_CB_VALIDATE (h_plugins h) tdc) as [Ev|Ev]; rewrite Ev;
    cbn [Z.ltb Z.compare]; [|vc_exit].
  rewrite plugin_transaction_each_eq. cbn [h_plugins add_events].
  pose proof (phase_events_callback TRANS_CB_COMPLETE (h_plugins h) tdc) as PC.
  assert (VC : forallb is_validation_event (phase_events TRANS_CB_COMPLETE (h_plugins h) tdc) = true)
    by (apply (is_callback_validation TRANS_CB_COMPLETE); auto).
  destruct (phase_ret_cases TRANS_CB_COMPLETE (h_plugins h) tdc) as [Ec|Ec]; rewrite Ec;
    cbn [Z.ltb Z.compare]; [|vc_exit].
  intros H; inversion H; subst. rewrite !add_events_app.
  split; [auto|]. eexists. split; [reflexivity|]. split.
  - repeat (rewrite ?forallb_app; cbn [forallb]). now rewrite V1, V2, VB, VV, VC.
  - intros _. exists ([e1] ++ [e2] ++ trb). repeat split; auto.
    + repeat (rewrite ?forallb_app; cbn [forallb]). rewrite P1, P2. cbn.
      clear - PB. induction trb as [|e t IH]; cbn in *; [auto|].
      apply andb_prop in PB as [A B]. rewrite (IH B), andb_true_r.
      destruct e as [[]| | | | | | | | | | | | | |]; auto; discriminate.
    + repeat (rewrite ?forallb_app; cbn [forallb]). rewrite F1, F2. cbn.
      rewrite (failed_callback_validation_failure trb TRANS_CB_BEGIN FB PB).
      rewrite (failed_callback_validation_failure _ TRANS_CB_VALIDATE)
        by (rewrite ?phase_failure_event, ?Ev; auto).
      rewrite (failed_callback_validation_failure _ TRANS_CB_COMPLETE)
        by (rewrite ?phase_failure_event, ?Ec; auto).
      reflexivity.
Qed.

(** *** confirmed-commit, phase two *)

Lemma cc_frame_refl h : cc_frame h h.
Proof. repeat split; auto. exists []. now rewrite app_nil_r. Qed.

Lemma cc_frame_intro h h2 tr :
  h_plugins h2 = h_plugins h -> h_dbspec h2 = h_dbspec h ->
  (forall db, db <> "rollback" -> h_xmldb h2 !! db = h_xmldb h !! db) ->
  h_events h2 = h_events h ++ tr -> forallb is_confirm_event tr = true ->
  cc_frame h h2.
Proof. intros; repeat split; auto. exists tr; auto. Qed.

Ltac cc_leaf tr :=
  apply (cc_frame_intro _ _ tr); cbn;
  [ reflexivity | reflexivity
  | intros db Hdb; rewrite ?lookup_insert_ne, ?lookup_delete_ne by auto; reflexivity
  | rewrite <- ?app_assoc; reflexivity
  | reflexivity ].

Lemma handle_confirmed_commit_frame h xe myid r h2 :
  handle_confirmed_commit h xe myid = (r, h2) -> cc_frame h h2.
Proof.
  unfold handle_confirmed_commit, xmldb_copy, xmldb_delete, xmldb_exists.
  destruct (h_cc_state h) as [|persist deadline session|].
  - destruct (xe_confirmed xe).
    + destruct (h_xmldb h !! "running") as [x|]; cbn; intros H; inversion H; subst.
      * cc_leaf [EvCopy "running" "rollback"; EvTimerArm (h_now h + confirm_timeout xe)].
      * cc_leaf [EvErr "xmldb_copy: no such datastore"].
    + destruct (h_xmldb h !! "rollback"); cbn; intros H; inversion H; subst.
      * cc_leaf [EvDelete "rollback"].
      * apply cc_frame_refl.
  - destruct ((myid =? session) || persist_matches persist xe).
    + destruct (xe_confirmed xe); cbn; intros H; inversion H; subst.
      * cc_leaf [EvTimerCancel; EvTimerArm (h_now h + confirm_timeout xe)].
      * cc_leaf [EvTimerCancel; EvDelete "rollback"].
    + destruct (xe_persist_id xe); intros H; inversion H; subst.
      * cc_leaf [EvErr "invalid-value: persist-id does not match"].
      * cc_leaf [EvErr "operation-failed: confirmed commit of another session"].
  - intros H; inversion H; subst. apply cc_frame_refl.
Qed.

Lemma confirm_step_frame (b : bool) xe h myid r h2 :
  match xe with
  | Some req => if b then handle_confirmed_commit h req myid else (0, h)
  | None => (0, h)
  end = (r, h2) ->
  cc_frame h h2 /\ (xe = None -> h2 = h).
Proof.
  destruct xe as [req|]; [destruct b|].
  - intros H. split; [eapply handle_confirmed_commit_frame; eauto | discriminate].
  - intros H; inversion H; subst. split; [apply cc_frame_refl | auto].
  - intros H; inversion H; subst. split; [apply cc_frame_refl | auto].
Qed.

Lemma events_since_app h h' tr :
  h_events h' = h_events h ++ tr -> events_since h h' = tr.
Proof.
  intros E. unfold events_since. rewrite E, skipn_app, skipn_all, Nat.sub_diag. reflexivity.
Qed.

Lemma transaction_done_fail r h td :
  r < 1 -> transaction_done r h td = add_events (aborts h td) h.
Proof.
  intros Hr. unfold transaction_done, plugin_transaction_abort_all, aborts.
  destruct (r <? 1) eqn:E; [|lia]. cbn [snd]. apply plugin_transaction_abort_each_eq.
Qed.

Lemma transaction_done_ok h td : transaction_done 1 h td = h.
Proof. reflexivity. Qed.


(** *** [candidate_commit]: every way through it *)

Lemma events_since_frame h h2 trc tr :
  h_events h2 = h_events h ++ trc ->
  events_since h (add_events tr h2) = trc ++ tr.
Proof.
  intros E. apply events_since_app. cbn. rewrite E. now rewrite <- app_assoc.
Qed.

Ltac run_leaf VC h2 FX FN :=
  let Hcc := fresh "Hcc" in
  intros Hcc; inversion Hcc; subst;
  eexists _, _, _, _, _, h2;
  split; [reflexivity|]; split; [reflexivity|]; split; [exact FX|]; split; [exact FN|].

Lemma candidate_commit_runs h xe db myid cbret r h' cbret' :
  candidate_commit L h xe db myid cbret = (r, h', cbret') ->
  exists ret h1 td1 xret trv h2,
    validate_common L h db transaction_new None = (ret, h1, td1, xret)
    /\ h1 = add_events trv h
    /\ (forall d, d <> "rollback" -> h_xmldb h2 !! d = h_xmldb h !! d)
    /\ (xe = None -> h_xmldb h2 = h_xmldb h)
    /\ ((run_not_committed h td1 trv r h' /\ h_xmldb h' = h_xmldb h2)
        \/ (ret = 1 /\
            ((run_commit_failed h td1 trv r h' /\ h_xmldb h' = h_xmldb h2)
             \/ (run_commit_done_failed h td1 trv r h' /\ h_xmldb h' = h_xmldb h2)
             \/ (run_copy_failed h td1 trv r h' /\ h_xmldb h' = h_xmldb h2)
             \/ run_committed h db td1 trv r h2 h'))).
Proof.
  unfold candidate_commit.
  destruct (validate_common L h db transaction_new None) as [[[ret h1] td1] xret] eqn:VC.
  pose proof (validate_common_trace _ _ _ _ _ _ _ _ VC) as (Hret & trv & -> & Vv & _).
  assert (X0 : forall d : string, d <> "rollback" -> h_xmldb h !! d = h_xmldb h !! d) by auto.
  assert (N0 : xe = None -> h_xmldb h = h_xmldb h) by auto.
  destruct (ret <? 0) eqn:R0.
  { (* validation error *)
    run_leaf VC h X0 N0. left. split; [|now rewrite transaction_done_fail by lia].
    split; [lia|]. exists []. split; [reflexivity|].
    rewrite transaction_done_fail, add_events_app by lia. reflexivity. }
  unfold clicon_dbspec_yang. cbn [h_dbspec add_events].
  destruct (h_dbspec h) as [yspec|].
  2:{ run_leaf VC h X0 N0. left. split; [|now rewrite transaction_done_fail by lia].
      split; [lia|]. exists [EvErr "No yang spec"]. split; [reflexivity|].
      rewrite transaction_done_fail by lia. unfold clicon_err.
      rewrite emit_add, !add_events_app. cbn [h_events add_events].
      rewrite <- ?app_assoc. reflexivity. }
  match goal with
  | |- context [match xe with Some _ => _ | None => _ end] =>
      destruct (match xe with Some _ => _ | None => (0, add_events trv h) end)
        as [r2 h2] eqn:CC
  end.
  apply confirm_step_frame in CC as [(FP & FD & FX & trc & FE & FC) FN].
  cbn [h_plugins h_dbspec h_xmldb h_events add_events] in FP, FD, FX, FE.
  assert (FN' : xe = None -> h_xmldb h2 = h_xmldb h) by (intros X; now rewrite (FN X)).
  assert (AB : forall td, aborts h2 td = aborts h td)
    by (intros; unfold aborts; now rewrite FP).
  assert (ES : forall tr, h_events (add_events tr h2) = h_events h ++ trv ++ trc ++ tr)
    by (intros; cbn [h_events add_events]; now rewrite FE, <- !app_assoc).
  destruct (r2 <? 0).
  { run_leaf VC h2 FX FN'. left.
    rewrite transaction_done_fail by lia. split; [|reflexivity].
    split; [lia|]. exists trc. split; [exact FC|]. now rewrite ES, AB. }
  destruct (ret =? 0) eqn:R1.
  { destruct (xml2cbuf_error L cbret xret) as [r3 cb3].
    destruct (r3 <? 0); run_leaf VC h2 FX FN'; left;
      (rewrite transaction_done_fail by lia; split; [|reflexivity];
       split; [lia|]; exists trc; split; [exact FC|]; now rewrite ES, AB). }
  assert (ret = 1) as -> by lia.
  unfold plugin_transaction_commit_all, plugin_transaction_commit_done_all,
    plugin_transaction_end_all.
  rewrite plugin_transaction_each_eq, FP.
  destruct (phase_ret_cases TRANS_CB_COMMIT (h_plugins h) td1) as [Ec|Ec]; rewrite Ec;
    cbn [Z.ltb Z.compare].
  2:{ run_leaf VC h2 FX FN'. right. split; [reflexivity|]. left.
      rewrite transaction_done_fail, add_events_app by lia. split; [|reflexivity].
      split; [reflexivity|]. split; [exact Ec|]. exists trc. split; [exact FC|].
      rewrite ES. unfold aborts. cbn [h_plugins add_events]. rewrite FP.
      reflexivity. }
  rewrite plugin_transaction_each_eq. cbn [h_plugins add_events]. rewrite FP.
  destruct (phase_ret_cases TRANS_CB_COMMIT_DONE (h_plugins h) td1) as [Ed|Ed]; rewrite Ed;
    cbn [Z.ltb Z.compare].
  2:{ run_leaf VC h2 FX FN'. right. split; [reflexivity|]. right; left.
      rewrite transaction_done_fail, !add_events_app by lia. split; [|reflexivity].
      split; [reflexivity|]. split; [exact Ec|]. split; [exact Ed|].
      exists trc. split; [exact FC|].
      rewrite ES. unfold aborts. cbn [h_plugins add_events]. rewrite FP.
      reflexivity. }
  rewrite !add_events_app.
  destruct (xmldb_get0_clear L (td_target td1)) as [r3 xt].
  destruct (r3 <? 0).
  { run_leaf VC h2 FX FN'. right. split; [reflexivity|]. right; right; left.
    rewrite transaction_done_fail by lia. split; [|reflexivity].
    split; [reflexivity|]. split; [exact Ec|]. split; [exact Ed|].
    exists trc, [], (set_target xt td1).
    split; [exact FC|]. split; [reflexivity|]. split; [reflexivity|].
    rewrite add_events_app, ES. unfold aborts. cbn [h_plugins add_events app].
    rewrite FP, <- ?app_assoc. reflexivity. }
  destruct (xmldb_get0_clear L (td_src (set_target xt td1))) as [r4 xs].
  destruct (r4 <? 0).
  { run_leaf VC h2 FX FN'. right. split; [reflexivity|]. right; right; left.
    rewrite transaction_done_fail by lia. split; [|reflexivity].
    split; [reflexivity|]. split; [exact Ec|]. split; [exact Ed|].
    exists trc, [], (set_src xs (set_target xt td1)).
    split; [exact FC|]. split; [reflexivity|]. split; [reflexivity|].
    rewrite add_events_app, ES. unfold aborts. cbn [h_plugins add_events app].
    rewrite FP, <- ?app_assoc. reflexivity. }
  unfold xmldb_copy. cbn [h_xmldb add_events].
  destruct (h_xmldb h2 !! db) as [x|] eqn:Edb; cbn [Z.ltb Z.compare].
  2:{ run_leaf VC h2 FX FN'. right. split; [reflexivity|]. right; right; left.
      rewrite transaction_done_fail by lia. split; [|reflexivity].
      split; [reflexivity|]. split; [exact Ec|]. split; [exact Ed|].
      exists trc, [EvErr "xmldb_copy: no such datastore"], (set_src xs (set_target xt td1)).
      split; [exact FC|]. split; [reflexivity|]. split; [reflexivity|].
      unfold clicon_err. rewrite emit_add, !add_events_app, ES. unfold aborts.
      cbn [h_plugins add_events app]. rewrite FP, <- ?app_assoc. reflexivity. }
  rewrite plugin_transaction_each_eq. cbn [h_plugins add_events set_xmldb emit xmldb_modified_set].
  rewrite FP. run_leaf VC h2 FX FN'. right. split; [reflexivity|]. right; right; right.
  rewrite transaction_done_ok.
  split; [reflexivity|]. split; [exact Ec|]. split; [exact Ed|].
  eexists trc, _, x. split; [exact FC|]. split; [exact Edb|]. split; [reflexivity|].
  cbn. rewrite FE, <- ?app_assoc. reflexivity.
Qed.

(** *** Classes of events *)

Lemma existsb_none (p q : event -> bool) tr :
  (forall e, p e = true -> q e = false) ->
  forallb p tr = true -> existsb q tr = false.
Proof.
  intros Hpq. induction tr as [|e tr IH]; cbn; [auto|].
  intros [A B]%andb_prop. now rewrite (Hpq e A), (IH B).
Qed.

Lemma abort_events_callback plugins obs td :
  forallb (is_callback TRANS_CB_ABORT) (abort_events plugins obs td) = true.
Proof.
  induction obs as [|i obs IH]; cbn [abort_events]; [reflexivity|].
  destruct (nth_error plugins i); [|exact IH].
  now rewrite forallb_app, cb_events_callback, IH.
Qed.

Lemma add_events_inj t1 t2 h : add_events t1 h = add_events t2 h -> t1 = t2.
Proof. intros H. apply (f_equal h_events) in H. cbn in H. now apply app_inv_head in H. Qed.

Ltac event_cases e := destruct e as [[] ? ?| | | | | | | | | | | | | |]; cbn; auto; try discriminate.

Lemma validation_not_swap e : is_validation_event e = true -> is_swap e = false.
Proof. event_cases e. Qed.

Lemma confirm_not_swap e : is_confirm_event e = true -> is_swap e = false.
Proof.
  destruct e; cbn; auto; try discriminate.
  intros H. apply String.eqb_eq in H. now subst.
Qed.

Lemma callback_not_swap ty e : is_callback ty e = true -> is_swap e = false.
Proof. destruct ty; event_cases e. Qed.







Lemma failed_is_callback ty e : is_failed_callback ty e = true -> is_callback ty e = true.
Proof. unfold is_failed_callback. destruct e; try discriminate. now intros [A _]%andb_prop. Qed.

Lemma no_callback_no_failed ty tr :
  existsb (is_callback ty) tr = false -> existsb (is_failed_callback ty) tr = false.
Proof.
  induction tr as [|e tr IH]; cbn; [auto|]. intros [A B]%orb_false_elim.
  rewrite (IH B), orb_false_r. destruct (is_failed_callback ty e) eqn:E; [|reflexivity].
  apply failed_is_callback in E. congruence.
Qed.

Lemma forallb_negb_existsb (q : event -> bool) tr :
  forallb (fun e => negb (q e)) tr = true -> existsb q tr = false.
Proof.
  induction tr as [|e tr IH]; cbn; [auto|]. intros [A B]%andb_prop.
  rewrite (IH B). now destruct (q e).
Qed.

Lemma aborts_not (q : event -> bool) h td :
  (forall e, is_callback TRANS_CB_ABORT e = true -> q e = false) ->
  existsb q (aborts h td) = false.
Proof. intros Hq. eapply existsb_none; [exact Hq | apply abort_events_callback]. Qed.

Lemma phase_not (q : event -> bool) ty cps td :
  (forall e, is_callback ty e = true -> q e = false) ->
  existsb q (phase_events ty cps td) = false.
Proof. intros Hq. eapply existsb_none; [exact Hq | apply phase_events_callback]. Qed.

(** The summary of [validate_common], for the events named by
    [candidate_commit_runs]. *)
Lemma validate_common_summary h db ret trv td1 xret :
  validate_common L h db transaction_new None = (ret, add_events trv h, td1, xret) ->
  forallb is_validation_event trv = true
  /\ (ret = 1 -> existsb is_validation_failure trv = false
               /\ exists pre,
                   trv = pre ++ [EvGenericValidate 1]
                             ++ phase_events TRANS_CB_VALIDATE (h_plugins h) td1
                             ++ phase_events TRANS_CB_COMPLETE (h_plugins h) td1
                   /\ forallb is_preamble pre = true).
Proof.
  intros VC. apply validate_common_trace in VC as (_ & tr & E & Vv & Shape).
  apply add_events_inj in E. subst tr. split; [exact Vv|].
  intros Hr. destruct (Shape Hr) as (pre & E1 & E2 & E3 & _).
  split; [now apply forallb_negb_existsb|]. exists pre. auto.
Qed.

(** C10. [startup_commit] called with the database name running fails at
    once: it returns -1, the only thing it leaves is the error it raises, no
    plugin callback is called and no datastore is touched; [startup_common],
    which would create the work of a transaction, is not reached. *)
Theorem startup_commit_running_refused h cbret :
  exists h',
    startup_commit L h "running" cbret = Returned (-1) h' None cbret
    /\ events_since h h' = [EvErr "Invalid startup db: running"]
    /\ h_xmldb h' = h_xmldb h
    /\ h_cc_state h' = h_cc_state h
    /\ forall ty, existsb (is_callback ty) (events_since h h') = false.
Proof.
  exists (clicon_err h "Invalid startup db: running").
  split; [reflexivity|]. unfold clicon_err. rewrite emit_add, events_since_add.
  split; [reflexivity|]. split; [reflexivity|]. split; [reflexivity|].
  intros ty. destruct ty; reflexivity.
Qed.











(** *** The order of the effects of a commit *)

Lemma ranks_app rank t1 t2 : ranks rank (t1 ++ t2) = ranks rank t1 ++ ranks rank t2.
Proof.
  induction t1 as [|e t1 IH]; cbn; [reflexivity|].
  destruct (rank e); cbn; now rewrite IH.
Qed.

Lemma ranks_none (rank : event -> option nat) (p : event -> bool) tr :
  (forall e, p e = true -> rank e = None) -> forallb p tr = true -> ranks rank tr = [].
Proof.
  intros Hp. induction tr as [|e tr IH]; cbn; [reflexivity|].
  intros [A B]%andb_prop. now rewrite (Hp e A), (IH B).
Qed.

Lemma ranks_const (rank : event -> option nat) (p : event -> bool) k tr :
  (forall e, p e = true -> rank e = Some k) -> forallb p tr = true ->
  ranks rank tr = repeat k (length tr).
Proof.
  intros Hp. induction tr as [|e tr IH]; cbn; [reflexivity|].
  intros [A B]%andb_prop. now rewrite (Hp e A), (IH B).
Qed.

Lemma sorted_from_cons j k l :
  (j <= k)%nat -> sorted_from k l = true -> sorted_from j (k :: l) = true.
Proof.
  unfold sorted_from. intros Hjk [A B]%andb_prop. cbn.
  rewrite A, B, !andb_true_r. apply andb_true_intro. split; [now apply Nat.leb_le|].
  clear - Hjk A. induction l as [|a l IH]; cbn in *; [reflexivity|].
  apply andb_prop in A as [A1 A2]. rewrite (IH A2), andb_true_r.
  apply Nat.leb_le. apply Nat.leb_le in A1. lia.
Qed.

Lemma sorted_from_repeat j k n l :
  (j <= k)%nat -> sorted_from k l = true -> sorted_from j (repeat k n ++ l) = true.
Proof.
  intros Hjk Hl. induction n as [|n IH]; cbn.
  - unfold sorted_from in *. apply andb_prop in Hl as [A B]. rewrite B, andb_true_r.
    clear - Hjk A. induction l as [|a l IH]; cbn in *; [reflexivity|].
    apply andb_prop in A as [A1 A2]. rewrite (IH A2), andb_true_r.
    apply Nat.leb_le. apply Nat.leb_le in A1. lia.
  - apply sorted_from_cons; [exact Hjk|].
    clear IH. induction n as [|n IH]; cbn; [exact Hl|].
    apply sorted_from_cons; [lia | exact IH].
Qed.

Lemma preamble_rank e : is_preamble e = true -> code_rank e = None.
Proof. event_cases e. Qed.

Lemma confirm_rank e : is_confirm_event e = true -> code_rank e = None.
Proof.
  destruct e; cbn; auto; try discriminate.
  intros H. apply String.eqb_eq in H. now subst.
Qed.

Lemma callback_rank ty e :
  is_callback ty e = true ->
  code_rank e = match ty with
                | TRANS_CB_VALIDATE => Some 1%nat
                | TRANS_CB_COMMIT => Some 2%nat
                | TRANS_CB_COMMIT_DONE => Some 3%nat
                | TRANS_CB_END => Some 5%nat
                | _ => None
                end.
Proof. destruct ty; event_cases e. Qed.

Lemma phase_ranks ty cps td k :
  (forall e, is_callback ty e = true -> code_rank e = Some k) ->
  ranks code_rank (phase_events ty cps td) = repeat k (length (phase_events ty cps td)).
Proof. intros Hk. eapply ranks_const; [exact Hk | apply phase_events_callback]. Qed.

(** C2, as the code has it. For every commit that [candidate_commit] reports
    as done, the events it leaves are, in this order: the reads and BEGIN,
    the generic validation, the VALIDATE callbacks, the COMPLETE callbacks,
    confirmed-commit, the COMMIT callbacks, the COMMIT_DONE callbacks, the
    copy of the store into running with the reset of its dirty bit, and the
    END callbacks. In particular the swap comes after the commit and
    commit-done callbacks of the plugins, not before them. *)
Theorem candidate_commit_order h xe db myid cbret h' cbret' :
  candidate_commit L h xe db myid cbret = (1, h', cbret') ->
  in_order code_rank (events_since h h') = true
  /\ exists td1 td2 pre trc,
      events_since h h'
      = pre ++ [EvGenericValidate 1]
            ++ phase_events TRANS_CB_VALIDATE (h_plugins h) td1
            ++ phase_events TRANS_CB_COMPLETE (h_plugins h) td1
            ++ trc
            ++ phase_events TRANS_CB_COMMIT (h_plugins h) td1
            ++ phase_events TRANS_CB_COMMIT_DONE (h_plugins h) td1
            ++ [EvCopy db "running"; EvModified db false]
            ++ phase_events TRANS_CB_END (h_plugins h) td2
      /\ forallb is_preamble pre = true
      /\ forallb is_confirm_event trc = true.
Proof.
  intros CC.
  apply candidate_commit_runs in CC
    as (ret & h1 & td1 & xret & trv & h2 & VC & -> & FX & _ & Runs).
  pose proof (validate_common_summary _ _ _ _ _ _ VC) as [Vv Shape].
  destruct Runs as [[(Hr & _) _] | [-> Runs]]; [lia|].
  destruct Runs as [[(Hr & _) _]
                   |[[(Hr & _) _]
                    |[[(Hr & _) _]
                     |(_ & Ec & Ed & trc & td2 & x & FC & _ & _ & E)]]]; try discriminate.
  apply events_since_app in E.
  destruct (Shape eq_refl) as (_ & pre & -> & Pp).
  assert (E' : events_since h h'
               = pre ++ [EvGenericValidate 1]
                   ++ phase_events TRANS_CB_VALIDATE (h_plugins h) td1
                   ++ phase_events TRANS_CB_COMPLETE (h_plugins h) td1
                   ++ trc
                   ++ phase_events TRANS_CB_COMMIT (h_plugins h) td1
                   ++ phase_events TRANS_CB_COMMIT_DONE (h_plugins h) td1
                   ++ [EvCopy db "running"; EvModified db false]
                   ++ phase_events TRANS_CB_END (h_plugins h) td2)
    by (rewrite E, <- !app_assoc; reflexivity).
  split; [|exists td1, td2, pre, trc; auto].
  unfold in_order. rewrite E', !ranks_app.
  rewrite (ranks_none _ _ _ preamble_rank Pp), (ranks_none _ _ _ confirm_rank FC).
  rewrite (phase_ranks TRANS_CB_VALIDATE _ _ 1) by apply (callback_rank TRANS_CB_VALIDATE).
  rewrite (ranks_none code_rank (is_callback TRANS_CB_COMPLETE)
             (phase_events TRANS_CB_COMPLETE (h_plugins h) td1)
             (callback_rank TRANS_CB_COMPLETE) (phase_events_callback _ _ _)).
  rewrite (phase_ranks TRANS_CB_COMMIT _ _ 2) by apply (callback_rank TRANS_CB_COMMIT).
  rewrite (phase_ranks TRANS_CB_COMMIT_DONE _ _ 3)
    by apply (callback_rank TRANS_CB_COMMIT_DONE).
  rewrite (phase_ranks TRANS_CB_END _ _ 5) by apply (callback_rank TRANS_CB_END).
  cbn [ranks code_rank app]. rewrite ?String.eqb_refl. cbn [app].
  match goal with
  | |- nondecreasing (0%nat :: ?l) = true =>
      assert (S0 : sorted_from 0 (0%nat :: l) = true)
  end.
  { apply sorted_from_cons; [lia|].
    apply (sorted_from_repeat 0 1); [lia|].
    apply (sorted_from_repeat 1 2); [lia|].
    apply (sorted_from_repeat 2 3); [lia|].
    apply (sorted_from_cons 3 4); [lia|].
    rewrite <- (app_nil_r (repeat _ _)).
    apply (sorted_from_repeat 4 5); [lia | reflexivity]. }
  unfold sorted_from in S0. now apply andb_prop in S0 as [_ S0].
Qed.

(** *** [load_failsafe] *)

Lemma candidate_commit_extends h xe db myid cbret r h' cbret' :
  candidate_commit L h xe db myid cbret = (r, h', cbret') ->
  h_events h' = h_events h ++ events_since h h'.
Proof.
  intros CC.
  apply candidate_commit_runs in CC
    as (ret & h1 & td1 & xret & trv & h2 & VC & -> & FX & _ & Runs).
  destruct Runs as [[(Hr & trc & FC & E) EX] | [-> Runs]];
    [now rewrite (events_since_app _ _ _ E)|].
  destruct Runs as [[(Hr & Ec & trc & FC & E) EX]
                   |[[(_ & Ec & _ & trc & FC & E) _]
                    |[[(_ & Ec & _ & trc & errs & td2 & FC & FE & _ & E) _]
                     |(_ & Ec & _ & trc & td2 & x & FC & _ & _ & E)]]];
    now rewrite (events_since_app _ _ _ E).
Qed.

Lemma candidate_commit_stores h db myid cbret r h' cbret' :
  candidate_commit L h None db myid cbret = (r, h', cbret') ->
  (r = -1 \/ r = 0 \/ r = 1)
  /\ (r <> 1 -> h_xmldb h' = h_xmldb h)
  /\ (r = 1 -> exists x, h_xmldb h !! db = Some x
                       /\ h_xmldb h' = <["running" := x]> (h_xmldb h)).
Proof.
  intros CC.
  apply candidate_commit_runs in CC
    as (ret & h1 & td1 & xret & trv & h2 & VC & -> & FX & FN & Runs).
  specialize (FN eq_refl).
  destruct Runs as [[(Hr & trc & FC & E) EX] | [-> Runs]].
  { split; [lia|]. split; [intros _; congruence | lia]. }
  destruct Runs as [[(Hr & _) EX]
                   |[[(Hr & _) EX]
                    |[[(Hr & _) EX]
                     |(Hr & Ec & _ & trc & td2 & x & FC & Ex & EX & E)]]];
    (split; [lia|]); (split; [intros ?; congruence|]); try lia.
  intros _. exists x. rewrite <- FN. auto.
Qed.

(** C9. [load_failsafe] answers 0 or -1. Without a failsafe store it answers
    -1 and touches no store. With one (and a running store to back up) it
    copies running to tmp, resets running and runs [candidate_commit] on the
    failsafe store; when that commit is not done, running is restored from
    tmp and the answer is -1; when it is done, the answer is 0, running is
    the failsafe content and tmp the former running. So an answer of 0 means
    that there is a failsafe store and that running has its content. *)
Theorem load_failsafe_recovery h phase r h' :
  load_failsafe L h phase = (r, h') ->
  (r = 0 \/ r = -1)
  /\ (h_xmldb h !! "failsafe" = None -> r = -1 /\ h_xmldb h' = h_xmldb h)
  /\ (forall fs run,
        h_xmldb h !! "failsafe" = Some fs -> h_xmldb h !! "running" = Some run ->
        let hb := snd (xmldb_db_reset L (snd (xmldb_copy h "running" "tmp")) "running") in
        exists rc hc cb tail,
          candidate_commit L hb None "failsafe" 0 "" = (rc, hc, cb)
          /\ events_since h h'
             = [EvCopy "running" "tmp"; EvReset "running"] ++ events_since hb hc ++ tail
          /\ (rc <> 1 -> r = -1 /\ h_xmldb h' !! "running" = Some run)
          /\ (rc = 1 -> r = 0 /\ h_xmldb h' !! "running" = Some fs
                        /\ h_xmldb h' !! "failsafe" = Some fs
                        /\ h_xmldb h' !! "tmp" = Some run))
  /\ (r = 0 -> exists fs,
        h_xmldb h !! "failsafe" = Some fs /\ h_xmldb h' !! "running" = Some fs).
Proof.
  unfold load_failsafe, xmldb_exists.
  destruct (h_xmldb h !! "failsafe") as [fs|] eqn:F; cbn [Z.ltb Z.eqb Z.compare].
  2:{ intros H; inversion H; subst. split; [auto|].
      split; [intros _; split; reflexivity|].
      split; [intros ? ? ?; discriminate | intros ?; discriminate]. }
  unfold xmldb_copy.
  destruct (h_xmldb h !! "running") as [run|] eqn:R; cbn [Z.ltb Z.compare].
  2:{ intros H; inversion H; subst. split; [auto|].
      split; [intros ?; discriminate|].
      split; [intros ? ? ? ?; discriminate | intros ?; discriminate]. }
  unfold xmldb_db_reset. cbn [Z.ltb Z.compare snd].
  match goal with
  | |- context [candidate_commit L ?x None "failsafe" 0 ""] => set (hb := x)
  end.
  destruct (candidate_commit L hb None "failsafe" 0 "") as [[rc hc] cb] eqn:CC.
  pose proof (candidate_commit_extends _ _ _ _ _ _ _ _ CC) as EXT.
  apply candidate_commit_stores in CC as (Hrc & Keep & Swap).
  assert (Xb : h_xmldb hb = <["running" := xmldb_empty L]> (<["tmp" := run]> (h_xmldb h)))
    by reflexivity.
  assert (Eb : h_events hb = h_events h ++ [EvCopy "running" "tmp"; EvReset "running"])
    by (cbn; now rewrite <- app_assoc).
  destruct (rc =? 1) eqn:E1; cbn [negb].
  - (* the commit is done *)
    assert (rc = 1) as -> by lia. cbn [Z.ltb Z.eqb Z.compare].
    intros H; inversion H; subst r h'. split; [auto|]. split; [intros ?; discriminate|].
    destruct (Swap eq_refl) as (x & Ex & EX).
    rewrite Xb, !lookup_insert_ne, F in Ex by discriminate. injection Ex as <-.
    split.
    2:{ intros _. exists fs. split; [reflexivity|].
        unfold clicon_log. cbn [h_xmldb emit]. rewrite EX, Xb. apply lookup_insert_eq. }
    intros fs' run' [= <-] [= <-]. cbn zeta.
    eexists _, _, _, [_]. split; [reflexivity|]. split.
    { apply events_since_app. unfold clicon_log. cbn [h_events emit].
      rewrite EXT, Eb, <- !app_assoc. reflexivity. }
    split; [congruence|]. intros _.
    unfold clicon_log. cbn [h_xmldb emit]. rewrite EX, Xb.
    split; [reflexivity|]. split; [apply lookup_insert_eq|].
    split; [now rewrite !lookup_insert_ne by discriminate|].
    rewrite !lookup_insert_ne by discriminate. apply lookup_insert_eq.
  - (* the commit is not done: running is restored *)
    assert (Hne : rc <> 1) by lia. specialize (Keep Hne).
    rewrite Keep, Xb.
    rewrite lookup_insert_ne, lookup_insert_eq by discriminate. cbn [Z.ltb Z.compare].
    assert (Q : forall a b : Z * clicon_handle,
               (if rc <? 0 then a else if rc =? 0 then b else
                  (0, clicon_log (emit (EvCopy "tmp" "running")
                     (set_xmldb (<["running" := run]>
                        (<["running" := xmldb_empty L]> (<["tmp" := run]> (h_xmldb h)))) hc))
                     (match phase with Some p => p | None => "(unknown)" end
                      +:+ " failed, Failsafe database loaded ")))
               = if rc <? 0 then a else b)
      by (intros; destruct Hrc as [->|[->| ->]]; try reflexivity; lia).
    rewrite Q. clear Q.
    intros H. split; [destruct (rc <? 0); inversion H; auto|].
    split; [intros ?; discriminate|].
    split; [|destruct (rc <? 0); inversion H; intros ?; discriminate].
    intros fs' run' [= <-] [= <-]. cbn zeta.
    destruct (rc <? 0); inversion H; subst r h'.
    + eexists _, _, _, [_]. split; [reflexivity|]. split.
      { apply events_since_app. cbn [h_events emit set_xmldb].
        rewrite EXT, Eb, <- !app_assoc. reflexivity. }
      split; [|congruence]. intros _. split; [reflexivity|]. cbn. apply lookup_insert_eq.
    + eexists _, _, _, [_; _]. split; [reflexivity|]. split.
      { apply events_since_app. unfold clicon_err. cbn [h_events emit set_xmldb].
        rewrite EXT, Eb, <- !app_assoc. reflexivity. }
      split; [|congruence]. intros _. split; [reflexivity|]. cbn. apply lookup_insert_eq.
Qed.

End Facts.

End BackendFacts.

(** ** The marks of a transaction *)

Module MarkFacts.
Import Xml Backend XmlFacts BackendFacts.

(** *** Bits *)

Lemma land_lor_keep f F G : Z.land f G = G -> Z.land (Z.lor f F) G = G.
Proof.
  intros H. apply Z.bits_inj'. intros n Hn.
  apply (f_equal (fun z => Z.testbit z n)) in H.
  rewrite Z.land_spec in *. rewrite Z.lor_spec.
  destruct (Z.testbit f n), (Z.testbit F n), (Z.testbit G n); auto.
Qed.

Lemma land_lor_set f F : Z.land (Z.lor f F) F = F.
Proof.
  apply Z.bits_inj'. intros n Hn. rewrite Z.land_spec, Z.lor_spec.
  destruct (Z.testbit f n), (Z.testbit F n); auto.
Qed.

Lemma head_grew_refl hd : head_grew hd hd.
Proof. split; auto. Qed.

Lemma head_grew_trans a b c : head_grew a b -> head_grew b c -> head_grew a c.
Proof. intros [A1 A2] [B1 B2]. split; [congruence | auto]. Qed.

Lemma head_grew_set F hd : head_grew hd (head_flag_set F hd).
Proof. split; [reflexivity|]. intros G H. cbn. now apply land_lor_keep. Qed.

(** *** Growth *)

Lemma grew_unfold hd cs hd' cs' :
  grew (XML hd cs) (XML hd' cs') <-> head_grew hd hd' /\ all_grew cs cs'.
Proof.
  cbn [grew]. split; intros [A B]; (split; [exact A|]); clear A;
    revert cs' B; induction cs as [|c cs IH]; intros [|c' cs'] B; cbn in *; auto;
    destruct B as [B1 B2]; split; auto.
Qed.

Lemma all_grew_refl cs : Forall (fun t => grew t t) cs -> all_grew cs cs.
Proof. induction 1; cbn; auto. Qed.

Lemma grew_refl t : grew t t.
Proof.
  induction t as [hd cs IH] using cxobj_ind. apply grew_unfold.
  split; [apply head_grew_refl | now apply all_grew_refl].
Qed.

Lemma grew_trans t1 : forall t2 t3, grew t1 t2 -> grew t2 t3 -> grew t1 t3.
Proof.
  induction t1 as [hd cs IH] using cxobj_ind. intros [hd2 cs2] [hd3 cs3].
  rewrite !grew_unfold. intros [A1 A2] [B1 B2].
  split; [eapply head_grew_trans; eauto|].
  clear A1 B1. revert cs2 cs3 A2 B2.
  induction IH as [|c cs Hc _ IHcs]; intros [|c2 cs2] [|c3 cs3]; cbn; auto; try tauto.
  intros [A A'] [B B']. split; [eapply Hc; eauto | eapply IHcs; eauto].
Qed.

Lemma all_grew_nth cs : forall cs' i,
  all_grew cs cs' ->
  (forall c, nth_error cs i = Some c -> exists c', nth_error cs' i = Some c' /\ grew c c')
  /\ (forall c', nth_error cs' i = Some c' -> exists c, nth_error cs i = Some c /\ grew c c').
Proof.
  induction cs as [|a cs IH]; intros [|b cs'] i H; cbn in H; try tauto.
  - split; intros c; destruct i; discriminate.
  - destruct H as [H1 H2]. destruct i as [|i]; cbn.
    + split; intros c [= <-]; eauto.
    + now apply IH.
Qed.

Lemma grew_at p : forall t t',
  grew t t' ->
  (forall n, xml_at p t = Some n -> exists n', xml_at p t' = Some n' /\ grew n n')
  /\ (forall n', xml_at p t' = Some n' -> exists n, xml_at p t = Some n /\ grew n n').
Proof.
  induction p as [|i p IH]; intros [hd cs] [hd' cs'] G.
  - split; intros n [= <-]; eauto.
  - apply grew_unfold in G as [_ G]. cbn [xml_at xml_childvec].
    destruct (all_grew_nth cs cs' i G) as [F1 F2]. split.
    + intros n H. destruct (nth_error cs i) as [c|] eqn:E; [|discriminate].
      destruct (F1 c eq_refl) as (c' & -> & Gc). now apply (IH c c' Gc).
    + intros n H. destruct (nth_error cs' i) as [c'|] eqn:E; [|discriminate].
      destruct (F2 c' eq_refl) as (c & -> & Gc). now apply (IH c c' Gc).
Qed.

Lemma grew_flag F n n' : grew n n' -> has_flag F n -> has_flag F n'.
Proof. destruct n, n'. intros [[_ G] _]%grew_unfold. apply G. Qed.

Lemma grew_type n n' : grew n n' -> xml_type n' = xml_type n.
Proof. destruct n, n'. now intros [[G _] _]%grew_unfold. Qed.

Lemma grew_elmnt_path q : forall n n', grew n n' -> elmnt_path q n' = elmnt_path q n.
Proof.
  induction q as [|i q IH]; intros [hd cs] [hd' cs'] G; [reflexivity|].
  apply grew_unfold in G as [_ G]. cbn [elmnt_path xml_childvec].
  destruct (all_grew_nth cs cs' i G) as [F1 F2].
  destruct (nth_error cs i) as [c|] eqn:E.
  - destruct (F1 c eq_refl) as (c' & -> & Gc).
    now rewrite (grew_type _ _ Gc), (IH _ _ Gc).
  - destruct (nth_error cs' i) as [c'|] eqn:E'; [|reflexivity].
    destruct (F2 c' eq_refl) as (c & Ec & _). congruence.
Qed.

(** The marks are kept by growth. *)
Lemma marked_here_grew F xn t t' : grew t t' -> marked_here F xn t -> marked_here F xn t'.
Proof.
  intros G M x' Hx'. destruct (proj2 (grew_at xn t t' G) x' Hx') as (x & Hx & Gx).
  eapply grew_flag; eauto.
Qed.

Lemma marked_down_grew F xn t t' : grew t t' -> marked_down F xn t -> marked_down F xn t'.
Proof.
  intros G M x' Hx' q n' Hq Hn'.
  destruct (proj2 (grew_at xn t t' G) x' Hx') as (x & Hx & Gx).
  destruct (proj2 (grew_at q x x' Gx) n' Hn') as (n & Hn & Gn).
  eapply grew_flag; [exact Gn|]. eapply M; eauto.
  now rewrite <- (grew_elmnt_path q x x' Gx).
Qed.

Lemma marked_up_grew F xn t t' : grew t t' -> marked_up F xn t -> marked_up F xn t'.
Proof.
  intros G M p q a' E Hq Ha'.
  destruct (proj2 (grew_at p t t' G) a' Ha') as (a & Ha & Ga).
  eapply grew_flag; [exact Ga|]. eapply M; eauto.
Qed.

(** *** The operations that mark let a tree grow *)

Lemma grew_on_head fn t : (forall hd, head_grew hd (fn hd)) -> grew t (on_head fn t).
Proof.
  intros Hfn. destruct t as [hd cs]. apply grew_unfold. split; [apply Hfn|].
  apply all_grew_refl. apply Forall_forall. intros; apply grew_refl.
Qed.

Lemma grew_apply ty fn t : (forall hd, head_grew hd (fn hd)) -> grew t (xml_apply ty fn t).
Proof.
  intros Hfn. induction t as [hd cs IH] using cxobj_ind. cbn [xml_apply].
  apply grew_unfold. split; [apply head_grew_refl|].
  induction IH as [|c cs Hc _ IHcs]; cbn; [auto|]. split; [|exact IHcs].
  destruct (cxobj_type_eqb (xml_type c) ty); [|apply grew_refl].
  eapply grew_trans; [exact Hc | now apply grew_on_head].
Qed.

Lemma all_grew_update i (g : cxobj -> cxobj) : forall cs,
  (forall x, grew x (g x)) -> all_grew cs (list_update i g cs).
Proof.
  induction i as [|i IH]; intros [|c cs] Hg; cbn; auto.
  - split; [apply Hg|]. apply all_grew_refl, Forall_forall. intros; apply grew_refl.
  - split; [apply grew_refl | now apply IH].
Qed.

Lemma grew_update_at p f : forall t, (forall x, grew x (f x)) -> grew t (xml_update_at p f t).
Proof.
  induction p as [|i p IH]; intros t Hf; [apply Hf|].
  destruct t as [hd cs]. cbn [xml_update_at]. apply grew_unfold.
  split; [apply head_grew_refl|]. apply all_grew_update. intros x. now apply IH.
Qed.

Lemma grew_apply_ancestor fn p : forall t,
  (forall hd, head_grew hd (fn hd)) -> grew t (xml_apply_ancestor fn p t).
Proof.
  induction p as [|i p IH]; intros t Hfn; [apply grew_refl|].
  destruct t as [hd cs]. cbn [xml_apply_ancestor]. apply grew_unfold.
  split; [apply Hfn|]. apply all_grew_update. intros x. now apply IH.
Qed.

(** *** What each operation marks *)

Lemma nth_error_list_update {A} i (g : A -> A) : forall l,
  nth_error (list_update i g l) i = option_map g (nth_error l i).
Proof. induction i as [|i IH]; intros [|a l]; cbn; auto. Qed.

Lemma xml_at_update_at p f : forall t y,
  xml_at p (xml_update_at p f t) = Some y ->
  exists x, xml_at p t = Some x /\ y = f x.
Proof.
  induction p as [|i p IH]; intros t y H.
  - cbn in *. injection H as <-. eauto.
  - destruct t as [hd cs]. cbn [xml_update_at xml_at xml_childvec] in *.
    rewrite nth_error_list_update in H.
    destruct (nth_error cs i) as [c|]; [|discriminate]. cbn in H. now apply IH.
Qed.

Lemma flag_set_has F x : has_flag F (xml_flag_set F x).
Proof. destruct x as [hd cs]. unfold has_flag. cbn. apply land_lor_set. Qed.

Lemma xml_at_on_head fn q x : q <> [] -> xml_at q (on_head fn x) = xml_at q x.
Proof. destruct x, q; [congruence | reflexivity]. Qed.

Lemma apply_marks F q : forall x n,
  q <> [] -> elmnt_path q x = true ->
  xml_at q (xml_apply CX_ELMNT (head_flag_set F) x) = Some n -> has_flag F n.
Proof.
  induction q as [|i q IH]; intros [hd cs] n Hq He Hn; [congruence|].
  cbn [xml_apply xml_at xml_childvec elmnt_path] in *.
  rewrite nth_error_map in Hn.
  destruct (nth_error cs i) as [c|]; [|discriminate]. cbn [option_map] in Hn.
  apply andb_prop in He as [Hc He]. rewrite Hc in Hn.
  destruct q as [|j q].
  - cbn in Hn. injection Hn as <-.
    destruct (xml_apply CX_ELMNT (head_flag_set F) c) as [hd' cs'].
    unfold has_flag. cbn. apply land_lor_set.
  - rewrite xml_at_on_head in Hn by discriminate. eapply IH; eauto; discriminate.
Qed.

Lemma apply_keeps_flag F G x :
  has_flag G x -> has_flag G (xml_apply CX_ELMNT (head_flag_set F) x).
Proof. destruct x as [hd cs]. auto. Qed.

Lemma ancestor_marks F p : forall q t a,
  q <> [] ->
  xml_at p (xml_apply_ancestor (head_flag_set F) (p ++ q) t) = Some a -> has_flag F a.
Proof.
  induction p as [|i p IH]; intros q [hd cs] a Hq Ha.
  - destruct q as [|j q]; [congruence|]. cbn in Ha. injection Ha as <-.
    unfold has_flag. cbn. apply land_lor_set.
  - cbn [app xml_apply_ancestor xml_at xml_childvec] in Ha.
    rewrite nth_error_list_update in Ha.
    destruct (nth_error cs i) as [c|]; [|discriminate]. cbn in Ha. eapply IH; eauto.
Qed.

(** The node at [xn] flagged, then its element descendants. *)
Lemma marked_down_intro F xn t :
  marked_down F xn
    (xml_update_at xn (xml_apply CX_ELMNT (head_flag_set F))
       (xml_update_at xn (xml_flag_set F) t)).
Proof.
  intros y Hy q n Hq Hn.
  apply xml_at_update_at in Hy as (y1 & Hy1 & ->).
  apply xml_at_update_at in Hy1 as (y0 & Hy0 & ->).
  destruct q as [|j q].
  - cbn in Hn. injection Hn as <-. apply apply_keeps_flag, flag_set_has.
  - eapply apply_marks; [| |exact Hn]; [discriminate|].
    rewrite (grew_elmnt_path _ _ _ (grew_apply CX_ELMNT _ _ (head_grew_set F))) in Hq.
    exact Hq.
Qed.

Lemma marked_here_intro F xn t : marked_here F xn (xml_update_at xn (xml_flag_set F) t).
Proof. intros y Hy. apply xml_at_update_at in Hy as (y0 & _ & ->). apply flag_set_has. Qed.

Lemma marked_up_intro F xn t : marked_up F xn (xml_apply_ancestor (head_flag_set F) xn t).
Proof. intros p q a -> Hq Ha. eapply ancestor_marks; eauto. Qed.

(** *** The marking loops *)

Section Marks.
Variable L : clixon_lib.

Lemma opt_grew_refl o : opt_grew o o.
Proof. destruct o; cbn; [apply grew_refl | exact I]. Qed.

Lemma opt_grew_trans a b c : opt_grew a b -> opt_grew b c -> opt_grew a c.
Proof. destruct a, b, c; cbn; try tauto. apply grew_trans. Qed.

Lemma opt_grew_map f o : (forall x, grew x (f x)) -> opt_grew o (option_map f o).
Proof. intros Hf. destruct o; cbn; auto. Qed.

Lemma td_grew_refl td : td_grew td td.
Proof. repeat split; apply opt_grew_refl. Qed.

Lemma td_grew_trans a b c : td_grew a b -> td_grew b c -> td_grew a c.
Proof.
  intros (A1 & A2 & A3 & A4 & A5 & A6 & A7) (B1 & B2 & B3 & B4 & B5 & B6 & B7).
  repeat split; try congruence; eapply opt_grew_trans; eauto.
Qed.

Lemma td_grew_on_src f td : (forall x, grew x (f x)) -> td_grew td (on_src f td).
Proof.
  intros Hf. repeat split; cbn; [now apply opt_grew_map | apply opt_grew_refl].
Qed.

Lemma td_grew_on_target f td : (forall x, grew x (f x)) -> td_grew td (on_target f td).
Proof.
  intros Hf. repeat split; cbn; [apply opt_grew_refl | now apply opt_grew_map].
Qed.

Lemma in_tree_grew (P : cxobj -> Prop) o o' :
  (forall t t', grew t t' -> P t -> P t') ->
  opt_grew o o' -> in_tree P o -> in_tree P o'.
Proof.
  intros HP G H t' ->. destruct o as [t|]; cbn in G; [|tauto]. eapply HP; eauto.
Qed.

Lemma in_tree_map (P : cxobj -> Prop) (f : cxobj -> cxobj) o :
  (forall t, P (f t)) -> in_tree P (option_map f o).
Proof. intros H t E. destruct o; cbn in E; [|discriminate]. injection E as <-. apply H. Qed.

Ltac grow :=
  repeat first
    [ apply grew_update_at; intros ?
    | apply grew_apply_ancestor; intros ?
    | apply grew_apply; intros ?
    | apply grew_on_head; intros ?
    | apply head_grew_set ].

Lemma P_del_grew xn td td' : td_grew td td' -> P_del L xn td -> P_del L xn td'.
Proof.
  intros (_ & _ & _ & _ & _ & G & _). apply in_tree_grew; [|exact G].
  intros t t' Gt [A B]. split; [eapply marked_down_grew | eapply marked_up_grew]; eauto.
Qed.

Lemma P_add_grew xn td td' : td_grew td td' -> P_add L xn td -> P_add L xn td'.
Proof.
  intros (_ & _ & _ & _ & _ & _ & G). apply in_tree_grew; [|exact G].
  intros t t' Gt [A B]. split; [eapply marked_down_grew | eapply marked_up_grew]; eauto.
Qed.

Lemma P_chg_grew c td td' : td_grew td td' -> P_chg L c td -> P_chg L c td'.
Proof.
  intros (_ & _ & _ & _ & _ & G1 & G2) [A B]. split.
  - revert A. apply in_tree_grew; [|exact G1].
    intros t t' Gt [A B']. split; [eapply marked_here_grew | eapply marked_up_grew]; eauto.
  - revert B. apply in_tree_grew; [|exact G2].
    intros t t' Gt [A' B']. split; [eapply marked_here_grew | eapply marked_up_grew]; eauto.
Qed.

Lemma mark_deleted_grew td xn : td_grew td (mark_deleted L td xn).
Proof.
  unfold mark_deleted.
  eapply td_grew_trans; [eapply td_grew_trans|]; apply td_grew_on_src; intros x; grow.
Qed.

Lemma mark_added_grew td xn : td_grew td (mark_added L td xn).
Proof.
  unfold mark_added.
  eapply td_grew_trans; [eapply td_grew_trans|]; apply td_grew_on_target; intros x; grow.
Qed.

Lemma mark_changed_grew td c : td_grew td (mark_changed L td c).
Proof.
  unfold mark_changed.
  eapply td_grew_trans; [|apply td_grew_on_target; intros x; grow].
  eapply td_grew_trans; [|apply td_grew_on_target; intros x; grow].
  eapply td_grew_trans; [|apply td_grew_on_src; intros x; grow].
  apply td_grew_on_src; intros x; grow.
Qed.

Lemma mark_deleted_marks td xn : P_del L xn (mark_deleted L td xn).
Proof.
  unfold mark_deleted, P_del, on_src. cbn [td_src set_src].
  destruct (td_src td) as [s|]; cbn; [|intros t; discriminate].
  intros t [= <-]. split; [|apply marked_up_intro].
  eapply marked_down_grew; [|apply marked_down_intro]. grow.
Qed.

Lemma mark_added_marks td xn : P_add L xn (mark_added L td xn).
Proof.
  unfold mark_added, P_add, on_target. cbn [td_target set_target].
  destruct (td_target td) as [s|]; cbn; [|intros t; discriminate].
  intros t [= <-]. split; [|apply marked_up_intro].
  eapply marked_down_grew; [|apply marked_down_intro]. grow.
Qed.

Lemma mark_changed_marks td c : P_chg L c (mark_changed L td c).
Proof.
  unfold mark_changed, P_chg, on_target, on_src.
  cbn [td_target td_src set_target set_src]. split.
  - destruct (td_src td) as [s|]; cbn; [|intros t; discriminate].
    intros t [= <-]. split; [|apply marked_up_intro].
    eapply marked_here_grew; [|apply marked_here_intro]. grow.
  - destruct (td_target td) as [s|]; cbn; [|intros t; discriminate].
    intros t [= <-]. split; [|apply marked_up_intro].
    eapply marked_here_grew; [|apply marked_here_intro]. grow.
Qed.

Lemma fold_marks {X} (step : transaction_data_t -> X -> transaction_data_t)
  (P : X -> transaction_data_t -> Prop) :
  (forall td x, td_grew td (step td x)) ->
  (forall td x, P x (step td x)) ->
  (forall x td td', td_grew td td' -> P x td -> P x td') ->
  forall l td, td_grew td (fold_left step l td)
               /\ forall x, In x l -> P x (fold_left step l td).
Proof.
  intros Hg Hp Hm. induction l as [|a l IH]; intros td; cbn [fold_left].
  - split; [apply td_grew_refl | intros x []].
  - destruct (IH (step td a)) as [G Q]. split.
    + eapply td_grew_trans; [apply Hg | exact G].
    + intros x [<-|Hx]; [|now apply Q]. eapply Hm; [exact G | apply Hp].
Qed.

Lemma changed_pairs_grew td td' : td_grew td td' -> changed_pairs td' = changed_pairs td.
Proof. intros (_ & _ & A & B & C & _). unfold changed_pairs. now rewrite A, B, C. Qed.

(** The three loops together. *)
Lemma mark_diff_marks td : td_grew td (mark_diff L td) /\ marks_ok L (mark_diff L td).
Proof.
  unfold mark_diff.
  destruct (fold_marks (mark_deleted L) (P_del L) mark_deleted_grew mark_deleted_marks
              P_del_grew (td_dvec td) td) as [G1 Q1].
  set (td1 := fold_left (mark_deleted L) (td_dvec td) td) in *.
  destruct (fold_marks (mark_added L) (P_add L) mark_added_grew mark_added_marks
              P_add_grew (td_avec td1) td1) as [G2 Q2].
  set (td2 := fold_left (mark_added L) (td_avec td1) td1) in *.
  destruct (fold_marks (mark_changed L) (P_chg L) mark_changed_grew mark_changed_marks
              P_chg_grew (changed_pairs td2) td2) as [G3 Q3].
  set (td3 := fold_left (mark_changed L) (changed_pairs td2) td2) in *.
  pose proof (td_grew_trans _ _ _ G1 G2) as G12.
  pose proof (td_grew_trans _ _ _ G12 G3) as G13.
  pose proof (td_grew_trans _ _ _ G2 G3) as G23.
  split; [exact G13|]. split; [|split].
  - intros xn Hx. destruct G13 as (E & _). rewrite E in Hx.
    apply (P_del_grew xn td1 td3 G23). now apply Q1.
  - intros xn Hx. destruct G23 as (_ & E & _). rewrite E in Hx.
    apply (P_add_grew xn td2 td3 G3). now apply Q2.
  - intros c Hc. rewrite (changed_pairs_grew _ _ G3) in Hc. now apply Q3.
Qed.

Lemma begin_run_td cps : forall i td r tr td',
  begin_run i cps td = (r, tr, td') -> td' = set_observers (td_observers td') td.
Proof.
  induction cps as [|cp cps IH]; intros i td r tr td' H; cbn [begin_run] in H.
  - inversion H; subst. now destruct td'.
  - destruct (cb_fails TRANS_CB_BEGIN cp _).
    + inversion H; subst. reflexivity.
    + destruct (begin_run (S i) cps _) as [[r0 tr0] td0] eqn:E.
      inversion H; subst. apply IH in E. rewrite E at 1. reflexivity.
Qed.

Lemma marks_ok_observers o td : marks_ok L td -> marks_ok L (set_observers o td).
Proof. intros H. exact H. Qed.

Lemma combine_fst_snd {A B} (l : list (A * B)) :
  firstn (length l) (combine (map fst l) (map snd l)) = l.
Proof.
  induction l as [|[a b] l IH]; cbn; [reflexivity|]. now rewrite IH.
Qed.

Lemma marks_ok_empty td :
  td_dvec td = [] -> td_avec td = [] -> td_clen td = 0%nat -> marks_ok L td.
Proof.
  intros A B C. unfold marks_ok, changed_pairs. rewrite A, B, C. cbn [firstn].
  split; [|split]; intros ? [].
Qed.

(** C4. In [validate_common] (the common part of [candidate_validate] and
    [candidate_commit]), in the transaction it hands on: every node of the
    deleted vector carries DEL together with all its element descendants,
    every node of the added vector carries ADD together with all its element
    descendants, both ends of every changed pair carry CHANGE, and every
    ancestor of a node of any of the three vectors carries CHANGE. When
    [validate_common] answers 1 the vectors are those of the diff of the two
    trees, and the trees of the transaction are those trees with flags
    added. *)
Theorem validate_common_marks h db ret h1 td1 xret :
  validate_common L h db transaction_new None = (ret, h1, td1, xret) ->
  marks_ok L td1
  /\ (ret = 1 -> exists src target dvec avec cvec,
        xml_diff L src target = Some (dvec, avec, cvec)
        /\ td_dvec td1 = dvec /\ td_avec td1 = avec /\ changed_pairs td1 = cvec
        /\ opt_grew (Some src) (td_src td1) /\ opt_grew (Some target) (td_target td1)).
Proof.
  unfold validate_common, clicon_dbspec_yang.
  assert (X : forall (r : Z) (h0 : clicon_handle) td (x : option cxobj),
             r <> 1 -> td_dvec td = [] -> td_avec td = [] -> td_clen td = 0%nat ->
             (r, h0, td, x) = (ret, h1, td1, xret) ->
             marks_ok L td1 /\ (ret = 1 -> exists src target dvec avec cvec,
               xml_diff L src target = Some (dvec, avec, cvec)
               /\ td_dvec td1 = dvec /\ td_avec td1 = avec /\ changed_pairs td1 = cvec
               /\ opt_grew (Some src) (td_src td1)
               /\ opt_grew (Some target) (td_target td1))).
  { intros r h0 td x Hr A B C [= <- <- <- <-]. split; [now apply marks_ok_empty|].
    intros ->. congruence. }
  destruct (h_dbspec h) as [yspec|]; [|apply X; auto; discriminate].
  destruct (xmldb_get0 L h db YB_MODULE) as [[[[r1 ha] xt] md1] xe1].
  destruct (r1 <? 0); [apply X; auto; discriminate|].
  destruct (r1 =? 0); [apply X; auto; discriminate|].
  destruct (xmldb_get0 L ha "running" YB_MODULE) as [[[[r2 hb] xs] md2] xe2].
  destruct (r2 <? 0); [apply X; auto; discriminate|].
  destruct (r2 =? 0); [apply X; auto; discriminate|].
  match goal with |- context [td_src ?t] => set (tda := t) end.
  destruct (td_src tda) as [src|] eqn:Es; [|apply X; auto; discriminate].
  destruct (td_target tda) as [target|] eqn:Et; [|apply X; auto; discriminate].
  destruct (xml_diff L src target) as [[[dvec avec] cvec]|] eqn:D;
    [|apply X; auto; discriminate].
  match goal with |- context [mark_diff L ?t] => set (td0 := t) end.
  destruct (mark_diff_marks td0) as [G M].
  unfold plugin_transaction_begin_all. rewrite plugin_transaction_begin_each_eq.
  destruct (begin_run 0 (h_plugins hb) (mark_diff L td0)) as [[rb trb] tdc] eqn:B.
  apply begin_run_td in B.
  assert (Mc : marks_ok L tdc) by (rewrite B; now apply marks_ok_observers).
  assert (Vc : exists src target dvec avec cvec,
             xml_diff L src target = Some (dvec, avec, cvec)
             /\ td_dvec tdc = dvec /\ td_avec tdc = avec /\ changed_pairs tdc = cvec
             /\ opt_grew (Some src) (td_src tdc) /\ opt_grew (Some target) (td_target tdc)).
  { exists src, target, dvec, avec, cvec. split; [exact D|].
    destruct G as (G1 & G2 & G3 & G4 & G5 & G6 & G7). rewrite B.
    unfold changed_pairs. cbn [td_dvec td_avec td_scvec td_tcvec td_clen td_src td_target
                               set_observers].
    rewrite G1, G2, G3, G4, G5. subst td0. cbn [td_dvec td_avec td_scvec td_tcvec td_clen].
    repeat split; auto using combine_fst_snd. }
  assert (Y : forall (r : Z) (h0 : clicon_handle) (x : option cxobj),
             (r, h0, tdc, x) = (ret, h1, td1, xret) ->
             marks_ok L td1 /\ (ret = 1 -> exists src target dvec avec cvec,
               xml_diff L src target = Some (dvec, avec, cvec)
               /\ td_dvec td1 = dvec /\ td_avec td1 = avec /\ changed_pairs td1 = cvec
               /\ opt_grew (Some src) (td_src td1)
               /\ opt_grew (Some target) (td_target td1)))
    by (intros r h0 x [= <- <- <- <-]; auto).
  destruct (rb <? 0); [apply Y|].
  destruct (generic_validate L _ yspec tdc) as [[rg hg] xg].
  destruct (rg <? 0); [apply Y|]. destruct (rg =? 0); [apply Y|].
  destruct (plugin_transaction_validate_all hg tdc) as [rv hv].
  destruct (rv <? 0); [apply Y|].
  destruct (plugin_transaction_complete_all hv tdc) as [rc hc].
  destruct (rc <? 0); apply Y.
Qed.

(** *** [startup_common]: a transition with only an add tree *)

Lemma elmnt_children_from_grew cs : forall cs' i,
  all_grew cs cs' -> elmnt_children_from i cs' = elmnt_children_from i cs.
Proof.
  induction cs as [|c cs IH]; intros [|c' cs'] i G; cbn in G; try tauto; try reflexivity.
  destruct G as [G1 G2]. cbn. rewrite (grew_type _ _ G1), (IH cs' (S i) G2). reflexivity.
Qed.

Lemma elmnt_children_grew t t' : grew t t' -> elmnt_children t' = elmnt_children t.
Proof.
  destruct t as [hd cs], t' as [hd' cs']. intros [_ G]%grew_unfold.
  now apply elmnt_children_from_grew.
Qed.

Lemma startup_add_fold l : forall td,
  let td' := fold_left (startup_add L) l td in
  td_avec td' = td_avec td ++ l
  /\ td_dvec td' = td_dvec td /\ td_scvec td' = td_scvec td
  /\ td_tcvec td' = td_tcvec td /\ td_clen td' = td_clen td
  /\ td_src td' = td_src td /\ td_observers td' = td_observers td
  /\ opt_grew (td_target td) (td_target td')
  /\ forall xn, In xn l -> in_tree (marked_down (XML_FLAG_ADD L) xn) (td_target td').
Proof.
  induction l as [|x l IH]; intros td; cbn zeta; cbn [fold_left].
  - rewrite app_nil_r. repeat split; auto using opt_grew_refl. intros xn [].
  - specialize (IH (startup_add L td x)). cbn zeta in IH.
    destruct IH as (A1 & A2 & A3 & A4 & A5 & A6 & A7 & G & M).
    set (td' := fold_left (startup_add L) l (startup_add L td x)) in *.
    assert (G0 : opt_grew (td_target td) (td_target (startup_add L td x))).
    { unfold startup_add, on_target. cbn [td_target set_target].
      destruct (td_target td); cbn; [|exact I].
      eapply grew_trans; apply grew_update_at; intros y;
        [apply grew_on_head | apply grew_apply]; intros; apply head_grew_set. }
    rewrite A1, A2, A3, A4, A5, A6, A7. cbn [startup_add td_avec td_dvec td_scvec td_tcvec
      td_clen td_src td_observers on_target set_target].
    rewrite <- app_assoc. repeat split; auto.
    + eapply opt_grew_trans; eauto.
    + intros xn [<-|Hx]; [|now apply M].
      eapply in_tree_grew; [| exact G |].
      * intros t t' Gt. now apply marked_down_grew.
      * unfold startup_add, on_target. cbn [td_target set_target].
        destruct (td_target td); cbn; [|intros ? ?; discriminate].
        intros t [= <-]. apply marked_down_intro.
Qed.

Lemma startup_add_all_spec xt :
  let td' := startup_add_all L (set_target (Some xt) transaction_new) in
  td_dvec td' = [] /\ td_scvec td' = [] /\ td_tcvec td' = [] /\ td_clen td' = 0%nat
  /\ td_src td' = None /\ td_observers td' = []
  /\ exists xt', td_target td' = Some xt' /\ grew xt xt'
     /\ td_avec td' = elmnt_children xt'
     /\ forall xn, In xn (td_avec td') -> marked_down (XML_FLAG_ADD L) xn xt'.
Proof.
  cbn zeta. unfold startup_add_all. cbn [td_target set_target].
  destruct (startup_add_fold (elmnt_children xt) (set_target (Some xt) transaction_new))
    as (A1 & A2 & A3 & A4 & A5 & A6 & A7 & G & M).
  rewrite A1, A2, A3, A4, A5, A6, A7. cbn [td_avec td_dvec td_scvec td_tcvec td_clen td_src
    td_observers set_target transaction_new app].
  repeat split; auto.
  cbn [td_target set_target] in G.
  destruct (td_target (fold_left _ _ _)) as [xt'|] eqn:E; cbn in G; [|tauto].
  exists xt'. split; [reflexivity|]. split; [exact G|].
  split; [now rewrite (elmnt_children_grew _ _ G)|].
  intros xn Hx. now apply (M xn Hx xt').
Qed.

Lemma all_adds_observers o td : all_adds L td -> all_adds L (set_observers o td).
Proof. intros H. exact H. Qed.

Lemma begin_not_generic tr :
  forallb (is_callback TRANS_CB_BEGIN) tr = true -> existsb is_generic_validate tr = false.
Proof.
  induction tr as [|e tr IH]; cbn [forallb existsb]; [reflexivity|].
  intros [He Ht]%andb_prop. rewrite (IH Ht), orb_false_r.
  destruct e as [[]| | | | | | | | | | | | | |]; try reflexivity; discriminate.
Qed.

Lemma startup_common_validate_walk h0 db cbret yspec xt ret h1 td1 cb1 :
  startup_common_validate L h0 db transaction_new cbret yspec xt = SReturn ret h1 td1 cb1 ->
  (exists trb, h1 = add_events trb h0 /\ forallb (is_callback TRANS_CB_BEGIN) trb = true)
  \/ (all_adds L td1
      /\ exists trb rg post, h1 = add_events (trb ++ [EvGenericValidate rg] ++ post) h0
         /\ forallb (is_callback TRANS_CB_BEGIN) trb = true).
Proof.
  unfold startup_common_validate.
  assert (X : forall r td c, SReturn r h0 td c = SReturn ret h1 td1 cb1 ->
     (exists trb, h1 = add_events trb h0 /\ forallb (is_callback TRANS_CB_BEGIN) trb = true)
     \/ (all_adds L td1
         /\ exists trb rg post, h1 = add_events (trb ++ [EvGenericValidate rg] ++ post) h0
           /\ forallb (is_callback TRANS_CB_BEGIN) trb = true)).
  { intros r td c [= <- <- <- <-]. left. exists []. now rewrite add_events_nil. }
  destruct (xml_bind_yang L xt YB_MODULE yspec) as [[rb xb] xrb].
  destruct (rb <? 0); [apply X|].
  destruct (rb =? 0); [destruct (xml2cbuf_error L cbret xrb) as [r c]; destruct (r <? 0); apply X|].
  destruct (xml_non_config_data L xb) as [rn xrn].
  destruct (rn <? 0); [apply X|].
  destruct (rn =? 0); [destruct (xml2cbuf_error L cbret xrn) as [r c]; destruct (r <? 0); apply X|].
  destruct (xml_sort_recurse L xb) as [r1 x1]. destruct (r1 <? 0); [apply X|].
  destruct (xml_global_defaults L x1 yspec) as [r2 x2]. destruct (r2 <? 0); [apply X|].
  destruct (xml_default_recurse L x2) as [r3 x3]. destruct (r3 <? 0); [apply X|].
  clear X.
  unfold plugin_transaction_begin_all. rewrite plugin_transaction_begin_each_eq.
  destruct (begin_run 0 _ _) as [[rbg trb] tdb] eqn:B. cbn [h_plugins add_events].
  pose proof (begin_run_events _ _ _ _ _ _ B) as (Bcb & _ & _).
  apply begin_run_td in B.
  destruct (rbg <? 0).
  { intros [= <- <- <- <-]. left. now exists trb. }
  assert (A : all_adds L tdb).
  { rewrite B. apply all_adds_observers.
    destruct (startup_add_all_spec x3) as (A1 & A2 & A3 & A4 & A5 & _ & xt' & T & _ & Av & M).
    repeat split; auto. now exists xt'. }
  destruct (generic_validate L _ yspec tdb) as [[rg hg] xg] eqn:G.
  apply generic_validate_events in G as [-> _].
  assert (Y : forall r tr c post, tr = trb ++ [EvGenericValidate rg] ++ post ->
     SReturn r (add_events tr h0) tdb c = SReturn ret h1 td1 cb1 ->
     (exists trb, h1 = add_events trb h0 /\ forallb (is_callback TRANS_CB_BEGIN) trb = true)
     \/ (all_adds L td1
         /\ exists trb rg post, h1 = add_events (trb ++ [EvGenericValidate rg] ++ post) h0
           /\ forallb (is_callback TRANS_CB_BEGIN) trb = true)).
  { intros r tr c post -> [= <- <- <- <-]. right. split; [exact A|]. now exists trb, rg, post. }
  rewrite add_events_app.
  destruct (rg <? 0); [eapply Y; reflexivity|].
  destruct (rg =? 0).
  { destruct (xml2cbuf_error L cbret xg) as [r c]. destruct (r <? 0); eapply Y; reflexivity. }
  unfold plugin_transaction_validate_all, plugin_transaction_complete_all.
  rewrite plugin_transaction_each_eq, add_events_app, <- app_assoc.
  destruct (phase_ret _ _ _ <? 0); [eapply Y; reflexivity|].
  rewrite plugin_transaction_each_eq, add_events_app, <- !app_assoc.
  destruct (phase_ret _ _ _ <? 0); eapply Y; reflexivity.
Qed.

(** C5 (amended). Whenever [startup_common], called on a fresh transaction
    as [startup_validate] and [startup_commit] do, gets as far as generic
    validation, the transaction it validates has all adds and nothing else:
    no source tree, empty deleted and changed vectors, and an added vector
    that lists the element children of the target in order, each flagged ADD
    together with its element descendants. Before validation the store was
    read and then upgraded: the plugin datastore upgrade always, the module
    upgrade exactly when CLICON_XMLDB_MODSTATE is set. *)
Theorem startup_common_all_adds h db cbret ret h1 td1 cb1 :
  startup_common L h db transaction_new cbret = SReturn ret h1 td1 cb1 ->
  existsb is_generic_validate (events_since h h1) = true ->
  all_adds L td1 /\ upgrade_then_validate h db (events_since h h1).
Proof.
  unfold startup_common. intros H HG. revert H.
  assert (X : forall r tr td c, existsb is_generic_validate tr = false ->
     SReturn r (add_events tr h) td c = SReturn ret h1 td1 cb1 ->
     all_adds L td1 /\ upgrade_then_validate h db (events_since h h1)).
  { intros r tr td c Htr [= <- <- <- <-]. rewrite events_since_add in HG. congruence. }
  unfold xmldb_get0. destruct (h_xmldb h !! db) as [x|];
    [|intros E; exact (X (-1) [EvErr "xmldb_get0: no such datastore"] _ _ eq_refl E)].
  destruct (xmldb_populate L _ x) as [[r0 xt0] xe0]. rewrite emit_add.
  destruct (r0 <? 0); [apply (X _ [_]); reflexivity|].
  destruct (_ && (r0 =? 0)).
  { destruct (_ =? 1); [discriminate|].
    destruct (xml2cbuf_error L cbret xe0) as [r c].
    destruct (r <? 0); apply (X _ [_]); reflexivity. }
  set (modstate := clicon_option_bool h "CLICON_XMLDB_MODSTATE").
  set (msdiff := if modstate then Some (xmldb_modstate L x) else None).
  set (hw := match msdiff with Some m => _ | None => _ end).
  assert (W : exists warn, hw = add_events ([EvGet0 db] ++ warn) h
                           /\ forallb is_log warn = true).
  { unfold hw. destruct msdiff as [m|]; [destruct (md_status m =? 0)|];
      [exists [EvLog modstate_warning]
      | exists [] | exists []]; (split; [|reflexivity]);
      unfold clicon_log; rewrite ?emit_add, ?add_events_app; reflexivity. }
  destruct W as (warn & -> & Hw).
  assert (Gw : existsb is_generic_validate ([EvGet0 db] ++ warn) = false).
  { cbn. clear - Hw. induction warn as [|[] warn IH]; cbn in *; try discriminate; auto. }
  unfold clicon_dbspec_yang. cbn [h_dbspec add_events].
  destruct (h_dbspec h) as [yspec|].
  2:{ unfold clicon_err. rewrite emit_add, add_events_app. apply X.
      rewrite existsb_app, Gw. reflexivity. }
  unfold clixon_plugin_datastore_upgrade_all.
  destruct (datastore_upgrade_each _ db _) as [ru xu].
  rewrite emit_add, add_events_app.
  destruct (ru <? 0); [apply X; rewrite existsb_app, Gw; reflexivity|].
  destruct (match msdiff with Some m => _ | None => _ end) as [[[rm hm] xm] cm] eqn:EU.
  assert (U : exists up, hm = add_events ([EvGet0 db] ++ warn ++ [EvDatastoreUpgrade db ru] ++ up) h
                /\ existsb is_generic_validate up = false
                /\ if modstate then exists r1, up = [EvModuleUpgrade r1] else up = []).
  { unfold msdiff in EU. destruct modstate.
    - destruct (clixon_module_upgrade L xu _) as [[r1 x1] msg]. injection EU as <- <- <- <-.
      exists [EvModuleUpgrade r1]. rewrite emit_add, add_events_app.
      cbn [app]. rewrite <- ?app_assoc. cbn [app]. eauto.
    - injection EU as <- <- <- <-. exists []. cbn [app]. auto. }
  clear EU. destruct U as (up & -> & Gu & Hup).
  assert (Gp : existsb is_generic_validate
                 ([EvGet0 db] ++ warn ++ [EvDatastoreUpgrade db ru] ++ up) = false).
  { rewrite app_assoc, existsb_app, Gw. cbn. exact Gu. }
  destruct (rm <? 0); [now apply X|]. destruct (rm =? 0); [now apply X|].
  destruct (_ =? 1).
  { destruct (xml_bind_yang L xm _ yspec) as [[rb xb] xrb].
    destruct (if rb <? 1 then _ else _) as [hq xq] eqn:EQ.
    destruct (xmldb_dump L xq <? 0); [|discriminate].
    assert (Q : exists e,
               hq = add_events
                      (([EvGet0 db] ++ warn ++ [EvDatastoreUpgrade db ru] ++ up) ++ e) h
               /\ existsb is_generic_validate e = false).
    { destruct (rb <? 1).
      - destruct (rb =? 0); injection EQ as <- <-; eexists [EvErr _];
          unfold clicon_err; rewrite emit_add, add_events_app; split; reflexivity.
      - destruct (xml_sort_recurse L xb) as [rs xs].
        destruct (rs <? 0); injection EQ as <- <-.
        + eexists [EvErr _]. unfold clicon_err. rewrite emit_add, add_events_app.
          split; reflexivity.
        + exists []. rewrite app_nil_r. split; reflexivity. }
    destruct Q as (e & -> & Ge). apply X. now rewrite existsb_app, Gp, Ge. }
  destruct (xml_child_nr xm =? 0); [now apply X|].
  intros E. apply startup_common_validate_walk in E as [(trb & -> & Hb)|(A & trb & rg & post & -> & Hb)].
  - rewrite add_events_app, events_since_add, existsb_app, Gp, (begin_not_generic _ Hb) in HG.
    discriminate.
  - split; [exact A|]. rewrite add_events_app, events_since_add.
    exists warn, ru, up, trb, rg, post. rewrite <- ?app_assoc. auto.
Qed.

End Marks.

End MarkFacts.

(** ** More on the printers *)

Module PrinterFacts.
Import Xml XmlIo XmlIoExt XmlFacts XmlIoFacts.

Section Printing.
Variable INDENT : Z.
Variable NS : string.
Variable ext : yang_stmt -> string -> string -> Z * bool.
Variable enc : string -> option string.


(** *** The two printers write the same text *)

Lemma attrs_loop_ext (rec1 rec2 : string -> cxobj -> Z * string) cs :
  Forall (fun xc => forall f, rec1 f xc = rec2 f xc) cs ->
  forall f hb he, attrs_loop rec1 cs f hb he = attrs_loop rec2 cs f hb he.
Proof.
  induction 1 as [|xc cs Hr _ IH]; intros f hb he; cbn [attrs_loop]; [reflexivity|].
  destruct (xml_type xc); try apply IH.
  rewrite Hr. destruct (rec2 f xc) as [r f']. destruct (r <? 0); [reflexivity | apply IH].
Qed.

Lemma children_loop_ext (rec1 rec2 : string -> cxobj -> Z * string) cs :
  Forall (fun xc => forall f, rec1 f xc = rec2 f xc) cs ->
  forall f, children_loop rec1 cs f = children_loop rec2 cs f.
Proof.
  induction 1 as [|xc cs Hr _ IH]; intros f; cbn [children_loop]; [reflexivity|].
  destruct (cxobj_type_eqb (xml_type xc) CX_ATTR); [apply IH|].
  rewrite Hr. destruct (rec2 f xc) as [r f']. destruct (r <? 0); [reflexivity | apply IH].
Qed.

Lemma top_loop_ext (rec1 rec2 : string -> cxobj -> Z * string) cs :
  Forall (fun xc => forall f, rec1 f xc = rec2 f xc) cs ->
  forall f, top_loop rec1 cs f = top_loop rec2 cs f.
Proof.
  induction 1 as [|xc cs Hr _ IH]; intros f; cbn [top_loop]; [reflexivity|].
  rewrite Hr. destruct (rec2 f xc) as [r f']. destruct (r <? 0); [reflexivity | apply IH].
Qed.

(** X2. With every level printed (a negative [depth]) and the same encoding
    of body values, [clixon_xml2cbuf] and [clixon_xml2file], autocli
    extensions ignored, succeed on the same trees, and then both answer 0
    and write the same characters, pretty or not, with or without prefix and
    [skiptop]. They fail on the same trees too, but not with the same
    answer: [clixon_xml2cbuf] answers -1 where [clixon_xml2file] answers
    1. *)
Theorem xml2cbuf_as_xml2file cb xn level pretty prefix depth skiptop :
  depth < 0 ->
  let c := clixon_xml2cbuf INDENT enc cb xn level pretty prefix depth skiptop in
  let f := clixon_xml2file INDENT NS ext enc cb xn level pretty prefix skiptop false in
  (fst c = 0 /\ fst f = 0 /\ snd c = snd f) \/ (fst c = -1 /\ fst f = 1).
Proof.
  intros Hd. cbv zeta.
  pose proof (clixon_xml2cbuf_writes INDENT enc xn level pretty prefix depth skiptop) as Wc.
  pose proof (clixon_xml2file_writes INDENT NS ext enc xn level pretty prefix skiptop
                false depth Hd) as Wf.
  change (hide_of NS ext false) with none_hidden in Wf.
  unfold writes in *.
  destruct (xml_top_text _ _ _ _ _ _ _ _ xn) as [T|].
  - left. now rewrite Wc, Wf.
  - right. now rewrite Wc, Wf.
Qed.

(** *** Depth *)

Lemma children_loop_depth_0 cs : forall level pretty prefix cb,
  children_loop (fun cb xc => clixon_xml2cbuf1 INDENT enc cb xc level pretty prefix 0) cs cb
  = (0, cb).
Proof.
  induction cs as [|[hd cs'] cs IH]; intros level pretty prefix cb; cbn [children_loop];
    [reflexivity|].
  destruct (cxobj_type_eqb _ CX_ATTR); [apply IH|].
  cbn [clixon_xml2cbuf1 Z.eqb Z.ltb Z.compare]. apply IH.
Qed.

Lemma attrs_loop_text cs : forall level pretty prefix depth cb hb he,
  depth <> 0 ->
  attrs_loop (fun cb xc => clixon_xml2cbuf1 INDENT enc cb xc level pretty prefix depth) cs cb hb he
  = (0, cb +:+ attrs_text cs,
     hb || existsb (fun c => cxobj_type_eqb (xml_type c) CX_BODY) cs,
     he || existsb (fun c => cxobj_type_eqb (xml_type c) CX_ELMNT) cs).
Proof.
  induction cs as [|[hd cs'] cs IH]; intros level pretty prefix depth cb hb he Hd;
    cbn [attrs_loop attrs_text fold_right existsb].
  - now rewrite str_app_nil_r, !orb_false_r.
  - unfold is_attr, xml_type. cbn [xml_hd]. destruct (x_type hd) eqn:Et; cbn [cxobj_type_eqb orb].
    + now apply IH.
    + rewrite (IH _ _ _ _ _ _ _ Hd). now rewrite orb_true_r.
    + cbn [clixon_xml2cbuf1]. destruct (Z.eqb_spec depth 0); [contradiction|].
      rewrite Et. cbn [Z.ltb Z.compare]. rewrite (IH _ _ _ _ _ _ _ Hd).
      rewrite print_attr_app. now norm.
    + rewrite (IH _ _ _ _ _ _ _ Hd). now rewrite orb_true_r.
Qed.

(** X3. The depth limit of [clixon_xml2cbuf1]: with depth 0 nothing is
    written; with depth 1 an element is written with its attributes and
    without any of its content, and when it has content it is written as an
    open tag and a close tag, not as an empty-element tag. *)
Theorem xml2cbuf1_depth_limit :
  (forall cb x level pretty prefix,
      clixon_xml2cbuf1 INDENT enc cb x level pretty prefix 0 = (0, cb))
  /\ (forall cb hd cs level prefix,
        x_type hd = CX_ELMNT ->
        clixon_xml2cbuf1 INDENT enc cb (XML hd cs) level false prefix 1
        = (0, cb +:+ "<" +:+ qname hd +:+ attrs_text cs
                +:+ (if has_content cs then ">" +:+ "</" +:+ qname hd +:+ ">" else "/>"))).
Proof.
  split; [intros cb [hd cs]; reflexivity|].
  intros cb hd cs level prefix Et. cbn [clixon_xml2cbuf1 Z.eqb]. rewrite Et.
  rewrite attrs_loop_text by discriminate. cbn [orb Z.ltb Z.compare Z.sub Z.add Z.opp Z.pos_sub].
  rewrite has_content_split. unfold has_body, is_elmnt.
  destruct (existsb _ cs), (existsb _ cs); cbn [negb andb orb Z.ltb Z.compare];
    rewrite ?children_loop_depth_0; cbn [Z.ltb Z.compare]; unfold qname;
    prefixes; norm; reflexivity.
Qed.

(** *** The hide-show extension *)

Lemma shown_hide_show hd :
  shown NS ext hd = true ->
  exists r, hide_show NS ext true hd = (r, false) /\ (r <? 0) = false.
Proof.
  unfold shown. destruct (hide_show NS ext true hd) as [r e].
  intros [H1 H2]%andb_prop. destruct e; [discriminate|].
  exists r. split; [reflexivity|]. apply Z.leb_le in H1. now apply Z.ltb_ge.
Qed.

Lemma hidden_hide_show hd :
  hidden NS ext hd = true ->
  exists r, hide_show NS ext true hd = (r, true) /\ (r <? 0) = false.
Proof.
  unfold hidden. destruct (hide_show NS ext true hd) as [r e].
  intros [H1 H2]%andb_prop. destruct e; [|discriminate].
  exists r. split; [reflexivity|]. apply Z.leb_le in H1. now apply Z.ltb_ge.
Qed.

Lemma no_hide_show_children hd cs :
  no_hide_show NS ext (XML hd cs) = true ->
  shown NS ext hd = true /\ Forall (fun c => no_hide_show NS ext c = true) cs.
Proof.
  cbn [no_hide_show]. intros [H1 H2]%andb_prop. split; [exact H1|].
  apply List.Forall_forall. intros c Hc. rewrite forallb_forall in H2. now apply H2.
Qed.

Lemma xml2file_recurse_no_hide x : forall f level pretty prefix,
  no_hide_show NS ext x = true ->
  xml2file_recurse INDENT NS ext enc f x level pretty prefix true
  = xml2file_recurse INDENT NS ext enc f x level pretty prefix false.
Proof.
  induction x as [hd cs IH] using cxobj_ind; intros f level pretty prefix H.
  apply no_hide_show_children in H as [Hh Hc].
  apply shown_hide_show in Hh as (r & Hh & Hr).
  cbn [xml2file_recurse]. rewrite Hh, Hr. unfold hide_show at 1.
  cbn [Z.ltb Z.compare].
  destruct (x_type hd); try reflexivity.
  assert (Ha : Forall (fun xc => forall f0,
            xml2file_recurse INDENT NS ext enc f0 xc (level + 1) pretty prefix true
            = xml2file_recurse INDENT NS ext enc f0 xc (level + 1) pretty prefix false) cs).
  { rewrite List.Forall_forall in *. intros xc Hx f0. apply IH; auto. }
  rewrite (attrs_loop_ext _ _ _ Ha).
  destruct (attrs_loop _ cs _ false false) as [[[r' f1] hb] he].
  destruct (r' <? 0); [reflexivity|].
  destruct (negb hb && negb he); [reflexivity|].
  now rewrite (children_loop_ext _ _ _ Ha).
Qed.

Lemma hidden_children_loops cs : forall level pretty prefix f,
  Forall (fun c => xml_type c = CX_ELMNT /\ hidden NS ext (xml_hd c) = true) cs ->
  attrs_loop (fun f xc => xml2file_recurse INDENT NS ext enc f xc level pretty prefix true)
    cs f false false
  = (0, f, false, negb (Nat.eqb (length cs) 0))
  /\ children_loop
       (fun f xc => xml2file_recurse INDENT NS ext enc f xc level pretty prefix true)
       cs f = (0, f).
Proof.
  intros level pretty prefix f H.
  assert (G : forall he,
    attrs_loop (fun f xc => xml2file_recurse INDENT NS ext enc f xc level pretty prefix true)
      cs f false he = (0, f, false, he || negb (Nat.eqb (length cs) 0))
    /\ children_loop
         (fun f xc => xml2file_recurse INDENT NS ext enc f xc level pretty prefix true)
         cs f = (0, f)).
  { induction H as [|[hd cs'] cs [Ht Hh] _ IH]; intros he; cbn [attrs_loop children_loop].
    - now rewrite orb_false_r.
    - unfold xml_type in *. cbn [xml_hd] in *. rewrite Ht. cbn [cxobj_type_eqb].
      destruct (IH true) as [A C]. rewrite A. split; [now rewrite orb_true_r|].
      apply hidden_hide_show in Hh as (r & Hh & Hr).
      cbn [xml2file_recurse]. rewrite Hh, Hr. cbn [Z.ltb Z.compare]. exact C. }
  apply (G false).
Qed.

(** X4. The hide-show extension in [clixon_xml2file]. When no node of the
    tree carries the extension, following the autocli extensions changes
    nothing of what is written. A hidden node is left out with its subtree,
    but it still counts as content of its parent: an element all of whose
    children are hidden elements is written as an open tag and a close tag,
    not as an empty-element tag. When the look-up of the extension fails on
    the top node, the answer is 1. *)
Theorem xml2file_hide_show :
  (forall f xn level pretty prefix skiptop,
      no_hide_show NS ext xn = true ->
      clixon_xml2file INDENT NS ext enc f xn level pretty prefix skiptop true
      = clixon_xml2file INDENT NS ext enc f xn level pretty prefix skiptop false)
  /\ (forall f hd cs level prefix,
        x_type hd = CX_ELMNT -> shown NS ext hd = true -> cs <> [] ->
        Forall (fun c => xml_type c = CX_ELMNT /\ hidden NS ext (xml_hd c) = true) cs ->
        clixon_xml2file INDENT NS ext enc f (XML hd cs) level false prefix false true
        = (0, f +:+ "<" +:+ qname hd +:+ ">" +:+ "</" +:+ qname hd +:+ ">"))
  /\ (forall f hd cs level pretty prefix,
        hide_of NS ext true hd = None ->
        fst (clixon_xml2file INDENT NS ext enc f (XML hd cs) level pretty prefix false true)
        = 1).
Proof.
  split; [|split].
  3:{ intros f hd cs level pretty prefix H. unfold clixon_xml2file.
      cbn [xml2file_recurse]. unfold hide_of in H.
      destruct (hide_show NS ext true hd) as [r e].
      destruct (r <? 0); [reflexivity | discriminate]. }
  - intros f xn level pretty prefix skiptop H. unfold clixon_xml2file. destruct skiptop.
    + rewrite (top_loop_ext
                 (fun f xc => xml2file_recurse INDENT NS ext enc f xc level pretty prefix true)
                 (fun f xc => xml2file_recurse INDENT NS ext enc f xc level pretty prefix false));
        [reflexivity|].
      apply List.Forall_forall. intros xc Hx f0.
      apply xml2file_recurse_no_hide. destruct xn as [hd cs].
      apply no_hide_show_children in H as [_ Hc]. rewrite List.Forall_forall in Hc.
      apply Hc. unfold xml_child_each in Hx. cbn [xml_childvec] in Hx.
      now apply filter_In in Hx as [Hx _].
    + now rewrite xml2file_recurse_no_hide.
  - intros f hd cs level prefix Et Hh Hne Hc. unfold clixon_xml2file.
    apply shown_hide_show in Hh as (r & Hh & Hr).
    cbn [xml2file_recurse]. rewrite Hh, Hr, Et.
    destruct (hidden_children_loops cs (level + 1) false prefix
                (print_prefix (f +:+ pad 0 +:+ "<") hd +:+ x_name hd) Hc) as [A _].
    rewrite A. destruct cs as [|c cs]; [contradiction|].
    cbn [length Nat.eqb negb andb Z.ltb Z.compare].
    destruct (hidden_children_loops (c :: cs) (level + 1) false prefix
                ((print_prefix (f +:+ pad 0 +:+ "<") hd +:+ x_name hd) +:+ ">") Hc) as [_ C].
    rewrite C. cbn [Z.ltb Z.compare]. unfold qname. prefixes.
    rewrite pad_0. now norm.
Qed.

End Printing.

(** *** The debugging dump *)

Section Dumping.
Variable xml_type2str : cxobj_type -> string.
Variables ADD DEL CHANGE MARK : Z.

Lemma dump_flag_app x flag text e :
  dump_flag x flag text e = e +:+ dump_flag x flag text EmptyString.
Proof. unfold dump_flag. destruct (negb _); now norm. Qed.

Lemma xml_dump1_adds x : forall indent,
  exists T, forall f e,
    xml_dump1 xml_type2str ADD DEL CHANGE MARK f e x indent = (0, f, e +:+ T).
Proof.
  induction x as [hd cs IH] using cxobj_ind; intros indent. cbn [xml_dump1].
  destruct (negb (cxobj_type_eqb (x_type hd) CX_ELMNT)).
  { exists EmptyString. intros f e. now norm. }
  assert (L : exists T, forall f e,
    fold_left (fun (s : string * string) xc =>
                 let '(_, f', e') :=
                   xml_dump1 xml_type2str ADD DEL CHANGE MARK (fst s) (snd s) xc (indent + 1) in
                 (f', e')) cs (f, e) = (f, e +:+ T)).
  { clear - IH. induction IH as [|c cs Hc _ [T HT]]; cbn [fold_left].
    - exists EmptyString. intros f e. now norm.
    - destruct (Hc (indent + 1)) as [T1 H1]. exists (T1 +:+ T). intros f e.
      cbn [fst snd]. rewrite H1, HT. now norm. }
  destruct L as [T HT].
  exists (pad (indent * 3) +:+ " " +:+ x_name hd +:+ "(" +:+ xml_type2str (x_type hd) +:+ ")"
          +:+ dump_flag (XML hd cs) ADD " add" EmptyString
          +:+ dump_flag (XML hd cs) DEL " delete" EmptyString
          +:+ dump_flag (XML hd cs) CHANGE " change" EmptyString
          +:+ dump_flag (XML hd cs) MARK " mark" EmptyString +:+ newline +:+ T).
  intros f e. rewrite HT.
  rewrite (dump_flag_app _ MARK), (dump_flag_app _ CHANGE), (dump_flag_app _ DEL),
    (dump_flag_app _ ADD). now norm.
Qed.

(** X5. [xml_dump (f, x)] never writes to the stream [f] it is handed: it
    answers 0, leaves [f] as it is and appends its lines to stderr; what it
    appends depends on the tree only. For a node that is not an element it
    writes nothing at all. *)
Theorem xml_dump_writes_stderr x :
  exists T,
    (forall f e, xml_dump xml_type2str ADD DEL CHANGE MARK f e x = (0, f, e +:+ T))
    /\ (xml_type x <> CX_ELMNT -> T = EmptyString).
Proof.
  destruct (xml_dump1_adds x 0) as [T HT]. exists T. split; [exact HT|].
  intros Hx. specialize (HT EmptyString EmptyString). destruct x as [hd cs].
  cbn [xml_dump1] in HT. unfold xml_type in Hx. cbn [xml_hd] in Hx.
  destruct (x_type hd); try contradiction; cbn in HT; rewrite append_nil in HT; congruence.
Qed.

End Dumping.

(** *** [clixon_xml_attr_copy] *)

Lemma find_app_l {A} (p : A -> bool) l l' x :
  find p l = Some x -> find p (l ++ l') = Some x.
Proof. induction l as [|a l IH]; cbn; [discriminate|]. destruct (p a); auto. Qed.

Lemma find_app_r {A} (p : A -> bool) l l' :
  find p l = None -> find p (l ++ l') = find p l'.
Proof. induction l as [|a l IH]; cbn; [auto|]. destruct (p a); [discriminate | auto]. Qed.

(** X6. [clixon_xml_attr_copy]: a NULL tree is an error and nothing
    changes. Otherwise the answer is 0; when [xin] has no value of the name,
    [xout] is left as it is; when it has, one attribute of that name and
    value is added at the end of the children of [xout]. An attribute of the
    name that [xout] already has is not replaced: a look-up of the name in
    [xout] still finds the old value. *)
Theorem clixon_xml_attr_copy_appends a name :
  (forall xin xout, xin = None \/ xout = None ->
     clixon_xml_attr_copy a xin xout name = (-1, xout, Some "xin or xout NULL"))
  /\ (forall xi xo,
        exists xo',
          clixon_xml_attr_copy a (Some xi) (Some xo) name = (0, Some xo', None)
          /\ xml_hd xo' = xml_hd xo
          /\ (xml_find_value xi name = None -> xo' = xo)
          /\ (forall v, xml_find_value xi name = Some v ->
                xml_childvec xo'
                = xml_childvec xo ++ [XML (mk_head a CX_ATTR name None (Some v) 0 None) []]
                /\ xml_find_value xo' name
                   = match xml_find xo name with
                     | Some c => xml_value c
                     | None => Some v
                     end)).
Proof.
  split.
  - intros xin xout [-> | ->]; [reflexivity|]. now destruct xin.
  - intros xi xo. unfold clixon_xml_attr_copy.
    destruct (xml_find_value xi name) as [v|] eqn:E.
    + eexists. split; [reflexivity|]. split; [reflexivity|]. split; [discriminate|].
      intros v' [= <-]. split; [reflexivity|].
      unfold xml_find_value, xml_find, xml_new_attr. cbn [xml_childvec].
      destruct (find _ (xml_childvec xo)) as [c|] eqn:F.
      * now rewrite (find_app_l _ _ _ _ F).
      * rewrite (find_app_r _ _ _ F). cbn [find]. unfold xml_name. cbn [xml_hd x_name].
        now rewrite String.eqb_refl.
    + exists xo. split; [reflexivity|]. split; [reflexivity|]. split; [reflexivity|].
      discriminate.
Qed.

(** *** [clixon_debug_fn] *)

Lemma substring_length_le n s : (String.length (substring 0 n s) <= n)%nat.
Proof.
  revert s. induction n as [|n IH]; intros [|c s]; cbn; try lia.
  specialize (IH s). lia.
Qed.

Section Debugging.
Variable INDENT : Z.
Variable enc : string -> option string.
Variable errmsg_all : option cxobj -> string -> Z * option string.
Variable limit : nat.

Lemma log_string_limit_length cb :
  limit <> 0%nat -> (String.length (log_string_limit limit cb) <= limit)%nat.
Proof.
  intros Hl. unfold log_string_limit. apply Nat.eqb_neq in Hl. rewrite Hl. cbn [negb andb].
  destruct (limit <? String.length cb)%nat eqn:E.
  - apply substring_length_le.
  - now apply Nat.ltb_ge in E.
Qed.

(** X7. [clixon_debug_fn]: the level of a message is a bit mask. When it
    shares no bit with the global debug level, nothing is logged and the
    answer is 0. Otherwise, when the plugins fail to make the message, the
    answer is -1 and nothing is logged; when a plugin customised the
    message, that message is logged as it is; when none did, the message is
    followed, if there is a tree, by a colon, a blank and the text of the
    tree, not pretty and with all its levels, and the whole is cut to the
    log string limit: one string is logged and the answer is 0. When the
    printer fails on the tree, which it does when a body value does not
    encode, the answer is -1 and nothing is logged. The global level never
    changes, and a string cut to a limit is never longer than the limit. *)
Theorem clixon_debug_fn_masked st dbglevel x msg :
  (Z.land dbglevel (clixon_debug_get st) = 0 ->
     clixon_debug_fn INDENT enc errmsg_all limit st dbglevel x msg = (0, st))
  /\ (Z.land dbglevel (clixon_debug_get st) <> 0 ->
      (fst (errmsg_all x msg) < 0 ->
         clixon_debug_fn INDENT enc errmsg_all limit st dbglevel x msg = (-1, st))
      /\ (0 <= fst (errmsg_all x msg) ->
          (forall cb, snd (errmsg_all x msg) = Some cb ->
             clixon_debug_fn INDENT enc errmsg_all limit st dbglevel x msg
             = (0, mk_debug (_debug_level st) (dbg_log st ++ [cb])))
          /\ (snd (errmsg_all x msg) = None ->
              match x with
              | None =>
                  clixon_debug_fn INDENT enc errmsg_all limit st dbglevel x msg
                  = (0, mk_debug (_debug_level st)
                          (dbg_log st ++ [log_string_limit limit msg]))
              | Some x0 =>
                  match xml_text INDENT enc none_hidden false None 0 (-1) x0 with
                  | Some T =>
                      clixon_debug_fn INDENT enc errmsg_all limit st dbglevel x msg
                      = (0, mk_debug (_debug_level st)
                              (dbg_log st ++ [log_string_limit limit (msg +:+ ": " +:+ T)]))
                  | None =>
                      clixon_debug_fn INDENT enc errmsg_all limit st dbglevel x msg = (-1, st)
                  end
              end)))
  /\ (limit <> 0%nat ->
      forall cb, (String.length (log_string_limit limit cb) <= limit)%nat).
Proof.
  unfold clixon_debug_fn. split; [|split].
  - intros ->. reflexivity.
  - intros Hm. apply Z.eqb_neq in Hm. rewrite Hm.
    destruct (errmsg_all x msg) as [r custom]. cbn [fst snd]. split.
    + intros Hr. apply Z.ltb_lt in Hr. now rewrite Hr.
    + intros Hr. apply Z.ltb_ge in Hr. rewrite Hr. split.
      * intros cb ->. reflexivity.
      * intros ->. destruct x as [x0|]; [|reflexivity].
        pose proof (clixon_xml2cbuf_writes INDENT enc x0 0 false None (-1) false) as W.
        unfold writes, xml_top_text in W.
        destruct (xml_text INDENT enc none_hidden false None 0 (-1) x0) as [T|].
        -- rewrite W. cbn [Z.ltb Z.compare]. now rewrite str_app_assoc.
        -- specialize (W (msg +:+ ": ")).
           destruct (clixon_xml2cbuf _ _ _ x0 _ _ _ _ _) as [r' cb']. cbn [fst] in W.
           subst r'. reflexivity.
  - intros Hl cb. now apply log_string_limit_length.
Qed.

End Debugging.

End PrinterFacts.
Module ParseFacts.
Import Xml XmlIo XmlIoExt XmlFacts.

(** *** The read loop of [clixon_xml_parse_file] *)

Lemma int_wrap_small z : -2147483648 <= z < 2147483648 -> int_wrap z = z.
Proof. intros H. unfold int_wrap. rewrite Z.mod_small by lia. lia. Qed.

Lemma buf_write_next done k ch :
  (1 <= k)%nat ->
  buf_write (done ++ repeat nul k) (Z.of_nat (length done)) ch
  = Some ((done ++ [ch]) ++ repeat nul (k - 1)).
Proof.
  intros Hk. unfold buf_write. rewrite length_app, repeat_length, Nat2Z.id.
  destruct (Z.leb_spec 0 (Z.of_nat (length done))); [|lia].
  destruct (Z.ltb_spec (Z.of_nat (length done)) (Z.of_nat (length done + k))); [|lia].
  cbn [andb]. f_equal. destruct k as [|k]; [lia|]. cbn [repeat].
  replace (S k - 1)%nat with k by lia.
  rewrite <- app_assoc. cbn [app].
  replace (length done) with (length done + 0)%nat at 1 by lia.
  now rewrite insert_app_r.
Qed.

(** The loop, from any turn on. The buffer holds the characters read and at
    least two null characters; its size is 1024 doubled some times, and [d]
    more doublings take it to 2^30. *)
Lemma read_file_run file : forall done k (d : nat),
  (2 <= k)%nat ->
  Z.of_nat (length done + k) * 2 ^ Z.of_nat d = 1073741824 ->
  match read_file file (done ++ repeat nul k) (Z.of_nat (length done + k))
          (Z.of_nat (length done)) with
  | ReadDone xmlbuf xmlbuflen len =>
      Z.of_nat (length done + length file) < 1073741823
      /\ exists k',
          xmlbuf = (done ++ file) ++ repeat nul k'
          /\ xmlbuflen = Z.of_nat (length done + length file + k')
          /\ len = Z.of_nat (length done + length file)
          /\ (2 <= k')%nat
          /\ xmlbuflen <= Z.max (Z.of_nat (length done + k))
                            (2 * Z.of_nat (length done + length file) + 2)
          /\ xmlbuflen <= 1073741824
  | ReadRealloc => 1073741823 <= Z.of_nat (length done + length file)
  | ReadOutside => False
  end.
Proof.
  induction file as [|ch file IH]; intros done k d Hk Hd; cbn [read_file].
  - assert (0 < 2 ^ Z.of_nat d) by (apply Z.pow_pos_nonneg; lia).
    split; [cbn [length]; nia|]. exists k. rewrite app_nil_r. cbn [length].
    rewrite !Nat.add_0_r. repeat split; auto; try lia; nia.
  - assert (Hp : 0 < 2 ^ Z.of_nat d) by (apply Z.pow_pos_nonneg; lia).
    assert (Hb : Z.of_nat (length done + k) <= 1073741824) by nia.
    rewrite buf_write_next by lia.
    rewrite (int_wrap_small (Z.of_nat (length done) + 1)) by lia.
    rewrite (int_wrap_small (Z.of_nat (length done + k) - 1)) by lia.
    assert (Ld : length (done ++ [ch]) = S (length done)) by (rewrite length_app; cbn; lia).
    destruct (Z.leb_spec (Z.of_nat (length done + k) - 1) (Z.of_nat (length done) + 1))
      as [Hc|Hc].
    + (* the size doubles *)
      assert (k = 2)%nat as -> by lia. cbn [Nat.sub].
      destruct d as [|d].
      * (* 2^30 doubled is not an int *)
        rewrite Z.pow_0_r, Z.mul_1_r in Hd. rewrite Hd.
        change (int_wrap (1073741824 * 2)) with (-2147483648).
        unfold realloc_zeroed. cbn [Z.ltb Z.compare]. cbn [length]. lia.
      * rewrite Nat2Z.inj_succ, Z.pow_succ_r in Hd by lia.
        assert (Hp' : 0 < 2 ^ Z.of_nat d) by (apply Z.pow_pos_nonneg; lia).
        rewrite (int_wrap_small (Z.of_nat (length done + 2) * 2)) by nia.
        unfold realloc_zeroed.
        destruct (Z.ltb_spec (Z.of_nat (length done + 2) * 2) 0); [lia|].
        rewrite firstn_all2
          by (rewrite !length_app, repeat_length; cbn [length]; lia).
        replace (Z.to_nat (Z.of_nat (length done + 2) * 2 - Z.of_nat (length done + 2)))
          with (length done + 2)%nat by lia.
        rewrite <- app_assoc, <- repeat_app.
        replace (1 + (length done + 2))%nat with (length done + 3)%nat by lia.
        replace (Z.of_nat (length done + 2) * 2)
          with (Z.of_nat (length (done ++ [ch]) + (length done + 3))) by lia.
        replace (Z.of_nat (length done) + 1) with (Z.of_nat (length (done ++ [ch]))) by lia.
        specialize (IH (done ++ [ch]) (length done + 3)%nat d ltac:(lia) ltac:(lia)).
        destruct (read_file file _ _ _) as [xmlbuf xmlbuflen len| |]; [|cbn [length]; lia|exact IH].
        destruct IH as (Hl & k' & -> & -> & -> & Hk' & Hm & Hx).
        split; [cbn [length]; lia|]. exists k'. rewrite <- !app_assoc. cbn [app length].
        repeat split; auto; try lia; f_equal; lia.
    + replace (Z.of_nat (length done + k))
        with (Z.of_nat (length (done ++ [ch]) + (k - 1))) by lia.
      replace (Z.of_nat (length done) + 1) with (Z.of_nat (length (done ++ [ch]))) by lia.
      specialize (IH (done ++ [ch]) (k - 1)%nat d ltac:(lia) ltac:(rewrite <- Hd; f_equal; lia)).
      destruct (read_file file _ _ _) as [xmlbuf xmlbuflen len| |]; [|cbn [length]; lia|exact IH].
      destruct IH as (Hl & k' & -> & -> & -> & Hk' & Hm & Hx).
      split; [cbn [length]; lia|]. exists k'. rewrite <- !app_assoc. cbn [app length].
      repeat split; auto; try lia; f_equal; lia.
Qed.
Lemma cstring_app_nul file rest : cstring (file ++ nul :: rest) = cstring file.
Proof.
  induction file as [|c file IH]; cbn [app cstring]; [reflexivity|].
  destruct (Ascii.eqb c nul); [reflexivity | now rewrite IH].
Qed.

Lemma cstring_no_nul file :
  forallb (fun c => negb (Ascii.eqb c nul)) file = true ->
  cstring file = string_of_list_ascii file.
Proof.
  induction file as [|c file IH]; cbn [forallb cstring string_of_list_ascii]; [reflexivity|].
  intros [H1 H2]%andb_prop. destruct (Ascii.eqb c nul); [discriminate|]. now rewrite IH.
Qed.

(** The loop from its start. *)
Lemma read_file_start file :
  match read_file file (repeat nul (Z.to_nat BUFLEN)) BUFLEN 0 with
  | ReadDone xmlbuf xmlbuflen len =>
      Z.of_nat (length file) < 1073741823
      /\ exists k',
          xmlbuf = file ++ repeat nul k'
          /\ xmlbuflen = Z.of_nat (length file + k')
          /\ len = Z.of_nat (length file)
          /\ (2 <= k')%nat
          /\ xmlbuflen <= Z.max BUFLEN (2 * Z.of_nat (length file) + 2)
          /\ xmlbuflen <= 1073741824
  | ReadRealloc => 1073741823 <= Z.of_nat (length file)
  | ReadOutside => False
  end.
Proof.
  exact (read_file_run file [] 1024%nat 20%nat ltac:(lia) eq_refl).
Qed.

(** X8. The read loop of [clixon_xml_parse_file] never writes outside of
    its buffer, whatever the length of the file. For a file of less than
    2^30 - 1 characters it comes to the end of the file: the buffer then
    holds the characters of the file followed by at least two null
    characters, so that the parser is handed the text of the file (up to
    its first null character, if it has one), and its size is at most 1024
    or twice the file plus two, and at most 2^30. For a file of 2^30 - 1
    characters or more the size of the buffer, an int, overflows when it is
    doubled from 2^30, realloc is asked for a negative size and the loop
    ends there, before the end of the file. *)
Theorem read_file_in_bounds file :
  read_file file (repeat nul (Z.to_nat BUFLEN)) BUFLEN 0 <> ReadOutside
  /\ (Z.of_nat (length file) < 1073741823 ->
      exists xmlbuf xmlbuflen,
        read_file file (repeat nul (Z.to_nat BUFLEN)) BUFLEN 0
        = ReadDone xmlbuf xmlbuflen (Z.of_nat (length file))
        /\ Z.of_nat (length xmlbuf) = xmlbuflen
        /\ Z.of_nat (length file) + 2 <= xmlbuflen
        /\ xmlbuflen <= Z.max BUFLEN (2 * Z.of_nat (length file) + 2)
        /\ xmlbuflen <= 1073741824
        /\ int_wrap xmlbuflen = xmlbuflen
        /\ firstn (length file) xmlbuf = file
        /\ cstring xmlbuf = cstring file
        /\ (forallb (fun c => negb (Ascii.eqb c nul)) file = true ->
              cstring xmlbuf = string_of_list_ascii file))
  /\ (1073741823 <= Z.of_nat (length file) ->
      read_file file (repeat nul (Z.to_nat BUFLEN)) BUFLEN 0 = ReadRealloc).
Proof.
  pose proof (read_file_start file) as R.
  destruct (read_file file _ BUFLEN 0) as [xmlbuf xmlbuflen len| |] eqn:E.
  - destruct R as (Hl & k' & -> & -> & -> & Hk & Hm & Hx).
    split; [discriminate|]. split; [|lia]. intros _.
    assert (C : cstring (file ++ repeat nul k') = cstring file).
    { destruct k' as [|k']; [lia|]. cbn [repeat]. apply cstring_app_nul. }
    do 2 eexists. split; [reflexivity|].
    split; [now rewrite length_app, repeat_length|].
    split; [lia|]. split; [exact Hm|]. split; [exact Hx|].
    split; [apply int_wrap_small; lia|].
    split; [now rewrite firstn_app, firstn_all, Nat.sub_diag, app_nil_r|].
    split; [exact C|]. intros H. rewrite C. now apply cstring_no_nul.
  - split; [discriminate|]. split; [lia | reflexivity].
  - contradiction.
Qed.

(** *** [clixon_xml_parse_string] and [clixon_xml_parse_file] *)

Lemma read_file_cstring file :
  Z.of_nat (length file) < 1073741823 ->
  exists xmlbuf xmlbuflen len,
    read_file file (repeat nul (Z.to_nat BUFLEN)) BUFLEN 0 = ReadDone xmlbuf xmlbuflen len
    /\ cstring xmlbuf = cstring file.
Proof.
  intros Hl. pose proof (read_file_start file) as R.
  destruct (read_file file _ BUFLEN 0) as [xmlbuf xmlbuflen len| |]; [|lia|contradiction].
  destruct R as (_ & k' & -> & _ & _ & Hk & _).
  do 3 eexists. split; [reflexivity|].
  destruct k' as [|k']; [lia|]. cbn [repeat]. apply cstring_app_nul.
Qed.

Lemma read_file_long file :
  1073741823 <= Z.of_nat (length file) ->
  read_file file (repeat nul (Z.to_nat BUFLEN)) BUFLEN 0 = ReadRealloc.
Proof.
  intros Hl. pose proof (read_file_start file) as R.
  destruct (read_file file _ BUFLEN 0) as [xmlbuf xmlbuflen len| |];
    [destruct R; lia | reflexivity | contradiction].
Qed.

Lemma strlen_0 str : (strlen str =? 0) = true <-> str = EmptyString.
Proof.
  unfold strlen. destruct str; cbn [String.length]; split; intros H;
    try reflexivity; try discriminate; try (apply Z.eqb_eq in H; lia).
Qed.

Section Parsing.

Variable P : parse_lib.

Lemma traverse_new_none a yspec xvec : forall xt xerr failed,
  traverse_new P a YB_NONE yspec xvec xt xerr failed
  = (if forallb (fun x => negb (xml2ns_recurse P xt x <? 0)) xvec then 0 else -1,
     xt, xerr, failed).
Proof.
  induction xvec as [|x xvec IH]; intros xt xerr failed; cbn [traverse_new forallb].
  - reflexivity.
  - destruct (xml2ns_recurse P xt x <? 0); cbn [negb andb bind_one]; [reflexivity|].
    change (1 <? 0) with false. change (1 =? 0) with false. cbv iota. apply IH.
Qed.

(** X9. Parsing a file of less than 2^30 - 1 characters is parsing, as a
    string, the text of the file up to its first null character:
    [clixon_xml_parse_file] returns with the result of
    [clixon_xml_parse_string] on that text, except that every positive
    result is 1 and that on a negative result the tree of the caller is
    gone, also when the caller had supplied it. A file of 2^30 - 1
    characters or more is not parsed: realloc fails on the overflown size
    of the buffer, the result is -1 with the error realloc and the tree of
    the caller is gone, whatever the string parser would answer. Without a
    schema for YB_MODULE both refuse with -1 and leave the tree alone;
    the file is not read. *)
Theorem parse_file_as_parse_string a a' file yb yspec xt xerr :
  (yb = YB_MODULE -> yspec = None ->
     clixon_xml_parse_file P a a' (Some file) yb yspec true xt xerr
     = Some (clixon_xml_parse_string P a a' (cstring file) yb yspec true xt xerr)
     /\ clixon_xml_parse_string P a a' (cstring file) yb yspec true xt xerr
        = (-1, xt, xerr, Some "yspec is required if yb == YB_MODULE"))
  /\ (~ (yb = YB_MODULE /\ yspec = None) ->
      (Z.of_nat (length file) < 1073741823 ->
       exists r t e err,
         clixon_xml_parse_string P a a' (cstring file) yb yspec true xt xerr = (r, t, e, err)
         /\ clixon_xml_parse_file P a a' (Some file) yb yspec true xt xerr
            = Some (if r <? 0 then -1 else if r =? 0 then 0 else 1,
                    if r <? 0 then None else t, e, err))
      /\ (1073741823 <= Z.of_nat (length file) ->
          clixon_xml_parse_file P a a' (Some file) yb yspec true xt xerr
          = Some (-1, None, xerr, Some "realloc"))).
Proof.
  split.
  - intros -> ->. unfold clixon_xml_parse_file, clixon_xml_parse_string. cbn. auto.
  - intros H. unfold clixon_xml_parse_file, clixon_xml_parse_string. cbn [negb].
    cbv iota.
    assert (E : (yang_bind_eqb yb YB_MODULE
                 && match yspec with None => true | Some _ => false end) = false).
    { destruct yb, yspec; try reflexivity. exfalso. apply H. auto. }
    rewrite E. split.
    + intros Hl. destruct (read_file_cstring file Hl) as (xmlbuf & n & len & -> & ->).
      destruct (_xml_parse P a' (cstring file) yb yspec _ xerr) as [[[r t] e] err].
      exists r, t, e, err. split; [reflexivity|].
      destruct (r <? 0); reflexivity.
    + intros Hl. now rewrite (read_file_long file Hl).
Qed.

(** X10. Without binding (YB_NONE) [clixon_xml_parse_string] returns 1 or
    -1, never 0, and leaves the error tree alone. An empty string gives 1
    with the tree untouched and the parser not run. Otherwise, when the
    parser accepts the string, the tree returned is the parser's tree less
    its top-level bodies called body, unsorted, and the result is 1 exactly
    when the namespaces of all new objects resolve; when the parser refuses,
    the result is -1 with the error parse. *)
Theorem parse_string_unbound a a' str yspec xt xerr :
  exists r t err,
    clixon_xml_parse_string P a a' str YB_NONE yspec true xt xerr = (r, t, xerr, err)
    /\ (r = 1 \/ r = -1)
    /\ (str = EmptyString -> r = 1 /\ t = Some (top_of P a xt) /\ err = None)
    /\ (str <> EmptyString ->
        match clixon_xml_parseparse P str (top_of P a xt) yspec with
        | None => r = -1 /\ t = Some (top_of P a xt) /\ err = Some "parse"
        | Some (t0, xvec) =>
            t = Some (purge_top_bodies t0) /\ err = None
            /\ (r = 1 <->
                forallb (fun x => negb (xml2ns_recurse P (purge_top_bodies t0) x <? 0)) xvec
                = true)
        end).
Proof.
  unfold clixon_xml_parse_string. cbn [negb yang_bind_eqb andb]. cbv iota.
  assert (Et : match xt with Some _ => xt | None => Some (xml_new_top P a) end
               = Some (top_of P a xt)) by (destruct xt; reflexivity).
  rewrite Et. unfold _xml_parse.
  destruct (strlen str =? 0) eqn:E0.
  - apply strlen_0 in E0. subst str. do 3 eexists. split; [reflexivity|].
    split; [auto|]. split; [auto|]. intros H. now elim H.
  - assert (Hne : str <> EmptyString).
    { intros ->. discriminate. }
    destruct (clixon_xml_parseparse P str (top_of P a xt) yspec) as [[t0 xvec]|] eqn:Ep.
    + rewrite traverse_new_none. cbn [yang_bind_eqb negb Nat.eqb].
      destruct (forallb _ xvec) eqn:Ef.
      * change (0 <? 0) with false. cbv iota.
        do 3 eexists. split; [reflexivity|]. split; [auto|].
        split; [intros; contradiction|]. intros _. repeat split; auto.
      * change (-1 <? 0) with true. cbv iota.
        do 3 eexists. split; [reflexivity|]. split; [auto|].
        split; [intros; contradiction|]. intros _.
        repeat split; try discriminate; auto.
    + do 3 eexists. split; [reflexivity|]. split; [auto|].
      split; [intros; contradiction|]. intros _. auto.
Qed.

End Parsing.

End ParseFacts.

(** ** More on the changelog upgrader *)

Module UpgraderFacts.
Import Xml XmlIoExt Changelog ChangelogExt XmlFacts ChangelogFacts.

(** *** Nodes by address, after an update *)

Lemma find_first_heads {A} (f g : A -> option cxobj) cs :
  Forall (fun c => option_map xml_hd (f c) = option_map xml_hd (g c)) cs ->
  option_map xml_hd (find_first f cs) = option_map xml_hd (find_first g cs).
Proof.
  induction 1 as [|c cs Hc _ IH]; cbn [find_first]; [reflexivity|].
  destruct (f c), (g c); cbn [option_map] in *; try discriminate; auto.
Qed.

(** An update of the head of the node at [b] leaves the head of every other
    node as it was. *)
Lemma xml_find_update_other a b g :
  a <> b -> (forall hd, x_addr (g hd) = x_addr hd) ->
  forall t,
    option_map xml_hd (xml_find_addr a (xml_update_addr b (on_head g) t))
    = option_map xml_hd (xml_find_addr a t).
Proof.
  intros Hab Hg t. induction t as [hd cs IH] using cxobj_ind.
  cbn [xml_update_addr]. destruct (Nat.eqb (x_addr hd) b) eqn:Eb.
  - apply Nat.eqb_eq in Eb. cbn [on_head]. rewrite !xml_find_addr_unfold, Hg.
    destruct (Nat.eqb_spec (x_addr hd) a) as [E|E]; [congruence|reflexivity].
  - rewrite !xml_find_addr_unfold.
    destruct (Nat.eqb (x_addr hd) a); [reflexivity|].
    assert (F : Forall (fun c => option_map xml_hd (xml_find_addr a (xml_update_addr b (on_head g) c))
                                 = option_map xml_hd (xml_find_addr a c)) cs) by exact IH.
    clear IH. induction F as [|c cs Hc _ IHcs]; cbn [map find_first]; [reflexivity|].
    destruct (xml_find_addr a (xml_update_addr b (on_head g) c)),
             (xml_find_addr a c); cbn [option_map] in *; try discriminate; auto.
Qed.

Section Facts.

Variable X : xpath_lib.

(** *** Return values *)

Lemma changelog_switch_ret w nsc op tag dst xnew xw :
  fst (changelog_switch X w nsc op tag dst xnew xw) = 1
  \/ fst (changelog_switch X w nsc op tag dst xnew xw) = -1.
Proof.
  unfold changelog_switch, changelog_rename, changelog_replace, changelog_insert,
    changelog_delete, changelog_move.
  repeat match goal with
         | |- context [if ?c then _ else _] => destruct c
         | |- context [match ?c with _ => _ end] => destruct c
         end; cbn [fst]; auto.
Qed.

Lemma op_each_ret nsc op tag dst xnew whenxpath wvec : forall w,
  fst (op_each X nsc op tag dst xnew whenxpath wvec w) = 1
  \/ fst (op_each X nsc op tag dst xnew whenxpath wvec w) = -1.
Proof.
  induction wvec as [|xw rest IH]; intros w; cbn [op_each]; [auto|].
  destruct (when_test X w nsc whenxpath xw) as [[|]|]; [|apply IH|auto].
  pose proof (changelog_switch_ret w nsc op tag dst xnew xw) as H.
  destruct (changelog_switch X w nsc op tag dst xnew xw) as [ret w']. cbn [fst] in H.
  destruct H as [-> | ->]; cbn; auto.
Qed.

Lemma changelog_op_ret w xi :
  fst (changelog_op X w xi) = 1 \/ fst (changelog_op X w xi) = -1.
Proof.
  unfold changelog_op.
  repeat match goal with
         | |- context [match ?c with _ => _ end] => destruct c
         end; cbn [fst]; auto using op_each_ret.
Qed.

Lemma iterate_each_ret vec : forall w,
  fst (iterate_each X vec w) = 1 \/ fst (iterate_each X vec w) = -1.
Proof.
  induction vec as [|xi rest IH]; intros w; cbn [iterate_each]; [auto|].
  pose proof (changelog_op_ret w xi) as H.
  destruct (changelog_op X w xi) as [ret w']. cbn [fst] in H.
  destruct H as [-> | ->]; cbn; auto.
Qed.

Lemma changelog_iterate_ret w xch :
  fst (changelog_iterate X w xch) = 1 \/ fst (changelog_iterate X w xch) = -1.
Proof.
  unfold changelog_iterate. destruct (xpath_vec X _ _ _ _); cbn [fst];
    auto using iterate_each_ret.
Qed.

Lemma upgrade_each_ret from to vec : forall w,
  fst (upgrade_each X from to vec w) = 1 \/ fst (upgrade_each X from to vec w) = -1.
Proof.
  induction vec as [|xch rest IH]; intros w; cbn [upgrade_each]; [auto|].
  destruct (parse_date X w xch "revfrom" 0) as [f|]; [|auto].
  destruct (parse_date X w xch "revision" 0) as [t|]; [|auto].
  destruct (_ || _); [apply IH|].
  pose proof (changelog_iterate_ret w xch) as H.
  destruct (changelog_iterate X w xch) as [ret w']. cbn [fst] in H.
  destruct H as [-> | ->]; cbn; auto.
Qed.

(** X11. The upgrader never reports a changelog as invalid: a step
    ([changelog_op]), an entry ([changelog_iterate]) and the whole upgrade
    ([xml_changelog_upgrade]) return 1 or -1 and never 0, whatever the
    changelog, the tree and the XPath library. *)
Theorem changelog_upgrade_never_invalid :
  (forall w xi, fst (changelog_op X w xi) = 1 \/ fst (changelog_op X w xi) = -1)
  /\ (forall w xch,
        fst (changelog_iterate X w xch) = 1 \/ fst (changelog_iterate X w xch) = -1)
  /\ (forall h xt ns from to,
        fst (fst (xml_changelog_upgrade X h xt ns from to)) = 1
        \/ fst (fst (xml_changelog_upgrade X h xt ns from to)) = -1).
Proof.
  split; [exact changelog_op_ret|]. split; [exact changelog_iterate_ret|].
  intros h xt ns from to. unfold xml_changelog_upgrade.
  destruct (negb _); [auto|].
  destruct (clicon_xml_changelog_get h) as [xchlog|]; [|auto].
  destruct (xpath_vec X xchlog _ _ _) as [vec|]; [|auto].
  pose proof (upgrade_each_ret from to vec (world_of h xt xchlog)) as H.
  destruct (upgrade_each X from to vec (world_of h xt xchlog)) as [ret w]. exact H.
Qed.

(** *** A step whose operation is not one of the five *)

Lemma changelog_switch_unknown w nsc op tag dst xnew xw :
  known_op op = false ->
  changelog_switch X w nsc op tag dst xnew xw
  = (-1, Changelog.clixon_err w ("Unknown operation: " +:+ op)).
Proof.
  unfold known_op, changelog_switch. intros H.
  repeat (apply orb_false_elim in H as [H ?]).
  now repeat match goal with E : String.eqb _ _ = false |- _ => rewrite E; clear E end.
Qed.

Lemma all_skipped_app w nsc whenxpath l1 l2 :
  all_skipped X w nsc whenxpath (l1 ++ l2)
  = all_skipped X w nsc whenxpath l1 && all_skipped X w nsc whenxpath l2.
Proof. unfold all_skipped. apply forallb_app. Qed.

Lemma op_each_unknown nsc op tag dst xnew whenxpath w : forall wvec,
  known_op op = false ->
  let run := op_each X nsc op tag dst xnew whenxpath wvec w in
  w_xt (snd run) = w_xt w /\ w_chlog (snd run) = w_chlog w
  /\ (fst run = 1 <-> all_skipped X w nsc whenxpath wvec = true)
  /\ (fst run = 1 -> snd run = w)
  /\ (forall skipped xw rest,
        wvec = skipped ++ xw :: rest ->
        all_skipped X w nsc whenxpath skipped = true ->
        when_test X w nsc whenxpath xw = Some true ->
        run = (-1, Changelog.clixon_err w ("Unknown operation: " +:+ op))).
Proof.
  intros wvec Hop. induction wvec as [|xw0 rest0 IH]; cbn zeta in *.
  - cbn. repeat split; auto. intros [|? ?] ? ? E; discriminate.
  - cbn [op_each all_skipped forallb].
    destruct (when_test X w nsc whenxpath xw0) as [[|]|] eqn:Ew.
    + rewrite changelog_switch_unknown by exact Hop. cbn.
      repeat split; auto; discriminate.
    + destruct IH as (I1 & I2 & I3 & I4 & I5). cbn [andb].
      split; [exact I1|]. split; [exact I2|]. split; [exact I3|]. split; [exact I4|].
      intros [|s skipped] xw rest E Hs Hw; cbn [app] in E; injection E as <- E.
      * rewrite Ew in Hw. discriminate.
      * cbn [all_skipped forallb] in Hs. apply andb_prop in Hs as [_ Hs].
        now apply (I5 skipped xw rest).
    + cbn [fst snd andb].
      split; [reflexivity|]. split; [reflexivity|].
      split; [split; discriminate|]. split; [discriminate|].
      intros [|s skipped] xw rest E Hs Hw; cbn [app] in E; injection E as <- E.
      * rewrite Ew in Hw. discriminate.
      * cbn [all_skipped forallb] in Hs. rewrite Ew in Hs. discriminate.
Qed.

(** X12. A step whose operation is none of rename, replace, insert, delete
    and move is refused only when it has a target: the targets are gone
    through in order, and the first one that passes the when filter stops
    the step with -1 and the error Unknown operation. If the where path
    selects nothing, or the filter refuses every target, the step succeeds
    (1) and nothing is reported. Either way, neither tree is changed. *)
Theorem changelog_op_unknown w xi nsc op wxpath wvec :
  xml_nsctx_node X (w_chlog w) xi = Some nsc ->
  node_find_body w xi "op" = Some op ->
  known_op op = false ->
  node_find_body w xi "where" = Some wxpath ->
  xpath_vec X (w_xt w) (xml_addr (w_xt w)) (Some nsc) wxpath = Some wvec ->
  let whenxpath := node_find_body w xi "when" in
  let run := changelog_op X w xi in
  w_xt (snd run) = w_xt w /\ w_chlog (snd run) = w_chlog w
  /\ (fst run = 1 <-> all_skipped X w nsc whenxpath wvec = true)
  /\ (fst run = 1 -> snd run = w)
  /\ (forall skipped xw rest,
        wvec = skipped ++ xw :: rest ->
        all_skipped X w nsc whenxpath skipped = true ->
        when_test X w nsc whenxpath xw = Some true ->
        run = (-1, Changelog.clixon_err w ("Unknown operation: " +:+ op))).
Proof.
  intros Hn Ho Hk Hw Hv. cbn zeta. unfold changelog_op. rewrite Hn, Ho, Hw, Hv.
  now apply op_each_unknown.
Qed.

(** *** [changelog_rename] *)

Lemma w_find_update_other a b g w :
  a <> b -> (forall hd, x_addr (g hd) = x_addr hd) ->
  option_map xml_hd (w_find (w_update b (on_head g) w) a) = option_map xml_hd (w_find w a).
Proof.
  intros Hab Hg. unfold w_find, w_update. cbn [w_xt w_chlog].
  pose proof (xml_find_update_other a b g Hab Hg (w_xt w)) as H1.
  pose proof (xml_find_update_other a b g Hab Hg (w_chlog w)) as H2.
  destruct (xml_find_addr a (xml_update_addr b (on_head g) (w_xt w))),
           (xml_find_addr a (w_xt w)); cbn [option_map] in *; try discriminate; auto.
Qed.

(** X13. [changelog_rename] returns 1 or -1. It fails, with both trees as
    they were, when the step has no tag (error tag required), when the tag
    path does not evaluate, and when its string value is empty (error
    invalid rename tag). Otherwise the target takes the string value of the
    tag path, evaluated at the target, as its name: the target keeps its
    address, type, value and children, every other node keeps its head, and
    nothing is reported. *)
Theorem changelog_rename_effect w xw nsc tag r w' :
  changelog_rename X w xw nsc tag = (r, w') ->
  (r = 1 \/ r = -1)
  /\ (tag = None -> r = -1 /\ w' = Changelog.clixon_err w "tag required")
  /\ (r = -1 -> w_xt w' = w_xt w /\ w_chlog w' = w_chlog w)
  /\ (r = 1 ->
      exists t xctx str,
        tag = Some t
        /\ xpath_vec_ctx X (w_xt w) xw (Some nsc) t = Some xctx
        /\ ctx2string X xctx = Some str /\ str <> EmptyString
        /\ w_err w' = w_err w
        /\ w_find w' xw = option_map (on_head (set_name str)) (w_find w xw)
        /\ forall a, a <> xw ->
             option_map xml_hd (w_find w' a) = option_map xml_hd (w_find w a)).
Proof.
  unfold changelog_rename. intros H.
  destruct tag as [t|]; [|injection H as <- <-; repeat split; auto; discriminate].
  destruct (xpath_vec_ctx X (w_xt w) xw (Some nsc) t) as [xctx|] eqn:Ex;
    [|injection H as <- <-; repeat split; auto; discriminate].
  destruct (ctx2string X xctx) as [str|] eqn:Es;
    [|injection H as <- <-; repeat split; auto; discriminate].
  destruct (XmlIo.strlen str =? 0) eqn:E0; injection H as <- <-.
  - repeat split; auto; discriminate.
  - split; [auto|]. split; [discriminate|]. split; [discriminate|]. intros _.
    exists t, xctx, str. repeat split; auto.
    + intros ->. discriminate.
    + unfold xml_name_set. apply w_find_update. intros [hd cs] Hn. exact Hn.
    + intros a Ha. unfold xml_name_set. apply w_find_update_other; auto.
Qed.

End Facts.

(** *** [xml_namespace_vec] *)

Section NamespaceVec.

Variable xml2ns : cxobj -> cxobj -> Z * option string.

Lemma vec_insert_next (done : list (option nat)) k v :
  (1 <= k)%nat ->
  <[length done := v]> (done ++ repeat None k) = (done ++ [v]) ++ repeat None (k - 1).
Proof.
  intros Hk. destruct k as [|k]; [lia|]. cbn [repeat].
  replace (S k - 1)%nat with k by lia. rewrite <- app_assoc. cbn [app].
  replace (length done) with (length done + 0)%nat at 1 by lia.
  now rewrite insert_app_r.
Qed.

Lemma namespace_each_run xt ns cs : forall done k,
  (length cs < k)%nat ->
  namespace_each xml2ns xt ns cs (done ++ repeat None k) (length done) <> VecOverrun
  /\ (forallb (fun xc => negb (fst (xml2ns xt xc) <? 0)
                         && match snd (xml2ns xt xc) with Some _ => true | None => false end)
        cs = true ->
      let found := List.filter (in_namespace xml2ns xt ns) cs in
      namespace_each xml2ns xt ns cs (done ++ repeat None k) (length done)
      = VecReturn 0
          ((done ++ map (fun xc => Some (xml_addr xc)) found)
             ++ repeat None (k - length found))
          (length done + length found)).
Proof.
  induction cs as [|xc cs IH]; intros done k Hk; cbn [namespace_each length] in *.
  - split; [discriminate|]. intros _. cbn. now rewrite app_nil_r, !Nat.add_0_r, Nat.sub_0_r.
  - cbn [List.filter forallb].
    destruct (xml2ns xt xc) as [r [ns0|]] eqn:E2; cbn [fst snd].
    + assert (Hin : in_namespace xml2ns xt ns xc = String.eqb ns ns0)
        by (unfold in_namespace; now rewrite E2).
      rewrite Hin.
      destruct (r <? 0); [split; [discriminate|intros H; discriminate]|].
      cbn [negb andb].
      destruct (String.eqb ns ns0); cbn [negb].
      * rewrite length_app, repeat_length.
        destruct (Nat.ltb_spec (length done) (length done + k)); [|lia].
        rewrite vec_insert_next by lia.
        replace (S (length done)) with (length (done ++ [Some (xml_addr xc)]))
          by (rewrite length_app; cbn; lia).
        destruct (IH (done ++ [Some (xml_addr xc)]) (k - 1)%nat ltac:(lia)) as [I1 I2].
        split; [exact I1|]. intros Hall. rewrite (I2 Hall). cbn zeta. cbn [map length app].
        rewrite <- !app_assoc. cbn [app]. rewrite length_app. cbn [length].
        replace (k - 1 - length (List.filter (in_namespace xml2ns xt ns) cs))%nat
          with (k - S (length (List.filter (in_namespace xml2ns xt ns) cs)))%nat by lia.
        f_equal. lia.
      * destruct (IH done k ltac:(lia)) as [I1 I2]. split; [exact I1|exact I2].
    + split; [destruct (r <? 0); discriminate|].
      rewrite andb_false_r. discriminate.
Qed.

(** X14. [xml_namespace_vec] never writes outside of the vector it
    allocates, whatever the tree. When every element child has a namespace
    that [xml2ns] finds, it returns 0 with the element children of the
    namespace, in document order, followed by null pointers (at least one),
    and reports their number as the length. *)
Theorem xml_namespace_vec_bounds xt ns :
  xml_namespace_vec xml2ns xt ns <> VecOverrun
  /\ (all_have_namespace xml2ns xt = true ->
      let elements := xml_child_each xt (Some CX_ELMNT) in
      let found := List.filter (in_namespace xml2ns xt ns) elements in
      xml_namespace_vec xml2ns xt ns
      = VecReturn 0
          (map (fun xc => Some (xml_addr xc)) found
             ++ repeat None (S (length elements) - length found))
          (length found)
      /\ (length found < S (length elements))%nat).
Proof.
  unfold xml_namespace_vec, all_have_namespace.
  destruct (namespace_each_run xt ns (xml_child_each xt (Some CX_ELMNT)) []
              (S (length (xml_child_each xt (Some CX_ELMNT)))) ltac:(lia)) as [I1 I2].
  cbn [app length] in I1, I2. split; [exact I1|]. intros H. cbn zeta.
  split; [exact (I2 H)|].
  pose proof (filter_length_le (in_namespace xml2ns xt ns) (xml_child_each xt (Some CX_ELMNT))).
  lia.
Qed.

End NamespaceVec.

(** *** [clixon_xml_changelog_init] *)

Section Init.

Variable P : XmlIoExt.parse_lib.
Variable clicon_option_str : string -> option string.
Variable fopen : string -> option (list ascii).
Variable clicon_dbspec_yang : option yang_stmt.
Variable xml_rootchild : cxobj -> nat -> option cxobj.
Variable xml_yang_validate_all : cxobj -> Z * option cxobj.
Variable xml_yang_validate_add : cxobj -> Z * option cxobj.

Lemma parse_file_returns a a' file yb yspec xt xerr :
  exists res, clixon_xml_parse_file P a a' (Some file) yb yspec true xt xerr = Some res.
Proof.
  unfold clixon_xml_parse_file.
  destruct (_ && _); [eauto|].
  pose proof (ParseFacts.read_file_start file) as R.
  destruct (read_file file _ BUFLEN 0) as [xmlbuf n len| |]; [|eauto|contradiction].
  destruct (_xml_parse P a' (cstring xmlbuf) yb yspec _ xerr) as [[[r t] e] err].
  destruct (r <? 0); eauto.
Qed.

(** X15. [clixon_xml_changelog_init] always returns, with 0 or -1, and
    leaves the options of the handle alone. Without the option
    CLICON_XML_CHANGELOG_FILE it returns 0 and changes nothing; when it
    returns -1 the changelog of the handle is the one it had; a file that
    cannot be opened gives -1 with the error fopen. *)
Theorem changelog_init_returns h :
  exists r h',
    clixon_xml_changelog_init P clicon_option_str fopen clicon_dbspec_yang
      xml_rootchild xml_yang_validate_all xml_yang_validate_add h = Some (r, h')
    /\ (r = 0 \/ r = -1)
    /\ ch_options h' = ch_options h
    /\ (clicon_option_str "CLICON_XML_CHANGELOG_FILE" = None -> r = 0 /\ h' = h)
    /\ (r = -1 -> ch_changelog h' = ch_changelog h)
    /\ (forall filename,
          clicon_option_str "CLICON_XML_CHANGELOG_FILE" = Some filename ->
          fopen filename = None ->
          r = -1 /\ ch_err h' = ch_err h ++ ["fopen(" +:+ filename +:+ ")"]).
Proof.
  unfold clixon_xml_changelog_init.
  destruct (clicon_option_str "CLICON_XML_CHANGELOG_FILE") as [filename|].
  2:{ exists 0, h. repeat split; auto; try discriminate. }
  destruct (fopen filename) as [file|] eqn:Ef.
  2:{ do 2 eexists. split; [reflexivity|]. split; [auto|]. split; [reflexivity|].
      split; [discriminate|]. split; [reflexivity|].
      intros ? [= <-] _. split; reflexivity. }
  destruct (parse_file_returns (ch_next h) (S (ch_next h)) file YB_MODULE
              clicon_dbspec_yang None None) as ([[[ret xt] e] err] & ->).
  assert (O : forall hh, ch_options
                (match err with
                 | Some e0 => ChangelogExt.clixon_err hh e0
                 | None => hh
                 end) = ch_options hh) by (intros; destruct err; reflexivity).
  assert (C : forall hh, ch_changelog
                (match err with
                 | Some e0 => ChangelogExt.clixon_err hh e0
                 | None => hh
                 end) = ch_changelog hh) by (intros; destruct err; reflexivity).
  assert (Ht : forall hh, ch_options (take_addrs 2 hh) = ch_options hh) by reflexivity.
  assert (Hopened : forall filename0,
            Some filename = Some filename0 -> fopen filename0 = None -> False).
  { intros ? [= <-] E. rewrite Ef in E. discriminate. }
  destruct (ret <? 0); [|destruct xt as [xt|]; [destruct (xml_rootchild xt 0) as [xt'|];
    [destruct (xml_yang_validate_all xt') as [ret1 xret]; destruct (ret1 <? 0);
       [|destruct (ret1 =? 1);
           [destruct (fst (xml_yang_validate_add xt') <? 0); cbn [fst snd];
              [change (-1 <? 0) with true | change (0 <? 0) with false]
           |cbn [fst snd]; change (0 <? 0) with false]; cbv iota]| ]| ]];
  lazymatch goal with
  | |- exists r h', Some (-1, ?hh) = _ /\ _ =>
      exists (-1), hh; split; [reflexivity|]; split; [auto|];
      split; [now rewrite O|]; split; [discriminate|];
      split; [intros _; now rewrite C|]; intros f0 E1 E2; destruct (Hopened f0 E1 E2)
  | |- exists r h', Some (0, ?hh) = _ /\ _ =>
      exists 0, hh; split; [reflexivity|]; split; [auto|];
      split; [destruct (_ =? 0); cbn; now rewrite O|]; split; [discriminate|];
      split; [discriminate|]; intros f0 E1 E2; destruct (Hopened f0 E1 E2)
  end.
Qed.

(** X16. A changelog that does not validate is installed all the same: when
    the file parses (also when its objects did not bind to the schema,
    result 0) and either validation returns 0, [clixon_xml_changelog_init]
    reports the error validation failed, sets the changelog of the handle to
    the tree read and returns 0. *)
Theorem changelog_init_installs_invalid h filename file ret xt0 e err xt :
  clicon_option_str "CLICON_XML_CHANGELOG_FILE" = Some filename ->
  fopen filename = Some file ->
  clixon_xml_parse_file P (ch_next h) (S (ch_next h)) (Some file) YB_MODULE
    clicon_dbspec_yang true None None = Some (ret, Some xt0, e, err) ->
  0 <= ret ->
  xml_rootchild xt0 0 = Some xt ->
  fst (xml_yang_validate_all xt) = 0
  \/ (fst (xml_yang_validate_all xt) = 1 /\ fst (xml_yang_validate_add xt) = 0) ->
  exists h',
    clixon_xml_changelog_init P clicon_option_str fopen clicon_dbspec_yang
      xml_rootchild xml_yang_validate_all xml_yang_validate_add h = Some (0, h')
    /\ ch_changelog h' = Some xt
    /\ ch_options h' = ch_options h
    /\ ch_err h' = ch_err h ++ match err with Some m => [m] | None => [] end
                     ++ ["validation failed"].
Proof.
  intros Ho Hf Hp Hr Hc Hv. unfold clixon_xml_changelog_init.
  rewrite Ho, Hf, Hp.
  destruct (Z.ltb_spec ret 0); [lia|]. rewrite Hc.
  destruct (xml_yang_validate_all xt) as [ret1 xret]. cbn [fst] in Hv.
  destruct Hv as [-> | [-> Hv]].
  - cbn. eexists. split; [reflexivity|].
    destruct err; cbn; rewrite <- ?app_assoc, ?app_nil_r; auto.
  - cbn. rewrite Hv. cbn. eexists. split; [reflexivity|].
    destruct err; cbn; rewrite <- ?app_assoc, ?app_nil_r; auto.
Qed.

End Init.

End UpgraderFacts.

(** ** More on the transaction engine *)

Module EngineFacts.
Import Xml Backend BackendExt BackendFacts.


Section Facts.
Variable L : clixon_lib.

(** *** [generic_validate] *)

Lemma validate_add_each_app xt v1 v2 :
  validate_add_each L xt (v1 ++ v2)
  = let '(ret, xret) := validate_add_each L xt v1 in
    if ret <? 0 then (-1, xret)
    else if ret =? 0 then (0, xret)
    else validate_add_each L xt v2.
Proof.
  induction v1 as [|x v1 IH]; cbn [app validate_add_each]; [reflexivity|].
  destruct (xml_yang_validate_add L xt x) as [ret xret].
  destruct (ret <? 0); [reflexivity|]. destruct (ret =? 0); [reflexivity|]. exact IH.
Qed.

Lemma validate_add_each_norm xt v :
  (let '(ret, xret) := validate_add_each L xt v in
   if ret <? 0 then (-1, xret)
   else if ret =? 0 then (0, xret)
   else (1, None))
  = validate_add_each L xt v.
Proof.
  induction v as [|x v IH]; cbn [validate_add_each]; [reflexivity|].
  destruct (xml_yang_validate_add L xt x) as [ret xret].
  destruct (ret <? 0); [reflexivity|]. destruct (ret =? 0); [reflexivity|]. exact IH.
Qed.

Lemma validate_add_each_first xt v :
  (fst (validate_add_each L xt v) = 1
   <-> Forall (fun c : Z * option cxobj => 0 < fst c) (map (xml_yang_validate_add L xt) v))
  /\ (forall pre c post,
        map (xml_yang_validate_add L xt) v = pre ++ c :: post ->
        Forall (fun c : Z * option cxobj => 0 < fst c) pre -> fst c <= 0 ->
        validate_add_each L xt v = (if fst c <? 0 then -1 else 0, snd c)).
Proof.
  induction v as [|x v [IH1 IH2]]; cbn [validate_add_each map].
  - split; [split; auto|]. intros [|? ?] ? ? E; discriminate.
  - destruct (xml_yang_validate_add L xt x) as [ret xret] eqn:Ex.
    destruct (Z.ltb_spec ret 0) as [Hlt|Hge].
    + split.
      * split; [discriminate|]. intros H. inversion H; subst. cbn in *. lia.
      * intros [|p pre] c post E Hpre Hc; cbn [app] in E.
        -- injection E as <- _. cbn [fst snd]. destruct (Z.ltb_spec ret 0); [reflexivity|lia].
        -- injection E as <- _. inversion Hpre; subst. cbn in *. lia.
    + destruct (Z.eqb_spec ret 0) as [->|Hne].
      * split.
        -- split; [discriminate|]. intros H. inversion H; subst. cbn in *. lia.
        -- intros [|p pre] c post E Hpre Hc; cbn [app] in E.
           ++ injection E as <- _. reflexivity.
           ++ injection E as <- _. inversion Hpre; subst. cbn in *. lia.
      * split.
        -- rewrite IH1. split; [intros H; constructor; [cbn; lia|exact H]|].
           intros H. now inversion H.
        -- intros [|p pre] c post E Hpre Hc; cbn [app] in E.
           ++ injection E as <- _. cbn in Hc. lia.
           ++ injection E as <- E. inversion Hpre; subst. now apply (IH2 pre c post).
Qed.

(** X17. [generic_validate] runs its checks in a fixed order: the whole
    target tree, then the changed entries of the target (as many as the
    changed length says), then the added entries. It answers 1 exactly when
    every check answers a positive value. Otherwise the first check that
    does not decides: a negative value gives -1, zero gives 0, with the
    error tree of that check, and the checks after it are not run. Deleted
    entries and the source side of the changed ones are never validated. *)
Theorem generic_validate_verdict h yspec td xt :
  td_target td = Some xt ->
  let checks := xml_yang_validate_all_top L xt
                :: map (xml_yang_validate_add L xt)
                     (firstn (td_clen td) (td_tcvec td) ++ td_avec td) in
  let r := fst (fst (generic_validate L h yspec td)) in
  snd (fst (generic_validate L h yspec td)) = emit (EvGenericValidate r) h
  /\ (r = 1 <-> Forall (fun c : Z * option cxobj => 0 < fst c) checks)
  /\ (forall pre c post,
        checks = pre ++ c :: post ->
        Forall (fun c : Z * option cxobj => 0 < fst c) pre -> fst c <= 0 ->
        r = (if fst c <? 0 then -1 else 0)
        /\ snd (generic_validate L h yspec td) = snd c).
Proof.
  intros Ht. cbn zeta. unfold generic_validate. rewrite Ht.
  assert (E : (let '(ret, xret) := xml_yang_validate_all_top L xt in
               if ret <? 0 then (-1, xret)
               else if ret =? 0 then (0, xret)
               else
                 let '(ret0, xret0) :=
                   validate_add_each L xt (firstn (td_clen td) (td_tcvec td)) in
                 if ret0 <? 0 then (-1, xret0)
                 else if ret0 =? 0 then (0, xret0)
                 else
                   let '(ret1, xret1) := validate_add_each L xt (td_avec td) in
                   if ret1 <? 0 then (-1, xret1)
                   else if ret1 =? 0 then (0, xret1)
                   else (1, None))
              = (let '(ret, xret) := xml_yang_validate_all_top L xt in
                 if ret <? 0 then (-1, xret)
                 else if ret =? 0 then (0, xret)
                 else validate_add_each L xt
                        (firstn (td_clen td) (td_tcvec td) ++ td_avec td))).
  { destruct (xml_yang_validate_all_top L xt) as [ret xret].
    destruct (ret <? 0); [reflexivity|]. destruct (ret =? 0); [reflexivity|].
    rewrite validate_add_each_app.
    destruct (validate_add_each L xt (firstn _ _)) as [ret0 xret0].
    destruct (ret0 <? 0); [reflexivity|]. destruct (ret0 =? 0); [reflexivity|].
    apply validate_add_each_norm. }
  rewrite E. clear E.
  destruct (validate_add_each_first xt (firstn (td_clen td) (td_tcvec td) ++ td_avec td))
    as [F1 F2].
  destruct (xml_yang_validate_all_top L xt) as [ret xret] eqn:Ea.
  destruct (Z.ltb_spec ret 0) as [Hlt|Hge].
  - cbn [fst snd]. split; [reflexivity|]. split.
    + split; [discriminate|]. intros H. inversion H; subst. cbn in *. lia.
    + intros [|p pre] c post E Hpre Hc; cbn [app] in E.
      * injection E as <- _. cbn [fst snd]. destruct (Z.ltb_spec ret 0); [auto|lia].
      * injection E as <- _. inversion Hpre; subst. cbn in *. lia.
  - destruct (Z.eqb_spec ret 0) as [->|Hne].
    + cbn [fst snd]. split; [reflexivity|]. split.
      * split; [discriminate|]. intros H. inversion H; subst. cbn in *. lia.
      * intros [|p pre] c post E Hpre Hc; cbn [app] in E.
        -- injection E as <- _. auto.
        -- injection E as <- _. inversion Hpre; subst. cbn in *. lia.
    + destruct (validate_add_each L xt _) as [r xr] eqn:Ev. cbn [fst snd] in *.
      split; [reflexivity|]. split.
      * rewrite F1. split; [intros H; constructor; [cbn; lia|exact H]|].
        intros H. now inversion H.
      * intros [|p pre] c post E Hpre Hc; cbn [app] in E.
        -- injection E as <- _. cbn in Hc. lia.
        -- injection E as <- E. inversion Hpre; subst.
           specialize (F2 pre c post E H2 Hc). injection F2 as -> ->. auto.
Qed.

(** *** [candidate_validate] *)

Lemma aborts_add tr h td : aborts (add_events tr h) td = aborts h td.
Proof. reflexivity. Qed.

Lemma candidate_validate_runs h db cbret r h' cbret' :
  candidate_validate L h db cbret = (r, h', cbret') ->
  exists ret h1 td1 xret trv,
    validate_common L h db transaction_new None = (ret, h1, td1, xret)
    /\ h1 = add_events trv h
    /\ forallb is_validation_event trv = true
    /\ ((r = 1 /\ ret = 1
         /\ exists td2, h' = add_events (trv ++ phase_events TRANS_CB_END (h_plugins h) td2) h)
        \/ ((r = 0 \/ r = -1)
            /\ (exists errs td2,
                  forallb is_validation_event errs = true
                  /\ h' = add_events (trv ++ errs ++ aborts h td2) h)
            /\ (ret < 0 -> (XmlIo.strlen cbret =? 0) = false -> r = 0 /\ cbret' = cbret)
            /\ (ret < 0 -> r = -1 ->
                fst (netconf_operation_failed L cbret "application" (clicon_err_reason h1))
                < 0))).
Proof.
  unfold candidate_validate.
  destruct (validate_common L h db transaction_new None) as [[[ret h1] td1] xret] eqn:VC.
  pose proof (validate_common_trace _ _ _ _ _ _ _ _ _ VC) as (Hret & trv & -> & Vv & _).
  intros H. exists ret, (add_events trv h), td1, xret, trv.
  split; [reflexivity|]. split; [reflexivity|]. split; [exact Vv|].
  assert (Fail : forall r0 errs td2 cb,
            r0 = 0 \/ r0 = -1 -> forallb is_validation_event errs = true ->
            (r0, transaction_done r0 (add_events errs (add_events trv h)) td2, cb)
            = (r, h', cbret') ->
            (r = 0 \/ r = -1)
            /\ exists errs td2,
                forallb is_validation_event errs = true
                /\ h' = add_events (trv ++ errs ++ aborts h td2) h).
  { intros r0 errs td2 cb Hr0 He E. rewrite transaction_done_fail in E by lia.
    injection E as <- <- <-. split; [exact Hr0|]. exists errs, td2. split; [exact He|].
    rewrite !add_events_app. unfold aborts. cbn [h_plugins add_events].
    now rewrite <- ?app_assoc. }
  destruct (Z.ltb_spec ret 0) as [Hneg|Hpos].
  { right. destruct (XmlIo.strlen cbret =? 0) eqn:E0.
    - destruct (netconf_operation_failed L cbret "application" _) as [r1 cb1] eqn:En.
      cbn [fst]. destruct (Z.ltb_spec r1 0) as [H1|H1].
      + destruct (Fail (-1) [] td1 cb1 ltac:(auto) eq_refl) as [A B];
          [rewrite add_events_nil; exact H|].
        split; [exact A|]. split; [exact B|]. split; [discriminate|]. intros _ _. exact H1.
      + destruct (Fail 0 [] td1 cb1 ltac:(auto) eq_refl) as [A B];
          [rewrite add_events_nil; exact H|].
        split; [exact A|]. split; [exact B|]. split; [discriminate|].
        intros _ Hr. injection H as H _ _. lia.
    - destruct (Fail 0 [] td1 cbret ltac:(auto) eq_refl) as [A B];
        [rewrite add_events_nil; exact H|].
      split; [exact A|]. split; [exact B|].
      injection H as H _ Hc. split; [auto|]. intros _ Hr. lia. }
  destruct (Z.eqb_spec ret 0) as [Hz|Hnz].
  { right. assert (G : (r = 0 \/ r = -1)
                 /\ exists errs td2,
                     forallb is_validation_event errs = true
                     /\ h' = add_events (trv ++ errs ++ aborts h td2) h).
    { destruct xret as [xr|].
      - destruct (xml2cbuf_error L cbret (Some xr)) as [r1 cb1].
        destruct (r1 <? 0).
        + apply (Fail (-1) [] td1 cb1); auto. now rewrite add_events_nil.
        + destruct (XmlIo.strlen cb1 =? 0).
          * destruct (netconf_operation_failed L cb1 "application" _) as [r2 cb2].
            destruct (r2 <? 0).
            -- apply (Fail (-1) [] td1 cb2); auto. now rewrite add_events_nil.
            -- apply (Fail 0 [] td1 cb2); auto. now rewrite add_events_nil.
          * apply (Fail 0 [] td1 cb1); auto. now rewrite add_events_nil.
      - apply (Fail (-1) [EvErr "xret is NULL"] td1 cbret); auto. }
    destruct G as [A B]. split; [exact A|]. split; [exact B|]. split; intros; lia. }
  assert (ret = 1) as -> by lia.
  destruct (xmldb_get0_clear L (td_src td1)) as [r1 xs].
  destruct (r1 <? 0).
  { right. destruct (Fail (-1) [] (set_src xs td1) cbret ltac:(auto) eq_refl) as [A B];
      [rewrite add_events_nil; exact H|].
    split; [exact A|]. split; [exact B|]. split; intros; lia. }
  destruct (xmldb_get0_clear L (td_target (set_src xs td1))) as [r2 xt].
  destruct (r2 <? 0).
  { right. destruct (Fail (-1) [] (set_target xt (set_src xs td1)) cbret
                       ltac:(auto) eq_refl) as [A B];
      [rewrite add_events_nil; exact H|].
    split; [exact A|]. split; [exact B|]. split; intros; lia. }
  unfold plugin_transaction_end_all in H. rewrite plugin_transaction_each_eq in H.
  rewrite transaction_done_ok in H. injection H as <- <- <-.
  left. split; [reflexivity|]. split; [reflexivity|].
  eexists. rewrite add_events_app. reflexivity.
Qed.


(** *** [candidate_commit] and the datastores *)

Lemma candidate_commit_store_cases h xe db myid cbret r h' cbret' :
  candidate_commit L h xe db myid cbret = (r, h', cbret') ->
  (r = -1 \/ r = 0 \/ r = 1)
  /\ (forall d, d <> "running" -> d <> "rollback" -> h_xmldb h' !! d = h_xmldb h !! d)
  /\ (xe = None -> forall d, d <> "running" -> h_xmldb h' !! d = h_xmldb h !! d)
  /\ (r < 1 -> h_xmldb h' !! "running" = h_xmldb h !! "running")
  /\ (r = 1 -> db <> "rollback" ->
      exists x, h_xmldb h !! db = Some x /\ h_xmldb h' !! "running" = Some x).
Proof.
  intros CC.
  apply candidate_commit_runs in CC
    as (ret & h1 & td1 & xret & trv & h2 & VC & -> & FX & FN & Runs).
  assert (Same : h_xmldb h' = h_xmldb h2 -> r = -1 \/ r = 0 ->
    (r = -1 \/ r = 0 \/ r = 1)
    /\ (forall d, d <> "running" -> d <> "rollback" -> h_xmldb h' !! d = h_xmldb h !! d)
    /\ (xe = None -> forall d, d <> "running" -> h_xmldb h' !! d = h_xmldb h !! d)
    /\ (r < 1 -> h_xmldb h' !! "running" = h_xmldb h !! "running")
    /\ (r = 1 -> db <> "rollback" ->
        exists x, h_xmldb h !! db = Some x /\ h_xmldb h' !! "running" = Some x)).
  { intros E Hr. rewrite E. split; [tauto|]. split; [intros d _ Hd; now apply FX|].
    split; [intros Hx d _; now rewrite (FN Hx)|].
    split; [intros _; now apply FX|]. intros ->. destruct Hr; discriminate. }
  destruct Runs as [[(Hr & _) EX] | [-> Runs]]; [apply Same; auto; tauto|].
  destruct Runs as [[(Hr & _) EX]
                   |[[(Hr & _) EX]
                    |[[(Hr & _) EX]
                     |(Hr & Ec & _ & trc & td2 & x & FC & Ex & EX & E)]]];
    try solve [apply Same; auto].
  subst r. rewrite EX. split; [auto|].
  split; [intros d Hd Hd'; rewrite lookup_insert_ne by auto; now apply FX|].
  split; [intros Hx d Hd; rewrite lookup_insert_ne by auto; now rewrite (FN Hx)|].
  split; [lia|]. intros _ Hdb. exists x. rewrite <- (FX db Hdb).
  split; [exact Ex|]. apply lookup_insert_eq.
Qed.

(** X19. [candidate_commit] leaves every datastore other than running and
    rollback as it was, and rollback too when there is no request. It
    changes running only when it returns 1, and then running holds what the
    committed store held; when it returns 0 or -1 running is as before. A
    store is copied into running exactly when the result is 1. *)
Theorem candidate_commit_store_effects h xe db myid cbret r h' cbret' :
  candidate_commit L h xe db myid cbret = (r, h', cbret') ->
  (r = -1 \/ r = 0 \/ r = 1)
  /\ (forall d, d <> "running" -> d <> "rollback" -> h_xmldb h' !! d = h_xmldb h !! d)
  /\ (xe = None -> forall d, d <> "running" -> h_xmldb h' !! d = h_xmldb h !! d)
  /\ (r < 1 -> h_xmldb h' !! "running" = h_xmldb h !! "running")
  /\ (r = 1 -> db <> "rollback" ->
      exists x, h_xmldb h !! db = Some x /\ h_xmldb h' !! "running" = Some x)
  /\ (existsb is_swap (events_since h h') = true <-> r = 1).
Proof.
  intros CC.
  destruct (candidate_commit_store_cases _ _ _ _ _ _ _ _ CC) as (A & B & C & D & E).
  split; [exact A|]. split; [exact B|]. split; [exact C|]. split; [exact D|].
  split; [exact E|].
  apply candidate_commit_runs in CC
    as (ret & h1 & td1 & xret & trv & h2 & VC & -> & _ & _ & Runs).
  pose proof (validate_common_summary _ _ _ _ _ _ _ VC) as [Vv _].
  assert (NV : existsb is_swap trv = false)
    by (eapply existsb_none; [exact validation_not_swap | exact Vv]).
  assert (NC : forall trc, forallb is_confirm_event trc = true -> existsb is_swap trc = false)
    by (intros trc FC; eapply existsb_none; [exact confirm_not_swap | exact FC]).
  assert (NA : forall td, existsb is_swap (aborts h td) = false)
    by (intros; apply aborts_not; apply callback_not_swap).
  assert (NP : forall ty td, existsb is_swap (phase_events ty (h_plugins h) td) = false)
    by (intros; apply phase_not; apply callback_not_swap).
  destruct Runs as [[(Hr & trc & FC & Ev) _] | [_ Runs]].
  { apply events_since_app in Ev. rewrite Ev, !existsb_app, NV, (NC _ FC), NA.
    split; [discriminate | lia]. }
  destruct Runs as [[(Hr & _ & trc & FC & Ev) _]
                   |[[(Hr & _ & _ & trc & FC & Ev) _]
                    |[[(Hr & _ & _ & trc & errs & td2 & FC & FE & _ & Ev) _]
                     |(Hr & _ & _ & trc & td2 & x & FC & _ & _ & Ev)]]];
    apply events_since_app in Ev; rewrite Ev, !existsb_app, NV, (NC _ FC), ?NP, ?NA.
  - split; [discriminate | lia].
  - split; [discriminate | lia].
  - rewrite (NC _ FE). split; [discriminate | lia].
  - cbn [existsb is_swap]. rewrite String.eqb_refl, !orb_true_r. cbn. tauto.
Qed.

(** *** [startup_common], [startup_validate] and [startup_commit] *)









Lemma add_events_set m t a h :
  add_events a (set_xmldb m (add_events t h)) = set_xmldb m (add_events (t ++ a) h).
Proof. unfold add_events, set_xmldb. cbn. now rewrite <- app_assoc. Qed.



Lemma set_xmldb_same t h : set_xmldb (h_xmldb h) (add_events t h) = add_events t h.
Proof. reflexivity. Qed.

Lemma events_since_set m t h : events_since h (set_xmldb m (add_events t h)) = t.
Proof. exact (events_since_add t h). Qed.



End Facts.

(** *** The rpc callbacks *)

Section Client.

Variable L : clixon_lib.
Variable NETCONF_BASE_NAMESPACE : string.
Variable xmldb_islocked : clicon_handle -> string -> Z.
Variable from_client_confirmed_commit :
  clicon_handle -> commit_request -> Z -> string -> Z * clicon_handle * string.
Variable netconf_in_use : string -> string -> string -> Z * string.
Variable netconf_lock_denied : string -> string -> string -> Z * string.
Variable netconf_missing_element : string -> string -> string -> Z * string.
Variable netconf_db_find : cxobj -> string -> option string.
Variable plugin_context_check : clicon_handle -> string -> Z.

(** X22. [from_client_discard_changes] never touches a store other than
    candidate. When another session holds the lock on candidate it changes
    nothing at all and answers lock-denied with the id of that session.
    Otherwise candidate becomes a copy of running, its dirty bit is reset
    and the reply is ok; without a running store nothing is copied and the
    reply is an error. The return value is 0 in every case but one: -1 when
    an error reply cannot be written. *)
Theorem discard_changes_effect h cbret myid :
  let res := from_client_discard_changes L NETCONF_BASE_NAMESPACE xmldb_islocked
               netconf_lock_denied h cbret myid in
  let r := fst (fst res) in
  let h' := snd (fst res) in
  let iddb := xmldb_islocked h "candidate" in
  (r = 0 \/ r = -1)
  /\ (forall d, d <> "candidate" -> h_xmldb h' !! d = h_xmldb h !! d)
  /\ h_cc_state h' = h_cc_state h
  /\ (iddb <> 0 -> myid <> iddb ->
      let reply := netconf_lock_denied cbret
                     ("<session-id>" +:+ print_u iddb +:+ "</session-id>")
                     "Operation failed, lock is already held" in
      h' = h /\ snd res = snd reply /\ (r = -1 <-> fst reply < 0))
  /\ (iddb = 0 \/ myid = iddb ->
      match h_xmldb h !! "running" with
      | Some x =>
          r = 0 /\ h_xmldb h' = <["candidate" := x]> (h_xmldb h)
          /\ snd res = ok_reply NETCONF_BASE_NAMESPACE cbret
          /\ events_since h h' = [EvCopy "running" "candidate"; EvModified "candidate" false]
      | None =>
          h_xmldb h' = h_xmldb h
          /\ exists reason,
              let reply := netconf_operation_failed L cbret "application" reason in
              snd res = snd reply /\ (r = -1 <-> fst reply < 0)
      end).
Proof.
  cbn zeta. unfold from_client_discard_changes.
  destruct (Z.eqb_spec (xmldb_islocked h "candidate") 0) as [E0|E0];
    [|destruct (Z.eqb_spec myid (xmldb_islocked h "candidate")) as [E1|E1]];
    cbn [negb andb].
  3:{ destruct (netconf_lock_denied cbret _ _) as [r1 cb1] eqn:En.
      destruct (Z.ltb_spec r1 0); cbn [fst snd];
        (split; [auto|]); (split; [reflexivity|]); (split; [reflexivity|]);
        (split; [intros _ _; split; [reflexivity|]; split; [reflexivity|]; lia|]);
        intros [?|?]; contradiction. }
  all: unfold xmldb_copy; destruct (h_xmldb h !! "running") as [x|] eqn:Er;
    cbn [Z.ltb Z.compare fst snd].
  all: try match goal with
           | |- context [netconf_operation_failed ?l ?cb "application" ?rs] =>
               pose (reason := rs);
               destruct (netconf_operation_failed l cb "application" rs)
                 as [r1 cb1] eqn:En;
               destruct (Z.ltb_spec r1 0); cbn [fst snd]
           end.
  all: split; [auto|].
  all: split;
    [intros d Hd; cbn [h_xmldb xmldb_modified_set emit set_xmldb clicon_err];
     rewrite ?lookup_insert_ne by auto; reflexivity|].
  all: split; [reflexivity|].
  all: split; [intros A B; try contradiction; congruence|].
  all: intros _.
  all: try (split; [reflexivity|]; split; [reflexivity|]; split; [reflexivity|];
            unfold events_since; cbn [h_events xmldb_modified_set emit set_xmldb];
            now rewrite <- app_assoc, skipn_app, skipn_all, Nat.sub_diag).
  all: split; [reflexivity|]; exists reason; subst reason; cbn zeta; rewrite En;
    cbn [fst snd]; split; [reflexivity|lia].
Qed.

(** X23. [from_client_validate] only reads: whatever the request, every
    datastore and the confirmed-commit state are as before. Without a
    source in the request it answers missing-element and calls nothing.
    Otherwise it returns -1 exactly when [candidate_validate] does, and
    appends the ok reply exactly when [candidate_validate] returns 1; an
    invalid configuration gives return value 0 with the error reply of the
    validation. *)
Theorem from_client_validate_readonly h xe cbret :
  let res := from_client_validate L NETCONF_BASE_NAMESPACE netconf_missing_element
               netconf_db_find h xe cbret in
  let r := fst (fst res) in
  let h' := snd (fst res) in
  (r = 0 \/ r = -1)
  /\ h_xmldb h' = h_xmldb h /\ h_cc_state h' = h_cc_state h
  /\ match netconf_db_find xe "source" with
     | None =>
         h' = h
         /\ snd res = snd (netconf_missing_element cbret "protocol" "source")
         /\ (r = -1 <-> fst (netconf_missing_element cbret "protocol" "source") < 0)
     | Some db =>
         let v := candidate_validate L h db cbret in
         h' = snd (fst v)
         /\ (r = -1 <-> fst (fst v) = -1)
         /\ snd res = (if fst (fst v) =? 1 then ok_reply NETCONF_BASE_NAMESPACE (snd v)
                       else snd v)
     end.
Proof.
  cbn zeta. unfold from_client_validate.
  destruct (netconf_db_find xe "source") as [db|].
  2:{ destruct (netconf_missing_element cbret "protocol" "source") as [r1 cb1].
      destruct (Z.ltb_spec r1 0); cbn [fst snd]; repeat split; auto; lia. }
  destruct (candidate_validate L h db cbret) as [[ret h1] cb1] eqn:CV.
  destruct (candidate_validate_runs _ _ _ _ _ _ _ CV)
    as (ret0 & h0 & td1 & xret & trv & _ & _ & _ & Runs).
  assert (F : h_xmldb h1 = h_xmldb h /\ h_cc_state h1 = h_cc_state h
              /\ (ret = -1 \/ ret = 0 \/ ret = 1)).
  { destruct Runs as [(-> & _ & td2 & ->) | (Hr & (errs & td2 & _ & ->) & _)];
      repeat split; auto. destruct Hr; auto. }
  destruct F as (F1 & F2 & F3).
  destruct (Z.ltb_spec ret 0); cbn [fst snd].
  - repeat split; auto; try lia. destruct (Z.eqb_spec ret 1); [lia|reflexivity].
  - repeat split; auto; try lia.
Qed.

(** X24. [from_client_commit], without the confirmed-commit feature:
    when another session holds the lock on running nothing is changed and
    the reply is in-use. Otherwise the candidate is committed; no store but
    running and rollback is ever changed, and running changes only together
    with an ok reply, to what candidate held. A commit that fails, also with
    an error, is answered with return value 0 and an error reply; the
    return value is -1 only when a reply cannot be written. *)
Theorem from_client_commit_effect h xe cbret myid yspec r h' cbret' :
  clicon_dbspec_yang h = Some yspec ->
  if_feature yspec "ietf-netconf" "confirmed-commit" = false ->
  from_client_commit L NETCONF_BASE_NAMESPACE xmldb_islocked from_client_confirmed_commit
    netconf_in_use h xe cbret myid = (r, h', cbret') ->
  let iddb := xmldb_islocked h "running" in
  (r = 0 \/ r = -1)
  /\ (iddb <> 0 -> myid <> iddb ->
      let reply := netconf_in_use cbret "protocol" "Operation failed, lock is already held" in
      h' = h /\ cbret' = snd reply /\ (r = -1 <-> fst reply < 0))
  /\ (forall d, d <> "running" -> d <> "rollback" -> h_xmldb h' !! d = h_xmldb h !! d)
  /\ (h_xmldb h' !! "running" = h_xmldb h !! "running"
      \/ (r = 0 /\ h_xmldb h' !! "running" = h_xmldb h !! "candidate"
          /\ exists cb, cbret' = ok_reply NETCONF_BASE_NAMESPACE cb))
  /\ (iddb = 0 \/ myid = iddb ->
      let v := candidate_commit L h (Some xe) "candidate" myid cbret in
      h' = snd (fst v)
      /\ (fst (fst v) = 1 -> r = 0 /\ cbret' = ok_reply NETCONF_BASE_NAMESPACE (snd v))
      /\ (fst (fst v) = 0 -> r = 0 /\ cbret' = snd v)
      /\ (fst (fst v) = -1 ->
          let reply := netconf_operation_failed L (snd v) "application"
                         (clicon_err_reason (snd (fst v))) in
          cbret' = snd reply /\ (r = -1 <-> fst reply < 0))).
Proof.
  intros Hy Hf CC. cbn zeta. unfold from_client_commit in CC. rewrite Hy, Hf in CC.
  cbn [andb] in CC.
  destruct (Z.eqb_spec (xmldb_islocked h "running") 0) as [E0|E0];
    [|destruct (Z.eqb_spec myid (xmldb_islocked h "running")) as [E1|E1]];
    cbn [negb andb] in CC.
  3:{ destruct (netconf_in_use cbret _ _) as [r1 cb1] eqn:En.
      destruct (Z.ltb_spec r1 0); injection CC as <- <- <-; cbn [fst snd];
        (split; [auto|]); (split; [intros _ _; repeat split; auto; lia|]);
        (split; [reflexivity|]); (split; [left; reflexivity|]);
        intros [?|?]; contradiction. }
  all: destruct (candidate_commit L h (Some xe) "candidate" myid cbret)
         as [[ret h1] cb1] eqn:Ecc;
    destruct (candidate_commit_store_cases _ _ _ _ _ _ _ _ _ Ecc)
      as (Hret & Hoth & _ & Hfail & Hok);
    cbn [fst snd].
  all: destruct (Z.ltb_spec ret 0);
    [destruct (netconf_operation_failed L cb1 "application" (clicon_err_reason h1))
       as [r2 cb2] eqn:En;
     destruct (Z.ltb_spec r2 0); injection CC as <- <- <-
    |injection CC as <- <- <-].
  all: split; [auto|].
  all: split; [intros A B; try contradiction; congruence|].
  all: split; [exact Hoth|].
  all: split;
    [first
       [ solve [left; apply Hfail; lia]
       | destruct (Z.eqb_spec ret 1) as [->|];
         [right; destruct (Hok eq_refl ltac:(discriminate)) as (x & X1 & X2);
          split; [reflexivity|]; split; [congruence|]; now exists cb1
         |left; apply Hfail; lia] ]|].
  all: intros _; split; [reflexivity|].
  all: split; [intros ->; try lia; cbn [Z.eqb]; auto|].
  all: split; [intros ->; try lia; cbn [Z.eqb]; auto|].
  all: intros ->;
    first [lia | cbn zeta; rewrite ?En; cbn [fst snd]; split; [reflexivity|lia]].
Qed.

(** *** [from_client_restart_one] *)

Lemma cb_events_of_plugin ty cp td :
  ty <> TRANS_CB_ABORT ->
  forallb (of_plugin cp) (cb_events ty cp td) = true
  /\ existsb is_failed_event (cb_events ty cp td) = cb_fails ty cp td.
Proof.
  intros Hty. unfold cb_events, cb_fails. destruct (trans_cb ty cp) as [fn|]; [|auto].
  cbn [forallb existsb of_plugin is_failed_event]. rewrite String.eqb_refl, orb_false_r.
  split; [|reflexivity]. destruct ty; try reflexivity. congruence.
Qed.

Lemma phases_one_eq cp td tys : forall h,
  Forall (fun ty => ty <> TRANS_CB_ABORT) tys ->
  exists r evs,
    phases_one tys cp h td = (r, add_events evs h)
    /\ forallb (of_plugin cp) evs = true
    /\ ((r = 0 /\ existsb is_failed_event evs = false) \/ r = -1).
Proof.
  induction tys as [|ty tys IH]; intros h Hn; cbn [phases_one].
  - exists 0, []. rewrite add_events_nil. auto.
  - inversion Hn as [|? ? Hty Hn']; subst.
    rewrite plugin_transaction_one_eq.
    destruct (cb_events_of_plugin ty cp td Hty) as [O F].
    destruct (cb_fails ty cp td) eqn:Ef; cbn [Z.ltb Z.compare].
    + exists (-1), (cb_events ty cp td). auto.
    + destruct (IH (add_events (cb_events ty cp td) h) Hn') as (r & evs & -> & O' & F').
      exists r, (cb_events ty cp td ++ evs). rewrite add_events_app, forallb_app, O, O'.
      split; [reflexivity|]. split; [reflexivity|].
      destruct F' as [[-> F'] | ->]; [left|now right].
      now rewrite existsb_app, F, F'.
Qed.

Lemma xmldb_get0_event cp h db yb ret h' xt md xerr :
  xmldb_get0 L h db yb = (ret, h', xt, md, xerr) ->
  exists e, h' = add_events [e] h /\ of_plugin cp e = true /\ is_failed_event e = false.
Proof.
  unfold xmldb_get0. destruct (h_xmldb h !! db) as [x|].
  - destruct (xmldb_populate L yb x) as [[r xt0] xe]. intros H; inversion H; subst.
    exists (EvGet0 db). auto.
  - intros H; inversion H; subst. eexists. split; [reflexivity|]. auto.
Qed.

Lemma emit_set_xmldb e m h : emit e (set_xmldb m h) = set_xmldb m (add_events [e] h).
Proof. reflexivity. Qed.

(** X25. [from_client_restart_one] for a plugin without reset callback: it
    resets the store tmp and changes no other store; it calls callbacks of
    that plugin only, and never an ABORT callback, also when it fails; a
    callback of the plugin that answers a negative value makes it return 0,
    not -1. It returns -1, 0 or 1. *)
Theorem restart_one_no_abort h cp cbret :
  let res := from_client_restart_one L plugin_context_check h cp None cbret in
  let r := fst (fst res) in
  let h' := snd (fst res) in
  let tr := events_since h h' in
  (r = -1 \/ r = 0 \/ r = 1)
  /\ h_xmldb h' = <["tmp" := xmldb_empty L]> (h_xmldb h)
  /\ h_cc_state h' = h_cc_state h
  /\ h_events h' = h_events h ++ tr
  /\ forallb (of_plugin cp) tr = true
  /\ existsb (is_callback TRANS_CB_ABORT) tr = false
  /\ (existsb is_failed_event tr = true -> r = 0).
Proof.
  cbn zeta.
  pattern (from_client_restart_one L plugin_context_check h cp None cbret).
  match goal with |- ?P0 _ => set (P := P0) end.
  set (S := <["tmp" := xmldb_empty L]> (h_xmldb h)).
  assert (Leaf : forall r T cb,
            r = -1 \/ r = 0 \/ r = 1 -> forallb (of_plugin cp) T = true ->
            (existsb is_failed_event T = true -> r = 0) ->
            P (r, set_xmldb S (add_events T h), cb)).
  { intros r T cb Hr Ho Hf. unfold P. cbn [fst snd]. rewrite events_since_set.
    split; [exact Hr|]. split; [reflexivity|]. split; [reflexivity|].
    split; [reflexivity|]. split; [exact Ho|]. split; [|exact Hf].
    clear - Ho. induction T as [|e T IH]; cbn [existsb forallb] in *; [reflexivity|].
    apply andb_prop in Ho as [A B]. rewrite (IH B), orb_false_r.
    destruct e as [ty n v| | | | | | | | | | | | | |]; try reflexivity.
    cbn [of_plugin] in A. apply andb_prop in A as [_ A]. now destruct (is_callback _ _). }
  clearbody P. unfold from_client_restart_one, xmldb_db_reset.
  cbn [Z.ltb Z.compare]. rewrite emit_set_xmldb. fold S.
  destruct (xmldb_get0 L _ "running" YB_MODULE) as [[[[r1 h1] xt] md1] xe1] eqn:G1.
  apply (xmldb_get0_event cp) in G1 as (e1 & -> & O1 & F1). rewrite add_events_set.
  cbn [app].
  assert (O : forallb (of_plugin cp) [EvReset "tmp"; e1] = true)
    by (cbn [forallb]; now rewrite O1).
  assert (F : existsb is_failed_event [EvReset "tmp"; e1] = false)
    by (cbn [existsb]; now rewrite F1).
  destruct (r1 <? 0); [apply Leaf; auto; rewrite F; discriminate|].
  cbn [td_target set_target].
  destruct xt as [target|]; [|apply Leaf; auto; rewrite F; discriminate].
  destruct (xml_yang_validate_all_top L target) as [rv xerr].
  destruct (rv <? 0); [apply Leaf; auto; rewrite F; discriminate|].
  destruct (rv =? 0).
  { destruct (xml2cbuf_error L cbret xerr) as [rx cbx].
    destruct (rx <? 0); apply Leaf; auto; rewrite F; discriminate. }
  destruct (xmldb_get0 L _ "tmp" YB_MODULE) as [[[[r2 h2] xs] md2] xe2] eqn:G2.
  apply (xmldb_get0_event cp) in G2 as (e2 & -> & O2 & F2). rewrite add_events_set.
  cbn [app].
  assert (O' : forallb (of_plugin cp) [EvReset "tmp"; e1; e2] = true)
    by (cbn [forallb]; now rewrite O1, O2).
  assert (F' : existsb is_failed_event [EvReset "tmp"; e1; e2] = false)
    by (cbn [existsb]; now rewrite F1, F2).
  clear O F.
  destruct (r2 <? 0); [apply Leaf; auto; rewrite F'; discriminate|].
  cbn [td_src set_src td_target].
  destruct xs as [src|]; [|apply Leaf; auto; rewrite F'; discriminate].
  destruct (xml_diff L src target) as [[[dvec avec] cvec]|];
    [|apply Leaf; auto; rewrite F'; discriminate].
  match goal with |- context [mark_diff L ?t] => set (td := mark_diff L t) end.
  rewrite plugin_transaction_one_eq, add_events_set.
  destruct (cb_events_of_plugin TRANS_CB_BEGIN cp td ltac:(discriminate)) as [Ob Fb].
  destruct (cb_fails TRANS_CB_BEGIN cp td) eqn:Eb; cbn [Z.ltb Z.compare].
  { apply Leaf; auto. now rewrite forallb_app, O', Ob. }
  destruct (generic_validate L _ _ td) as [[rg hg] xg] eqn:G.
  apply generic_validate_events in G as [-> Hrg]. rewrite add_events_set.
  set (T := ([EvReset "tmp"; e1; e2] ++ cb_events TRANS_CB_BEGIN cp td)
              ++ [EvGenericValidate rg]).
  assert (OT : forallb (of_plugin cp) T = true)
    by (unfold T; now rewrite !forallb_app, O', Ob).
  assert (FT : existsb is_failed_event T = false)
    by (unfold T; now rewrite !existsb_app, F', Fb).
  destruct (rg <? 0); [apply Leaf; auto; rewrite FT; discriminate|].
  destruct (rg =? 0).
  { destruct (xml2cbuf_error L cbret xg) as [rx cbx].
    destruct (rx <? 0); apply Leaf; auto; rewrite FT; discriminate. }
  match goal with
  | |- context [phases_one ?tys cp ?hh td] =>
      destruct (phases_one_eq cp td tys hh) as (rp & evs & -> & Op & Fp);
        [repeat constructor; discriminate|]
  end.
  rewrite add_events_set.
  destruct Fp as [[-> Fp] | ->]; cbn [Z.ltb Z.compare]; apply Leaf; auto;
    try (now rewrite forallb_app, OT, Op).
  rewrite existsb_app, FT, Fp. discriminate.
Qed.

(** X26. In [from_client_restart_one] the value of the reset callback of
    the plugin stands in for the return value until the end: when the
    callback answers a negative value, that value is returned; when it
    answers a value that is not negative and a later step fails with an
    error (the second context check, or reading the running store), the
    value of the callback is returned, not -1. *)
Theorem restart_one_error_value h cp (fn : plgreset_t) cbret v h2 :
  let h1 := snd (xmldb_db_reset L h "tmp") in
  let res := from_client_restart_one L plugin_context_check h cp (Some fn) cbret in
  0 <= plugin_context_check h1 (cp_name cp) ->
  fn h1 "tmp" = (v, h2) ->
  (v < 0 -> res = (v, h2, cbret))
  /\ (0 <= v -> plugin_context_check h2 (cp_name cp) < 0 -> res = (v, h2, cbret))
  /\ (0 <= v -> 0 <= plugin_context_check h2 (cp_name cp) ->
      fst (fst (fst (fst (xmldb_get0 L h2 "running" YB_MODULE)))) < 0 ->
      fst (fst res) = v /\ snd res = cbret).
Proof.
  cbn zeta. intros Hc Hf. unfold from_client_restart_one, xmldb_db_reset in *.
  cbn [Z.ltb Z.compare snd] in *.
  destruct (Z.ltb_spec (plugin_context_check
                          (emit (EvReset "tmp")
                             (set_xmldb (<["tmp" := xmldb_empty L]> (h_xmldb h)) h))
                          (cp_name cp)) 0) as [H|_]; [lia|].
  rewrite Hf.
  destruct (Z.ltb_spec v 0) as [Hv|Hv].
  { split; [reflexivity|]. split; intros; lia. }
  split; [intros; lia|].
  destruct (Z.ltb_spec (plugin_context_check h2 (cp_name cp)) 0) as [H2|H2].
  { split; [reflexivity|]. intros; lia. }
  split; [intros; lia|]. intros _ _.
  destruct (xmldb_get0 L h2 "running" YB_MODULE) as [[[[r1 h3] xt] md1] xe1].
  cbn [fst]. intros Hr. destruct (Z.ltb_spec r1 0); [|lia]. auto.
Qed.

End Client.

End EngineFacts.

(** ** The statements at work on concrete runs *)

Module Witnesses.
Import Xml Backend Examples BackendFacts MarkFacts.


(** A successful commit: the plugins see COMMIT and COMMIT_DONE while running
    still holds the old configuration; the candidate is copied afterwards. *)
Lemma candidate_commit_swap_after_commit_done :
  fst (fst ex_run_ok) = 1
  /\ events_since ex_h_ok (snd (fst ex_run_ok))
     = [EvGet0 "candidate"; EvGet0 "running";
        EvCallback TRANS_CB_BEGIN "p1" 0; EvCallback TRANS_CB_BEGIN "p2" 0;
        EvGenericValidate 1;
        EvCallback TRANS_CB_VALIDATE "p1" 0; EvCallback TRANS_CB_VALIDATE "p2" 0;
        EvCallback TRANS_CB_COMPLETE "p1" 0; EvCallback TRANS_CB_COMPLETE "p2" 0;
        EvCallback TRANS_CB_COMMIT "p1" 0; EvCallback TRANS_CB_COMMIT "p2" 0;
        EvCallback TRANS_CB_COMMIT_DONE "p1" 0; EvCallback TRANS_CB_COMMIT_DONE "p2" 0;
        EvCopy "candidate" "running"; EvModified "candidate" false;
        EvCallback TRANS_CB_END "p1" 0; EvCallback TRANS_CB_END "p2" 0]
  /\ in_order spec_rank (events_since ex_h_ok (snd (fst ex_run_ok))) = false.
Proof. vm_compute. repeat split; reflexivity. Qed.

Lemma candidate_commit_order_witness :
  in_order code_rank (events_since ex_h_ok (snd (fst ex_run_ok))) = true.
Proof.
  assert (E : candidate_commit ex_lib ex_h_ok None "candidate" 0 ""
              = (1, snd (fst ex_run_ok), snd ex_run_ok))
    by (vm_compute; reflexivity).
  exact (proj1 (candidate_commit_order ex_lib _ _ _ _ _ _ _ E)).
Defined.



Lemma validate_common_marks_witness :
  marks_ok ex_lib (snd (fst ex_run_validate)).
Proof.
  assert (E : validate_common ex_lib ex_h_ok "candidate" transaction_new None
              = (fst (fst (fst ex_run_validate)), snd (fst (fst ex_run_validate)),
                 snd (fst ex_run_validate), snd ex_run_validate))
    by (vm_compute; reflexivity).
  exact (proj1 (validate_common_marks ex_lib _ _ _ _ _ _ E)).
Defined.

(** A startup with CLICON_XMLDB_MODSTATE off and a non-empty startup tree:
    the tree is validated (and, in [startup_commit], committed) and the
    module upgrade is never called. *)
Lemma startup_without_module_upgrade :
  (xml_child_nr ex_candidate =? 0) = false
  /\ sr_retval (ex_run_startup false) = 1
  /\ events_since (ex_h_startup false) (sr_handle (ex_run_startup false))
     = [EvGet0 "startup"; EvDatastoreUpgrade "startup" 0;
        EvCallback TRANS_CB_BEGIN "p1" 0; EvGenericValidate 1;
        EvCallback TRANS_CB_VALIDATE "p1" 0; EvCallback TRANS_CB_COMPLETE "p1" 0]
  /\ so_retval ex_run_startup_validate = 1
  /\ existsb is_module_upgrade
       (events_since (ex_h_startup false) (so_handle ex_run_startup_validate)) = false
  /\ so_retval ex_run_startup_commit = 1
  /\ existsb is_module_upgrade
       (events_since (ex_h_startup false) (so_handle ex_run_startup_commit)) = false.
Proof. vm_compute. repeat split; reflexivity. Qed.

Lemma startup_common_all_adds_witness :
  existsb is_generic_validate
    (events_since (ex_h_startup true) (sr_handle (ex_run_startup true))) = true
  /\ all_adds ex_lib (sr_td (ex_run_startup true))
  /\ upgrade_then_validate (ex_h_startup true) "startup"
       (events_since (ex_h_startup true) (sr_handle (ex_run_startup true))).
Proof.
  assert (E : startup_common ex_lib (ex_h_startup true) "startup" transaction_new ""
              = SReturn (sr_retval (ex_run_startup true)) (sr_handle (ex_run_startup true))
                  (sr_td (ex_run_startup true)) (sr_cbret (ex_run_startup true)))
    by (vm_compute; reflexivity).
  assert (H : existsb is_generic_validate
                (events_since (ex_h_startup true) (sr_handle (ex_run_startup true))) = true)
    by (vm_compute; reflexivity).
  split; [exact H|].
  exact (startup_common_all_adds ex_lib _ _ _ _ _ _ _ E H).
Defined.

Lemma load_failsafe_recovery_witness :
  fst ex_run_failsafe = 0
  /\ h_xmldb (snd ex_run_failsafe) !! "running" = Some ex_failsafe
  /\ h_xmldb (snd ex_run_failsafe) !! "tmp" = Some ex_running.
Proof.
  assert (E : load_failsafe ex_lib ex_h_ok (Some "Startup")
              = (fst ex_run_failsafe, snd ex_run_failsafe))
    by (vm_compute; reflexivity).
  destruct (load_failsafe_recovery ex_lib _ _ _ _ E) as (_ & _ & K & _).
  assert (F : h_xmldb ex_h_ok !! "failsafe" = Some ex_failsafe) by (vm_compute; reflexivity).
  assert (R : h_xmldb ex_h_ok !! "running" = Some ex_running) by (vm_compute; reflexivity).
  destruct (K _ _ F R) as (rc & hc & cb & tail & CC & _ & _ & K1).
  assert (Hrc : rc = 1) by (vm_compute in CC; congruence).
  destruct (K1 Hrc) as (A & B & _ & C).
  split; [exact A|]. split; [exact B|exact C].
Defined.

End Witnesses.

Module ChangelogWitnesses.
Import Xml Changelog ChangelogExamples ChangelogFacts.

(** Two changelogs for an upgrade from 2020-01-01 to 2023-01-01. The first
    has one entry, of revision 2019-01-01 and with no revision to start from:
    it is outside (from, to], and it is applied. The second has one entry of
    revision 2021-01-01 that starts from 2019-01-01: it is inside (from, to],
    and it is passed over. *)
Lemma changelog_selection_is_not_the_interval :
  in_interval ex_from ex_to 0 20190101 = false
  /\ top_names (xml_changelog_upgrade ex_xpath ex_h_early ex_config "urn:m" ex_from ex_to)
     = ["new"; "a"]
  /\ top_names (upgrade_selected ex_xpath (in_interval ex_from ex_to) ex_h_early ex_config
                  "urn:m")
     = ["old"; "a"]
  /\ in_interval ex_from ex_to 20190101 20210101 = true
  /\ top_names (xml_changelog_upgrade ex_xpath ex_h_revfrom ex_config "urn:m" ex_from ex_to)
     = ["old"; "a"]
  /\ top_names (upgrade_selected ex_xpath (in_interval ex_from ex_to) ex_h_revfrom ex_config
                  "urn:m")
     = ["new"; "a"].
Proof. vm_compute. repeat split; reflexivity. Qed.

Lemma xml_changelog_upgrade_window_witness :
  xml_changelog_upgrade ex_xpath ex_h_revfrom ex_config "urn:m" ex_from ex_to
  = upgrade_selected ex_xpath (in_window ex_from ex_to) ex_h_revfrom ex_config "urn:m".
Proof.
  exact (proj1 (xml_changelog_upgrade_window ex_xpath ex_h_revfrom ex_config "urn:m"
                  ex_from ex_to)).
Defined.

(** A replace step without [new] whose path selects nothing succeeds and
    changes nothing; the same step with a path that selects a node fails. *)
Lemma replace_without_new_succeeds :
  node_find_body (ex_replace_world "/missing" []) 106%nat "op" = Some "replace"
  /\ node_find (ex_replace_world "/missing" []) 106%nat "new" = None
  /\ changelog_op ex_xpath (ex_replace_world "/missing" []) 106%nat
     = (1, ex_replace_world "/missing" [])
  /\ changelog_op ex_xpath (ex_replace_world "/a" []) 106%nat
     = (-1, clixon_err (ex_replace_world "/a" []) "new required").
Proof. vm_compute. repeat split; reflexivity. Qed.

Lemma changelog_replace_targets_witness :
  exists n',
    w_find (xml_copy ex_b 4%nat (purge_children 4%nat (ex_replace_world "/a" [ex_new]))) 4%nat
    = Some n'
    /\ replaced_by ex_b ex_a n'.
Proof.
  destruct (changelog_replace_targets ex_xpath tt None None (Some 113%nat) None
              (ex_replace_world "/a" [ex_new])) as (_ & H & _).
  destruct (H [] 4%nat [] eq_refl eq_refl) as (_ & K).
  destruct (K 113%nat eq_refl) as (_ & _ & C).
  destruct (C ex_b eq_refl) as (_ & R).
  exact (R ex_a eq_refl).
Defined.

End ChangelogWitnesses.

(** ** More statements at work on concrete runs *)

Module MoreWitnesses.
Import Xml XmlIo XmlIoExt Changelog ChangelogExt Backend BackendExt.
Import Examples ChangelogExamples MoreExamples.
Import PrinterFacts ParseFacts UpgraderFacts EngineFacts.

(** The candidate tree, pretty-printed into a buffer and onto a stream. *)
Lemma xml2cbuf_as_xml2file_witness :
  let c := clixon_xml2cbuf 3 chardata_total EmptyString ex_candidate 0 true None (-1) false in
  let f := clixon_xml2file 3 "http://clicon.org/lib" yang_extension_found chardata_total
             EmptyString ex_candidate 0 true None false false in
  (fst c = 0 /\ fst f = 0 /\ snd c = snd f) \/ (fst c = -1 /\ fst f = 1).
Proof. apply xml2cbuf_as_xml2file. lia. Defined.

(** The same tree with an encoding that fails: the buffer printer answers
    -1, the stream printer 1. *)
Lemma printers_encoding_fails :
  fst (clixon_xml2cbuf 3 (fun _ => None) EmptyString ex_candidate 0 true None (-1) false) = -1
  /\ fst (clixon_xml2file 3 "http://clicon.org/lib" yang_extension_found (fun _ => None)
            EmptyString ex_candidate 0 true None false false) = 1.
Proof. split; vm_compute; reflexivity. Qed.

(** The five characters on output: encoded in the body, as they are in the
    attribute. *)
Lemma printers_encode_body :
  clixon_xml2cbuf 3 chardata_total EmptyString ex_chardata 0 false None (-1) false
  = (0, "<a b=" +:+ dquote +:+ ex_five +:+ dquote
        +:+ ">&lt; &gt; &amp; &apos; &quot;</a>")
  /\ clixon_xml2file 3 "http://clicon.org/lib" yang_extension_found chardata_total
       EmptyString ex_chardata 0 false None false true
     = (0, "<a b=" +:+ dquote +:+ ex_five +:+ dquote
           +:+ ">&lt; &gt; &amp; &apos; &quot;</a>").
Proof. split; vm_compute; reflexivity. Qed.

(** A step with the operation frobnicate fails at its one target. *)
Lemma changelog_op_unknown_witness :
  changelog_op ex_xpath ex_unknown_world 106%nat
  = (-1, Changelog.clixon_err ex_unknown_world "Unknown operation: frobnicate").
Proof.
  destruct (changelog_op_unknown ex_xpath ex_unknown_world 106%nat tt "frobnicate" "/old"
              [2%nat] eq_refl eq_refl eq_refl eq_refl eq_refl) as (_ & _ & _ & _ & H).
  exact (H [] 2%nat [] eq_refl eq_refl eq_refl).
Defined.

(** The rename step of the example entry, on its target. *)
Lemma changelog_rename_effect_witness :
  fst (changelog_rename ex_xpath ex_rename_world 2%nat tt (Some "new")) = 1
  /\ option_map xml_name
       (w_find (snd (changelog_rename ex_xpath ex_rename_world 2%nat tt (Some "new"))) 2%nat)
     = Some "new".
Proof.
  assert (E : changelog_rename ex_xpath ex_rename_world 2%nat tt (Some "new")
              = (1, snd (changelog_rename ex_xpath ex_rename_world 2%nat tt (Some "new"))))
    by (vm_compute; reflexivity).
  split; [vm_compute; reflexivity|].
  destruct (changelog_rename_effect ex_xpath _ _ _ _ _ _ E) as (_ & _ & _ & H).
  destruct (H eq_refl) as (t & xctx & str & Et & Ex & Es & _ & _ & F & _).
  rewrite F. injection Et as <-. vm_compute in Ex. injection Ex as <-.
  vm_compute in Es. injection Es as <-. vm_compute. reflexivity.
Defined.

(** A changelog file that parses but does not validate is installed. *)
Lemma changelog_init_installs_invalid_witness :
  exists h',
    clixon_xml_changelog_init ex_parse_lib ex_option_str ex_fopen (Some ex_yspec) ex_rootchild
      ex_refuse ex_accept ex_init_handle = Some (0, h')
    /\ ch_changelog h' = Some ex_changelogs
    /\ ch_options h' = ch_options ex_init_handle
    /\ ch_err h' = ch_err ex_init_handle ++ [] ++ ["validation failed"].
Proof.
  apply (changelog_init_installs_invalid ex_parse_lib ex_option_str ex_fopen
           (Some ex_yspec) ex_rootchild ex_refuse ex_accept ex_init_handle "changelog.xml"
           ex_changelog_file 1
           (XML (xml_hd (xml_new_top ex_parse_lib 500)) [ex_changelogs]) None None
           ex_changelogs).
  - reflexivity.
  - reflexivity.
  - vm_compute. reflexivity.
  - lia.
  - reflexivity.
  - left. reflexivity.
Defined.

(** The generic validation of the example transaction passes: all three
    checks answer 1. *)
Lemma generic_validate_verdict_witness :
  td_target ex_td = Some ex_candidate
  /\ (fst (fst (generic_validate ex_lib ex_h_ok ex_yspec ex_td)) = 1
      <-> Forall (fun c : Z * option cxobj => 0 < fst c)
            (xml_yang_validate_all_top ex_lib ex_candidate
             :: map (xml_yang_validate_add ex_lib ex_candidate)
                  (firstn (td_clen ex_td) (td_tcvec ex_td) ++ td_avec ex_td))).
Proof.
  split; [reflexivity|].
  exact (proj1 (proj2 (generic_validate_verdict ex_lib ex_h_ok ex_yspec ex_td ex_candidate
                         eq_refl))).
Defined.


(** After the example commit running holds what candidate held. *)
Lemma candidate_commit_store_effects_witness :
  exists x,
    h_xmldb ex_h_ok !! "candidate" = Some x
    /\ h_xmldb (snd (fst ex_run_ok)) !! "running" = Some x.
Proof.
  assert (E : candidate_commit ex_lib ex_h_ok None "candidate" 0 ""
              = (1, snd (fst ex_run_ok), snd ex_run_ok))
    by (vm_compute; reflexivity).
  destruct (candidate_commit_store_effects ex_lib _ _ _ _ _ _ _ _ E)
    as (_ & _ & _ & _ & H & _).
  apply H; [reflexivity | discriminate].
Defined.


(** A commit rpc on the example candidate: running takes what candidate
    held, together with an ok reply. *)
Lemma from_client_commit_effect_witness :
  let run := from_client_commit ex_lib "urn:ietf:params:xml:ns:netconf:base:1.0"
               ex_islocked ex_confirmed_commit ex_reply ex_h_ok ex_request "" 7 in
  h_xmldb (snd (fst run)) !! "rollback" = h_xmldb ex_h_ok !! "rollback"
  /\ h_xmldb (snd (fst run)) !! "candidate" = h_xmldb ex_h_ok !! "candidate"
  /\ ex_h_ok <> snd (fst run).
Proof.
  cbn zeta.
  assert (E : from_client_commit ex_lib "urn:ietf:params:xml:ns:netconf:base:1.0"
                ex_islocked ex_confirmed_commit ex_reply ex_h_ok ex_request "" 7
              = (0, snd (fst (from_client_commit ex_lib
                                "urn:ietf:params:xml:ns:netconf:base:1.0"
                                ex_islocked ex_confirmed_commit ex_reply ex_h_ok
                                ex_request "" 7)),
                 snd (from_client_commit ex_lib "urn:ietf:params:xml:ns:netconf:base:1.0"
                        ex_islocked ex_confirmed_commit ex_reply ex_h_ok ex_request "" 7)))
    by (vm_compute; reflexivity).
  destruct (from_client_commit_effect ex_lib _ ex_islocked ex_confirmed_commit ex_reply
              ex_h_ok ex_request "" 7 ex_yspec _ _ _ eq_refl eq_refl E)
    as (_ & _ & H & _).
  split; [vm_compute; reflexivity|]. split; [apply H; discriminate|].
  intros X. apply (f_equal h_events) in X. vm_compute in X. discriminate.
Defined.

(** Without a running store the restart of a plugin fails with an error
    after its reset callback has answered 1: the result is 1. *)
Lemma restart_one_error_value_witness :
  fst (fst (from_client_restart_one ex_lib ex_context_check ex_h_no_running
              (ex_plugin "p1") (Some ex_resetfn) "")) = 1
  /\ snd (from_client_restart_one ex_lib ex_context_check ex_h_no_running
            (ex_plugin "p1") (Some ex_resetfn) "") = EmptyString.
Proof.
  destruct (restart_one_error_value ex_lib ex_context_check ex_h_no_running
              (ex_plugin "p1") ex_resetfn "" 1
              (snd (xmldb_db_reset ex_lib ex_h_no_running "tmp"))
              ltac:(vm_compute; discriminate) eq_refl) as (_ & _ & H).
  apply H.
  - lia.
  - vm_compute. discriminate.
  - vm_compute. reflexivity.
Defined.

End MoreWitnesses.
